(** * Watcher.js: the live rebuild orchestrator of [sst start]

    A shallow embedding of [packages/cli/scripts/util/Watcher.js].  The
    class keeps one mutable [state] object; here every method is a function
    from [State] to [State].  External work (esbuild, [go build], eslint,
    tsc, chokidar) is not run: its completions enter as events, exactly as
    they re-enter the single JavaScript thread. *)

From Stdlib Require Import List String Ascii Bool Arith ZArith Lia.
Import ListNotations.
Open Scope string_scope.
Open Scope list_scope.
Open Scope nat_scope.

Set Implicit Arguments.

(** ** JavaScript objects used as maps

    [entryPointsData], [srcPathsData] and [watchedNodeFilesIndex] are plain
    objects.  [Object.keys] enumerates string keys in insertion order, and the
    Go rebuild queue depends on that order, so an object is an association
    list with unique keys.  (Keys that look like array indices would be
    enumerated first by JavaScript; entry-point keys contain a slash and file
    keys are absolute paths, so only a purely numeric [srcPath] could differ.) *)

Section JsObject.
Variable V : Type.

Definition JsObject := list (string * V).

Fixpoint lookup (k : string) (o : JsObject) : option V :=
  match o with
  | [] => None
  | (k', v) :: o' => if String.eqb k k' then Some v else lookup k o'
  end.

(** [o[k] = v]: an existing key keeps its place, a new key goes last. *)
Fixpoint assign (k : string) (v : V) (o : JsObject) : JsObject :=
  match o with
  | [] => [(k, v)]
  | (k', v') :: o' =>
      if String.eqb k k' then (k', v) :: o' else (k', v') :: assign k v o'
  end.

(** [o[k] = { ...o[k], fields }] for a key that is present.  When the key is
    absent JavaScript would create a record holding only the listed fields;
    every caller below uses the key of a record that is there (for entry
    points see [keys_wf] and [enabled]; a source path gets its record from
    the first build), so that case is left as the identity. *)
Fixpoint alter (f : V -> V) (k : string) (o : JsObject) : JsObject :=
  match o with
  | [] => []
  | (k', v) :: o' =>
      if String.eqb k k' then (k', f v) :: o' else (k', v) :: alter f k o'
  end.

Definition keys (o : JsObject) : list string := map fst o.
Definition values (o : JsObject) : list V := map snd o.
End JsObject.

(** ** String and array helpers *)

(** [s.endsWith(suffix)] *)
Definition endsWith (s suffix : string) : bool :=
  let n := String.length s in
  let m := String.length suffix in
  (m <=? n) && String.eqb (substring (n - m) m s) suffix.

(** [s.indexOf(sub) === -1] *)
Definition indexOfIsMinus1 (s sub : string) : bool :=
  match index 0 sub s with
  | None => true
  | Some _ => false
  end.

Definition inb (x : string) (l : list string) : bool :=
  existsb (String.eqb x) l.

(** [arr.slice(0, end)] with JavaScript's treatment of a negative [end]
    (counted from the end of the array). *)
Definition slice0 (A : Type) (e : Z) (l : list A) : list A :=
  if (e <? 0)%Z
  then firstn (Z.to_nat (Z.of_nat (List.length l) + e)) l
  else firstn (Z.to_nat e) l.

(** [arr.indexOf(x)] followed by [splice(index, 1)] when found. *)
Fixpoint spliceFirst (x : string) (l : list string) : list string :=
  match l with
  | [] => []
  | y :: l' => if String.eqb x y then l' else y :: spliceFirst x l'
  end.

(** Modelled from the spec: [lib/array.js] is not among the sources.  The spec
    says "Diff old vs new input sets; ADD newly referenced files ...; REMOVE
    unreferenced ones": [add] holds the files of the new list that the old one
    lacks, [remove] the files of the old list that the new one lacks. *)
Record Diff := { add : list string; remove : list string }.

Definition array_diff (oldFiles newFiles : list string) : Diff :=
  {| add := filter (fun f => negb (inb f oldFiles)) newFiles;
     remove := filter (fun f => negb (inb f newFiles)) oldFiles |}.

(** Modelled from the spec: [array.unique] of [lib/array.js] ("union of
    [inputFiles] across its entry points"): first occurrences, in order. *)
Fixpoint array_unique_aux (seen l : list string) : list string :=
  match l with
  | [] => []
  | x :: l' =>
      if inb x seen then array_unique_aux seen l'
      else x :: array_unique_aux (x :: seen) l'
  end.

Definition array_unique (l : list string) : list string :=
  array_unique_aux [] l.

(** ** Data model *)

(** Modelled from the spec: [isGoRuntime], [isNodeRuntime] and
    [isPythonRuntime] live in [cdkHelpers.js], which is not among the sources.
    The spec distinguishes exactly three runtime kinds. *)
Inductive Runtime := NodeLike | GoLike | PythonLike.

Definition isGoRuntime (r : Runtime) : bool :=
  match r with GoLike => true | _ => false end.
Definition isNodeRuntime (r : Runtime) : bool :=
  match r with NodeLike => true | _ => false end.
Definition isPythonRuntime (r : Runtime) : bool :=
  match r with PythonLike => true | _ => false end.

(** [REBUILD_PRIORITY = { OFF: 0, LOW: 1, HIGH: 2 }] *)
Inductive REBUILD_PRIORITY := OFF | LOW | HIGH.

Definition priorityValue (p : REBUILD_PRIORITY) : nat :=
  match p with OFF => 0 | LOW => 1 | HIGH => 2 end.

(** Truthiness of the number, as in [if (needsReBuild)]. *)
Definition truthy (p : REBUILD_PRIORITY) : bool :=
  negb (priorityValue p =? 0).

Definition priority_eqb (p q : REBUILD_PRIORITY) : bool :=
  priorityValue p =? priorityValue q.

(** A pending request is the [{ resolve, reject }] pair of one promise.  The
    pair is represented by the state of the promise it settles; settling a
    promise twice has no effect. *)
Inductive PromiseState :=
| Pending
| Fulfilled
| Rejected (reason : string).

Definition resolve (p : PromiseState) : PromiseState :=
  match p with Pending => Fulfilled | _ => p end.

Definition reject (reason : string) (p : PromiseState) : PromiseState :=
  match p with Pending => Rejected reason | _ => p end.

Definition isPending (p : PromiseState) : bool :=
  match p with Pending => true | _ => false end.

(** The descriptor of a build output; the build step computes it from paths
    and it is never inspected by the orchestrator. *)
Record OutEntryPoint := {
  entry : string;
  outHandler : option string;
  outSrcPath : option string;
  origHandlerFullPosixPath : string;
}.

(** One record of [state.entryPointsData] ([entryPointDataTemplateObject]).
    Handles of external work (the in-flight build promise, the esbuild
    incremental builder) are numbers drawn from a counter of the state. *)
Module EP.
Record t := {
  srcPath : string;
  handler : string;
  runtime : Runtime;
  hasError : bool;
  buildPromise : option nat;
  outEntryPoint : option OutEntryPoint;
  needsReBuild : REBUILD_PRIORITY;
  pendingRequestCallbacks : list PromiseState;
  tsconfig : option string;
  esbuilder : option nat;
  inputFiles : option (list string);
}.

(** [{ ...entryPointDataTemplateObject, srcPath, handler, runtime,
      pendingRequestCallbacks: [] }] *)
Definition template (s h : string) (r : Runtime) : t :=
  {| srcPath := s; handler := h; runtime := r; hasError := false;
     buildPromise := None; outEntryPoint := None; needsReBuild := OFF;
     pendingRequestCallbacks := []; tsconfig := None; esbuilder := None;
     inputFiles := None |}.

Definition with_needsReBuild (p : REBUILD_PRIORITY) (e : t) : t :=
  {| srcPath := srcPath e; handler := handler e; runtime := runtime e;
     hasError := hasError e; buildPromise := buildPromise e;
     outEntryPoint := outEntryPoint e; needsReBuild := p;
     pendingRequestCallbacks := pendingRequestCallbacks e;
     tsconfig := tsconfig e; esbuilder := esbuilder e;
     inputFiles := inputFiles e |}.

Definition with_pendingRequestCallbacks (l : list PromiseState) (e : t) : t :=
  {| srcPath := srcPath e; handler := handler e; runtime := runtime e;
     hasError := hasError e; buildPromise := buildPromise e;
     outEntryPoint := outEntryPoint e; needsReBuild := needsReBuild e;
     pendingRequestCallbacks := l;
     tsconfig := tsconfig e; esbuilder := esbuilder e;
     inputFiles := inputFiles e |}.

(** [{ ...e, tsconfig, esbuilder, inputFiles, outEntryPoint }] *)
Definition built (ts : option string) (b : option nat) (files : list string)
    (out : OutEntryPoint) (e : t) : t :=
  {| srcPath := srcPath e; handler := handler e; runtime := runtime e;
     hasError := hasError e; buildPromise := buildPromise e;
     outEntryPoint := Some out; needsReBuild := needsReBuild e;
     pendingRequestCallbacks := pendingRequestCallbacks e;
     tsconfig := ts; esbuilder := b; inputFiles := Some files |}.

(** [{ ...e, needsReBuild: REBUILD_PRIORITY.OFF, buildPromise }] *)
Definition started (p : nat) (e : t) : t :=
  {| srcPath := srcPath e; handler := handler e; runtime := runtime e;
     hasError := hasError e; buildPromise := Some p;
     outEntryPoint := outEntryPoint e; needsReBuild := OFF;
     pendingRequestCallbacks := pendingRequestCallbacks e;
     tsconfig := tsconfig e; esbuilder := esbuilder e;
     inputFiles := inputFiles e |}.

(** [{ ...e, inputFiles, hasError: false, buildPromise: null, needsReBuild }] *)
Definition succeeded (files : list string) (p : REBUILD_PRIORITY) (e : t) : t :=
  {| srcPath := srcPath e; handler := handler e; runtime := runtime e;
     hasError := false; buildPromise := None;
     outEntryPoint := outEntryPoint e; needsReBuild := p;
     pendingRequestCallbacks := pendingRequestCallbacks e;
     tsconfig := tsconfig e; esbuilder := esbuilder e;
     inputFiles := Some files |}.

(** [{ ...e, hasError: true, buildPromise: null }] *)
Definition failed (e : t) : t :=
  {| srcPath := srcPath e; handler := handler e; runtime := runtime e;
     hasError := true; buildPromise := None;
     outEntryPoint := outEntryPoint e; needsReBuild := needsReBuild e;
     pendingRequestCallbacks := pendingRequestCallbacks e;
     tsconfig := tsconfig e; esbuilder := esbuilder e;
     inputFiles := inputFiles e |}.
End EP.

(** One record of [state.srcPathsData] ([srcPathDataTemplateObject]).  A
    child process is known to the orchestrator by its handle only. *)
Module SP.
Record t := {
  srcPath : string;
  tsconfig : option string;
  inputFiles : list string;
  lintProcess : option nat;
  needsReCheck : bool;
  typeCheckProcess : option nat;
}.

(** [{ ...srcPathDataTemplateObject, srcPath, tsconfig, inputFiles }] *)
Definition fresh (s : string) (ts : option string) (files : list string) : t :=
  {| srcPath := s; tsconfig := ts; inputFiles := files; lintProcess := None;
     needsReCheck := false; typeCheckProcess := None |}.

(** [{ ...d, inputFiles, needsReCheck: true }] *)
Definition rebuilt (files : list string) (d : t) : t :=
  {| srcPath := srcPath d; tsconfig := tsconfig d; inputFiles := files;
     lintProcess := lintProcess d; needsReCheck := true;
     typeCheckProcess := typeCheckProcess d |}.

(** [{ ...d, lintProcess, typeCheckProcess, needsReCheck: false }] *)
Definition checking (lint tc : option nat) (d : t) : t :=
  {| srcPath := srcPath d; tsconfig := tsconfig d; inputFiles := inputFiles d;
     lintProcess := lint; needsReCheck := false; typeCheckProcess := tc |}.

(** [{ ...d, lintProcess: null }] *)
Definition lintDone (d : t) : t :=
  {| srcPath := srcPath d; tsconfig := tsconfig d; inputFiles := inputFiles d;
     lintProcess := None; needsReCheck := needsReCheck d;
     typeCheckProcess := typeCheckProcess d |}.

(** [{ ...d, typeCheckProcess: null }] *)
Definition typeCheckDone (d : t) : t :=
  {| srcPath := srcPath d; tsconfig := tsconfig d; inputFiles := inputFiles d;
     lintProcess := lintProcess d; needsReCheck := needsReCheck d;
     typeCheckProcess := None |}.
End SP.

(** Lines written through [logger.info] and [logger.error], in order
    ([logger.debug] and [logger.trace] lines are not recorded). *)
Inductive LogLine :=
| Info (msg : string)
| Error (msg : string).

(** The [Watcher] object: [this.state], [this.watcher], and the bookkeeping
    of the embedding: the lines logged so far, the next unused handle, and
    the calls of [onReBuildSucceeded] that are suspended at
    [await this.watcher.unwatch(...)], each with its [(srcPath, handler)]. *)
Record State := {
  isProcessingLambdaChanges : bool;
  entryPointsData : JsObject EP.t;
  srcPathsData : JsObject SP.t;
  watchedNodeFilesIndex : JsObject (list string);
  watcher : option (list string);
  logged : list LogLine;
  nextHandle : nat;
  unwatching : list (string * string);
}.

Definition with_isProcessingLambdaChanges (b : bool) (st : State) : State :=
  {| isProcessingLambdaChanges := b;
     entryPointsData := entryPointsData st; srcPathsData := srcPathsData st;
     watchedNodeFilesIndex := watchedNodeFilesIndex st; watcher := watcher st;
     logged := logged st; nextHandle := nextHandle st;
     unwatching := unwatching st |}.

Definition with_entryPointsData (o : JsObject EP.t) (st : State) : State :=
  {| isProcessingLambdaChanges := isProcessingLambdaChanges st;
     entryPointsData := o; srcPathsData := srcPathsData st;
     watchedNodeFilesIndex := watchedNodeFilesIndex st; watcher := watcher st;
     logged := logged st; nextHandle := nextHandle st;
     unwatching := unwatching st |}.

Definition with_srcPathsData (o : JsObject SP.t) (st : State) : State :=
  {| isProcessingLambdaChanges := isProcessingLambdaChanges st;
     entryPointsData := entryPointsData st; srcPathsData := o;
     watchedNodeFilesIndex := watchedNodeFilesIndex st; watcher := watcher st;
     logged := logged st; nextHandle := nextHandle st;
     unwatching := unwatching st |}.

Definition with_watchedNodeFilesIndex (o : JsObject (list string))
    (st : State) : State :=
  {| isProcessingLambdaChanges := isProcessingLambdaChanges st;
     entryPointsData := entryPointsData st; srcPathsData := srcPathsData st;
     watchedNodeFilesIndex := o; watcher := watcher st;
     logged := logged st; nextHandle := nextHandle st;
     unwatching := unwatching st |}.

Definition with_watcher (w : option (list string)) (st : State) : State :=
  {| isProcessingLambdaChanges := isProcessingLambdaChanges st;
     entryPointsData := entryPointsData st; srcPathsData := srcPathsData st;
     watchedNodeFilesIndex := watchedNodeFilesIndex st; watcher := w;
     logged := logged st; nextHandle := nextHandle st;
     unwatching := unwatching st |}.

Definition with_unwatching (u : list (string * string)) (st : State) : State :=
  {| isProcessingLambdaChanges := isProcessingLambdaChanges st;
     entryPointsData := entryPointsData st; srcPathsData := srcPathsData st;
     watchedNodeFilesIndex := watchedNodeFilesIndex st; watcher := watcher st;
     logged := logged st; nextHandle := nextHandle st;
     unwatching := u |}.

(** [logger.info(msg)] / [logger.error(msg)] *)
Definition log (l : LogLine) (st : State) : State :=
  {| isProcessingLambdaChanges := isProcessingLambdaChanges st;
     entryPointsData := entryPointsData st; srcPathsData := srcPathsData st;
     watchedNodeFilesIndex := watchedNodeFilesIndex st; watcher := watcher st;
     logged := logged st ++ [l]; nextHandle := nextHandle st;
     unwatching := unwatching st |}.

(** A new promise or child process: its handle is the counter's value. *)
Definition takeHandle (st : State) : State :=
  {| isProcessingLambdaChanges := isProcessingLambdaChanges st;
     entryPointsData := entryPointsData st; srcPathsData := srcPathsData st;
     watchedNodeFilesIndex := watchedNodeFilesIndex st; watcher := watcher st;
     logged := logged st; nextHandle := S (nextHandle st);
     unwatching := unwatching st |}.

(** The state built by the constructor. *)
Definition constructed : State :=
  {| isProcessingLambdaChanges := false; entryPointsData := [];
     srcPathsData := []; watchedNodeFilesIndex := []; watcher := None;
     logged := []; nextHandle := 0; unwatching := [] |}.

Definition isSome (A : Type) (o : option A) : bool :=
  match o with Some _ => true | None => false end.

(** The three user-facing busy messages of [updateLambdaCodeBusyStatus]. *)
Definition msgRebuilding : LogLine := Info "Rebuilding code...".
Definition msgFailed : LogLine := Info "Rebuilding code failed".
Definition msgDone : LogLine := Info "Done building code".

(** [buildEntryPointKey] *)
Definition buildEntryPointKey (srcPath handler : string) : string :=
  srcPath ++ "/" ++ handler.

Definition dquote : string := String (ascii_of_nat 34) EmptyString.

(** What a call of an [async] function (or of a function that may throw)
    ends in: a returned value, or a thrown error, which for an [async]
    function is the rejection of the promise it returned. *)
Inductive JsError :=
| TypeError (what : string)
| JsErrorMsg (message : string).

Inductive Completion (A : Type) :=
| Returned (a : A)
| Threw (e : JsError).
Arguments Threw {A} e.

(** One element of [config.lambdaHandlers] ([bundle] only selects esbuild
    loaders and is left out). *)
Record LambdaHandler := {
  lh_srcPath : string;
  lh_handler : string;
  lh_runtime : Runtime;
}.

(** What the module takes from outside: [os.cpus().length], [path.resolve],
    and the fields of the constructor's [config] ([cdkInputFiles] is what
    [cdkState.getInputFiles()] returns when [start] runs). *)
Record Config := {
  BUILDER_CONCURRENCY : nat;
  path_resolve : string -> string;
  isLintEnabled : bool;
  isTypeCheckEnabled : bool;
  lambdaHandlers : list LambdaHandler;
  cdkInputFiles : list string;
}.

Section Watcher.
Variable cfg : Config.

(** *** Busy status *)

Definition updateLambdaCodeBusyStatus (st : State) : State :=
  let eps := values (entryPointsData st) in
  if negb (isProcessingLambdaChanges st) then
    if negb (existsb (fun e => truthy (EP.needsReBuild e)) eps) then st
    else log msgRebuilding (with_isProcessingLambdaChanges true st)
  else
    if existsb (fun e => truthy (EP.needsReBuild e)
                         || isSome (EP.buildPromise e)) eps then st
    else if existsb EP.hasError eps then
      log msgFailed (with_isProcessingLambdaChanges false st)
    else if existsb (fun d => SP.needsReCheck d || isSome (SP.lintProcess d)
                              || isSome (SP.typeCheckProcess d))
                    (values (srcPathsData st)) then st
    else log msgDone (with_isProcessingLambdaChanges false st).

(** *** Dispatching builds *)

Record Gathered := {
  goEPsBuilding : list EP.t;
  goEPsNeedsRebuild : list EP.t;
  nodeEPsNeedsRebuild : list EP.t;
}.

(** The body of the [Object.keys(entryPointsData).forEach] of
    [updateLambdaCodeState], for one entry point. *)
Definition gatherStep (g : Gathered) (e : EP.t) : Gathered :=
  let g1 :=
    if isGoRuntime (EP.runtime e) then
      if isSome (EP.buildPromise e) then
        {| goEPsBuilding := goEPsBuilding g ++ [e];
           goEPsNeedsRebuild := goEPsNeedsRebuild g;
           nodeEPsNeedsRebuild := nodeEPsNeedsRebuild g |}
      else if priority_eqb (EP.needsReBuild e) LOW then
        {| goEPsBuilding := goEPsBuilding g;
           goEPsNeedsRebuild := goEPsNeedsRebuild g ++ [e];
           nodeEPsNeedsRebuild := nodeEPsNeedsRebuild g |}
      else if priority_eqb (EP.needsReBuild e) HIGH then
        {| goEPsBuilding := goEPsBuilding g;
           goEPsNeedsRebuild := e :: goEPsNeedsRebuild g;
           nodeEPsNeedsRebuild := nodeEPsNeedsRebuild g |}
      else g
    else g in
  if isNodeRuntime (EP.runtime e) then
    if negb (isSome (EP.buildPromise e)) && truthy (EP.needsReBuild e) then
      {| goEPsBuilding := goEPsBuilding g1;
         goEPsNeedsRebuild := goEPsNeedsRebuild g1;
         nodeEPsNeedsRebuild := nodeEPsNeedsRebuild g1 ++ [e] |}
    else g1
  else g1.

Definition gather (eps : JsObject EP.t) : Gathered :=
  fold_left gatherStep (values eps)
    {| goEPsBuilding := []; goEPsNeedsRebuild := [];
       nodeEPsNeedsRebuild := [] |}.

Definition onReBuildStarted (srcPath handler : string) (buildPromise : nat)
    (st : State) : State :=
  let key := buildEntryPointKey srcPath handler in
  with_entryPointsData
    (alter (EP.started buildPromise) key (entryPointsData st)) st.

(** [const buildPromise = this.reTranspile(srcPath, handler)] (or
    [this.reCompile]) followed by [this.onReBuildStarted(...)].  The call
    starts the external build and returns its promise at once; the build's
    outcome arrives later (see [Event]).  An entry point is rebuilt only
    after [start] stored its [esbuilder]. *)
Definition startReBuild (st : State) (e : EP.t) : State :=
  onReBuildStarted (EP.srcPath e) (EP.handler e) (nextHandle st)
    (takeHandle st).

Definition concurrencyRemaining (g : Gathered) : Z :=
  (Z.of_nat (BUILDER_CONCURRENCY cfg) - Z.of_nat (List.length (goEPsBuilding g)))%Z.

Definition dispatchBuilds (st : State) : State :=
  let g := gather (entryPointsData st) in
  let st1 := fold_left startReBuild (nodeEPsNeedsRebuild g) st in
  fold_left startReBuild
    (slice0 (concurrencyRemaining g) (goEPsNeedsRebuild g)) st1.

(** *** Lint and type check *)

Definition lintable (file : string) : bool :=
  indexOfIsMinus1 file "node_modules"
  && (endsWith file ".ts" || endsWith file ".js").

(** [runLint]: the handle of the spawned process, or [null].  Both
    functions are called with keys of [srcPathsData] only; for a missing
    key (a [TypeError] in JavaScript) nothing is spawned. *)
Definition runLint (srcPath : string) (st : State) : option nat * State :=
  if negb (isLintEnabled cfg) then (None, st)
  else match lookup srcPath (srcPathsData st) with
       | None => (None, st)
       | Some d =>
           if List.length (filter lintable (SP.inputFiles d)) =? 0
           then (None, st)
           else (Some (nextHandle st), takeHandle st)
       end.

Definition runTypeCheck (srcPath : string) (st : State)
    : option nat * State :=
  if negb (isTypeCheckEnabled cfg) then (None, st)
  else match lookup srcPath (srcPathsData st) with
       | None => (None, st)
       | Some d =>
           if List.length
                (filter (fun f => endsWith f ".ts") (SP.inputFiles d)) =? 0
           then (None, st)
           else match SP.tsconfig d with
                | None =>
                    (None,
                     log (Error ("Cannot find a " ++ dquote ++ "tsconfig.json"
                                 ++ dquote ++ " in the function's srcPath: "
                                 ++ (path_resolve cfg) srcPath)) st)
                | Some _ => (Some (nextHandle st), takeHandle st)
                end
       end.

(** The record update of [onLintAndTypeCheckStarted]. *)
Definition checkStarted (srcPath : string) (lintProcess typeCheckProcess : option nat)
    (st : State) : State :=
  with_srcPathsData
    (alter (SP.checking lintProcess typeCheckProcess) srcPath (srcPathsData st))
    st.

(** The body of the [Object.keys(srcPathsData).forEach] that ends
    [updateLambdaCodeState]; [again] is the nested call of
    [updateLambdaCodeState] made by [onLintAndTypeCheckStarted].  The
    processes killed here report their exit later ([LintExited],
    [TypeCheckExited]). *)
Definition recheckStep (again : State -> State) (st : State)
    (srcPath : string) : State :=
  match lookup srcPath (srcPathsData st) with
  | None => st
  | Some d =>
      if SP.needsReCheck d then
        let (lintProcess, st1) := runLint srcPath st in
        let (typeCheckProcess, st2) := runTypeCheck srcPath st1 in
        again (checkStarted srcPath lintProcess typeCheckProcess st2)
      else st
  end.

(** *** The reconciliation pass

    [updateLambdaCodeState] calls itself through
    [onLintAndTypeCheckStarted], once for every source path it finds with
    [needsReCheck] set, after clearing that flag.  [fuel] bounds the depth of
    these nested calls; [updateLambdaCodeState_fuel] shows that the number of
    flagged source paths is enough. *)
Fixpoint updateLambdaCodeStateFuel (fuel : nat) (st : State) : State :=
  let st1 := dispatchBuilds (updateLambdaCodeBusyStatus st) in
  if existsb (fun e => isSome (EP.buildPromise e))
       (values (entryPointsData st1)) then st1
  else if existsb EP.hasError (values (entryPointsData st1)) then st1
  else
    fold_left
      (recheckStep
         (match fuel with
          | 0 => fun s => s
          | S fuel' => updateLambdaCodeStateFuel fuel'
          end))
      (keys (srcPathsData st1)) st1.

Definition updateLambdaCodeState (st : State) : State :=
  updateLambdaCodeStateFuel (List.length (srcPathsData st)) st.

Definition onLintAndTypeCheckStarted (srcPath : string)
    (lintProcess typeCheckProcess : option nat) (st : State) : State :=
  updateLambdaCodeState (checkStarted srcPath lintProcess typeCheckProcess st).

Definition onLintDone (srcPath : string) (st : State) : State :=
  updateLambdaCodeState
    (with_srcPathsData (alter SP.lintDone srcPath (srcPathsData st)) st).

Definition onTypeCheckDone (srcPath : string) (st : State) : State :=
  updateLambdaCodeState
    (with_srcPathsData (alter SP.typeCheckDone srcPath (srcPathsData st)) st).

(** *** File changes

    [this.cdkState.onFileChange(file)] drives the infrastructure state
    machine of [WatcherCdkState.js], which keeps its own state and is not
    part of this embedding. *)
Definition markLow (st : State) (key : string) : State :=
  with_entryPointsData
    (alter (EP.with_needsReBuild LOW) key (entryPointsData st)) st.

Definition onFileChange (file : string) (st : State) : State :=
  let entryPointKeys :=
    if endsWith file ".go" then
      Some (keys (filter (fun kv => isGoRuntime (EP.runtime (snd kv)))
                    (entryPointsData st)))
    else lookup file (watchedNodeFilesIndex st) in
  match entryPointKeys with
  | None => st
  | Some ks => updateLambdaCodeState (fold_left markLow ks st)
  end.

(** *** On-demand requests *)

Definition pushWaiter (e : EP.t) : EP.t :=
  EP.with_pendingRequestCallbacks (EP.pendingRequestCallbacks e ++ [Pending])
    (EP.with_needsReBuild HIGH e).

(** The value of [getTranspiledHandler]: [{ runtime, handler }]. *)
Record TranspiledHandler := {
  th_runtime : Runtime;
  th_handler : option OutEntryPoint;
}.

(** How a call of [getTranspiledHandler] proceeds: it returns at once, it
    suspends at [await new Promise(...)] on the waiter it has just pushed
    (and will return the given value when that promise is fulfilled, or
    throw the rejection reason), or it throws. *)
Inductive Answer :=
| Answered (r : TranspiledHandler)
| Waiting (r : TranspiledHandler)
| Failed (e : JsError).

Definition getTranspiledHandler (srcPath handler : string) (st : State)
    : State * Answer :=
  let key := buildEntryPointKey srcPath handler in
  match lookup key (entryPointsData st) with
  | None =>
      (st, Failed (TypeError "Cannot read property 'buildPromise' of undefined"))
  | Some entryPointData =>
      let r := {| th_runtime := EP.runtime entryPointData;
                  th_handler := EP.outEntryPoint entryPointData |} in
      if isSome (EP.buildPromise entryPointData)
         || truthy (EP.needsReBuild entryPointData)
      then (with_entryPointsData
              (alter pushWaiter key (entryPointsData st)) st,
            Waiting r)
      else (st, Answered r)
  end.

(** *** Build outcomes *)

(** [fs.readJson(file)] of the esbuild metafile: it rejects, or yields the
    parsed object, of which only the keys of [inputs] are used ([None] when
    the object has no such property). *)
Inductive ReadJson :=
| ReadFailed (why : string)
| ReadOk (inputs : option (list string)).

Definition getInputFilesFromEsbuildMetafile (read : ReadJson) (st : State)
    : State * Completion (list string) :=
  match read with
  | ReadFailed why =>
      (* catch (e) { logger.error(...) }, then metaJson.inputs with
         metaJson still undefined *)
      (log (Error "There was a problem reading the build metafile") st,
       Threw (TypeError "Cannot read property 'inputs' of undefined"))
  | ReadOk None =>
      (st, Threw (TypeError "Cannot convert undefined or null to object"))
  | ReadOk (Some inputs) => (st, Returned (map (path_resolve cfg) inputs))
  end.

Definition indexPush (key : string) (index : JsObject (list string))
    (file : string) : JsObject (list string) :=
  match lookup file index with
  | Some _ => alter (fun l => l ++ [key]) file index
  | None => assign file [key] index
  end.

Definition onBuildSucceeded (srcPath handler : string)
    (tsconfig : option string) (esbuilder : option nat)
    (outEntryPoint : OutEntryPoint) (inputFiles : list string)
    (st : State) : State :=
  let key := buildEntryPointKey srcPath handler in
  let st1 :=
    with_entryPointsData
      (alter (EP.built tsconfig esbuilder inputFiles outEntryPoint) key
         (entryPointsData st)) st in
  let st2 :=
    with_srcPathsData
      (assign srcPath (SP.fresh srcPath tsconfig inputFiles)
         (srcPathsData st1)) st1 in
  with_watchedNodeFilesIndex
    (fold_left (indexPush key) inputFiles (watchedNodeFilesIndex st2)) st2.

Definition failureReason (srcPath handler : string) : string :=
  "Failed to transpile srcPath " ++ srcPath ++ " handler " ++ handler.

Definition settleAll (f : PromiseState -> PromiseState) (e : EP.t) : EP.t :=
  EP.with_pendingRequestCallbacks (map f (EP.pendingRequestCallbacks e)) e.

(** The end of [onReBuildSucceeded] and of [onReBuildFailed]: "Update
    state", then "Fullfil pending requests" with [settle] being [resolve]
    or [reject].  The callbacks stay in the array. *)
Definition updateAndSettle (settle : PromiseState -> PromiseState)
    (key : string) (st : State) : State :=
  let st1 := updateLambdaCodeState st in
  match lookup key (entryPointsData st1) with
  | None => st1
  | Some e =>
      if negb (truthy (EP.needsReBuild e)) then
        with_entryPointsData
          (alter (settleAll settle) key (entryPointsData st1)) st1
      else st1
  end.

Definition onReBuildFailed (srcPath handler : string) (st : State) : State :=
  let key := buildEntryPointKey srcPath handler in
  updateAndSettle (reject (failureReason srcPath handler)) key
    (with_entryPointsData (alter EP.failed key (entryPointsData st)) st).

(** How far a call of [onReBuildSucceeded] got: to its end, to
    [await this.watcher.unwatch(...)] (the rest runs later, see
    [onReBuildSucceeded_resume]), or to a thrown error. *)
Inductive Progress :=
| Finished (st : State)
| AwaitingUnwatch (st : State)
| Raised (e : JsError) (st : State).

(** One step of [inputFilesDiff.remove.forEach]; the flag turns false when
    [watchedNodeFilesIndex[file]] is undefined, where [indexOf] throws.  The
    test [watchedNodeFilesIndex[file] === 0] compares an array with a number
    and never holds, so no key is ever deleted. *)
Definition indexSplice (key : string)
    (acc : JsObject (list string) * bool) (file : string)
    : JsObject (list string) * bool :=
  let (index, ok) := acc in
  if ok then
    match lookup file index with
    | Some _ => (alter (spliceFirst key) file index, true)
    | None => (index, false)
    end
  else acc.

Definition inputFilesOf (e : EP.t) : list string :=
  match EP.inputFiles e with Some l => l | None => [] end.

Definition nonEmpty (l : list string) : bool := negb (List.length l =? 0).

(** [onReBuildSucceeded] up to, and including, the call of
    [this.watcher.unwatch].  Modelled from the spec: chokidar is external;
    per the Watch-Set Manager, [add] and [unwatch] add paths to and remove
    paths from the watched set. *)
Definition onReBuildSucceeded_update (srcPath handler : string)
    (inputFiles : list string) (st : State) : Progress :=
  let key := buildEntryPointKey srcPath handler in
  match lookup key (entryPointsData st) with
  | None => Raised (TypeError "Cannot read property 'inputFiles' of undefined") st
  | Some e =>
      let oldInputFiles := inputFilesOf e in
      let inputFilesDiff := array_diff oldInputFiles inputFiles in
      let hasNewInputFiles := nonEmpty (add inputFilesDiff) in
      let needsReBuild :=
        if negb (truthy (EP.needsReBuild e)) && hasNewInputFiles then LOW
        else EP.needsReBuild e in
      let st1 :=
        with_entryPointsData
          (alter (EP.succeeded inputFiles needsReBuild) key
             (entryPointsData st)) st in
      if isNodeRuntime (EP.runtime e) then
        let srcPathInputFiles :=
          flat_map inputFilesOf
            (filter (fun e' => String.eqb (EP.srcPath e') srcPath)
               (values (entryPointsData st1))) in
        let st2 :=
          with_srcPathsData
            (alter (SP.rebuilt (array_unique srcPathInputFiles)) srcPath
               (srcPathsData st1)) st1 in
        let index1 :=
          fold_left (indexPush key) (add inputFilesDiff)
            (watchedNodeFilesIndex st2) in
        let (index2, ok) :=
          fold_left (indexSplice key) (remove inputFilesDiff) (index1, true) in
        let st3 := with_watchedNodeFilesIndex index2 st2 in
        if negb ok then
          Raised (TypeError "Cannot read property 'indexOf' of undefined") st3
        else
          match watcher st3 with
          | None =>
              if nonEmpty (add inputFilesDiff)
                 || nonEmpty (remove inputFilesDiff)
              then Raised (TypeError "Cannot read property 'add' of null") st3
              else Finished st3
          | Some watched =>
              let watched1 :=
                if nonEmpty (add inputFilesDiff)
                then watched ++ add inputFilesDiff else watched in
              if nonEmpty (remove inputFilesDiff) then
                AwaitingUnwatch
                  (with_unwatching (unwatching st3 ++ [(srcPath, handler)])
                     (with_watcher
                        (Some (filter
                                 (fun f => negb (inb f (remove inputFilesDiff)))
                                 watched1)) st3))
              else Finished (with_watcher (Some watched1) st3)
          end
      else Finished st1
  end.

Definition onReBuildSucceeded (srcPath handler : string)
    (inputFiles : list string) (st : State) : Progress :=
  match onReBuildSucceeded_update srcPath handler inputFiles st with
  | Finished st1 =>
      Finished (updateAndSettle resolve (buildEntryPointKey srcPath handler) st1)
  | other => other
  end.

Fixpoint removeFirstPair (p : string * string) (l : list (string * string))
    : list (string * string) :=
  match l with
  | [] => []
  | q :: l' =>
      if String.eqb (fst p) (fst q) && String.eqb (snd p) (snd q) then l'
      else q :: removeFirstPair p l'
  end.

(** The rest of [onReBuildSucceeded] once the awaited [unwatch] is done. *)
Definition onReBuildSucceeded_resume (srcPath handler : string) (st : State)
    : State :=
  updateAndSettle resolve (buildEntryPointKey srcPath handler)
    (with_unwatching (removeFirstPair (srcPath, handler) (unwatching st)) st).

(** The [try]/[catch] of [reTranspile] and [reCompile] around
    [await this.onReBuildSucceeded(...)]. *)
Definition succeededOrCaught (srcPath handler : string)
    (inputFiles : list string) (st : State) : State :=
  match onReBuildSucceeded srcPath handler inputFiles st with
  | Finished st1 => st1
  | AwaitingUnwatch st1 => st1
  | Raised _ st1 => onReBuildFailed srcPath handler st1
  end.

(** [reTranspile] from the point where [await esbuilder.rebuild()] settles:
    [rebuilt] tells whether it was fulfilled, [read] is what reading the
    metafile gives. *)
Definition reTranspile_settled (srcPath handler : string) (rebuilt : bool)
    (read : ReadJson) (st : State) : State :=
  if rebuilt then
    match getInputFilesFromEsbuildMetafile read st with
    | (st1, Returned inputFiles) =>
        succeededOrCaught srcPath handler inputFiles st1
    | (st1, Threw _) => onReBuildFailed srcPath handler st1
    end
  else onReBuildFailed srcPath handler st.

(** [reCompile] from the point where [await this.runCompile(...)] settles:
    [compiled] tells whether [go build] exited with code 0. *)
Definition reCompile_settled (srcPath handler : string) (compiled : bool)
    (st : State) : State :=
  if compiled then succeededOrCaught srcPath handler [] st
  else onReBuildFailed srcPath handler st.

(** *** [start] *)

Definition hasGoRuntime : bool :=
  existsb (fun h => isGoRuntime (lh_runtime h)) (lambdaHandlers cfg).
Definition hasNodeRuntime : bool :=
  existsb (fun h => isNodeRuntime (lh_runtime h)) (lambdaHandlers cfg).

Definition initializeState (st : State) : State :=
  fold_left
    (fun acc h =>
       with_entryPointsData
         (assign (buildEntryPointKey (lh_srcPath h) (lh_handler h))
            (EP.template (lh_srcPath h) (lh_handler h) (lh_runtime h))
            (entryPointsData acc)) acc)
    (lambdaHandlers cfg) st.

Definition getWatchedFiles (st : State) : list string :=
  (cdkInputFiles cfg)
  ++ (if hasNodeRuntime then keys (watchedNodeFilesIndex st) else [])
  ++ (if hasGoRuntime then ["**/*.go"] else []).

(** What the external tools give for the first build of one handler:
    whether esbuild ([esbuildService.build]) or [go build] succeeded, the
    [tsconfig.json] found, the incremental builder, the output descriptor
    computed from the paths, and the reading of the metafile. *)
Record FirstBuild := {
  fb_ok : bool;
  fb_tsconfig : option string;
  fb_esbuilder : nat;
  fb_out : OutEntryPoint;
  fb_metafile : ReadJson;
}.

(** [handler.split(".")] *)
Fixpoint splitDot (s cur : string) : list string :=
  match s with
  | EmptyString => [cur]
  | String a s' =>
      if Ascii.eqb a "."%char then cur :: splitDot s' EmptyString
      else splitDot s' (cur ++ String a EmptyString)
  end.

(** [compile], [buildPython] and [transpile]: the state after the call and
    whether its promise was fulfilled. *)
Definition compile (srcPath handler : string) (b : FirstBuild) (st : State)
    : State * bool :=
  if fb_ok b then
    (onBuildSucceeded srcPath handler None None
       {| entry := entry (fb_out b); outHandler := None; outSrcPath := None;
          origHandlerFullPosixPath := srcPath ++ "/" ++ handler |}
       [] st, true)
  else (st, false).

Definition buildPython (srcPath handler : string) (st : State)
    : State * bool :=
  let handlerParts := splitDot handler EmptyString in
  (onBuildSucceeded srcPath handler None None
     {| entry := String.concat "." (removelast handlerParts);
        outHandler := Some (last handlerParts EmptyString);
        outSrcPath := Some srcPath;
        origHandlerFullPosixPath := srcPath ++ "/" ++ handler |}
     [] st, true).

Definition transpile (srcPath handler : string) (b : FirstBuild) (st : State)
    : State * bool :=
  if fb_ok b then
    match getInputFilesFromEsbuildMetafile (fb_metafile b) st with
    | (st1, Returned inputFiles) =>
        (onBuildSucceeded srcPath handler (fb_tsconfig b)
           (Some (fb_esbuilder b)) (fb_out b) inputFiles st1, true)
    | (st1, Threw _) => (st1, false)
    end
  else (st, false).

Definition firstBuild (h : LambdaHandler) (b : FirstBuild) (st : State)
    : State * bool :=
  match lh_runtime h with
  | GoLike => compile (lh_srcPath h) (lh_handler h) b st
  | PythonLike => buildPython (lh_srcPath h) (lh_handler h) st
  | NodeLike => transpile (lh_srcPath h) (lh_handler h) b st
  end.

(** [Promise.allSettled(this.lambdaHandlers.map(...))]: the first builds run
    side by side; their completions are taken in the order of the list.
    [builds i] is what the tools give for the handler at position [i]; the
    result lists, per handler, whether its promise was fulfilled.

    In the code [buildPython] runs to its end inside [map], and the other
    builds call [onBuildSucceeded] in the order in which their tools finish.
    That order shows only where two handlers write the same place: the
    [tsconfig] and [inputFiles] of the record of a source path they share
    (the last writer wins), the order of the keys under a file they both
    read, and the order in which the keys of [srcPathsData] and of
    [watchedNodeFilesIndex] are created.  No statement of this development
    is about those. *)
Fixpoint firstBuilds (builds : nat -> FirstBuild) (i : nat)
    (hs : list LambdaHandler) (st : State) : State * list bool :=
  match hs with
  | [] => (st, [])
  | h :: hs' =>
      let (st1, fulfilled) := firstBuild h (builds i) st in
      let (st2, results) := firstBuilds builds (S i) hs' st1 in
      (st2, fulfilled :: results)
  end.

Definition startChecks (st : State) (srcPath : string) : State :=
  let (lintProcess, st1) := runLint srcPath st in
  let (typeCheckProcess, st2) := runTypeCheck srcPath st1 in
  onLintAndTypeCheckStarted srcPath lintProcess typeCheckProcess st2.

Definition start (isTest : bool) (builds : nat -> FirstBuild) (st : State)
    : State * Completion unit :=
  let st1 :=
    fold_left (fun acc l => log (Info l) acc)
      [""; "=========================="; " Starting Live Lambda Dev";
       "=========================="; ""] st in
  let st2 := log (Info "Transpiling Lambda code...") (initializeState st1) in
  let (st3, results) := firstBuilds builds 0 (lambdaHandlers cfg) st2 in
  let hasError := existsb negb results in
  if hasError then
    (st3, Threw (JsErrorMsg "Failed to build the Lambda handlers"))
  else if isTest then (st3, Returned tt)
  else
    let srcPaths := keys (srcPathsData st3) in
    if List.length srcPaths =? 0 then
      (st3, Threw (JsErrorMsg "No Lambda handlers are found in the app"))
    else
      let st4 := fold_left startChecks srcPaths st3 in
      (with_watcher (Some (getWatchedFiles st4)) st4, Returned tt).

(** *** Events

    After [start], the state changes only when the host asks for a handler,
    when chokidar reports a file, when the promise of a dispatched build
    settles, when an awaited [unwatch] lets [onReBuildSucceeded] go on, or when
    a checker process exits. *)
Inductive Event :=
| FileChanged (file : string)
| Requested (srcPath handler : string)
| BuildSettled (srcPath handler : string) (ok : bool) (read : ReadJson)
| Unwatched (srcPath handler : string)
| LintExited (srcPath : string)
| TypeCheckExited (srcPath : string).

Definition pairIn (p : string * string) (l : list (string * string)) : bool :=
  existsb (fun q => String.eqb (fst p) (fst q) && String.eqb (snd p) (snd q)) l.

(** A file event needs the watcher of [start]; a build settles only while its
    promise is the entry point's [buildPromise], and only Node and Go entry
    points are ever dispatched; a checker exit names a known source path. *)
Definition enabled (ev : Event) (st : State) : bool :=
  match ev with
  | FileChanged _ => isSome (watcher st)
  | Requested _ _ => true
  | BuildSettled srcPath handler _ _ =>
      match lookup (buildEntryPointKey srcPath handler) (entryPointsData st) with
      | Some e =>
          isSome (EP.buildPromise e)
          && String.eqb (EP.srcPath e) srcPath
          && String.eqb (EP.handler e) handler
          && negb (isPythonRuntime (EP.runtime e))
      | None => false
      end
  | Unwatched srcPath handler => pairIn (srcPath, handler) (unwatching st)
  | LintExited srcPath | TypeCheckExited srcPath =>
      isSome (lookup srcPath (srcPathsData st))
  end.

Definition step (ev : Event) (st : State) : State :=
  match ev with
  | FileChanged file => onFileChange file st
  | Requested srcPath handler => fst (getTranspiledHandler srcPath handler st)
  | BuildSettled srcPath handler ok read =>
      match lookup (buildEntryPointKey srcPath handler) (entryPointsData st) with
      | Some e =>
          if isGoRuntime (EP.runtime e)
          then reCompile_settled srcPath handler ok st
          else reTranspile_settled srcPath handler ok read st
      | None => st
      end
  | Unwatched srcPath handler => onReBuildSucceeded_resume srcPath handler st
  | LintExited srcPath => onLintDone srcPath st
  | TypeCheckExited srcPath => onTypeCheckDone srcPath st
  end.

Definition run (evs : list Event) (st : State) : State :=
  fold_left (fun acc ev => step ev acc) evs st.

(** The states the watcher can be in: after a [start] that returned, and
    after any enabled event from such a state. *)
Inductive reachable : State -> Prop :=
| reach_start isTest builds st :
    start isTest builds constructed = (st, Returned tt) -> reachable st
| reach_step ev st :
    reachable st -> enabled ev st = true -> reachable (step ev st).
End Watcher.

(** * Predicates used in the statements *)

Definition epKey (e : EP.t) : string :=
  buildEntryPointKey (EP.srcPath e) (EP.handler e).

(** Every record sits under the key built from its own [srcPath] and
    [handler], and no key occurs twice. *)
Definition eps_wf (eps : JsObject EP.t) : Prop :=
  NoDup (keys eps) /\ Forall (fun kv => fst kv = epKey (snd kv)) eps.

Definition keys_wf (st : State) : Prop := eps_wf (entryPointsData st).

Fixpoint nodupb (l : list string) : bool :=
  match l with
  | [] => true
  | x :: l' => negb (inb x l') && nodupb l'
  end.

Definition keys_wfb (st : State) : bool :=
  nodupb (keys (entryPointsData st))
  && forallb (fun kv => String.eqb (fst kv) (epKey (snd kv)))
       (entryPointsData st).

(** The Go builds in flight: the entry points that [updateLambdaCodeState]
    collects in [goEPsBuilding]. *)
Definition isGoBuilding (e : EP.t) : bool :=
  isGoRuntime (EP.runtime e) && isSome (EP.buildPromise e).

Definition goBuildsInFlight (st : State) : nat :=
  List.length (filter isGoBuilding (values (entryPointsData st))).

Definition isGoQueued (p : REBUILD_PRIORITY) (e : EP.t) : bool :=
  isGoRuntime (EP.runtime e) && negb (isSome (EP.buildPromise e))
  && priority_eqb (EP.needsReBuild e) p.

Definition isNodeDirty (e : EP.t) : bool :=
  isNodeRuntime (EP.runtime e) && negb (isSome (EP.buildPromise e))
  && truthy (EP.needsReBuild e).

(** What one reconciliation pass may do to a record: nothing, or start a
    build of an entry point that has none in flight and needs one. *)
Definition ep_dispatch (e e' : EP.t) : Prop :=
  e' = e
  \/ (EP.buildPromise e = None /\ truthy (EP.needsReBuild e) = true
      /\ exists p, e' = EP.started p e).

Definition eps_dispatch (eps eps' : JsObject EP.t) : Prop :=
  keys eps' = keys eps
  /\ forall k e, lookup k eps = Some e ->
       exists e', lookup k eps' = Some e' /\ ep_dispatch e e'.

(** The pending-request list of the entry point under [key]. *)
Definition callbacksOf (key : string) (st : State) : list PromiseState :=
  match lookup key (entryPointsData st) with
  | Some e => EP.pendingRequestCallbacks e
  | None => []
  end.

Definition hasPending (e : EP.t) : bool :=
  existsb isPending (EP.pendingRequestCallbacks e).

(** A call of [onReBuildSucceeded] for [key] waits at its [unwatch]. *)
Definition unwatchingKey (key : string) (u : list (string * string)) : bool :=
  existsb (fun p => String.eqb (buildEntryPointKey (fst p) (snd p)) key) u.

Definition isUnwatching (key : string) (st : State) : bool :=
  unwatchingKey key (unwatching st).

(** An entry point with a waiter that is still pending has a build in
    flight, or a rebuild priority other than OFF, or a suspended call of
    [onReBuildSucceeded] that will look at its waiters when it resumes. *)
Definition calm (u : list (string * string)) (key : string) (e : EP.t) : Prop :=
  hasPending e = true ->
  isSome (EP.buildPromise e) || truthy (EP.needsReBuild e)
  || unwatchingKey key u = true.

(** [calm] for every entry point, except the one under [skip], if any. *)
Definition wait_ok (skip : option string) (st : State) : Prop :=
  forall k e, Some k <> skip ->
    lookup k (entryPointsData st) = Some e -> calm (unwatching st) k e.

Definition configuredKeys (cfg : Config) : list string :=
  map (fun h => buildEntryPointKey (lh_srcPath h) (lh_handler h))
    (lambdaHandlers cfg).



(** *** The busy message stream *)

Definition lineEqb (a b : LogLine) : bool :=
  match a, b with
  | Info x, Info y => String.eqb x y
  | Error x, Error y => String.eqb x y
  | _, _ => false
  end.

Definition isBusyLine (l : LogLine) : bool :=
  lineEqb l msgRebuilding || lineEqb l msgDone || lineEqb l msgFailed.

Definition busyLines (st : State) : list LogLine :=
  filter isBusyLine (logged st).

(** Reading a stream of busy messages from status [busy]: "Rebuilding
    code..." is accepted only when not busy and makes the status busy, a
    terminal message is accepted only when busy and makes it not busy.  The
    result is the status after the stream, or [None] when the stream does not
    alternate. *)
Fixpoint busyAfter (busy : bool) (l : list LogLine) : option bool :=
  match l with
  | [] => Some busy
  | x :: l' =>
      if busy then
        if lineEqb x msgDone || lineEqb x msgFailed then busyAfter false l'
        else None
      else
        if lineEqb x msgRebuilding then busyAfter true l' else None
  end.

(** The status that [updateLambdaCodeBusyStatus] computes from the records.
    From NOT BUSY it asks whether some entry point needs a rebuild.  From
    BUSY it asks whether some entry point needs a rebuild or is being built
    or, when no entry point has an error, some source path needs a recheck or
    is being linted or type checked. *)
Definition busyTest (st : State) : bool :=
  let eps := values (entryPointsData st) in
  if isProcessingLambdaChanges st then
    existsb (fun e => truthy (EP.needsReBuild e) || isSome (EP.buildPromise e))
      eps
    || (negb (existsb EP.hasError eps)
        && existsb (fun d => SP.needsReCheck d || isSome (SP.lintProcess d)
                             || isSome (SP.typeCheckProcess d))
             (values (srcPathsData st)))
  else existsb (fun e => truthy (EP.needsReBuild e)) eps.

(** The line logged when the computed status differs from the stored one. *)
Definition edgeMessage (st : State) : LogLine :=
  if busyTest st then msgRebuilding
  else if existsb EP.hasError (values (entryPointsData st)) then msgFailed
  else msgDone.

(** The lines one call of [updateLambdaCodeBusyStatus] may log, given the
    status before and after it. *)
Definition edgeLines (before after : bool) (ls : list LogLine) : Prop :=
  match before, after with
  | false, true => ls = [msgRebuilding]
  | true, false => ls = [msgDone] \/ ls = [msgFailed]
  | _, _ => ls = []
  end.

(** *** Runs *)

Fixpoint enabledAll (cfg : Config) (evs : list Event) (st : State) : bool :=
  match evs with
  | [] => true
  | ev :: evs' => enabled ev st && enabledAll cfg evs' (step cfg ev st)
  end.

(** The state handed to the nested call by [onLintAndTypeCheckStarted]. *)
Definition checkedState (cfg : Config) (srcPath : string) (st : State) : State :=
  checkStarted srcPath (fst (runLint cfg srcPath st))
    (fst (runTypeCheck cfg srcPath (snd (runLint cfg srcPath st))))
    (snd (runTypeCheck cfg srcPath (snd (runLint cfg srcPath st)))).

(** The steps of one reconciliation pass. *)
Inductive pass (cfg : Config) : State -> State -> Prop :=
| pass_refl st : pass cfg st st
| pass_trans st1 st2 st3 :
    pass cfg st1 st2 -> pass cfg st2 st3 -> pass cfg st1 st3
| pass_busy st : pass cfg st (updateLambdaCodeBusyStatus st)
| pass_dispatch st : pass cfg st (dispatchBuilds cfg st)
| pass_check st srcPath d :
    lookup srcPath (srcPathsData st) = Some d ->
    SP.needsReCheck d = true ->
    pass cfg st (checkedState cfg srcPath st).

Definition needsReCheckCount (st : State) : nat :=
  List.length (filter SP.needsReCheck (values (srcPathsData st))).

(** The busy messages logged so far alternate, and the status they end in is
    the one stored in [isProcessingLambdaChanges]. *)
Definition busy_inv (st : State) : Prop :=
  busyAfter false (busyLines st) = Some (isProcessingLambdaChanges st).

(** The invariant of the watcher's states. *)
Definition Inv (cfg : Config) (skip : option string) (st : State) : Prop :=
  keys_wf st
  /\ goBuildsInFlight st <= BUILDER_CONCURRENCY cfg
  /\ busy_inv st
  /\ wait_ok skip st
  /\ (forall k, In k (keys (entryPointsData st)) <-> In k (configuredKeys cfg)).

(** The rebuild priority that [onReBuildSucceeded] writes into the record:
    LOW when it was OFF and the build read files it had not read before. *)
Definition priorityAfterUpdate (files : list string) (e : EP.t)
    : REBUILD_PRIORITY :=
  if negb (truthy (EP.needsReBuild e))
     && nonEmpty (add (array_diff (inputFilesOf e) files))
  then LOW else EP.needsReBuild e.

(** The entry points one call of [updateLambdaCodeState] dispatches: all
    dirty Node ones, then the head of the Go queue. *)
Definition dispatchList (cfg : Config) (st : State) : list EP.t :=
  let g := gather (entryPointsData st) in
  nodeEPsNeedsRebuild g
  ++ slice0 (concurrencyRemaining cfg g) (goEPsNeedsRebuild g).

Definition isGoEP (e : EP.t) : bool := isGoRuntime (EP.runtime e).

(** [f] leaves no promise pending. *)
Definition settles (f : PromiseState -> PromiseState) : Prop :=
  forall p, isPending (f p) = false.

(** No build in flight and no waiter, as after [initializeState]. *)
Definition quiet (st : State) : Prop :=
  forall e, In e (values (entryPointsData st)) ->
    EP.buildPromise e = None /\ EP.pendingRequestCallbacks e = [].

(** How one event may change the pending-request list of the entry point
    under [key]: not at all; by one new pending waiter, when the event is a
    request for that entry point; by resolving every waiter, when the event
    is the success of a build of that entry point (at once, or when the
    awaited [unwatch] is done); by rejecting every waiter, when the event is
    the settlement of a build of that entry point that is handled as
    failed. *)
Definition callbacks_after (key : string) (ev : Event)
    (before after : list PromiseState) : Prop :=
  after = before
  \/ (exists s h, ev = Requested s h /\ buildEntryPointKey s h = key
                  /\ after = before ++ [Pending])
  \/ (exists s h, buildEntryPointKey s h = key
                  /\ (ev = Unwatched s h
                      \/ exists read, ev = BuildSettled s h true read)
                  /\ after = map resolve before)
  \/ (exists s h ok read, buildEntryPointKey s h = key
                          /\ ev = BuildSettled s h ok read
                          /\ after = map (reject (failureReason s h)) before).

(** The first build of a handler fails: [go build] or esbuild fails, or, for
    a Node handler, the metafile cannot be used.  A Python handler has no
    build step. *)
Definition firstBuildFails (hd : LambdaHandler) (b : FirstBuild) : bool :=
  match lh_runtime hd with
  | GoLike => negb (fb_ok b)
  | PythonLike => false
  | NodeLike =>
      negb (fb_ok b)
      || match fb_metafile b with
         | ReadOk (Some _) => false
         | _ => true
         end
  end.

(** * Example configurations and traces *)

Definition outOf (s : string) : OutEntryPoint :=
  {| entry := s; outHandler := Some "handler"; outSrcPath := Some ".build";
     origHandlerFullPosixPath := s |}.

(** Every first build succeeds and reads a metafile that lists [files]. *)
Definition buildsOk (files : list string) (i : nat) : FirstBuild :=
  {| fb_ok := true; fb_tsconfig := Some "tsconfig.json"; fb_esbuilder := i;
     fb_out := outOf "out"; fb_metafile := ReadOk (Some files) |}.

Definition hostConfig (threads : nat) (hs : list LambdaHandler) : Config :=
  {| BUILDER_CONCURRENCY := threads; path_resolve := fun p => p;
     isLintEnabled := true; isTypeCheckEnabled := true;
     lambdaHandlers := hs; cdkInputFiles := ["lib/index.ts"] |}.

(** One Node handler, as in the spec's first scenario. *)
Definition nodeApp : Config :=
  hostConfig 4
    [{| lh_srcPath := "s"; lh_handler := "src/h.handler"; lh_runtime := NodeLike |}].

Definition nodeStarted : State :=
  fst (start nodeApp false (buildsOk ["/app/s/src/h.ts"]) constructed).

Definition okRead : ReadJson := ReadOk (Some ["/app/s/src/h.ts"]).

Definition nodeKey : string := buildEntryPointKey "s" "src/h.handler".

(** A file of the handler changes, and while the rebuild runs the host asks
    for the handler (the spec's second scenario). *)
Definition nodeRequested : State :=
  run nodeApp [FileChanged "/app/s/src/h.ts"; Requested "s" "src/h.handler"]
    nodeStarted.

(** Two Go handlers on a host with one hardware thread. *)
Definition goApp : Config :=
  hostConfig 1
    [{| lh_srcPath := "svc"; lh_handler := "a/main.go"; lh_runtime := GoLike |};
     {| lh_srcPath := "svc"; lh_handler := "b/main.go"; lh_runtime := GoLike |};
     {| lh_srcPath := "svc"; lh_handler := "d/main.go"; lh_runtime := GoLike |}].

Definition goStarted : State :=
  fst (start goApp false (buildsOk []) constructed).

Definition goKeyA : string := buildEntryPointKey "svc" "a/main.go".
Definition goKeyB : string := buildEntryPointKey "svc" "b/main.go".
Definition goKeyD : string := buildEntryPointKey "svc" "d/main.go".

(** A Go file changes: [a] is built, [b] and [d] wait.  The host then asks
    for [a] and for [d]. *)
Definition goRequested : State :=
  run goApp
    [FileChanged "/app/svc/a/main.go"; Requested "svc" "a/main.go";
     Requested "svc" "d/main.go"]
    goStarted.

(** No handlers at all. *)
Definition emptyApp : Config := hostConfig 4 [].

(** One handler whose key is also the key of the unlisted pair
    [("a/b", "c.h")]. *)
Definition collideApp : Config :=
  hostConfig 4
    [{| lh_srcPath := "a"; lh_handler := "b/c.h"; lh_runtime := NodeLike |}].

Definition collideStarted : State :=
  fst (start collideApp false (buildsOk ["/app/a/b/c.ts"]) constructed).

(** The rebuild under way succeeds; because of the request the entry point
    is rebuilt once more, and that build succeeds too. *)
Definition nodeWoken : State :=
  run nodeApp
    [BuildSettled "s" "src/h.handler" true okRead;
     BuildSettled "s" "src/h.handler" true okRead]
    nodeRequested.

(** The record of the handler in [nodeRequested]. *)
Definition nodeRequestedEntry : EP.t :=
  {| EP.srcPath := "s"; EP.handler := "src/h.handler";
     EP.runtime := NodeLike; EP.hasError := false;
     EP.buildPromise := Some 2; EP.outEntryPoint := Some (outOf "out");
     EP.needsReBuild := HIGH; EP.pendingRequestCallbacks := [Pending];
     EP.tsconfig := Some "tsconfig.json"; EP.esbuilder := Some 0;
     EP.inputFiles := Some ["/app/s/src/h.ts"] |}.

(** The record of [a] in [goRequested]. *)
Definition goRequestedEntryA : EP.t :=
  {| EP.srcPath := "svc"; EP.handler := "a/main.go";
     EP.runtime := GoLike; EP.hasError := false;
     EP.buildPromise := Some 0;
     EP.outEntryPoint :=
       Some {| entry := "out"; outHandler := None; outSrcPath := None;
               origHandlerFullPosixPath := "svc/a/main.go" |};
     EP.needsReBuild := HIGH; EP.pendingRequestCallbacks := [Pending];
     EP.tsconfig := None; EP.esbuilder := None;
     EP.inputFiles := Some [] |}.

(** The Node handler reads three files.  A request arrives during a rebuild;
    that rebuild and the next one each drop a file, so each call of
    [onReBuildSucceeded] waits at [unwatch]; in between, a checker exit runs a
    pass that dispatches the next build. *)
Definition shrinkingFiles : list string :=
  ["/app/s/src/h.ts"; "/app/s/src/a.ts"; "/app/s/src/b.ts"].

Definition nodeShrunk : State :=
  run nodeApp
    [FileChanged "/app/s/src/h.ts";
     Requested "s" "src/h.handler";
     BuildSettled "s" "src/h.handler" true
       (ReadOk (Some ["/app/s/src/h.ts"; "/app/s/src/a.ts"]));
     LintExited "s";
     BuildSettled "s" "src/h.handler" true (ReadOk (Some ["/app/s/src/h.ts"]))]
    (fst (start nodeApp false (buildsOk shrinkingFiles) constructed)).

(** A rebuild that fails and, after another change of the file, a rebuild
    that succeeds and is linted and type checked. *)
Definition twoCycles : list Event :=
  [FileChanged "/app/s/src/h.ts";
   BuildSettled "s" "src/h.handler" false okRead;
   FileChanged "/app/s/src/h.ts";
   BuildSettled "s" "src/h.handler" true okRead;
   LintExited "s";
   TypeCheckExited "s"].

Definition nodeTwoCycles : State := run nodeApp twoCycles nodeStarted.

(** * The shape of a handler run

    Every handler of the class changes a few records and then, in most
    cases, calls [updateLambdaCodeState]; two of them go on to settle the
    pending requests of one entry point.  The definitions below name these
    parts, so that a property of the states the watcher reaches can be
    proved part by part. *)

Unset Implicit Arguments.

Definition alterEP (f : EP.t -> EP.t) (k : string) (st : State) : State :=
  with_entryPointsData (alter f k (entryPointsData st)) st.

(** The build of [(s, h)] is in flight: what [enabled] asks of a
    [BuildSettled] event. *)
Definition buildInFlight (s h : string) (st : State) : Prop :=
  exists e, lookup (buildEntryPointKey s h) (entryPointsData st) = Some e
            /\ isSome (EP.buildPromise e) = true
            /\ EP.srcPath e = s /\ EP.handler e = h
            /\ isPythonRuntime (EP.runtime e) = false.

(** What a settling build reports as input files: a Go build reports none
    ([reCompile] passes [inputFiles: []]). *)
Definition filesOfBuild (s h : string) (files : list string) (st : State)
    : Prop :=
  forall e, lookup (buildEntryPointKey s h) (entryPointsData st) = Some e ->
    isNodeRuntime (EP.runtime e) = false -> files = [].

(** [st0] is [st], or [st] with one more error line logged (by
    [getInputFilesFromEsbuildMetafile]). *)
Definition loggedMore (st st0 : State) : Prop :=
  st0 = st \/ exists msg, st0 = log (Error msg) st.

(** The keys [onFileChange] marks when [file] changes: those of the Go entry
    points, or those the index lists under the file. *)
Definition changedKeys (file : string) (st : State) : option (list string) :=
  if endsWith file ".go" then
    Some (keys (filter (fun kv => isGoRuntime (EP.runtime (snd kv)))
                  (entryPointsData st)))
  else lookup file (watchedNodeFilesIndex st).

(** The states on which a handler, called in [st], runs
    [updateLambdaCodeState]. *)
Inductive beforePass (st : State) : State -> Prop :=
| bp_fileChange file ks :
    watcher st <> None -> changedKeys file st = Some ks ->
    beforePass st (fold_left markLow ks st)
| bp_failed s h st0 :
    buildInFlight s h st -> loggedMore st st0 ->
    beforePass st (alterEP EP.failed (buildEntryPointKey s h) st0)
| bp_succeeded s h files st0 st1 :
    buildInFlight s h st -> filesOfBuild s h files st -> loggedMore st st0 ->
    onReBuildSucceeded_update s h files st0 = Finished st1 ->
    beforePass st st1
| bp_raised s h files st0 st1 err :
    buildInFlight s h st -> filesOfBuild s h files st -> loggedMore st st0 ->
    onReBuildSucceeded_update s h files st0 = Raised err st1 ->
    beforePass st (alterEP EP.failed (buildEntryPointKey s h) st1)
| bp_resume s h :
    pairIn (s, h) (unwatching st) = true ->
    beforePass st
      (with_unwatching (removeFirstPair (s, h) (unwatching st)) st)
| bp_lintDone s :
    beforePass st
      (with_srcPathsData (alter SP.lintDone s (srcPathsData st)) st)
| bp_typeCheckDone s :
    beforePass st
      (with_srcPathsData (alter SP.typeCheckDone s (srcPathsData st)) st).

(** The states one enabled event can lead to from [st]. *)
Inductive stepResult (cfg : Config) (st : State) : State -> Prop :=
| sr_same : stepResult cfg st st
| sr_waiting k e :
    lookup k (entryPointsData st) = Some e ->
    isSome (EP.buildPromise e) || truthy (EP.needsReBuild e) = true ->
    stepResult cfg st (alterEP pushWaiter k st)
| sr_suspended s h files st0 st1 :
    buildInFlight s h st -> filesOfBuild s h files st -> loggedMore st st0 ->
    onReBuildSucceeded_update s h files st0 = AwaitingUnwatch st1 ->
    stepResult cfg st st1
| sr_pass pre :
    beforePass st pre -> stepResult cfg st (updateLambdaCodeState cfg pre)
| sr_settled pre f k :
    beforePass st pre ->
    stepResult cfg st
      (alterEP (settleAll f) k (updateLambdaCodeState cfg pre)).

(** * Predicates of the further properties *)

(** A Go entry point that waits in the rebuild queue. *)
Definition isGoWaiting (e : EP.t) : bool :=
  isGoQueued LOW e || isGoQueued HIGH e.

(** No build in flight and no rebuild wanted, for every entry point. *)
Definition allClean (st : State) : Prop :=
  forall k e, lookup k (entryPointsData st) = Some e ->
    EP.buildPromise e = None /\ EP.needsReBuild e = OFF.

(** The fields of a record that no handler writes after the first build. *)
Definition sameBuild (e e' : EP.t) : Prop :=
  EP.srcPath e' = EP.srcPath e /\ EP.handler e' = EP.handler e
  /\ EP.runtime e' = EP.runtime e
  /\ EP.outEntryPoint e' = EP.outEntryPoint e
  /\ EP.tsconfig e' = EP.tsconfig e /\ EP.esbuilder e' = EP.esbuilder e.

(** [eps'] has the keys of [eps], in the same order, and each record of
    [eps] is related by [R] to the record under its key in [eps']. *)
Definition eps_rel (R : EP.t -> EP.t -> Prop) (eps eps' : JsObject EP.t)
    : Prop :=
  keys eps' = keys eps
  /\ forall k e, lookup k eps = Some e ->
       exists e', lookup k eps' = Some e' /\ R e e'.

(** The record updates the handlers make after [start], each with the
    condition under which the code makes it. *)
Inductive ep_change : EP.t -> EP.t -> Prop :=
| ch_refl e : ep_change e e
| ch_trans e1 e2 e3 : ep_change e1 e2 -> ep_change e2 e3 -> ep_change e1 e3
| ch_low e : ep_change e (EP.with_needsReBuild LOW e)
| ch_waiting e :
    isSome (EP.buildPromise e) || truthy (EP.needsReBuild e) = true ->
    ep_change e (pushWaiter e)
| ch_started p e :
    isPythonRuntime (EP.runtime e) = false ->
    EP.buildPromise e = None ->
    truthy (EP.needsReBuild e) = true ->
    ep_change e (EP.started p e)
| ch_succeeded files p e : ep_change e (EP.succeeded files p e)
| ch_failed e : ep_change e (EP.failed e)
| ch_settled f e : ep_change e (settleAll f e).

(** The state a call of [onReBuildSucceeded_update] leaves. *)
Definition progressState (p : Progress) : State :=
  match p with
  | Finished st | AwaitingUnwatch st | Raised _ st => st
  end.

(** While a Go entry point waits in the queue, every build slot is taken. *)
Definition workConserving (cfg : Config) (st : State) : Prop :=
  forall k e, lookup k (entryPointsData st) = Some e ->
    isGoWaiting e = true ->
    goBuildsInFlight st = BUILDER_CONCURRENCY cfg.

(** A Node entry point that needs a rebuild and has none in flight belongs
    to a call of [onReBuildSucceeded] that waits at its [unwatch]. *)
Definition nodeNeverQueued (st : State) : Prop :=
  forall k e, lookup k (entryPointsData st) = Some e ->
    isNodeDirty e = true -> isUnwatching k st = true.

(** When the watcher does not report itself busy, nothing is being built
    and nothing waits to be. *)
Definition idleIsClean (st : State) : Prop :=
  isProcessingLambdaChanges st = false -> allClean st.

Definition Sched (cfg : Config) (st : State) : Prop :=
  workConserving cfg st /\ nodeNeverQueued st /\ idleIsClean st.

(** When the watcher does not report itself busy, no build is in flight. *)
Definition idleNotBuilding (st : State) : Prop :=
  isProcessingLambdaChanges st = false ->
  forall k e, lookup k (entryPointsData st) = Some e ->
    EP.buildPromise e = None.

(** * Further example states *)

(** The record of [b] in [goRequested]: it waits in the Go queue. *)
Definition goRequestedEntryB : EP.t :=
  {| EP.srcPath := "svc"; EP.handler := "b/main.go";
     EP.runtime := GoLike; EP.hasError := false;
     EP.buildPromise := None;
     EP.outEntryPoint :=
       Some {| entry := "out"; outHandler := None; outSrcPath := None;
               origHandlerFullPosixPath := "svc/b/main.go" |};
     EP.needsReBuild := LOW; EP.pendingRequestCallbacks := [];
     EP.tsconfig := None; EP.esbuilder := None;
     EP.inputFiles := Some [] |}.

(** A rebuild of the Node handler reads one new file and drops two: the
    call of [onReBuildSucceeded] waits at [unwatch], with the entry point
    marked for another rebuild. *)
Definition nodeSuspended : State :=
  run nodeApp
    [FileChanged "/app/s/src/h.ts";
     BuildSettled "s" "src/h.handler" true
       (ReadOk (Some ["/app/s/src/h.ts"; "/app/s/src/c.ts"]))]
    (fst (start nodeApp false (buildsOk shrinkingFiles) constructed)).

Definition nodeSuspendedEntry : EP.t :=
  {| EP.srcPath := "s"; EP.handler := "src/h.handler";
     EP.runtime := NodeLike; EP.hasError := false;
     EP.buildPromise := None; EP.outEntryPoint := Some (outOf "out");
     EP.needsReBuild := LOW; EP.pendingRequestCallbacks := [];
     EP.tsconfig := Some "tsconfig.json"; EP.esbuilder := Some 0;
     EP.inputFiles := Some ["/app/s/src/h.ts"; "/app/s/src/c.ts"] |}.

(** * The index and the watched set *)

(** Every key listed in [watchedNodeFilesIndex] is the key of an entry
    point. *)
Definition indexRegistered (st : State) : Prop :=
  forall file ks k,
    lookup file (watchedNodeFilesIndex st) = Some ks -> In k ks ->
    lookup k (entryPointsData st) <> None.

(** [idx] lists the key [k] under [file]. *)
Definition indexLists (k file : string) (idx : JsObject (list string))
    : Prop :=
  exists ks, lookup file idx = Some ks /\ In k ks.

(** Under every input file of an entry point, [watchedNodeFilesIndex]
    lists the key of that entry point. *)
Definition filesIndexed (st : State) : Prop :=
  forall k e file,
    lookup k (entryPointsData st) = Some e -> In file (inputFilesOf e) ->
    indexLists k file (watchedNodeFilesIndex st).

(** Without a chokidar watcher (a [start] in test mode) nothing is ever
    rebuilt. *)
Definition unwatchedIdle (st : State) : Prop :=
  watcher st = None -> unwatching st = [] /\ allClean st.

Definition sameFiles (e e' : EP.t) : Prop :=
  EP.inputFiles e' = EP.inputFiles e.

(** The record of the Node handler after [start]. *)
Definition nodeStartedEntry : EP.t :=
  {| EP.srcPath := "s"; EP.handler := "src/h.handler";
     EP.runtime := NodeLike; EP.hasError := false;
     EP.buildPromise := None; EP.outEntryPoint := Some (outOf "out");
     EP.needsReBuild := OFF; EP.pendingRequestCallbacks := [];
     EP.tsconfig := Some "tsconfig.json"; EP.esbuilder := Some 0;
     EP.inputFiles := Some ["/app/s/src/h.ts"] |}.

(** The Node handler reads three files; one of them changes. *)
Definition nodeWideChanged : State :=
  run nodeApp [FileChanged "/app/s/src/h.ts"]
    (fst (start nodeApp false (buildsOk shrinkingFiles) constructed)).

(** One Python handler. *)
Definition pyApp : Config :=
  hostConfig 4
    [{| lh_srcPath := "py"; lh_handler := "src/lambda.main";
        lh_runtime := PythonLike |}].

Definition pyStarted : State :=
  fst (start pyApp false (buildsOk []) constructed).

Definition pyKey : string := buildEntryPointKey "py" "src/lambda.main".

Definition pyStartedEntry : EP.t :=
  {| EP.srcPath := "py"; EP.handler := "src/lambda.main";
     EP.runtime := PythonLike; EP.hasError := false;
     EP.buildPromise := None;
     EP.outEntryPoint :=
       Some {| entry := "src/lambda"; outHandler := Some "main";
               outSrcPath := Some "py";
               origHandlerFullPosixPath := "py/src/lambda.main" |};
     EP.needsReBuild := OFF; EP.pendingRequestCallbacks := [];
     EP.tsconfig := None; EP.esbuilder := None;
     EP.inputFiles := Some [] |}.

(** * A pass run twice *)

(** The busy status agrees with the state: [updateLambdaCodeBusyStatus]
    would leave it as it is. *)
Definition busySettled (st : State) : bool :=
  let eps := values (entryPointsData st) in
  if isProcessingLambdaChanges st then
    existsb (fun e => truthy (EP.needsReBuild e) || isSome (EP.buildPromise e))
      eps
    || (negb (existsb EP.hasError eps)
        && existsb (fun d => SP.needsReCheck d || isSome (SP.lintProcess d)
                             || isSome (SP.typeCheckProcess d))
             (values (srcPathsData st)))
  else negb (existsb (fun e => truthy (EP.needsReBuild e)) eps).

(** No source path is flagged for a recheck. *)
Definition allChecked (st : State) : Prop :=
  forall s d, lookup s (srcPathsData st) = Some d -> SP.needsReCheck d = false.

(** Work the watcher waits for: an entry point that is being built or is to
    be built, or, when no entry point has an error, a source path that is
    being checked or is to be checked. *)
Definition hasWork (st : State) : bool :=
  let eps := values (entryPointsData st) in
  existsb (fun e => truthy (EP.needsReBuild e) || isSome (EP.buildPromise e))
    eps
  || (negb (existsb EP.hasError eps)
      && existsb (fun d => SP.needsReCheck d || isSome (SP.lintProcess d)
                           || isSome (SP.typeCheckProcess d))
           (values (srcPathsData st))).

(** While the watcher reports itself busy it waits for work, or for an
    [unwatch] to finish. *)
Definition busyHasWork (st : State) : Prop :=
  isProcessingLambdaChanges st = true ->
  hasWork st = true \/ unwatching st <> [].

(** A source path flagged for a recheck waits for a reason: a build is in
    flight, an entry point has an error, or a call of [onReBuildSucceeded]
    has not reached its pass yet. *)
Definition recheckPending (st : State) : Prop :=
  allChecked st
  \/ existsb (fun e => isSome (EP.buildPromise e))
       (values (entryPointsData st)) = true
  \/ existsb EP.hasError (values (entryPointsData st)) = true
  \/ unwatching st <> [].

(** A Go handler set with two of three entry points waiting, one of them
    requested, on a host with four hardware threads. *)
Definition goWideApp : Config := hostConfig 4 (lambdaHandlers goApp).

Definition goQueuedState : State :=
  alterEP (EP.with_needsReBuild HIGH) goKeyD
    (alterEP (EP.with_needsReBuild LOW) goKeyB goStarted).

Definition goQueuedEntryB : EP.t :=
  {| EP.srcPath := "svc"; EP.handler := "b/main.go";
     EP.runtime := GoLike; EP.hasError := false;
     EP.buildPromise := None;
     EP.outEntryPoint :=
       Some {| entry := "out"; outHandler := None; outSrcPath := None;
               origHandlerFullPosixPath := "svc/b/main.go" |};
     EP.needsReBuild := LOW; EP.pendingRequestCallbacks := [];
     EP.tsconfig := None; EP.esbuilder := None;
     EP.inputFiles := Some [] |}.

Definition goQueuedEntryD : EP.t :=
  {| EP.srcPath := "svc"; EP.handler := "d/main.go";
     EP.runtime := GoLike; EP.hasError := false;
     EP.buildPromise := None;
     EP.outEntryPoint :=
       Some {| entry := "out"; outHandler := None; outSrcPath := None;
               origHandlerFullPosixPath := "svc/d/main.go" |};
     EP.needsReBuild := HIGH; EP.pendingRequestCallbacks := [];
     EP.tsconfig := None; EP.esbuilder := None;
     EP.inputFiles := Some [] |}.

(** The record of [a] after [start]. *)
Definition goStartedEntryA : EP.t :=
  {| EP.srcPath := "svc"; EP.handler := "a/main.go";
     EP.runtime := GoLike; EP.hasError := false;
     EP.buildPromise := None;
     EP.outEntryPoint :=
       Some {| entry := "out"; outHandler := None; outSrcPath := None;
               origHandlerFullPosixPath := "svc/a/main.go" |};
     EP.needsReBuild := OFF; EP.pendingRequestCallbacks := [];
     EP.tsconfig := None; EP.esbuilder := None;
     EP.inputFiles := Some [] |}.

(** The record of the source path in [nodeSuspended]. *)
Definition nodeSuspendedSrcPath : SP.t :=
  {| SP.srcPath := "s"; SP.tsconfig := Some "tsconfig.json";
     SP.inputFiles := ["/app/s/src/h.ts"; "/app/s/src/c.ts"];
     SP.lintProcess := Some 0; SP.needsReCheck := true;
     SP.typeCheckProcess := Some 1 |}.

(** * The source paths *)

(** [getAllSrcPaths] *)
Definition getAllSrcPaths (st : State) : list string :=
  keys (srcPathsData st).

(** Every record of [srcPathsData] satisfies [P]. *)
Definition sp_all (P : SP.t -> Prop) (st : State) : Prop :=
  forall s d, lookup s (srcPathsData st) = Some d -> P d.

(** The record of the source path of the Python handler after [start]. *)
Definition pyStartedSrcPath : SP.t :=
  {| SP.srcPath := "py"; SP.tsconfig := None; SP.inputFiles := [];
     SP.lintProcess := None; SP.needsReCheck := false;
     SP.typeCheckProcess := None |}.

(** Every entry point's source path has its record. *)
Definition srcPathsRegistered (st : State) : Prop :=
  forall k e, lookup k (entryPointsData st) = Some e ->
    In (EP.srcPath e) (getAllSrcPaths st).

(** * The utility functions below the class *)

(** [s.indexOf(c) !== -1] for a character [c] *)
Fixpoint contains (c : ascii) (s : string) : bool :=
  match s with
  | EmptyString => false
  | String a s' => Ascii.eqb a c || contains c s'
  end.

(** [s.replace(/[/.]/g, "-")] *)
Fixpoint replaceSlashDot (s : string) : string :=
  match s with
  | EmptyString => EmptyString
  | String a s' =>
      String
        (if Ascii.eqb a "/"%char || Ascii.eqb a "."%char then "-"%char else a)
        (replaceSlashDot s')
  end.

Section Paths.
(** [path.join] of Node, [paths.appBuildDir] of the CLI's configuration and
    the file system that [checkFileExists] probes are outside the file. *)
Variable path_join : list string -> string.
Variable appBuildDir : string.
Variable checkFileExists : string -> bool.

Definition getHandlerFilePath (appPath srcPath handler : string) : string :=
  let parts := splitDot handler EmptyString in
  let name := List.hd EmptyString parts in
  let tsFile := path_join [appPath; srcPath; (name ++ ".ts")%string] in
  if checkFileExists tsFile then tsFile
  else path_join [appPath; srcPath; (name ++ ".js")%string].

Definition getEsbuildMetafilePath (appPath srcPath handler : string)
    : string :=
  let key := replaceSlashDot (srcPath ++ "/" ++ handler)%string in
  let outSrcFullPath := path_join [appPath; srcPath; appBuildDir] in
  path_join [outSrcFullPath; (".esbuild." ++ key ++ ".json")%string].
End Paths.

(** The three fields of [package.json] that [getEsbuildExternal] reads; a
    field that is absent or falsy is [None], a present one is an object. *)
Record PackageJson := {
  dependencies : option (JsObject string);
  devDependencies : option (JsObject string);
  peerDependencies : option (JsObject string);
}.

(** [{ ...dst, ...src }]: the properties of [src] are assigned in order. *)
Definition spread (src dst : JsObject string) : JsObject string :=
  fold_left (fun o kv => assign (fst kv) (snd kv) o) src dst.

(** [o || {}] *)
Definition orEmpty (o : option (JsObject string)) : JsObject string :=
  match o with Some x => x | None => [] end.

(** [getEsbuildExternal]; [read] is what [fs.readJson] of the package file
    gives, [None] when it throws (as does the reading of a field of a file
    that holds [null]).  The warning goes to [logger.warn], which the state
    does not record. *)
Definition getEsbuildExternal (read : option PackageJson) : list string :=
  match read with
  | Some packageJson =>
      keys (spread (orEmpty (peerDependencies packageJson))
              (spread (orEmpty (devDependencies packageJson))
                 (spread (orEmpty (dependencies packageJson)) [])))
  | None => []
  end.

(** * Python entry points *)

(** Every key the index lists belongs to a Node entry point. *)
Definition indexNode (st : State) : Prop :=
  forall file ks k e,
    lookup file (watchedNodeFilesIndex st) = Some ks -> In k ks ->
    lookup k (entryPointsData st) = Some e ->
    isNodeRuntime (EP.runtime e) = true.

(** A Python entry point has no build in flight and no rebuild priority. *)
Definition pythonQuiet (st : State) : Prop :=
  forall k e, lookup k (entryPointsData st) = Some e ->
    isPythonRuntime (EP.runtime e) = true ->
    EP.buildPromise e = None /\ EP.needsReBuild e = OFF.

(** An update that keeps the runtime and, of a Python record, the build in
    flight and the rebuild priority. *)
Definition pyKeeps (e e' : EP.t) : Prop :=
  EP.runtime e' = EP.runtime e
  /\ (isPythonRuntime (EP.runtime e) = true ->
      EP.buildPromise e' = EP.buildPromise e
      /\ EP.needsReBuild e' = EP.needsReBuild e).

(** * Properties *)

Unset Implicit Arguments.

(** ** Objects *)

Section ObjectFacts.
Context {V : Type}.
Implicit Types (o : JsObject V) (k : string) (f : V -> V).

Lemma lookup_alter_same f k o :
  lookup k (alter f k o) = option_map f (lookup k o).
Proof.
  induction o as [|[k' v] o IH]; simpl; auto.
  destruct (String.eqb k k') eqn:E; simpl; rewrite E; auto.
Qed.

Lemma lookup_alter_other f k k' o :
  k <> k' -> lookup k' (alter f k o) = lookup k' o.
Proof.
  intros Hne. induction o as [|[k2 v] o IH]; simpl; auto.
  destruct (String.eqb k k2) eqn:E; simpl.
  - apply String.eqb_eq in E. subst k2.
    destruct (String.eqb k' k) eqn:E'; auto.
    apply String.eqb_eq in E'. congruence.
  - rewrite IH. reflexivity.
Qed.

Lemma keys_alter f k o : keys (alter f k o) = keys o.
Proof.
  unfold keys. induction o as [|[k' v] o IH]; simpl; auto.
  destruct (String.eqb k k'); simpl; [reflexivity|].
  rewrite IH. reflexivity.
Qed.

Lemma length_alter f k o : List.length (alter f k o) = List.length o.
Proof.
  induction o as [|[k' v] o IH]; simpl; auto.
  destruct (String.eqb k k'); simpl; auto.
Qed.

Lemma alter_absent f k o : lookup k o = None -> alter f k o = o.
Proof.
  induction o as [|[k' v] o IH]; simpl; auto.
  destruct (String.eqb k k'); [discriminate|].
  intros H. rewrite IH; auto.
Qed.

Lemma lookup_assign_same k v o : lookup k (assign k v o) = Some v.
Proof.
  induction o as [|[k' v'] o IH]; simpl.
  - rewrite String.eqb_refl. reflexivity.
  - destruct (String.eqb k k') eqn:E; simpl; rewrite E; auto.
Qed.

Lemma lookup_assign_other k k' v o :
  k <> k' -> lookup k' (assign k v o) = lookup k' o.
Proof.
  intros Hne. induction o as [|[k2 v2] o IH]; simpl.
  - destruct (String.eqb k' k) eqn:E; auto.
    apply String.eqb_eq in E. congruence.
  - destruct (String.eqb k k2) eqn:E; simpl.
    + apply String.eqb_eq in E. subst k2.
      destruct (String.eqb k' k) eqn:E'; auto.
      apply String.eqb_eq in E'. congruence.
    + rewrite IH. reflexivity.
Qed.

Lemma lookup_In k v o : lookup k o = Some v -> In (k, v) o.
Proof.
  induction o as [|[k' v'] o IH]; simpl; [discriminate|].
  destruct (String.eqb k k') eqn:E.
  - apply String.eqb_eq in E. intros H. inversion H. subst. auto.
  - auto.
Qed.

Lemma lookup_None_keys k o : lookup k o = None <-> ~ In k (keys o).
Proof.
  induction o as [|[k' v'] o IH]; simpl.
  - tauto.
  - destruct (String.eqb k k') eqn:E.
    + apply String.eqb_eq in E. subst. split; [discriminate|]. tauto.
    + apply String.eqb_neq in E. rewrite IH. unfold keys.
      split; intros H; [intros [H1|H1]; [congruence|tauto] | tauto].
Qed.

Lemma In_lookup_nodup k v o :
  NoDup (keys o) -> In (k, v) o -> lookup k o = Some v.
Proof.
  induction o as [|[k' v'] o IH]; simpl; [tauto|].
  intros Hnd [H|H].
  - inversion H. subst. rewrite String.eqb_refl. reflexivity.
  - inversion Hnd as [|? ? Hnot Hnd']. subst.
    destruct (String.eqb k k') eqn:E.
    + apply String.eqb_eq in E. subst. exfalso. apply Hnot.
      change (In (fst (k', v)) (map fst o)). apply in_map. exact H.
    + apply IH; assumption.
Qed.
End ObjectFacts.

(** ** The reconciliation pass as a sequence of steps *)

Lemma recheckStep_pass cfg (again : State -> State) :
  (forall s, pass cfg s (again s)) ->
  forall st srcPath, pass cfg st (recheckStep cfg again st srcPath).
Proof.
  intros Hagain st srcPath. unfold recheckStep.
  destruct (lookup srcPath (srcPathsData st)) as [d|] eqn:Hd; [|apply pass_refl].
  destruct (SP.needsReCheck d) eqn:Hn; [|apply pass_refl].
  pose proof (pass_check cfg st srcPath Hd Hn) as Hc. unfold checkedState in Hc.
  destruct (runLint cfg srcPath st) as [l st1]. simpl in Hc.
  destruct (runTypeCheck cfg srcPath st1) as [t st2]. simpl in Hc.
  eapply pass_trans; [exact Hc | apply Hagain].
Qed.

Lemma recheck_fold_pass cfg (again : State -> State) :
  (forall s, pass cfg s (again s)) ->
  forall ks st, pass cfg st (fold_left (recheckStep cfg again) ks st).
Proof.
  intros Hagain ks. induction ks as [|k ks IH]; intros st; simpl.
  - apply pass_refl.
  - eapply pass_trans; [apply recheckStep_pass; exact Hagain | apply IH].
Qed.

Lemma updateLambdaCodeStateFuel_pass cfg fuel :
  forall st, pass cfg st (updateLambdaCodeStateFuel cfg fuel st).
Proof.
  induction fuel as [|fuel IH]; intros st; simpl;
    set (st1 := dispatchBuilds cfg (updateLambdaCodeBusyStatus st));
    assert (H1 : pass cfg st st1)
      by (eapply pass_trans; [apply pass_busy | apply pass_dispatch]).
  - destruct (existsb _ _); [exact H1|].
    destruct (existsb _ _); [exact H1|].
    eapply pass_trans; [exact H1|].
    apply recheck_fold_pass. intros s. apply pass_refl.
  - destruct (existsb _ _); [exact H1|].
    destruct (existsb _ _); [exact H1|].
    eapply pass_trans; [exact H1|].
    apply recheck_fold_pass. exact IH.
Qed.

Lemma updateLambdaCodeState_pass cfg st :
  pass cfg st (updateLambdaCodeState cfg st).
Proof. apply updateLambdaCodeStateFuel_pass. Qed.

(** ** What [updateLambdaCodeState] gathers *)

Lemma gather_fold (vals : list EP.t) : forall g,
  fold_left gatherStep vals g =
  {| goEPsBuilding := goEPsBuilding g ++ filter isGoBuilding vals;
     goEPsNeedsRebuild :=
       rev (filter (isGoQueued HIGH) vals) ++ goEPsNeedsRebuild g
       ++ filter (isGoQueued LOW) vals;
     nodeEPsNeedsRebuild := nodeEPsNeedsRebuild g ++ filter isNodeDirty vals |}.
Proof.
  induction vals as [|e vals IH]; intros g.
  - simpl. rewrite !app_nil_r. destruct g; reflexivity.
  - simpl fold_left. rewrite IH. clear IH.
    unfold gatherStep, isGoBuilding, isGoQueued, isNodeDirty, priority_eqb.
    simpl filter.
    destruct (EP.runtime e), (EP.buildPromise e), (EP.needsReBuild e);
      simpl; rewrite <- ?app_assoc; simpl; reflexivity.
Qed.

Lemma gather_spec (eps : JsObject EP.t) :
  gather eps =
  {| goEPsBuilding := filter isGoBuilding (values eps);
     goEPsNeedsRebuild :=
       rev (filter (isGoQueued HIGH) (values eps))
       ++ filter (isGoQueued LOW) (values eps);
     nodeEPsNeedsRebuild := filter isNodeDirty (values eps) |}.
Proof. unfold gather. rewrite gather_fold. reflexivity. Qed.

(** ** Dispatching builds *)


Lemma dispatchBuilds_fold cfg st :
  dispatchBuilds cfg st = fold_left startReBuild (dispatchList cfg st) st.
Proof. unfold dispatchBuilds, dispatchList. rewrite fold_left_app. reflexivity. Qed.

Lemma epKey_started p e : epKey (EP.started p e) = epKey e.
Proof. reflexivity. Qed.

(** The fields other than [entryPointsData] and the handle counter are left
    alone by a dispatch. *)
Lemma fold_startReBuild_frame (l : list EP.t) : forall st,
  let st' := fold_left startReBuild l st in
  srcPathsData st' = srcPathsData st
  /\ watchedNodeFilesIndex st' = watchedNodeFilesIndex st
  /\ watcher st' = watcher st
  /\ unwatching st' = unwatching st
  /\ logged st' = logged st
  /\ isProcessingLambdaChanges st' = isProcessingLambdaChanges st
  /\ nextHandle st' = nextHandle st + List.length l.
Proof.
  induction l as [|e l IH]; intros st; simpl.
  - repeat split; lia.
  - destruct (IH (startReBuild st e)) as (H1 & H2 & H3 & H4 & H5 & H6 & H7).
    simpl in *. rewrite H1, H2, H3, H4, H5, H6, H7. repeat split; lia.
Qed.

Lemma fold_startReBuild_lookup (l : list EP.t) : forall st,
  (forall e, In e l -> lookup (epKey e) (entryPointsData st) = Some e) ->
  NoDup (map epKey l) ->
  let st' := fold_left startReBuild l st in
  keys (entryPointsData st') = keys (entryPointsData st)
  /\ forall k e, lookup k (entryPointsData st) = Some e ->
       exists e', lookup k (entryPointsData st') = Some e'
         /\ ((e' = e /\ ~ In k (map epKey l))
             \/ (In e l /\ exists p, nextHandle st <= p < nextHandle st'
                                     /\ e' = EP.started p e)).
Proof.
  induction l as [|e0 l IH]; intros st Hin Hnd; simpl.
  - split; [reflexivity|]. intros k e Hk. exists e. tauto.
  - inversion Hnd as [|? ? Hnot Hnd']. subst.
    assert (Hin1 : forall e, In e l ->
              lookup (epKey e) (entryPointsData (startReBuild st e0)) = Some e).
    { intros e He. simpl. unfold buildEntryPointKey.
      rewrite lookup_alter_other; [apply Hin; simpl; auto|].
      intros Heq. apply Hnot. unfold epKey, buildEntryPointKey.
      rewrite Heq. apply in_map with (f := epKey) in He. exact He. }
    destruct (IH (startReBuild st e0) Hin1 Hnd') as [Hkeys Hlook].
    split.
    + rewrite Hkeys. simpl. apply keys_alter.
    + intros k e Hk.
      pose proof (fold_startReBuild_frame l (startReBuild st e0)) as Hfr.
      simpl in Hfr. destruct Hfr as (_ & _ & _ & _ & _ & _ & Hh).
      destruct (string_dec (epKey e0) k) as [Heq|Hne].
      * subst k. assert (e = e0).
        { rewrite Hin in Hk by (simpl; auto). congruence. }
        subst e.
        destruct (Hlook (epKey e0) (EP.started (nextHandle st) e0))
          as (e' & He' & Hcase).
        { simpl.
          change (buildEntryPointKey (EP.srcPath e0) (EP.handler e0))
            with (epKey e0).
          rewrite lookup_alter_same, Hk. reflexivity. }
        exists e'. split; [exact He'|]. right. split; [simpl; auto|].
        destruct Hcase as [[-> _]|[Hbad _]].
        -- exists (nextHandle st). split; [|reflexivity]. lia.
        -- exfalso. apply Hnot. apply in_map with (f := epKey) in Hbad.
           exact Hbad.
      * destruct (Hlook k e) as (e' & He' & Hcase).
        { simpl. unfold buildEntryPointKey.
          rewrite lookup_alter_other; [exact Hk | exact Hne]. }
        exists e'. split; [exact He'|].
        destruct Hcase as [[-> Hni]|[Hi (p & Hp & ->)]].
        -- left. split; [reflexivity|]. simpl. tauto.
        -- right. split; [simpl; auto|]. exists p. simpl in Hp.
           split; [lia | reflexivity].
Qed.

Lemma In_firstn {A : Type} (n : nat) (l : list A) (x : A) :
  In x (firstn n l) -> In x l.
Proof.
  revert n. induction l as [|y l IH]; intros [|n]; simpl; try tauto.
  intros [H|H]; [auto | right; eapply IH; exact H].
Qed.

Lemma NoDup_firstn {A : Type} (n : nat) (l : list A) :
  NoDup l -> NoDup (firstn n l).
Proof.
  revert n. induction l as [|x l IH]; intros [|n] H; simpl; try constructor.
  - inversion H; subst. intros Hin. apply In_firstn in Hin. tauto.
  - inversion H; subst. apply IH. assumption.
Qed.

Lemma In_slice0 {A : Type} (r : Z) (l : list A) (x : A) :
  In x (slice0 r l) -> In x l.
Proof. unfold slice0. destruct (r <? 0)%Z; apply In_firstn. Qed.

Lemma NoDup_slice0 {A : Type} (r : Z) (l : list A) :
  NoDup l -> NoDup (slice0 r l).
Proof. unfold slice0. destruct (r <? 0)%Z; apply NoDup_firstn. Qed.

Lemma map_injective_on {A B : Type} (f : A -> B) (l : list A) :
  NoDup (map f l) ->
  forall x y, In x l -> In y l -> f x = f y -> x = y.
Proof.
  induction l as [|a l IH]; simpl; [tauto|].
  intros Hnd x y Hx Hy Hf. inversion Hnd as [|? ? Hnot Hnd']. subst.
  destruct Hx as [->|Hx], Hy as [->|Hy]; auto.
  - exfalso. apply Hnot. rewrite Hf. apply in_map. exact Hy.
  - exfalso. apply Hnot. rewrite <- Hf. apply in_map. exact Hx.
Qed.

Lemma NoDup_map_sub {A B : Type} (f : A -> B) (vals l : list A) :
  NoDup (map f vals) -> NoDup l -> incl l vals -> NoDup (map f l).
Proof.
  intros Hv. induction l as [|x l IH]; intros Hl Hincl; simpl; constructor.
  - inversion Hl as [|? ? Hnot Hl']. subst. intros Hin.
    apply in_map_iff in Hin. destruct Hin as (y & Hf & Hy).
    assert (y = x).
    { apply (map_injective_on f vals Hv); auto.
      - apply Hincl. right. exact Hy.
      - apply Hincl. left. reflexivity. }
    subst y. contradiction.
  - inversion Hl; subst. apply IH; auto.
    intros y Hy. apply Hincl. right. exact Hy.
Qed.

(** *** Well-keyed registries *)

Lemma wf_keys_values st :
  keys_wf st -> map epKey (values (entryPointsData st)) = keys (entryPointsData st).
Proof.
  intros [_ Hall]. unfold keys, values.
  induction Hall as [|[k e] l Hk Hall IH]; simpl; [reflexivity|].
  simpl in Hk. rewrite IH, Hk. reflexivity.
Qed.

Lemma wf_values_lookup st e :
  keys_wf st -> In e (values (entryPointsData st)) ->
  lookup (epKey e) (entryPointsData st) = Some e.
Proof.
  intros Hwf Hin. pose proof Hwf as [Hnd Hall].
  unfold values in Hin. apply in_map_iff in Hin.
  destruct Hin as ([k e'] & He & Hin). simpl in He. subst e'.
  rewrite Forall_forall in Hall. pose proof (Hall _ Hin) as Hk. simpl in Hk.
  rewrite <- Hk. apply In_lookup_nodup; assumption.
Qed.

Lemma wf_lookup_key st k e :
  keys_wf st -> lookup k (entryPointsData st) = Some e -> k = epKey e.
Proof.
  intros [_ Hall] Hk. apply lookup_In in Hk.
  rewrite Forall_forall in Hall. apply (Hall _ Hk).
Qed.

Lemma lookup_values {V : Type} k (v : V) (o : JsObject V) :
  lookup k o = Some v -> In v (values o).
Proof.
  intros H. apply lookup_In in H. unfold values.
  change v with (snd (k, v)). apply in_map. exact H.
Qed.

Lemma dispatchList_sound cfg st e :
  keys_wf st -> In e (dispatchList cfg st) ->
  lookup (epKey e) (entryPointsData st) = Some e
  /\ EP.buildPromise e = None /\ truthy (EP.needsReBuild e) = true
  /\ (isNodeRuntime (EP.runtime e) = true \/ isGoRuntime (EP.runtime e) = true).
Proof.
  intros Hwf Hin. unfold dispatchList in Hin. rewrite gather_spec in Hin.
  simpl in Hin. apply in_app_or in Hin.
  assert (Hq : forall p, In e (filter (isGoQueued p) (values (entryPointsData st))) ->
            p <> OFF ->
            In e (values (entryPointsData st)) /\ EP.buildPromise e = None
            /\ truthy (EP.needsReBuild e) = true
            /\ isGoRuntime (EP.runtime e) = true).
  { intros p Hp Hoff. apply filter_In in Hp. destruct Hp as [Hv Hp].
    unfold isGoQueued, priority_eqb in Hp.
    destruct (EP.runtime e), (EP.buildPromise e), (EP.needsReBuild e), p;
      simpl in Hp; try discriminate; try congruence; auto. }
  assert (H : In e (values (entryPointsData st)) /\ EP.buildPromise e = None
              /\ truthy (EP.needsReBuild e) = true
              /\ (isNodeRuntime (EP.runtime e) = true
                  \/ isGoRuntime (EP.runtime e) = true)).
  { destruct Hin as [Hn|Hg].
    - apply filter_In in Hn. destruct Hn as [Hv Hn]. unfold isNodeDirty in Hn.
      destruct (EP.runtime e), (EP.buildPromise e); simpl in Hn;
        try discriminate; auto.
    - apply In_slice0 in Hg. apply in_app_or in Hg. destruct Hg as [Hg|Hg].
      + apply in_rev in Hg. destruct (Hq HIGH Hg) as (?&?&?&?); [discriminate|].
        auto.
      + destruct (Hq LOW Hg) as (?&?&?&?); [discriminate|]. auto. }
  destruct H as (Hv & Hb & Ht & Hr).
  split; [apply wf_values_lookup; assumption|]. auto.
Qed.

Lemma eps_wf_alter (f : EP.t -> EP.t) k eps :
  (forall e, epKey (f e) = epKey e) ->
  eps_wf eps -> eps_wf (alter f k eps).
Proof.
  intros Hf [Hnd Hall]. split; [rewrite keys_alter; exact Hnd|].
  clear Hnd. induction Hall as [|[k' e] l Hk Hall IH]; simpl; [constructor|].
  destruct (String.eqb k k'); constructor; simpl in *; auto.
  rewrite Hf. exact Hk.
Qed.

Lemma keys_assign_present {V : Type} k (v : V) (o : JsObject V) :
  In k (keys o) -> keys (assign k v o) = keys o.
Proof.
  unfold keys. induction o as [|[k' v'] o IH]; simpl; [tauto|].
  destruct (String.eqb k k') eqn:E; simpl; [reflexivity|].
  intros [H|H]; [apply String.eqb_neq in E; congruence|].
  rewrite IH; auto.
Qed.

Lemma keys_assign_absent {V : Type} k (v : V) (o : JsObject V) :
  ~ In k (keys o) -> keys (assign k v o) = keys o ++ [k].
Proof.
  unfold keys. induction o as [|[k' v'] o IH]; simpl; [reflexivity|].
  destruct (String.eqb k k') eqn:E; simpl.
  - apply String.eqb_eq in E. subst. tauto.
  - intros H. rewrite IH; auto.
Qed.

Lemma Forall_assign {V : Type} (P : string * V -> Prop) k (v : V) (o : JsObject V) :
  P (k, v) -> Forall P o -> Forall P (assign k v o).
Proof.
  intros Hp Hall. induction Hall as [|[k' v'] l Hk Hall IH]; simpl.
  - constructor; auto.
  - destruct (String.eqb k k') eqn:E; constructor; auto.
    apply String.eqb_eq in E. subst. exact Hp.
Qed.

Lemma NoDup_keys_assign {V : Type} k (v : V) (o : JsObject V) :
  NoDup (keys o) -> NoDup (keys (assign k v o)).
Proof.
  intros Hnd. destruct (in_dec string_dec k (keys o)) as [Hin|Hni].
  - rewrite keys_assign_present; assumption.
  - rewrite keys_assign_absent by assumption.
    apply NoDup_app; [assumption | repeat constructor; simpl; tauto |].
    intros a Ha [<-|[]]. contradiction.
Qed.

Lemma eps_wf_assign k e eps :
  k = epKey e -> eps_wf eps -> eps_wf (assign k e eps).
Proof.
  intros Hk [Hnd Hall]. split; [apply NoDup_keys_assign; exact Hnd|].
  apply Forall_assign; auto.
Qed.

Lemma dispatchList_nodup cfg st :
  keys_wf st -> NoDup (map epKey (dispatchList cfg st)).
Proof.
  intros Hwf. pose proof (wf_keys_values st Hwf) as Hkv. pose proof Hwf as [Hnd _].
  rewrite <- Hkv in Hnd.
  apply NoDup_map_sub with (vals := values (entryPointsData st)); auto.
  - apply NoDup_map_inv in Hnd. unfold dispatchList. rewrite gather_spec. simpl.
    apply NoDup_app.
    + apply NoDup_filter. exact Hnd.
    + apply NoDup_slice0. apply NoDup_app.
      * apply NoDup_rev. apply NoDup_filter. exact Hnd.
      * apply NoDup_filter. exact Hnd.
      * intros a Ha Hb. apply in_rev in Ha. apply filter_In in Ha, Hb.
        destruct Ha as [_ Ha], Hb as [_ Hb].
        unfold isGoQueued, priority_eqb in *.
        destruct (EP.needsReBuild a); simpl in *;
          rewrite ?andb_false_r in *; discriminate.
    + intros a Ha Hb. apply In_slice0 in Hb. apply filter_In in Ha.
      destruct Ha as [_ Ha]. unfold isNodeDirty in Ha.
      apply in_app_or in Hb. destruct Hb as [Hb|Hb];
        [apply in_rev in Hb|]; apply filter_In in Hb; destruct Hb as [_ Hb];
        unfold isGoQueued in Hb; destruct (EP.runtime a); simpl in *;
        discriminate.
  - intros a Ha. unfold dispatchList in Ha. rewrite gather_spec in Ha.
    simpl in Ha. apply in_app_or in Ha. destruct Ha as [Ha|Ha].
    + apply filter_In in Ha. tauto.
    + apply In_slice0 in Ha. apply in_app_or in Ha. destruct Ha as [Ha|Ha];
        [apply in_rev in Ha|]; apply filter_In in Ha; tauto.
Qed.

(** ** What the steps of a pass leave alone *)

Ltac crush_frame :=
  repeat match goal with
         | |- context [if ?b then _ else _] => destruct b
         | |- context [match ?x with _ => _ end] => destruct x
         end; simpl; try reflexivity; auto.

Lemma busy_entryPointsData st :
  entryPointsData (updateLambdaCodeBusyStatus st) = entryPointsData st.
Proof. unfold updateLambdaCodeBusyStatus. crush_frame. Qed.

Lemma busy_srcPathsData st :
  srcPathsData (updateLambdaCodeBusyStatus st) = srcPathsData st.
Proof. unfold updateLambdaCodeBusyStatus. crush_frame. Qed.

Lemma busy_rest st :
  watchedNodeFilesIndex (updateLambdaCodeBusyStatus st) = watchedNodeFilesIndex st
  /\ watcher (updateLambdaCodeBusyStatus st) = watcher st
  /\ unwatching (updateLambdaCodeBusyStatus st) = unwatching st
  /\ nextHandle (updateLambdaCodeBusyStatus st) = nextHandle st.
Proof. unfold updateLambdaCodeBusyStatus. crush_frame. Qed.

Lemma runLint_frame cfg s st :
  let st' := snd (runLint cfg s st) in
  entryPointsData st' = entryPointsData st
  /\ srcPathsData st' = srcPathsData st
  /\ watchedNodeFilesIndex st' = watchedNodeFilesIndex st
  /\ watcher st' = watcher st
  /\ unwatching st' = unwatching st
  /\ logged st' = logged st
  /\ isProcessingLambdaChanges st' = isProcessingLambdaChanges st
  /\ nextHandle st <= nextHandle st'.
Proof. unfold runLint. crush_frame; repeat split; auto. Qed.

Lemma runTypeCheck_frame cfg s st :
  let st' := snd (runTypeCheck cfg s st) in
  entryPointsData st' = entryPointsData st
  /\ srcPathsData st' = srcPathsData st
  /\ watchedNodeFilesIndex st' = watchedNodeFilesIndex st
  /\ watcher st' = watcher st
  /\ unwatching st' = unwatching st
  /\ filter isBusyLine (logged st') = filter isBusyLine (logged st)
  /\ isProcessingLambdaChanges st' = isProcessingLambdaChanges st
  /\ nextHandle st <= nextHandle st'.
Proof.
  unfold runTypeCheck. crush_frame; repeat split; auto.
  rewrite filter_app. simpl. apply app_nil_r.
Qed.

Lemma checkedState_frame cfg s st :
  let st' := checkedState cfg s st in
  entryPointsData st' = entryPointsData st
  /\ watchedNodeFilesIndex st' = watchedNodeFilesIndex st
  /\ watcher st' = watcher st
  /\ unwatching st' = unwatching st
  /\ filter isBusyLine (logged st') = filter isBusyLine (logged st)
  /\ isProcessingLambdaChanges st' = isProcessingLambdaChanges st
  /\ nextHandle st <= nextHandle st'
  /\ exists l t,
       srcPathsData st' = alter (SP.checking l t) s (srcPathsData st).
Proof.
  unfold checkedState, checkStarted. simpl.
  destruct (runLint_frame cfg s st) as (A1 & A2 & A3 & A4 & A5 & A6 & A7 & A8).
  destruct (runTypeCheck_frame cfg s (snd (runLint cfg s st)))
    as (B1 & B2 & B3 & B4 & B5 & B6 & B7 & B8).
  simpl in *. rewrite B1, B3, B4, B5, B6, B7, A1, A3, A4, A5, A6, A7, B2, A2.
  repeat split; try lia. eauto.
Qed.

(** ** What a pass does to the entry points *)

Lemma ep_dispatch_trans e1 e2 e3 :
  ep_dispatch e1 e2 -> ep_dispatch e2 e3 -> ep_dispatch e1 e3.
Proof.
  intros [->|(Hb & Ht & p & ->)] H23; [exact H23|].
  destruct H23 as [->|(Hb' & _)].
  - right. eauto.
  - simpl in Hb'. discriminate.
Qed.

Lemma eps_dispatch_refl eps : eps_dispatch eps eps.
Proof. split; [reflexivity|]. intros k e H. exists e. split; [exact H|left; reflexivity]. Qed.

Lemma eps_dispatch_trans a b c :
  eps_dispatch a b -> eps_dispatch b c -> eps_dispatch a c.
Proof.
  intros [K1 L1] [K2 L2]. split; [congruence|].
  intros k e H. destruct (L1 k e H) as (e' & H' & D1).
  destruct (L2 k e' H') as (e'' & H'' & D2).
  exists e''. split; [exact H''|]. eapply ep_dispatch_trans; eassumption.
Qed.

Lemma fold_startReBuild_wf (l : list EP.t) : forall st,
  keys_wf st -> keys_wf (fold_left startReBuild l st).
Proof.
  induction l as [|e l IH]; intros st H; simpl; [exact H|].
  apply IH. unfold keys_wf. simpl. apply eps_wf_alter; [reflexivity | exact H].
Qed.

(** A dispatch starts exactly the builds of [dispatchList], each with a new
    handle, and changes no other record. *)
Lemma dispatchBuilds_spec cfg st :
  keys_wf st ->
  let st' := dispatchBuilds cfg st in
  keys_wf st'
  /\ keys (entryPointsData st') = keys (entryPointsData st)
  /\ forall k e, lookup k (entryPointsData st) = Some e ->
       exists e', lookup k (entryPointsData st') = Some e'
         /\ ((e' = e /\ ~ In e (dispatchList cfg st))
             \/ (In e (dispatchList cfg st)
                 /\ exists p, nextHandle st <= p < nextHandle st'
                              /\ e' = EP.started p e)).
Proof.
  intros Hwf. simpl. rewrite dispatchBuilds_fold.
  split; [apply fold_startReBuild_wf; exact Hwf|].
  destruct (fold_startReBuild_lookup (dispatchList cfg st) st) as [Hk Hl].
  - intros e He. apply (dispatchList_sound cfg st e Hwf He).
  - apply dispatchList_nodup. exact Hwf.
  - split; [exact Hk|]. intros k e Hke.
    destruct (Hl k e Hke) as (e' & He' & Hcase). exists e'.
    split; [exact He'|]. destruct Hcase as [[-> Hni]|Hin]; [left|right; exact Hin].
    split; [reflexivity|]. intros Hin. apply Hni.
    rewrite (wf_lookup_key st k e Hwf Hke). apply in_map. exact Hin.
Qed.

Lemma dispatchBuilds_eps cfg st :
  keys_wf st ->
  eps_dispatch (entryPointsData st) (entryPointsData (dispatchBuilds cfg st)).
Proof.
  intros Hwf. destruct (dispatchBuilds_spec cfg st Hwf) as (_ & Hk & Hl).
  split; [exact Hk|]. intros k e Hke.
  destruct (Hl k e Hke) as (e' & He' & Hcase). exists e'. split; [exact He'|].
  destruct Hcase as [[-> _]|[Hin (p & _ & ->)]]; [left; reflexivity|].
  destruct (dispatchList_sound cfg st e Hwf Hin) as (_ & Hb & Ht & _).
  right. eauto.
Qed.

Lemma pass_eps cfg st st' :
  pass cfg st st' ->
  keys_wf st ->
  keys_wf st' /\ eps_dispatch (entryPointsData st) (entryPointsData st').
Proof.
  induction 1 as [st|st1 st2 st3 _ IH1 _ IH2|st|st|st s d Hd Hn]; intros Hwf.
  - split; [exact Hwf | apply eps_dispatch_refl].
  - destruct (IH1 Hwf) as [W1 D1]. destruct (IH2 W1) as [W2 D2].
    split; [exact W2 | eapply eps_dispatch_trans; eassumption].
  - unfold keys_wf. rewrite busy_entryPointsData.
    split; [exact Hwf | apply eps_dispatch_refl].
  - split; [apply (dispatchBuilds_spec cfg st Hwf) | apply dispatchBuilds_eps; exact Hwf].
  - destruct (checkedState_frame cfg s st) as (E & _).
    unfold keys_wf. rewrite E. split; [exact Hwf | apply eps_dispatch_refl].
Qed.

(** ** Counting through an update *)

Lemma count_alter {V : Type} (p : V -> bool) (f : V -> V) k (o : JsObject V) v :
  lookup k o = Some v ->
  List.length (filter p (values (alter f k o))) + (if p v then 1 else 0)
  = List.length (filter p (values o)) + (if p (f v) then 1 else 0).
Proof.
  unfold values. induction o as [|[k' v'] o IH]; simpl; [discriminate|].
  destruct (String.eqb k k') eqn:E; simpl.
  - intros H. inversion H. subst v'.
    destruct (p v), (p (f v)); simpl; lia.
  - intros H. specialize (IH H). destruct (p v'); simpl; lia.
Qed.

Lemma count_alter_same {V : Type} (p : V -> bool) (f : V -> V) k (o : JsObject V) :
  (forall v, p (f v) = p v) ->
  List.length (filter p (values (alter f k o))) = List.length (filter p (values o)).
Proof.
  intros Hp.
  unfold values. induction o as [|[k' v'] o IH]; simpl; [reflexivity|].
  destruct (String.eqb k k') eqn:E; simpl.
  - rewrite Hp. destruct (p v'); reflexivity.
  - destruct (p v'); simpl; rewrite IH; reflexivity.
Qed.

Lemma existsb_alter {V : Type} (p : V -> bool) (f : V -> V) k (o : JsObject V) :
  (forall v, p (f v) = p v) ->
  existsb p (values (alter f k o)) = existsb p (values o).
Proof.
  intros Hp. unfold values. induction o as [|[k' v'] o IH]; simpl; [reflexivity|].
  destruct (String.eqb k k') eqn:E; simpl.
  - rewrite Hp. reflexivity.
  - rewrite IH. reflexivity.
Qed.

(** ** What a pass leaves alone *)

Lemma dispatchBuilds_frame cfg st :
  let st' := dispatchBuilds cfg st in
  srcPathsData st' = srcPathsData st
  /\ watchedNodeFilesIndex st' = watchedNodeFilesIndex st
  /\ watcher st' = watcher st
  /\ unwatching st' = unwatching st
  /\ logged st' = logged st
  /\ isProcessingLambdaChanges st' = isProcessingLambdaChanges st
  /\ nextHandle st <= nextHandle st'.
Proof.
  simpl. rewrite dispatchBuilds_fold.
  destruct (fold_startReBuild_frame (dispatchList cfg st) st)
    as (H1 & H2 & H3 & H4 & H5 & H6 & H7).
  repeat split; auto. lia.
Qed.

Lemma pass_frame cfg st st' :
  pass cfg st st' ->
  watchedNodeFilesIndex st' = watchedNodeFilesIndex st
  /\ watcher st' = watcher st
  /\ unwatching st' = unwatching st
  /\ keys (srcPathsData st') = keys (srcPathsData st)
  /\ needsReCheckCount st' <= needsReCheckCount st
  /\ nextHandle st <= nextHandle st'.
Proof.
  induction 1 as [st|st1 st2 st3 _ IH1 _ IH2|st|st|st s d Hd Hn].
  - repeat split; auto.
  - destruct IH1 as (A1 & A2 & A3 & A4 & A5 & A6).
    destruct IH2 as (B1 & B2 & B3 & B4 & B5 & B6).
    repeat split; try congruence; lia.
  - destruct (busy_rest st) as (A1 & A2 & A3 & A4).
    unfold needsReCheckCount. rewrite busy_srcPathsData.
    repeat split; auto. lia.
  - destruct (dispatchBuilds_frame cfg st) as (A1 & A2 & A3 & A4 & A5 & A6 & A7).
    unfold needsReCheckCount. rewrite A1. repeat split; auto.
  - destruct (checkedState_frame cfg s st)
      as (_ & A2 & A3 & A4 & _ & _ & A7 & l & t & A8).
    unfold needsReCheckCount. rewrite A8, keys_alter.
    repeat split; auto.
    pose proof (count_alter SP.needsReCheck (SP.checking l t) s
                  (srcPathsData st) d Hd) as Hc.
    rewrite Hn in Hc. simpl in Hc. lia.
Qed.

(** ** The Go concurrency cap *)


Lemma fold_startReBuild_goCount (l : list EP.t) : forall st,
  (forall e, In e l ->
     lookup (epKey e) (entryPointsData st) = Some e /\ EP.buildPromise e = None) ->
  NoDup (map epKey l) ->
  goBuildsInFlight (fold_left startReBuild l st)
  = goBuildsInFlight st + List.length (filter isGoEP l).
Proof.
  induction l as [|e0 l IH]; intros st Hin Hnd; simpl; [lia|].
  inversion Hnd as [|? ? Hnot Hnd']. subst.
  destruct (Hin e0 (or_introl eq_refl)) as [H0 Hb0].
  rewrite IH; [|intros e He | exact Hnd'].
  - unfold goBuildsInFlight at 1. simpl.
    pose proof (count_alter isGoBuilding (EP.started (nextHandle st)) (epKey e0)
                  (entryPointsData st) e0 H0) as Hc.
    unfold epKey in Hc. unfold goBuildsInFlight.
    assert (E1 : isGoBuilding e0 = false)
      by (unfold isGoBuilding; rewrite Hb0; apply andb_false_r).
    assert (E2 : isGoBuilding (EP.started (nextHandle st) e0) = isGoEP e0)
      by (unfold isGoBuilding, isGoEP; simpl; apply andb_true_r).
    rewrite E1, E2 in Hc.
    destruct (isGoEP e0); simpl; lia.
  - destruct (Hin e (or_intror He)) as [H1 H2]. split; [|exact H2].
    simpl. unfold buildEntryPointKey. rewrite lookup_alter_other; [exact H1|].
    intros Heq. apply Hnot. unfold epKey, buildEntryPointKey. rewrite Heq.
    apply (in_map epKey) in He. exact He.
Qed.

Lemma length_slice0_le {A : Type} (r : Z) (l : list A) :
  (0 <= r)%Z -> List.length (slice0 r l) <= Z.to_nat r.
Proof.
  intros Hr. unfold slice0. destruct (r <? 0)%Z eqn:E; [lia|].
  rewrite length_firstn. lia.
Qed.

Lemma filter_none {A : Type} (p : A -> bool) (l : list A) :
  (forall x, In x l -> p x = false) -> filter p l = [].
Proof.
  induction l as [|x l IH]; intros H; simpl; [reflexivity|].
  rewrite (H x (or_introl eq_refl)). apply IH. intros y Hy. apply H. right. exact Hy.
Qed.

Lemma dispatchList_goCount cfg st :
  goBuildsInFlight st <= BUILDER_CONCURRENCY cfg ->
  goBuildsInFlight st + List.length (filter isGoEP (dispatchList cfg st))
  <= BUILDER_CONCURRENCY cfg.
Proof.
  intros Hle. unfold dispatchList. rewrite gather_spec. simpl.
  rewrite filter_app, length_app.
  rewrite (filter_none isGoEP (filter isNodeDirty _)).
  2:{ intros x Hx. apply filter_In in Hx. destruct Hx as [_ Hx].
      unfold isNodeDirty in Hx. unfold isGoEP.
      destruct (EP.runtime x); simpl in *; auto; discriminate. }
  simpl. unfold concurrencyRemaining. simpl.
  fold (goBuildsInFlight st).
  set (q := rev _ ++ _).
  pose proof (filter_length_le isGoEP
                (slice0 (Z.of_nat (BUILDER_CONCURRENCY cfg)
                         - Z.of_nat (goBuildsInFlight st)) q)) as H1.
  pose proof (length_slice0_le
                (Z.of_nat (BUILDER_CONCURRENCY cfg)
                 - Z.of_nat (goBuildsInFlight st))%Z q) as H2.
  lia.
Qed.

Lemma dispatchBuilds_goCount cfg st :
  keys_wf st ->
  goBuildsInFlight st <= BUILDER_CONCURRENCY cfg ->
  goBuildsInFlight (dispatchBuilds cfg st) <= BUILDER_CONCURRENCY cfg.
Proof.
  intros Hwf Hle. rewrite dispatchBuilds_fold.
  rewrite fold_startReBuild_goCount.
  - apply dispatchList_goCount. exact Hle.
  - intros e He. destruct (dispatchList_sound cfg st e Hwf He) as (H1 & H2 & _).
    split; assumption.
  - apply dispatchList_nodup. exact Hwf.
Qed.

Lemma pass_goCount cfg st st' :
  pass cfg st st' ->
  keys_wf st ->
  goBuildsInFlight st <= BUILDER_CONCURRENCY cfg ->
  goBuildsInFlight st' <= BUILDER_CONCURRENCY cfg.
Proof.
  induction 1 as [st|st1 st2 st3 H12 IH1 _ IH2|st|st|st s d Hd Hn];
    intros Hwf Hle.
  - exact Hle.
  - apply IH2; [apply (pass_eps cfg st1 st2 H12 Hwf) | apply IH1; assumption].
  - unfold goBuildsInFlight. rewrite busy_entryPointsData. exact Hle.
  - apply dispatchBuilds_goCount; assumption.
  - destruct (checkedState_frame cfg s st) as (E & _).
    unfold goBuildsInFlight. rewrite E. exact Hle.
Qed.

(** ** The busy status *)

Lemma busyAfter_app l1 l2 : forall b,
  busyAfter b (l1 ++ l2) =
  match busyAfter b l1 with
  | Some b' => busyAfter b' l2
  | None => None
  end.
Proof.
  induction l1 as [|x l1 IH]; intros b; simpl; [reflexivity|].
  destruct b; [destruct (lineEqb x msgDone || lineEqb x msgFailed)
              | destruct (lineEqb x msgRebuilding)]; auto.
Qed.

(** One call logs nothing unless it flips the status, and then exactly the
    message of that edge. *)
Lemma busy_edge st :
  exists ls,
    logged (updateLambdaCodeBusyStatus st) = logged st ++ ls
    /\ edgeLines (isProcessingLambdaChanges st)
         (isProcessingLambdaChanges (updateLambdaCodeBusyStatus st)) ls.
Proof.
  unfold updateLambdaCodeBusyStatus.
  destruct (isProcessingLambdaChanges st) eqn:Hb; simpl.
  - destruct (existsb _ _); [exists []; rewrite app_nil_r, Hb; simpl; auto|].
    destruct (existsb _ _); [exists [msgFailed]; simpl; auto|].
    destruct (existsb _ _); [exists []; rewrite app_nil_r, Hb; simpl; auto|].
    exists [msgDone]; simpl; auto.
  - destruct (existsb _ _); simpl.
    + exists [msgRebuilding]; simpl; auto.
    + exists []. rewrite app_nil_r, Hb. simpl. auto.
Qed.

Lemma busy_inv_step st : busy_inv st -> busy_inv (updateLambdaCodeBusyStatus st).
Proof.
  unfold busy_inv, busyLines. intros H.
  destruct (busy_edge st) as (ls & Hl & He). rewrite Hl, filter_app, busyAfter_app, H.
  destruct (isProcessingLambdaChanges st),
    (isProcessingLambdaChanges (updateLambdaCodeBusyStatus st));
    simpl in He; try destruct He as [He|He]; subst ls; reflexivity.
Qed.

Lemma busy_inv_same st st' :
  filter isBusyLine (logged st') = filter isBusyLine (logged st) ->
  isProcessingLambdaChanges st' = isProcessingLambdaChanges st ->
  busy_inv st -> busy_inv st'.
Proof. unfold busy_inv, busyLines. intros -> ->. auto. Qed.

Lemma pass_busy_inv cfg st st' : pass cfg st st' -> busy_inv st -> busy_inv st'.
Proof.
  induction 1 as [st|st1 st2 st3 _ IH1 _ IH2|st|st|st s d Hd Hn]; intros Hb; auto.
  - apply busy_inv_step. exact Hb.
  - destruct (dispatchBuilds_frame cfg st) as (_ & _ & _ & _ & A5 & A6 & _).
    apply (busy_inv_same st); [rewrite A5; reflexivity | exact A6 | exact Hb].
  - destruct (checkedState_frame cfg s st) as (_ & _ & _ & _ & A5 & A6 & _).
    apply (busy_inv_same st); assumption.
Qed.

(** ** The invariant through the building blocks *)

Ltac split_inv := unfold Inv; split; [|split; [|split; [|split]]].

Lemma wait_ok_weaken skip st : wait_ok None st -> wait_ok skip st.
Proof. intros H k e _ Hk. apply (H k e); [discriminate | exact Hk]. Qed.

Lemma Inv_weaken cfg skip st : Inv cfg None st -> Inv cfg skip st.
Proof.
  intros (A & B & C & D & E). split_inv; auto.
  apply wait_ok_weaken. exact D.
Qed.

Lemma hasPending_started p e : hasPending (EP.started p e) = hasPending e.
Proof. reflexivity. Qed.

Lemma calm_dispatch u k e e' : ep_dispatch e e' -> calm u k e -> calm u k e'.
Proof.
  intros [->|(_ & _ & p & ->)] H; [exact H|]. intros _. reflexivity.
Qed.

Lemma eps_dispatch_back eps eps' k e' :
  eps_dispatch eps eps' -> lookup k eps' = Some e' ->
  exists e, lookup k eps = Some e /\ ep_dispatch e e'.
Proof.
  intros [Hk Hl] He'. destruct (lookup k eps) as [e|] eqn:He.
  - destruct (Hl k e He) as (e2 & He2 & Hd). exists e. split; [reflexivity|].
    rewrite He' in He2. inversion He2. subst. exact Hd.
  - exfalso. apply lookup_None_keys in He. rewrite <- Hk in He.
    apply lookup_None_keys in He. congruence.
Qed.

Lemma Inv_pass cfg skip st st' :
  pass cfg st st' -> Inv cfg skip st -> Inv cfg skip st'.
Proof.
  intros Hp (A & B & C & D & E).
  destruct (pass_eps cfg st st' Hp A) as [A' Hd].
  destruct (pass_frame cfg st st' Hp) as (_ & _ & Hu & _).
  split_inv.
  - exact A'.
  - apply (pass_goCount cfg st st' Hp A B).
  - apply (pass_busy_inv cfg st st' Hp C).
  - intros k e' Hs Hk. rewrite Hu.
    destruct (eps_dispatch_back _ _ k e' Hd Hk) as (e & He & Hde).
    apply (calm_dispatch _ _ e e' Hde). apply (D k e Hs He).
  - destruct Hd as [Hk _]. rewrite Hk. exact E.
Qed.

(** A field update of the record under [k]. *)
Lemma Inv_alter cfg skip (f : EP.t -> EP.t) k st :
  Inv cfg skip st ->
  (forall e, epKey (f e) = epKey e) ->
  (forall e, isGoBuilding (f e) = true -> isGoBuilding e = true) ->
  (skip = Some k
   \/ forall e, lookup k (entryPointsData st) = Some e ->
        calm (unwatching st) k e -> calm (unwatching st) k (f e)) ->
  Inv cfg skip (with_entryPointsData (alter f k (entryPointsData st)) st).
Proof.
  intros (A & B & C & D & E) Hkey Hgo Hcalm. split_inv; simpl.
  - apply eps_wf_alter; [exact Hkey | exact A].
  - unfold goBuildsInFlight. simpl.
    destruct (lookup k (entryPointsData st)) as [e|] eqn:He.
    + pose proof (count_alter isGoBuilding f k (entryPointsData st) e He) as Hc.
      unfold goBuildsInFlight in B.
      destruct (isGoBuilding (f e)) eqn:E1.
      * rewrite (Hgo e E1) in Hc. lia.
      * destruct (isGoBuilding e); lia.
    + rewrite alter_absent by exact He. exact B.
  - exact C.
  - intros k2 e2 Hs Hk2. simpl in *.
    destruct (string_dec k k2) as [<-|Hne].
    + rewrite lookup_alter_same in Hk2.
      destruct (lookup k (entryPointsData st)) as [e|] eqn:He; [|discriminate].
      simpl in Hk2. inversion Hk2. subst e2.
      destruct Hcalm as [->|Hcalm]; [congruence|].
      apply Hcalm; [reflexivity|]. apply (D k e Hs He).
    + rewrite lookup_alter_other in Hk2 by exact Hne. apply (D k2 e2 Hs Hk2).
  - intros k2. rewrite keys_alter. apply E.
Qed.

(** A change that leaves the entry points, the status, and the busy lines
    alone, and forgets no suspended call (but for the skipped key). *)
Lemma Inv_frame cfg skip st st' :
  entryPointsData st' = entryPointsData st ->
  filter isBusyLine (logged st') = filter isBusyLine (logged st) ->
  isProcessingLambdaChanges st' = isProcessingLambdaChanges st ->
  (forall k, Some k <> skip -> unwatchingKey k (unwatching st) = true ->
             unwatchingKey k (unwatching st') = true) ->
  Inv cfg skip st -> Inv cfg skip st'.
Proof.
  intros He Hl Hf Hu (A & B & C & D & E).
  split_inv; unfold keys_wf, goBuildsInFlight, wait_ok; rewrite ?He; auto.
  - apply (busy_inv_same st); assumption.
  - intros k e Hs Hk Hp. specialize (D k e Hs Hk Hp).
    apply orb_true_iff in D. destruct D as [D|D]; [rewrite D; reflexivity|].
    rewrite (Hu k Hs D). apply orb_true_r.
Qed.


Lemma resolve_settles : settles resolve.
Proof. intros [| |r]; reflexivity. Qed.

Lemma reject_settles r : settles (reject r).
Proof. intros [| |r']; reflexivity. Qed.

Lemma settleAll_no_pending f e : settles f -> hasPending (settleAll f e) = false.
Proof.
  intros Hf. unfold hasPending, settleAll. simpl.
  induction (EP.pendingRequestCallbacks e) as [|p l IH]; simpl; [reflexivity|].
  rewrite Hf, IH. reflexivity.
Qed.

(** "Update state", then "Fullfil pending requests": whatever the record under
    [k] looked like before, it is calm afterwards. *)
Lemma Inv_settle cfg f k st :
  settles f -> Inv cfg (Some k) st -> Inv cfg None (updateAndSettle cfg f k st).
Proof.
  intros Hf HI. unfold updateAndSettle.
  pose proof (Inv_pass cfg (Some k) st _ (updateLambdaCodeState_pass cfg st) HI) as H1.
  set (st1 := updateLambdaCodeState cfg st) in *.
  assert (Hall : forall e, lookup k (entryPointsData st1) = Some e ->
                   truthy (EP.needsReBuild e) = true -> Inv cfg None st1).
  { intros e He Ht. destruct H1 as (A & B & C & D & E). split_inv; auto.
    intros k2 e2 _ Hk2. destruct (string_dec k2 k) as [->|Hne].
    - rewrite He in Hk2. inversion Hk2. subst e2. intros _.
      rewrite Ht. rewrite orb_true_r. reflexivity.
    - apply (D k2 e2); [congruence | exact Hk2]. }
  destruct (lookup k (entryPointsData st1)) as [e|] eqn:He.
  - destruct (truthy (EP.needsReBuild e)) eqn:Ht; simpl.
    + apply (Hall e eq_refl Ht).
    + assert (H2 : Inv cfg (Some k)
                     (with_entryPointsData
                        (alter (settleAll f) k (entryPointsData st1)) st1)).
      { apply Inv_alter; auto. }
      destruct H2 as (A & B & C & D & E). split_inv; auto.
      intros k2 e2 _ Hk2. destruct (string_dec k2 k) as [->|Hne].
      * simpl in Hk2. rewrite lookup_alter_same, He in Hk2. simpl in Hk2.
        inversion Hk2. intros Hp. rewrite settleAll_no_pending in Hp by exact Hf.
        discriminate.
      * apply (D k2 e2); [congruence | exact Hk2].
  - destruct H1 as (A & B & C & D & E). split_inv; auto.
    intros k2 e2 _ Hk2. destruct (string_dec k2 k) as [->|Hne].
    + congruence.
    + apply (D k2 e2); [congruence | exact Hk2].
Qed.

(** ** The invariant through the handlers *)

Lemma fold_markLow_Inv cfg ks : forall st,
  Inv cfg None st -> Inv cfg None (fold_left markLow ks st).
Proof.
  induction ks as [|k ks IH]; intros st H; simpl; [exact H|].
  apply IH. unfold markLow. apply Inv_alter; [exact H | reflexivity | | ].
  - intros e. unfold isGoBuilding. simpl. auto.
  - right. intros e _ _. unfold calm. intros _. simpl.
    rewrite orb_true_r. reflexivity.
Qed.

Lemma onFileChange_Inv cfg file st :
  Inv cfg None st -> Inv cfg None (onFileChange cfg file st).
Proof.
  intros H. unfold onFileChange.
  destruct (if endsWith file ".go" then _ else _) as [ks|]; [|exact H].
  eapply Inv_pass; [apply updateLambdaCodeState_pass|].
  apply fold_markLow_Inv. exact H.
Qed.

Lemma getTranspiledHandler_Inv cfg s h st :
  Inv cfg None st -> Inv cfg None (fst (getTranspiledHandler s h st)).
Proof.
  intros H. unfold getTranspiledHandler.
  destruct (lookup _ _) as [e|]; [|exact H].
  destruct (isSome (EP.buildPromise e) || truthy (EP.needsReBuild e));
    [|exact H].
  simpl. apply Inv_alter; [exact H | reflexivity | | ].
  - intros e'. unfold isGoBuilding. simpl. auto.
  - right. intros e' _ _. unfold calm. intros _. simpl.
    rewrite orb_true_r. reflexivity.
Qed.

Lemma onLintDone_Inv cfg s st :
  Inv cfg None st -> Inv cfg None (onLintDone cfg s st).
Proof.
  intros H. unfold onLintDone.
  eapply Inv_pass; [apply updateLambdaCodeState_pass|].
  apply (Inv_frame cfg None st); auto.
Qed.

Lemma onTypeCheckDone_Inv cfg s st :
  Inv cfg None st -> Inv cfg None (onTypeCheckDone cfg s st).
Proof.
  intros H. unfold onTypeCheckDone.
  eapply Inv_pass; [apply updateLambdaCodeState_pass|].
  apply (Inv_frame cfg None st); auto.
Qed.

Lemma onReBuildFailed_Inv cfg s h st :
  Inv cfg (Some (buildEntryPointKey s h)) st ->
  Inv cfg None (onReBuildFailed cfg s h st).
Proof.
  intros H. unfold onReBuildFailed.
  apply Inv_settle; [apply reject_settles|].
  apply Inv_alter; [exact H | reflexivity | | left; reflexivity].
  intros e. unfold isGoBuilding. simpl. rewrite andb_false_r. discriminate.
Qed.

Lemma unwatchingKey_app k u1 u2 :
  unwatchingKey k (u1 ++ u2) = unwatchingKey k u1 || unwatchingKey k u2.
Proof. unfold unwatchingKey. apply existsb_app. Qed.

Lemma unwatchingKey_removeFirstPair k s h u :
  buildEntryPointKey s h <> k ->
  unwatchingKey k (removeFirstPair (s, h) u) = unwatchingKey k u.
Proof.
  intros Hne. unfold unwatchingKey.
  induction u as [|[s' h'] u IH]; simpl; [reflexivity|].
  destruct (String.eqb s s' && String.eqb h h') eqn:E.
  - apply andb_true_iff in E. destruct E as [E1 E2].
    apply String.eqb_eq in E1, E2. subst s' h'.
    destruct (String.eqb (buildEntryPointKey s h) k) eqn:E3; [|reflexivity].
    apply String.eqb_eq in E3. contradiction.
  - simpl. rewrite IH. reflexivity.
Qed.

Lemma onReBuildSucceeded_resume_Inv cfg s h st :
  Inv cfg None st -> Inv cfg None (onReBuildSucceeded_resume cfg s h st).
Proof.
  intros H. unfold onReBuildSucceeded_resume.
  apply Inv_settle; [apply resolve_settles|].
  apply (Inv_frame cfg _ st); auto.
  - intros k Hk Hu. simpl. rewrite unwatchingKey_removeFirstPair; [exact Hu|].
    congruence.
  - apply Inv_weaken. exact H.
Qed.

(** What [onReBuildSucceeded] has done when it reaches its end, its [await],
    or an error: the record is updated, nothing is logged, and only a
    suspended call is noted. *)
Lemma onReBuildSucceeded_update_shape s h files st e :
  lookup (buildEntryPointKey s h) (entryPointsData st) = Some e ->
  exists st1,
    (onReBuildSucceeded_update s h files st = Finished st1
     /\ unwatching st1 = unwatching st
     \/ onReBuildSucceeded_update s h files st = AwaitingUnwatch st1
        /\ unwatching st1 = unwatching st ++ [(s, h)]
        /\ isNodeRuntime (EP.runtime e) = true
     \/ exists err, onReBuildSucceeded_update s h files st = Raised err st1
                    /\ unwatching st1 = unwatching st)
    /\ entryPointsData st1
       = alter (EP.succeeded files (priorityAfterUpdate files e))
           (buildEntryPointKey s h) (entryPointsData st)
    /\ logged st1 = logged st
    /\ isProcessingLambdaChanges st1 = isProcessingLambdaChanges st
    /\ nextHandle st1 = nextHandle st
    /\ (isNodeRuntime (EP.runtime e) = false -> srcPathsData st1 = srcPathsData st)
    /\ (isNodeRuntime (EP.runtime e) = true ->
        exists l, srcPathsData st1 = alter (SP.rebuilt l) s (srcPathsData st)).
Proof.
  intros He. unfold onReBuildSucceeded_update. rewrite He. cbv zeta.
  fold (priorityAfterUpdate files e).
  destruct (isNodeRuntime (EP.runtime e)) eqn:Hn.
  2:{ eexists. split; [left; split; reflexivity|]. simpl.
      repeat split; auto. discriminate. }
  match goal with
  | |- context [fold_left (indexSplice ?k) ?l ?a] =>
      destruct (fold_left (indexSplice k) l a) as [index2 ok]
  end.
  destruct ok; simpl.
  2:{ eexists. split; [right; right; eexists; split; reflexivity|]. simpl.
      repeat split; eauto. discriminate. }
  destruct (watcher st) as [w|]; simpl;
    repeat match goal with
           | |- context [if ?b then _ else _] => destruct b
           end;
    (eexists; split;
     [ first [ left; split; reflexivity
             | right; left; repeat split; reflexivity
             | right; right; eexists; split; reflexivity ]
     | simpl; repeat split; eauto; discriminate ]).
Qed.

Lemma Inv_unskip cfg k st :
  Inv cfg (Some k) st ->
  (forall e, lookup k (entryPointsData st) = Some e -> calm (unwatching st) k e) ->
  Inv cfg None st.
Proof.
  intros (A & B & C & D & E) Hk. split_inv; auto.
  intros k2 e2 _ Hk2. destruct (string_dec k2 k) as [->|Hne].
  - apply Hk. exact Hk2.
  - apply (D k2 e2); [congruence | exact Hk2].
Qed.

Lemma succeededOrCaught_Inv cfg s h files st :
  Inv cfg None st -> Inv cfg None (succeededOrCaught cfg s h files st).
Proof.
  intros H. unfold succeededOrCaught, onReBuildSucceeded.
  destruct (lookup (buildEntryPointKey s h) (entryPointsData st)) as [e|] eqn:He.
  - destruct (onReBuildSucceeded_update_shape s h files st e He)
      as (st1 & Hout & Heps & Hlog & Hflag & _).
    assert (Hmid : Inv cfg (Some (buildEntryPointKey s h))
                     (with_entryPointsData
                        (alter (EP.succeeded files (priorityAfterUpdate files e))
                           (buildEntryPointKey s h) (entryPointsData st)) st)).
    { apply Inv_alter; [apply Inv_weaken; exact H | reflexivity | | left; reflexivity].
      intros e'. unfold isGoBuilding. simpl. rewrite andb_false_r. discriminate. }
    assert (H1 : Inv cfg (Some (buildEntryPointKey s h)) st1).
    { apply (Inv_frame cfg _ _ st1) in Hmid; auto.
      - rewrite Hlog. reflexivity.
      - intros k Hk Hu. simpl in Hu.
        destruct Hout as [[_ ->]|[(_ & -> & _)|(err & _ & ->)]]; auto.
        rewrite unwatchingKey_app, Hu. reflexivity. }
    destruct Hout as [[-> _]|[(-> & Hu & _)|(err & -> & _)]].
    + apply Inv_settle; [apply resolve_settles | exact H1].
    + apply (Inv_unskip cfg (buildEntryPointKey s h)); [exact H1|].
      intros e' _ _.
      rewrite Hu, unwatchingKey_app. unfold unwatchingKey at 2. simpl.
      rewrite String.eqb_refl. simpl. rewrite !orb_true_r. reflexivity.
    + apply onReBuildFailed_Inv. exact H1.
  - unfold onReBuildSucceeded_update. rewrite He.
    apply onReBuildFailed_Inv. apply Inv_weaken. exact H.
Qed.

Lemma getInputFiles_frame cfg read st :
  let st' := fst (getInputFilesFromEsbuildMetafile cfg read st) in
  entryPointsData st' = entryPointsData st
  /\ srcPathsData st' = srcPathsData st
  /\ unwatching st' = unwatching st
  /\ watcher st' = watcher st
  /\ watchedNodeFilesIndex st' = watchedNodeFilesIndex st
  /\ filter isBusyLine (logged st') = filter isBusyLine (logged st)
  /\ isProcessingLambdaChanges st' = isProcessingLambdaChanges st.
Proof.
  unfold getInputFilesFromEsbuildMetafile.
  destruct read as [why|[inputs|]]; simpl; repeat split; auto.
  rewrite filter_app. simpl. apply app_nil_r.
Qed.

Lemma reTranspile_settled_Inv cfg s h ok read st :
  Inv cfg None st -> Inv cfg None (reTranspile_settled cfg s h ok read st).
Proof.
  intros H. unfold reTranspile_settled.
  destruct ok; [|apply onReBuildFailed_Inv; apply Inv_weaken; exact H].
  destruct (getInputFiles_frame cfg read st) as (A1 & _ & A3 & _ & _ & A6 & A7).
  destruct (getInputFilesFromEsbuildMetafile cfg read st) as [st1 [files|err]];
    simpl in *.
  - apply succeededOrCaught_Inv. apply (Inv_frame cfg None st); auto.
    intros k _. rewrite A3. auto.
  - apply onReBuildFailed_Inv. apply Inv_weaken.
    apply (Inv_frame cfg None st); auto. intros k _. rewrite A3. auto.
Qed.

Lemma reCompile_settled_Inv cfg s h ok st :
  Inv cfg None st -> Inv cfg None (reCompile_settled cfg s h ok st).
Proof.
  intros H. unfold reCompile_settled. destruct ok.
  - apply succeededOrCaught_Inv. exact H.
  - apply onReBuildFailed_Inv. apply Inv_weaken. exact H.
Qed.

Lemma step_Inv cfg ev st : Inv cfg None st -> Inv cfg None (step cfg ev st).
Proof.
  intros H. destruct ev as [file|s h|s h ok read|s h|s|s]; simpl.
  - apply onFileChange_Inv. exact H.
  - apply getTranspiledHandler_Inv. exact H.
  - destruct (lookup _ _) as [e|]; [|exact H].
    destruct (isGoRuntime (EP.runtime e)).
    + apply reCompile_settled_Inv. exact H.
    + apply reTranspile_settled_Inv. exact H.
  - apply onReBuildSucceeded_resume_Inv. exact H.
  - apply onLintDone_Inv. exact H.
  - apply onTypeCheckDone_Inv. exact H.
Qed.

Lemma run_Inv cfg evs : forall st, Inv cfg None st -> Inv cfg None (run cfg evs st).
Proof.
  unfold run. induction evs as [|ev evs IH]; intros st H; simpl; [exact H|].
  apply IH. apply step_Inv. exact H.
Qed.

(** ** The invariant after [start] *)


Lemma values_assign_In {V : Type} k (v x : V) (o : JsObject V) :
  In x (values (assign k v o)) -> x = v \/ In x (values o).
Proof.
  unfold values. induction o as [|[k' v'] o IH]; simpl.
  - intros [H|[]]. auto.
  - destruct (String.eqb k k'); simpl.
    + intros [H|H]; auto.
    + intros [H|H]; auto. destruct (IH H); auto.
Qed.

Lemma In_keys_assign {V : Type} k (v : V) (o : JsObject V) k2 :
  In k2 (keys (assign k v o)) <-> k2 = k \/ In k2 (keys o).
Proof.
  destruct (in_dec string_dec k (keys o)) as [Hin|Hni].
  - rewrite keys_assign_present by assumption. split; [auto|].
    intros [->|H]; assumption.
  - rewrite keys_assign_absent by assumption. rewrite in_app_iff. simpl.
    split; [intros [H|[H|[]]]; auto | intros [H|H]; auto].
Qed.

Lemma initializeState_fold (hs : list LambdaHandler) : forall st,
  let st' :=
    fold_left
      (fun acc h =>
         with_entryPointsData
           (assign (buildEntryPointKey (lh_srcPath h) (lh_handler h))
              (EP.template (lh_srcPath h) (lh_handler h) (lh_runtime h))
              (entryPointsData acc)) acc) hs st in
  (keys_wf st -> keys_wf st')
  /\ (quiet st -> quiet st')
  /\ logged st' = logged st
  /\ isProcessingLambdaChanges st' = isProcessingLambdaChanges st
  /\ unwatching st' = unwatching st
  /\ (forall k, In k (keys (entryPointsData st')) <->
                In k (keys (entryPointsData st))
                \/ In k (map (fun h => buildEntryPointKey (lh_srcPath h) (lh_handler h)) hs)).
Proof.
  induction hs as [|h hs IH]; intros st; simpl.
  - split; [|split; [|split; [|split; [|split]]]]; auto.
    intros k. simpl. tauto.
  - match goal with |- context [fold_left ?f hs ?s] => specialize (IH s) end.
    simpl in IH. destruct IH as (I1 & I2 & I3 & I4 & I5 & I6).
    split; [|split; [|split; [|split; [|split]]]]; auto.
    + intros Hwf. apply I1. unfold keys_wf. simpl.
      apply eps_wf_assign; [reflexivity | exact Hwf].
    + intros Hq. apply I2. intros e He. simpl in He.
      apply values_assign_In in He. destruct He as [->|He]; [auto | apply Hq; exact He].
    + intros k. rewrite I6. simpl. rewrite In_keys_assign.
      intuition (subst; auto).
Qed.

Lemma quiet_Inv cfg st :
  keys_wf st -> quiet st -> busy_inv st ->
  (forall k, In k (keys (entryPointsData st)) <-> In k (configuredKeys cfg)) ->
  Inv cfg None st.
Proof.
  intros Hwf Hq Hb Hk. split_inv; auto.
  - unfold goBuildsInFlight. rewrite filter_none; [simpl; lia|].
    intros e He. destruct (Hq e He) as [Hbp _]. unfold isGoBuilding.
    rewrite Hbp. apply andb_false_r.
  - intros k e _ Hl. apply lookup_values in Hl. destruct (Hq e Hl) as [_ Hc].
    unfold calm, hasPending. rewrite Hc. discriminate.
Qed.

Lemma start_initial_Inv cfg :
  Inv cfg None
    (log (Info "Transpiling Lambda code...")
       (initializeState cfg
          (fold_left (fun acc l => log (Info l) acc)
             [""; "=========================="; " Starting Live Lambda Dev";
              "=========================="; ""] constructed))).
Proof.
  set (s0 := fold_left (fun acc l => log (Info l) acc) _ constructed).
  assert (Hs0 : filter isBusyLine (logged s0) = []
                /\ isProcessingLambdaChanges s0 = false
                /\ entryPointsData s0 = [])
    by (repeat split; reflexivity).
  destruct Hs0 as (L0 & F0 & E0). clearbody s0.
  unfold initializeState.
  destruct (initializeState_fold (lambdaHandlers cfg) s0)
    as (I1 & I2 & I3 & I4 & I5 & I6).
  apply quiet_Inv.
  - unfold keys_wf. simpl. apply I1. unfold keys_wf. rewrite E0.
    split; simpl; constructor.
  - intros e He. simpl in He. apply I2; [|exact He]. intros x.
    rewrite E0. intros [].
  - unfold busy_inv, busyLines. simpl. rewrite I3, I4, filter_app, L0, F0.
    reflexivity.
  - intros k. simpl. rewrite I6, E0. simpl. unfold configuredKeys. tauto.
Qed.

Lemma onBuildSucceeded_Inv cfg s h ts b out files st :
  Inv cfg None st -> Inv cfg None (onBuildSucceeded s h ts b out files st).
Proof.
  intros H. unfold onBuildSucceeded.
  match goal with
  | |- Inv _ _ (with_watchedNodeFilesIndex _ (with_srcPathsData _ ?m)) =>
      apply (Inv_frame cfg None m); auto
  end.
  apply Inv_alter; [exact H | reflexivity | | ].
  - intros e. unfold isGoBuilding. simpl. auto.
  - right. intros e _ Hc. exact Hc.
Qed.

Lemma firstBuild_Inv cfg hd b st :
  Inv cfg None st -> Inv cfg None (fst (firstBuild cfg hd b st)).
Proof.
  intros H. unfold firstBuild, compile, buildPython, transpile.
  destruct (lh_runtime hd); simpl.
  - destruct (fb_ok b); [|exact H].
    destruct (getInputFiles_frame cfg (fb_metafile b) st)
      as (A1 & _ & A3 & _ & _ & A6 & A7).
    destruct (getInputFilesFromEsbuildMetafile cfg (fb_metafile b) st)
      as [st1 [files|err]]; simpl in *.
    + apply onBuildSucceeded_Inv. apply (Inv_frame cfg None st); auto.
      intros k _. rewrite A3. auto.
    + apply (Inv_frame cfg None st); auto. intros k _. rewrite A3. auto.
  - destruct (fb_ok b); [|exact H]. simpl. apply onBuildSucceeded_Inv. exact H.
  - apply onBuildSucceeded_Inv. exact H.
Qed.

Lemma firstBuilds_Inv cfg builds hs : forall i st,
  Inv cfg None st -> Inv cfg None (fst (firstBuilds cfg builds i hs st)).
Proof.
  induction hs as [|hd hs IH]; intros i st H; simpl; [exact H|].
  pose proof (firstBuild_Inv cfg hd (builds i) st H) as H1.
  destruct (firstBuild cfg hd (builds i) st) as [st1 ok]. simpl in H1.
  specialize (IH (S i) st1 H1).
  destruct (firstBuilds cfg builds (S i) hs st1) as [st2 results].
  exact IH.
Qed.

Lemma checkedState_Inv cfg s st :
  Inv cfg None st -> Inv cfg None (checkedState cfg s st).
Proof.
  intros H. destruct (checkedState_frame cfg s st)
    as (A1 & _ & _ & A4 & A5 & A6 & _).
  apply (Inv_frame cfg None st); auto. intros k _. rewrite A4. auto.
Qed.

Lemma startChecks_eq cfg st s :
  startChecks cfg st s = updateLambdaCodeState cfg (checkedState cfg s st).
Proof.
  unfold startChecks, checkedState, onLintAndTypeCheckStarted.
  destruct (runLint cfg s st) as [l st1]. simpl.
  destruct (runTypeCheck cfg s st1) as [t st2]. reflexivity.
Qed.

Lemma startChecks_Inv cfg ks : forall st,
  Inv cfg None st -> Inv cfg None (fold_left (startChecks cfg) ks st).
Proof.
  induction ks as [|k ks IH]; intros st H; simpl; [exact H|].
  apply IH. rewrite startChecks_eq.
  eapply Inv_pass; [apply updateLambdaCodeState_pass|].
  apply checkedState_Inv. exact H.
Qed.

Lemma start_Inv cfg isTest builds st :
  start cfg isTest builds constructed = (st, Returned tt) -> Inv cfg None st.
Proof.
  unfold start. intros Hs.
  pose proof (firstBuilds_Inv cfg builds (lambdaHandlers cfg) 0 _
                (start_initial_Inv cfg)) as H3.
  destruct (firstBuilds cfg builds 0 (lambdaHandlers cfg) _) as [st3 results].
  simpl in H3.
  destruct (existsb negb results); [discriminate|].
  destruct isTest; [inversion Hs; subst; exact H3|].
  destruct (List.length (keys (srcPathsData st3)) =? 0); [discriminate|].
  inversion Hs. subst.
  match goal with
  | |- Inv _ _ (with_watcher _ ?m) => apply (Inv_frame cfg None m); auto
  end.
  apply startChecks_Inv. exact H3.
Qed.

(** Every reachable state satisfies the invariant. *)
Lemma reachable_Inv cfg st : reachable cfg st -> Inv cfg None st.
Proof.
  induction 1 as [isTest builds st Hs|ev st _ IH _].
  - apply (start_Inv cfg isTest builds st Hs).
  - apply step_Inv. exact IH.
Qed.

Lemma reachable_run cfg evs : forall st,
  reachable cfg st -> enabledAll cfg evs st = true ->
  reachable cfg (run cfg evs st).
Proof.
  unfold run. induction evs as [|ev evs IH]; intros st Hr He; simpl; [exact Hr|].
  simpl in He. apply andb_true_iff in He. destruct He as [He1 He2].
  apply IH; [|exact He2]. apply reach_step; assumption.
Qed.

(** ** The depth of the nested passes *)

Lemma recheckStep_eq cfg (again : State -> State) st s :
  recheckStep cfg again st s =
  match lookup s (srcPathsData st) with
  | Some d => if SP.needsReCheck d then again (checkedState cfg s st) else st
  | None => st
  end.
Proof.
  unfold recheckStep, checkedState.
  destruct (lookup s (srcPathsData st)) as [d|]; [|reflexivity].
  destruct (SP.needsReCheck d); [|reflexivity].
  destruct (runLint cfg s st) as [l st1]. simpl.
  destruct (runTypeCheck cfg s st1) as [t st2]. reflexivity.
Qed.

Lemma checkedState_count cfg s st d :
  lookup s (srcPathsData st) = Some d -> SP.needsReCheck d = true ->
  S (needsReCheckCount (checkedState cfg s st)) = needsReCheckCount st.
Proof.
  intros Hd Hn. destruct (checkedState_frame cfg s st)
    as (_ & _ & _ & _ & _ & _ & _ & l & t & A8).
  unfold needsReCheckCount. rewrite A8.
  pose proof (count_alter SP.needsReCheck (SP.checking l t) s
                (srcPathsData st) d Hd) as Hc.
  rewrite Hn in Hc. simpl in Hc. lia.
Qed.

Lemma recheck_fold_agree cfg (G1 G2 : State -> State) (N : nat) :
  (forall s, S (needsReCheckCount s) <= N -> G1 s = G2 s) ->
  (forall s, needsReCheckCount (G1 s) <= needsReCheckCount s) ->
  forall ks st, needsReCheckCount st <= N ->
    fold_left (recheckStep cfg G1) ks st = fold_left (recheckStep cfg G2) ks st.
Proof.
  intros Hagree Hle ks. induction ks as [|k ks IH]; intros st Hc; simpl;
    [reflexivity|].
  rewrite !recheckStep_eq.
  destruct (lookup k (srcPathsData st)) as [d|] eqn:Hd; [|apply IH; exact Hc].
  destruct (SP.needsReCheck d) eqn:Hn; [|apply IH; exact Hc].
  pose proof (checkedState_count cfg k st d Hd Hn) as Hs.
  rewrite <- (Hagree (checkedState cfg k st)) by lia.
  apply IH. specialize (Hle (checkedState cfg k st)). lia.
Qed.

Lemma fuel_count cfg fuel st :
  needsReCheckCount (updateLambdaCodeStateFuel cfg fuel st) <= needsReCheckCount st.
Proof. apply (pass_frame cfg st _ (updateLambdaCodeStateFuel_pass cfg fuel st)). Qed.

(** Fuel at least the number of source paths that need a recheck is enough:
    the pass never runs out of it, so more fuel changes nothing. *)
Lemma fuel_enough cfg : forall n m st,
  needsReCheckCount st <= n -> needsReCheckCount st <= m ->
  updateLambdaCodeStateFuel cfg n st = updateLambdaCodeStateFuel cfg m st.
Proof.
  induction n as [|n IH]; intros m st Hn Hm.
  - destruct m as [|m]; [reflexivity|]. simpl.
    destruct (existsb _ _); [reflexivity|].
    destruct (existsb _ _); [reflexivity|].
    apply (recheck_fold_agree cfg _ _ 0).
    + intros s Hs. lia.
    + intros s. lia.
    + destruct (dispatchBuilds_frame cfg (updateLambdaCodeBusyStatus st)) as (A1 & _).
      unfold needsReCheckCount in *. rewrite A1, busy_srcPathsData. exact Hn.
  - assert (Hc1 : needsReCheckCount
                    (dispatchBuilds cfg (updateLambdaCodeBusyStatus st))
                  = needsReCheckCount st).
    { destruct (dispatchBuilds_frame cfg (updateLambdaCodeBusyStatus st)) as (A1 & _).
      unfold needsReCheckCount. rewrite A1, busy_srcPathsData. reflexivity. }
    destruct m as [|m]; simpl.
    + destruct (existsb _ _); [reflexivity|].
      destruct (existsb _ _); [reflexivity|].
      apply (recheck_fold_agree cfg _ _ 0).
      * intros s Hs. lia.
      * intros s. apply fuel_count.
      * lia.
    + destruct (existsb _ _); [reflexivity|].
      destruct (existsb _ _); [reflexivity|].
      apply (recheck_fold_agree cfg _ _ (Nat.min (S n) (S m))).
      * intros s Hs. apply IH; lia.
      * intros s. apply fuel_count.
      * lia.
Qed.

Lemma needsReCheckCount_le st : needsReCheckCount st <= List.length (srcPathsData st).
Proof.
  unfold needsReCheckCount, values.
  rewrite <- (length_map snd (srcPathsData st)). apply filter_length_le.
Qed.

Lemma updateLambdaCodeState_fuel cfg fuel st :
  List.length (srcPathsData st) <= fuel ->
  updateLambdaCodeStateFuel cfg fuel st = updateLambdaCodeState cfg st.
Proof.
  intros H. unfold updateLambdaCodeState. pose proof (needsReCheckCount_le st).
  apply fuel_enough; lia.
Qed.

(** With that fuel the nested call of [onLintAndTypeCheckStarted] is again
    the function itself: the pass satisfies the equation the source reads. *)
Lemma updateLambdaCodeState_unfold cfg st :
  updateLambdaCodeState cfg st =
  let st1 := dispatchBuilds cfg (updateLambdaCodeBusyStatus st) in
  if existsb (fun e => isSome (EP.buildPromise e)) (values (entryPointsData st1))
  then st1
  else if existsb EP.hasError (values (entryPointsData st1)) then st1
  else fold_left (recheckStep cfg (updateLambdaCodeState cfg))
         (keys (srcPathsData st1)) st1.
Proof.
  rewrite <- (updateLambdaCodeState_fuel cfg (S (List.length (srcPathsData st))) st)
    by lia.
  simpl.
  destruct (existsb _ _); [reflexivity|].
  destruct (existsb _ _); [reflexivity|].
  assert (Hc1 : needsReCheckCount
                  (dispatchBuilds cfg (updateLambdaCodeBusyStatus st))
                <= List.length (srcPathsData st)).
  { destruct (dispatchBuilds_frame cfg (updateLambdaCodeBusyStatus st)) as (A1 & _).
    unfold needsReCheckCount. rewrite A1, busy_srcPathsData.
    apply needsReCheckCount_le. }
  apply (recheck_fold_agree cfg _ _ (List.length (srcPathsData st))).
  - intros s Hs. unfold updateLambdaCodeState.
    pose proof (needsReCheckCount_le s). apply fuel_enough; lia.
  - intros s. apply fuel_count.
  - exact Hc1.
Qed.

(** ** More on one pass *)

Lemma fuel_pass_from_dispatch cfg fuel st :
  pass cfg (dispatchBuilds cfg (updateLambdaCodeBusyStatus st))
    (updateLambdaCodeStateFuel cfg fuel st).
Proof.
  destruct fuel as [|fuel]; simpl.
  - destruct (existsb _ _); [apply pass_refl|].
    destruct (existsb _ _); [apply pass_refl|].
    apply recheck_fold_pass. intros s. apply pass_refl.
  - destruct (existsb _ _); [apply pass_refl|].
    destruct (existsb _ _); [apply pass_refl|].
    apply recheck_fold_pass. apply updateLambdaCodeStateFuel_pass.
Qed.

(** A Node entry point that needs a rebuild and has none in flight is always
    dispatched by the pass. *)
Lemma pass_dispatches_node cfg st k e :
  keys_wf st ->
  lookup k (entryPointsData st) = Some e ->
  lookup k (entryPointsData (updateLambdaCodeState cfg st)) = Some e ->
  isNodeDirty e = false.
Proof.
  intros Hwf He He'. destruct (isNodeDirty e) eqn:Hd; [exfalso|reflexivity].
  assert (Hwf0 : keys_wf (updateLambdaCodeBusyStatus st))
    by (unfold keys_wf; rewrite busy_entryPointsData; exact Hwf).
  destruct (dispatchBuilds_spec cfg _ Hwf0) as (Hwf1 & _ & Hl).
  rewrite <- busy_entryPointsData in He.
  destruct (Hl k e He) as (e1 & He1 & Hcase).
  pose proof (fuel_pass_from_dispatch cfg (List.length (srcPathsData st)) st) as Hp.
  destruct (pass_eps cfg _ _ Hp Hwf1) as [_ [_ Hd2]].
  destruct (Hd2 k e1 He1) as (e2 & He2 & Hdisp).
  unfold updateLambdaCodeState in He'. rewrite He' in He2. inversion He2. subst e2.
  assert (Hbp : EP.buildPromise e = None).
  { unfold isNodeDirty in Hd. destruct (EP.buildPromise e); [|reflexivity].
    simpl in Hd. rewrite andb_false_r in Hd. discriminate. }
  destruct Hcase as [[-> Hni]|[_ (p & _ & ->)]].
  - apply Hni. unfold dispatchList. rewrite gather_spec. simpl.
    apply in_or_app. left. apply filter_In. split; [|exact Hd].
    apply (lookup_values k). exact He.
  - destruct Hdisp as [Heq|(Hb & _)].
    + rewrite Heq in Hbp. simpl in Hbp. discriminate.
    + simpl in Hb. discriminate.
Qed.

(** While some entry point has [hasError], the pass stops before the
    checkers: [srcPathsData] is not touched. *)
Lemma fold_startReBuild_hasError (l : list EP.t) : forall st,
  existsb EP.hasError (values (entryPointsData (fold_left startReBuild l st)))
  = existsb EP.hasError (values (entryPointsData st)).
Proof.
  induction l as [|e l IH]; intros st; simpl; [reflexivity|].
  rewrite IH. simpl. apply existsb_alter. reflexivity.
Qed.

Lemma pass_with_error_srcPathsData cfg st :
  existsb EP.hasError (values (entryPointsData st)) = true ->
  srcPathsData (updateLambdaCodeState cfg st) = srcPathsData st.
Proof.
  intros He. unfold updateLambdaCodeState.
  assert (H1 : existsb EP.hasError
                 (values (entryPointsData
                            (dispatchBuilds cfg (updateLambdaCodeBusyStatus st))))
               = true).
  { rewrite dispatchBuilds_fold, fold_startReBuild_hasError,
      busy_entryPointsData. exact He. }
  assert (H2 : srcPathsData (dispatchBuilds cfg (updateLambdaCodeBusyStatus st))
               = srcPathsData st).
  { destruct (dispatchBuilds_frame cfg (updateLambdaCodeBusyStatus st)) as (A1 & _).
    rewrite A1. apply busy_srcPathsData. }
  destruct (List.length (srcPathsData st)); simpl; rewrite H1;
    match goal with
    | |- context [if ?b then _ else _] => destruct b
    end; exact H2.
Qed.

(** The record under [k] after "Update state" and "Fullfil pending
    requests": settled when its priority was OFF or the pass has just
    dispatched it, untouched when it still waits for a build. *)
Lemma updateAndSettle_spec cfg f k st e :
  keys_wf st ->
  lookup k (entryPointsData st) = Some e ->
  exists e',
    lookup k (entryPointsData (updateAndSettle cfg f k st)) = Some e'
    /\ ((EP.needsReBuild e = OFF /\ e' = settleAll f e)
        \/ (truthy (EP.needsReBuild e) = true /\ EP.buildPromise e = None
            /\ exists p, e' = settleAll f (EP.started p e))
        \/ (truthy (EP.needsReBuild e) = true /\ isNodeDirty e = false
            /\ e' = e)).
Proof.
  intros Hwf He. unfold updateAndSettle.
  destruct (pass_eps cfg st _ (updateLambdaCodeState_pass cfg st) Hwf)
    as [_ [_ Hd]].
  destruct (Hd k e He) as (e1 & He1 & Hdisp). rewrite He1.
  destruct Hdisp as [->|(Hb & Ht & p & ->)].
  - destruct (truthy (EP.needsReBuild e)) eqn:Ht; simpl.
    + exists e. split; [exact He1|]. right. right.
      split; [reflexivity|]. split; [|reflexivity].
      apply (pass_dispatches_node cfg st k e Hwf He He1).
    + exists (settleAll f e). split; [rewrite lookup_alter_same, He1; reflexivity|].
      left. split; [|reflexivity]. destruct (EP.needsReBuild e); auto; discriminate.
  - simpl. exists (settleAll f (EP.started p e)).
    split; [rewrite lookup_alter_same, He1; reflexivity|].
    right. left. eauto.
Qed.

(** The pending-request lists through a pass and a settlement. *)
Lemma callbacksOf_alter (f : EP.t -> EP.t) k k' st :
  (forall e, EP.pendingRequestCallbacks (f e) = EP.pendingRequestCallbacks e) ->
  callbacksOf k (with_entryPointsData (alter f k' (entryPointsData st)) st)
  = callbacksOf k st.
Proof.
  intros Hf. unfold callbacksOf. simpl.
  destruct (string_dec k' k) as [->|Hne].
  - rewrite lookup_alter_same. destruct (lookup k (entryPointsData st)); simpl; auto.
  - rewrite lookup_alter_other by exact Hne. reflexivity.
Qed.

Lemma callbacksOf_eps k st st' :
  entryPointsData st' = entryPointsData st -> callbacksOf k st' = callbacksOf k st.
Proof. unfold callbacksOf. intros ->. reflexivity. Qed.

Lemma fold_startReBuild_callbacks (l : list EP.t) k : forall st,
  callbacksOf k (fold_left startReBuild l st) = callbacksOf k st.
Proof.
  induction l as [|e l IH]; intros st; simpl; [reflexivity|].
  rewrite IH. unfold startReBuild, onReBuildStarted.
  apply (callbacksOf_alter (EP.started (nextHandle st)) k _ (takeHandle st)).
  reflexivity.
Qed.

Lemma pass_callbacks cfg st st' k :
  pass cfg st st' -> callbacksOf k st' = callbacksOf k st.
Proof.
  induction 1 as [st|st1 st2 st3 _ IH1 _ IH2|st|st|st s d Hd Hn].
  - reflexivity.
  - congruence.
  - apply callbacksOf_eps. apply busy_entryPointsData.
  - rewrite dispatchBuilds_fold. apply fold_startReBuild_callbacks.
  - apply callbacksOf_eps. apply (checkedState_frame cfg s st).
Qed.

(** * The claims *)

(** ** C9: reading the metafile fails *)

(** C9.  The claim says that a failed read of the bundler metafile is logged
    and gives an empty input-file set, and that no exception leaves the
    metafile-reading step.  The code logs the error and then reads
    [metaJson.inputs] of the undefined [metaJson]: the step throws a
    [TypeError].  In [reTranspile] that error lands in the [catch] and the
    rebuild is handled as failed; in [transpile] it rejects the first build. *)
Theorem metafile_read_failure_throws cfg why st :
  getInputFilesFromEsbuildMetafile cfg (ReadFailed why) st
  = (log (Error "There was a problem reading the build metafile") st,
     Threw (TypeError "Cannot read property 'inputs' of undefined"))
  /\ (forall s h,
        reTranspile_settled cfg s h true (ReadFailed why) st
        = onReBuildFailed cfg s h
            (log (Error "There was a problem reading the build metafile") st))
  /\ (forall s h ts b out,
        snd (transpile cfg s h
               {| fb_ok := true; fb_tsconfig := ts; fb_esbuilder := b;
                  fb_out := out; fb_metafile := ReadFailed why |} st)
        = false).
Proof. repeat split. Qed.

(** ** C6: the Go concurrency cap *)

(** C6.  Every state the watcher reaches is well keyed and has at most
    [BUILDER_CONCURRENCY] Go builds in flight, and a reconciliation pass
    started from any such state keeps the bound and leaves every record with a
    build in flight exactly as it is.  The Go rebuild queue of the pass holds
    the HIGH entry points (last registered first) in front of the LOW ones;
    the pass starts the builds of the dirty Node entry points and of the
    first [BUILDER_CONCURRENCY - goEPsBuilding.length] entries of that queue,
    and of no other entry point. *)
Theorem go_builds_bounded cfg :
  (forall st, reachable cfg st ->
     keys_wf st /\ goBuildsInFlight st <= BUILDER_CONCURRENCY cfg)
  /\ (forall st,
        keys_wf st -> goBuildsInFlight st <= BUILDER_CONCURRENCY cfg ->
        goBuildsInFlight (updateLambdaCodeState cfg st) <= BUILDER_CONCURRENCY cfg
        /\ (forall k e,
              lookup k (entryPointsData st) = Some e ->
              isSome (EP.buildPromise e) = true ->
              lookup k (entryPointsData (updateLambdaCodeState cfg st)) = Some e))
  /\ (forall st,
        let g := gather (entryPointsData st) in
        goEPsNeedsRebuild g
        = rev (filter (isGoQueued HIGH) (values (entryPointsData st)))
          ++ filter (isGoQueued LOW) (values (entryPointsData st))
        /\ dispatchList cfg st
           = nodeEPsNeedsRebuild g
             ++ slice0 (Z.of_nat (BUILDER_CONCURRENCY cfg)
                        - Z.of_nat (List.length (goEPsBuilding g)))
                  (goEPsNeedsRebuild g))
  /\ (forall st k e,
        keys_wf st ->
        lookup k (entryPointsData st) = Some e ->
        (In e (dispatchList cfg st) ->
         exists p, lookup k (entryPointsData (dispatchBuilds cfg st))
                   = Some (EP.started p e))
        /\ (~ In e (dispatchList cfg st) ->
            lookup k (entryPointsData (dispatchBuilds cfg st)) = Some e)).
Proof.
  split; [|split; [|split]].
  - intros st Hr. destruct (reachable_Inv cfg st Hr) as (A & B & _). auto.
  - intros st Hwf Hle. split.
    + apply (pass_goCount cfg st _ (updateLambdaCodeState_pass cfg st) Hwf Hle).
    + intros k e He Hb.
      destruct (pass_eps cfg st _ (updateLambdaCodeState_pass cfg st) Hwf)
        as [_ [_ Hd]].
      destruct (Hd k e He) as (e' & He' & [->|(Hnone & _)]); [exact He'|].
      rewrite Hnone in Hb. discriminate.
  - intros st. simpl. split; [rewrite gather_spec; reflexivity|].
    unfold dispatchList, concurrencyRemaining. reflexivity.
  - intros st k e Hwf He.
    destruct (dispatchBuilds_spec cfg st Hwf) as (_ & _ & Hl).
    destruct (Hl k e He) as (e' & He' & Hcase). split.
    + intros Hin. destruct Hcase as [[_ Hni]|[_ (p & _ & ->)]];
        [contradiction | exists p; exact He'].
    + intros Hni. destruct Hcase as [[-> _]|[Hin _]];
        [exact He' | contradiction].
Qed.

(** ** Concrete runs *)

Lemma started_reachable cfg builds :
  snd (start cfg false builds constructed) = Returned tt ->
  reachable cfg (fst (start cfg false builds constructed)).
Proof.
  intros H. apply (reach_start cfg false builds).
  destruct (start cfg false builds constructed) as [st out]. simpl in *.
  rewrite H. reflexivity.
Qed.

Lemma nodeStarted_reachable : reachable nodeApp nodeStarted.
Proof. apply started_reachable. vm_compute. reflexivity. Qed.

Lemma nodeRequested_reachable : reachable nodeApp nodeRequested.
Proof.
  apply reachable_run; [apply nodeStarted_reachable | vm_compute; reflexivity].
Qed.

Lemma goStarted_reachable : reachable goApp goStarted.
Proof. apply started_reachable. vm_compute. reflexivity. Qed.

Lemma goRequested_reachable : reachable goApp goRequested.
Proof.
  apply reachable_run; [apply goStarted_reachable | vm_compute; reflexivity].
Qed.

Lemma collideStarted_reachable : reachable collideApp collideStarted.
Proof. apply started_reachable. vm_compute. reflexivity. Qed.

(** ** C10: asking for a handler that is not registered *)

(** C10, as stated, fails: the registry is keyed by [srcPath/handler], so a
    pair that is not in the configured list but joins to the key of one that
    is finds that record.  Here [("a/b", "c.h")] is answered with the record
    of [("a", "b/c.h")]. *)
Lemma unlisted_pair_is_answered :
  ~ In ("a/b", "c.h")
      (map (fun h => (lh_srcPath h, lh_handler h)) (lambdaHandlers collideApp))
  /\ reachable collideApp collideStarted
  /\ exists r,
       getTranspiledHandler "a/b" "c.h" collideStarted
       = (collideStarted, Answered r).
Proof.
  split; [|split].
  - simpl. intros [H|[]]. discriminate.
  - apply collideStarted_reachable.
  - eexists. vm_compute. reflexivity.
Qed.

(** C10, amended.  In every state the watcher reaches, a call of
    [getTranspiledHandler] with a pair whose key [srcPath/handler] is not the
    key of a configured handler throws a [TypeError] (the property access on
    the undefined registry entry) and changes nothing; a pair whose key is
    registered never throws. *)
Theorem unregistered_key_throws cfg st s h :
  reachable cfg st ->
  (~ In (buildEntryPointKey s h) (configuredKeys cfg) ->
   getTranspiledHandler s h st
   = (st, Failed (TypeError "Cannot read property 'buildPromise' of undefined")))
  /\ (In (buildEntryPointKey s h) (configuredKeys cfg) ->
      forall err, snd (getTranspiledHandler s h st) <> Failed err).
Proof.
  intros Hr. destruct (reachable_Inv cfg st Hr) as (_ & _ & _ & _ & Hk).
  unfold getTranspiledHandler. split.
  - intros Hni.
    assert (Hn : lookup (buildEntryPointKey s h) (entryPointsData st) = None).
    { apply lookup_None_keys. rewrite Hk. exact Hni. }
    rewrite Hn. reflexivity.
  - intros Hin err.
    destruct (lookup (buildEntryPointKey s h) (entryPointsData st)) as [e|] eqn:He.
    + destruct (isSome _ || truthy _); simpl; discriminate.
    + apply lookup_None_keys in He. rewrite Hk in He. contradiction.
Qed.

Lemma unregistered_key_throws_witness :
  reachable nodeApp nodeStarted
  /\ ~ In (buildEntryPointKey "s" "src/other.handler") (configuredKeys nodeApp)
  /\ getTranspiledHandler "s" "src/other.handler" nodeStarted
     = (nodeStarted,
        Failed (TypeError "Cannot read property 'buildPromise' of undefined")).
Proof.
  assert (Hni : ~ In (buildEntryPointKey "s" "src/other.handler")
                    (configuredKeys nodeApp))
    by (simpl; intros [H|[]]; discriminate).
  split; [apply nodeStarted_reachable|]. split; [exact Hni|].
  pose proof (unregistered_key_throws nodeApp nodeStarted "s" "src/other.handler"
                nodeStarted_reachable) as H.
  destruct H as (H1 & _). exact (H1 Hni).
Defined.

(** ** C8: how [start] ends *)

Lemma firstBuild_snd cfg hd b st :
  snd (firstBuild cfg hd b st) = snd (firstBuild cfg hd b constructed).
Proof.
  unfold firstBuild, compile, buildPython, transpile.
  destruct (lh_runtime hd); simpl; auto.
  - destruct (fb_ok b); [|reflexivity].
    unfold getInputFilesFromEsbuildMetafile.
    destruct (fb_metafile b) as [why|[inputs|]]; reflexivity.
  - destruct (fb_ok b); reflexivity.
Qed.

Lemma firstBuild_fulfilled cfg hd b st :
  snd (firstBuild cfg hd b st) = negb (firstBuildFails hd b).
Proof.
  unfold firstBuild, firstBuildFails, compile, buildPython, transpile.
  destruct (lh_runtime hd); simpl; auto.
  - destruct (fb_ok b); [|reflexivity].
    unfold getInputFilesFromEsbuildMetafile.
    destruct (fb_metafile b) as [why|[inputs|]]; reflexivity.
  - destruct (fb_ok b); reflexivity.
Qed.

Lemma firstBuilds_failed cfg builds hs : forall i st,
  existsb negb (snd (firstBuilds cfg builds i hs st)) = true <->
  exists j hd, nth_error hs j = Some hd
               /\ snd (firstBuild cfg hd (builds (i + j)) constructed) = false.
Proof.
  induction hs as [|hd hs IH]; intros i st; simpl.
  - split; [discriminate|]. intros (j & hd & H & _). destruct j; discriminate.
  - pose proof (firstBuild_snd cfg hd (builds i) st) as Hs.
    destruct (firstBuild cfg hd (builds i) st) as [st1 ok]. simpl in Hs.
    specialize (IH (S i) st1).
    destruct (firstBuilds cfg builds (S i) hs st1) as [st2 results].
    simpl in *. rewrite orb_true_iff, IH. split.
    + intros [H|(j & hd' & Hj & Hf)].
      * exists 0, hd. rewrite Nat.add_0_r. split; [reflexivity|].
        rewrite <- Hs. destruct ok; [discriminate | reflexivity].
      * exists (S j), hd'. split; [exact Hj|].
        rewrite Nat.add_succ_r. exact Hf.
    + intros ([|j] & hd' & Hj & Hf).
      * left. simpl in Hj. inversion Hj. subst hd'.
        rewrite Nat.add_0_r, <- Hs in Hf. rewrite Hf. reflexivity.
      * right. exists j, hd'. split; [exact Hj|].
        rewrite Nat.add_succ_r in Hf. exact Hf.
Qed.

Lemma firstBuild_watcher cfg hd b st :
  watcher (fst (firstBuild cfg hd b st)) = watcher st.
Proof.
  unfold firstBuild, compile, buildPython, transpile.
  destruct (lh_runtime hd); simpl; auto.
  - destruct (fb_ok b); [|reflexivity].
    unfold getInputFilesFromEsbuildMetafile.
    destruct (fb_metafile b) as [why|[inputs|]]; reflexivity.
  - destruct (fb_ok b); reflexivity.
Qed.

Lemma firstBuilds_watcher cfg builds hs : forall i st,
  watcher (fst (firstBuilds cfg builds i hs st)) = watcher st.
Proof.
  induction hs as [|hd hs IH]; intros i st; simpl; [reflexivity|].
  pose proof (firstBuild_watcher cfg hd (builds i) st) as H1.
  destruct (firstBuild cfg hd (builds i) st) as [st1 ok]. simpl in H1.
  specialize (IH (S i) st1).
  destruct (firstBuilds cfg builds (S i) hs st1) as [st2 results].
  simpl in *. congruence.
Qed.

Lemma initializeState_watcher cfg st :
  watcher (initializeState cfg st) = watcher st.
Proof.
  unfold initializeState. generalize (lambdaHandlers cfg). intros hs.
  revert st. induction hs as [|hd hs IH]; intros st; simpl; [reflexivity|].
  rewrite IH. reflexivity.
Qed.

(** C8, as stated, fails: with [isTest] set, [start] returns before it
    looks for source paths, so an app without handlers does not make it
    reject. *)
Lemma start_in_test_without_handlers_returns :
  lambdaHandlers emptyApp = []
  /\ snd (start emptyApp true (buildsOk []) constructed) = Returned tt.
Proof. split; reflexivity. Qed.

(** C8, amended.  [start] rejects with "Failed to build the Lambda handlers"
    if and only if the first build of some configured handler fails.  When no
    handlers are configured and [isTest] is not set it rejects with "No Lambda
    handlers are found in the app".  When [isTest] is set and no first build
    fails it returns, with or without handlers, and installs no watcher. *)
Theorem start_outcome cfg isTest builds :
  (snd (start cfg isTest builds constructed)
   = Threw (JsErrorMsg "Failed to build the Lambda handlers")
   <-> exists i hd,
         nth_error (lambdaHandlers cfg) i = Some hd
         /\ firstBuildFails hd (builds i) = true)
  /\ (lambdaHandlers cfg = [] -> isTest = false ->
      snd (start cfg isTest builds constructed)
      = Threw (JsErrorMsg "No Lambda handlers are found in the app"))
  /\ (isTest = true ->
      (forall i hd, nth_error (lambdaHandlers cfg) i = Some hd ->
                    firstBuildFails hd (builds i) = false) ->
      snd (start cfg isTest builds constructed) = Returned tt
      /\ watcher (fst (start cfg isTest builds constructed)) = None)
  /\ (forall hd b st,
        snd (firstBuild cfg hd b st) = negb (firstBuildFails hd b)).
Proof.
  assert (Hfail : forall results,
            (existsb negb results = true <->
             exists j hd, nth_error (lambdaHandlers cfg) j = Some hd
                          /\ snd (firstBuild cfg hd (builds (0 + j)) constructed)
                             = false) ->
            (existsb negb results = true <->
             exists i hd, nth_error (lambdaHandlers cfg) i = Some hd
                          /\ firstBuildFails hd (builds i) = true)).
  { intros results H. rewrite H. split; intros (j & hd & Hj & Hb);
      exists j, hd; (split; [exact Hj|]); simpl in *;
      rewrite firstBuild_fulfilled in *;
      destruct (firstBuildFails hd (builds j)); simpl in *; congruence. }
  split; [|split; [|split]].
  - unfold start.
    match goal with
    | |- context [firstBuilds cfg builds 0 (lambdaHandlers cfg) ?s] =>
        pose proof (firstBuilds_failed cfg builds (lambdaHandlers cfg) 0 s) as Hf;
        destruct (firstBuilds cfg builds 0 (lambdaHandlers cfg) s) as [st3 results]
    end.
    simpl snd in Hf. apply (Hfail results) in Hf. rewrite <- Hf.
    destruct (existsb negb results); simpl; [tauto|].
    split; [|discriminate].
    destruct isTest; simpl; [discriminate|].
    destruct (List.length (keys (srcPathsData st3)) =? 0); simpl; discriminate.
  - intros Hnil ->. unfold start, initializeState. rewrite Hnil. reflexivity.
  - intros -> Hall. unfold start.
    match goal with
    | |- context [firstBuilds cfg builds 0 (lambdaHandlers cfg) ?s] =>
        pose proof (firstBuilds_failed cfg builds (lambdaHandlers cfg) 0 s) as Hf;
        pose proof (firstBuilds_watcher cfg builds (lambdaHandlers cfg) 0 s) as Hw;
        destruct (firstBuilds cfg builds 0 (lambdaHandlers cfg) s) as [st3 results]
    end.
    simpl snd in Hf. simpl fst in Hw. apply (Hfail results) in Hf.
    destruct (existsb negb results) eqn:E.
    + exfalso. destruct (proj1 Hf eq_refl) as (j & hd & Hj & Hb).
      rewrite (Hall j hd Hj) in Hb. discriminate.
    + simpl. split; [reflexivity|]. rewrite Hw. simpl.
      rewrite initializeState_watcher. reflexivity.
  - intros hd b st. apply firstBuild_fulfilled.
Qed.

Lemma start_outcome_witness :
  (lambdaHandlers emptyApp = [] /\ false = false
   /\ snd (start emptyApp false (buildsOk []) constructed)
      = Threw (JsErrorMsg "No Lambda handlers are found in the app"))
  /\ (true = true
      /\ (forall i hd, nth_error (lambdaHandlers nodeApp) i = Some hd ->
            firstBuildFails hd (buildsOk ["/app/s/src/h.ts"] i) = false)
      /\ snd (start nodeApp true (buildsOk ["/app/s/src/h.ts"]) constructed)
         = Returned tt
      /\ watcher (fst (start nodeApp true (buildsOk ["/app/s/src/h.ts"]) constructed))
         = None).
Proof.
  assert (Hall : forall i hd, nth_error (lambdaHandlers nodeApp) i = Some hd ->
            firstBuildFails hd (buildsOk ["/app/s/src/h.ts"] i) = false).
  { intros [|[|i]] hd H; simpl in H; try discriminate.
    inversion H. reflexivity. }
  pose proof (start_outcome emptyApp false (buildsOk [])) as H.
  destruct H as (_ & H2 & _).
  pose proof (start_outcome nodeApp true (buildsOk ["/app/s/src/h.ts"])) as H'.
  destruct H' as (_ & _ & H3 & _).
  split.
  - split; [reflexivity|]. split; [reflexivity|]. exact (H2 eq_refl eq_refl).
  - split; [reflexivity|]. split; [exact Hall|]. exact (H3 eq_refl Hall).
Defined.

(** ** The pending requests through the events *)

Lemma updateAndSettle_callbacks cfg f k' k st :
  callbacksOf k (updateAndSettle cfg f k' st) = callbacksOf k st
  \/ (k = k' /\ callbacksOf k (updateAndSettle cfg f k' st)
               = map f (callbacksOf k st)).
Proof.
  unfold updateAndSettle.
  pose proof (pass_callbacks cfg st _ k (updateLambdaCodeState_pass cfg st)) as Hp.
  destruct (lookup k' (entryPointsData (updateLambdaCodeState cfg st)))
    as [e|] eqn:He; [|left; exact Hp].
  destruct (truthy (EP.needsReBuild e)); simpl; [left; exact Hp|].
  destruct (string_dec k k') as [->|Hne].
  - right. split; [reflexivity|]. rewrite <- Hp. unfold callbacksOf. simpl.
    rewrite lookup_alter_same, He. reflexivity.
  - left. rewrite <- Hp. unfold callbacksOf. simpl.
    rewrite lookup_alter_other by congruence. reflexivity.
Qed.

Lemma onReBuildFailed_callbacks cfg s h k st :
  callbacksOf k (onReBuildFailed cfg s h st) = callbacksOf k st
  \/ (k = buildEntryPointKey s h
      /\ callbacksOf k (onReBuildFailed cfg s h st)
         = map (reject (failureReason s h)) (callbacksOf k st)).
Proof.
  unfold onReBuildFailed.
  pose proof (callbacksOf_alter EP.failed k (buildEntryPointKey s h) st
                (fun e => eq_refl)) as Ha.
  destruct (updateAndSettle_callbacks cfg (reject (failureReason s h))
              (buildEntryPointKey s h) k
              (with_entryPointsData
                 (alter EP.failed (buildEntryPointKey s h) (entryPointsData st)) st))
    as [H|[Hk H]]; rewrite H, Ha; auto.
Qed.

Lemma onReBuildSucceeded_update_callbacks s h files k st :
  forall st1,
    (onReBuildSucceeded_update s h files st = Finished st1
     \/ onReBuildSucceeded_update s h files st = AwaitingUnwatch st1
     \/ exists err, onReBuildSucceeded_update s h files st = Raised err st1) ->
    callbacksOf k st1 = callbacksOf k st.
Proof.
  intros st1 Hout.
  destruct (lookup (buildEntryPointKey s h) (entryPointsData st)) as [e|] eqn:He.
  - destruct (onReBuildSucceeded_update_shape s h files st e He)
      as (st2 & Hout2 & Heps & _).
    assert (st2 = st1).
    { destruct Hout as [H|[H|(err & H)]];
        destruct Hout2 as [[H2 _]|[(H2 & _)|(err2 & H2 & _)]];
        rewrite H in H2; inversion H2; reflexivity. }
    subst st2. unfold callbacksOf. rewrite Heps.
    destruct (string_dec (buildEntryPointKey s h) k) as [<-|Hne].
    + rewrite lookup_alter_same, He. reflexivity.
    + rewrite lookup_alter_other by exact Hne. reflexivity.
  - unfold onReBuildSucceeded_update in Hout. rewrite He in Hout.
    destruct Hout as [H|[H|(err & H)]]; inversion H. reflexivity.
Qed.

Lemma succeededOrCaught_callbacks cfg s h files k st :
  callbacksOf k (succeededOrCaught cfg s h files st) = callbacksOf k st
  \/ (k = buildEntryPointKey s h
      /\ (callbacksOf k (succeededOrCaught cfg s h files st)
          = map resolve (callbacksOf k st)
          \/ callbacksOf k (succeededOrCaught cfg s h files st)
             = map (reject (failureReason s h)) (callbacksOf k st))).
Proof.
  unfold succeededOrCaught, onReBuildSucceeded.
  pose proof (onReBuildSucceeded_update_callbacks s h files k st) as Hu.
  destruct (onReBuildSucceeded_update s h files st) as [st1|st1|err st1].
  - specialize (Hu st1 (or_introl eq_refl)).
    destruct (updateAndSettle_callbacks cfg resolve (buildEntryPointKey s h) k st1)
      as [H|[Hk H]]; rewrite H, Hu; auto.
  - left. apply Hu. auto.
  - specialize (Hu st1 (or_intror (or_intror (ex_intro _ err eq_refl)))).
    destruct (onReBuildFailed_callbacks cfg s h k st1) as [H|[Hk H]];
      rewrite H, Hu; auto.
Qed.

Lemma fold_markLow_callbacks ks k : forall st,
  callbacksOf k (fold_left markLow ks st) = callbacksOf k st.
Proof.
  induction ks as [|k' ks IH]; intros st; simpl; [reflexivity|].
  rewrite IH. apply callbacksOf_alter. reflexivity.
Qed.

Lemma callbacks_step cfg ev k st :
  callbacks_after k ev (callbacksOf k st) (callbacksOf k (step cfg ev st)).
Proof.
  unfold callbacks_after.
  destruct ev as [file|s h|s h ok read|s h|s|s]; simpl.
  - left. unfold onFileChange.
    destruct (if endsWith file ".go" then _ else _) as [ks|]; [|reflexivity].
    rewrite (pass_callbacks cfg _ _ k (updateLambdaCodeState_pass cfg _)).
    apply fold_markLow_callbacks.
  - unfold getTranspiledHandler.
    destruct (lookup (buildEntryPointKey s h) (entryPointsData st)) as [e|] eqn:He;
      [|left; reflexivity].
    destruct (isSome _ || truthy _); [|left; reflexivity]. simpl.
    destruct (string_dec (buildEntryPointKey s h) k) as [<-|Hne].
    + right. left. exists s, h. split; [reflexivity|]. split; [reflexivity|].
      unfold callbacksOf. simpl. rewrite lookup_alter_same, He. reflexivity.
    + left. unfold callbacksOf. simpl.
      rewrite lookup_alter_other by exact Hne. reflexivity.
  - destruct (lookup (buildEntryPointKey s h) (entryPointsData st)) as [e|];
      [|left; reflexivity].
    assert (Hfail : forall st0, callbacksOf k st0 = callbacksOf k st ->
              callbacksOf k (onReBuildFailed cfg s h st0) = callbacksOf k st
              \/ exists s0 h0 ok0 read0,
                   buildEntryPointKey s0 h0 = k
                   /\ BuildSettled s h ok read = BuildSettled s0 h0 ok0 read0
                   /\ callbacksOf k (onReBuildFailed cfg s h st0)
                      = map (reject (failureReason s0 h0)) (callbacksOf k st)).
    { intros st0 H0.
      destruct (onReBuildFailed_callbacks cfg s h k st0) as [H|[Hk H]];
        rewrite H, H0; [left; reflexivity|].
      right. exists s, h, ok, read. auto. }
    assert (Hsucc : ok = true -> forall files st0,
              callbacksOf k st0 = callbacksOf k st ->
              callbacks_after k (BuildSettled s h ok read) (callbacksOf k st)
                (callbacksOf k (succeededOrCaught cfg s h files st0))).
    { intros -> files st0 H0. unfold callbacks_after.
      destruct (succeededOrCaught_callbacks cfg s h files k st0)
        as [H|[Hk [H|H]]]; rewrite H, H0; [left; reflexivity| |].
      - right. right. left. exists s, h. split; [auto|]. split; [|reflexivity].
        right. exists read. reflexivity.
      - right. right. right. exists s, h, true, read. auto. }
    destruct (isGoRuntime (EP.runtime e)).
    + unfold reCompile_settled. destruct ok eqn:Eok.
      * apply (Hsucc eq_refl). reflexivity.
      * destruct (Hfail st eq_refl) as [H|H]; auto.
    + unfold reTranspile_settled. destruct ok eqn:Eok.
      * pose proof (getInputFiles_frame cfg read st) as (A1 & _).
        destruct (getInputFilesFromEsbuildMetafile cfg read st)
          as [st1 [files|err]]; simpl in A1.
        -- apply (Hsucc eq_refl). apply callbacksOf_eps. exact A1.
        -- destruct (Hfail st1 (callbacksOf_eps k st st1 A1)) as [H|H]; auto.
      * destruct (Hfail st eq_refl) as [H|H]; auto.
  - unfold onReBuildSucceeded_resume.
    destruct (updateAndSettle_callbacks cfg resolve (buildEntryPointKey s h) k
                (with_unwatching (removeFirstPair (s, h) (unwatching st)) st))
      as [H|[Hk H]]; rewrite H.
    + left. reflexivity.
    + right. right. left. exists s, h. auto.
  - left. unfold onLintDone.
    rewrite (pass_callbacks cfg _ _ k (updateLambdaCodeState_pass cfg _)).
    reflexivity.
  - left. unfold onTypeCheckDone.
    rewrite (pass_callbacks cfg _ _ k (updateLambdaCodeState_pass cfg _)).
    reflexivity.
Qed.

(** ** A request during a rebuild *)

Lemma nodeRequested_entry :
  lookup (buildEntryPointKey "s" "src/h.handler") (entryPointsData nodeRequested)
  = Some nodeRequestedEntry.
Proof. vm_compute. reflexivity. Qed.

(** ** C2: pending requests and pending work *)

Lemma nodeWoken_reachable : reachable nodeApp nodeWoken.
Proof.
  apply reachable_run; [apply nodeRequested_reachable | vm_compute; reflexivity].
Qed.

(** C2, as stated, fails: the callbacks are resolved in place and never
    taken out of [pendingRequestCallbacks].  After a request during a rebuild
    and the two successful builds that follow, the entry point is clean and
    its list still holds the (fulfilled) waiter. *)
Lemma list_nonempty_on_clean_entry_point :
  reachable nodeApp nodeWoken
  /\ exists e,
       lookup nodeKey (entryPointsData nodeWoken) = Some e
       /\ EP.pendingRequestCallbacks e = [Fulfilled]
       /\ EP.buildPromise e = None
       /\ EP.needsReBuild e = OFF.
Proof.
  split; [apply nodeWoken_reachable|].
  eexists. split; [vm_compute; reflexivity|]. repeat split.
Qed.

(** C2, amended.  In every state the watcher reaches, an entry point whose
    [pendingRequestCallbacks] holds a waiter that is still pending has a build
    in flight, or a rebuild priority other than OFF, or a call of
    [onReBuildSucceeded] for it that is suspended at its [unwatch] and settles
    the waiters when it resumes.  The list itself never shrinks: after a
    successful rebuild has woken the waiters of an entry point that is clean,
    they are all still there and none of them is pending. *)
Theorem pending_waiters_have_work cfg st :
  reachable cfg st ->
  (forall k e,
     lookup k (entryPointsData st) = Some e ->
     hasPending e = true ->
     isSome (EP.buildPromise e) || truthy (EP.needsReBuild e)
     || isUnwatching k st = true)
  /\ (forall ev k,
        List.length (callbacksOf k st)
        <= List.length (callbacksOf k (step cfg ev st)))
  /\ (forall k e',
        lookup k (entryPointsData (updateAndSettle cfg resolve k st)) = Some e' ->
        EP.needsReBuild e' = OFF ->
        hasPending e' = false
        /\ List.length (EP.pendingRequestCallbacks e')
           = List.length (callbacksOf k st)).
Proof.
  intros Hr. destruct (reachable_Inv cfg st Hr) as (_ & _ & _ & Hw & _).
  split; [|split].
  - intros k e He Hp. apply (Hw k e); [discriminate | exact He | exact Hp].
  - intros ev k.
    destruct (callbacks_step cfg ev k st)
      as [H|[(s0 & h0 & _ & _ & H)|[(s0 & h0 & _ & _ & H)
                                   |(s0 & h0 & ok & read & _ & _ & H)]]];
      rewrite H; rewrite ?length_app, ?length_map; simpl; lia.
  - intros k e' He' Hoff.
    pose proof (pass_callbacks cfg st _ k (updateLambdaCodeState_pass cfg st)) as Hp.
    unfold updateAndSettle in He'. unfold callbacksOf in Hp.
    destruct (lookup k (entryPointsData (updateLambdaCodeState cfg st)))
      as [e1|] eqn:He1; [|congruence].
    destruct (truthy (EP.needsReBuild e1)) eqn:Ht; simpl in He'.
    + rewrite He1 in He'. inversion He'. subst e'.
      rewrite Hoff in Ht. discriminate.
    + rewrite lookup_alter_same, He1 in He'. simpl in He'. inversion He'.
      split; [apply settleAll_no_pending; apply resolve_settles|].
      simpl. rewrite length_map. unfold callbacksOf. rewrite <- Hp. reflexivity.
Qed.

Lemma pending_waiters_have_work_witness :
  reachable nodeApp nodeRequested
  /\ lookup nodeKey (entryPointsData nodeRequested) = Some nodeRequestedEntry
  /\ hasPending nodeRequestedEntry = true
  /\ isSome (EP.buildPromise nodeRequestedEntry)
     || truthy (EP.needsReBuild nodeRequestedEntry)
     || isUnwatching nodeKey nodeRequested = true.
Proof.
  split; [apply nodeRequested_reachable|].
  split; [exact nodeRequested_entry|]. split; [reflexivity|].
  pose proof (pending_waiters_have_work nodeApp nodeRequested
                nodeRequested_reachable) as H.
  destruct H as (H1 & _).
  exact (H1 nodeKey nodeRequestedEntry nodeRequested_entry eq_refl).
Defined.

(** The third alternative is needed: in [nodeShrunk] the waiter is pending,
    no build is in flight and the priority is OFF, while two calls of
    [onReBuildSucceeded] wait at their [unwatch]; the first to resume wakes
    the waiter. *)
Lemma suspended_call_keeps_waiter :
  reachable nodeApp nodeShrunk
  /\ (exists e,
        lookup nodeKey (entryPointsData nodeShrunk) = Some e
        /\ EP.pendingRequestCallbacks e = [Pending]
        /\ EP.buildPromise e = None
        /\ EP.needsReBuild e = OFF)
  /\ unwatching nodeShrunk = [("s", "src/h.handler"); ("s", "src/h.handler")]
  /\ callbacksOf nodeKey (step nodeApp (Unwatched "s" "src/h.handler") nodeShrunk)
     = [Fulfilled].
Proof.
  split.
  - apply reachable_run; [|vm_compute; reflexivity].
    apply started_reachable. vm_compute. reflexivity.
  - split.
    + eexists. split; [vm_compute; reflexivity|]. repeat split.
    + split; vm_compute; reflexivity.
Qed.

(** ** C3: the priority of an entry point with a waiting request *)

(** C3.  The claim says that a priority raised to HIGH is not lowered to LOW
    before a build clears it.  [onFileChange] assigns LOW to every affected
    entry point whatever its priority.  In [nodeRequested] the handler has a
    pending request and priority HIGH; a change of its file leaves the request
    pending and the priority LOW.  On the one-thread Go host the requested
    entry point [d] heads the rebuild queue before the file change and is
    behind [b] after it. *)
Theorem file_change_lowers_high_priority :
  lookup nodeKey (entryPointsData nodeRequested) = Some nodeRequestedEntry
  /\ EP.needsReBuild nodeRequestedEntry = HIGH
  /\ lookup nodeKey
       (entryPointsData (onFileChange nodeApp "/app/s/src/h.ts" nodeRequested))
     = Some (EP.with_needsReBuild LOW nodeRequestedEntry)
  /\ callbacksOf nodeKey (onFileChange nodeApp "/app/s/src/h.ts" nodeRequested)
     = [Pending]
  /\ map EP.handler (goEPsNeedsRebuild (gather (entryPointsData goRequested)))
     = ["d/main.go"; "b/main.go"]
  /\ callbacksOf goKeyD goRequested = [Pending]
  /\ map EP.handler
       (goEPsNeedsRebuild
          (gather (entryPointsData
                     (onFileChange goApp "/app/svc/b/main.go" goRequested))))
     = ["b/main.go"; "d/main.go"]
  /\ callbacksOf goKeyD (onFileChange goApp "/app/svc/b/main.go" goRequested)
     = [Pending].
Proof. repeat split; vm_compute; reflexivity. Qed.

(** ** C4: a rebuild fails *)

Lemma lookup_existsb {V : Type} (p : V -> bool) k (o : JsObject V) v :
  lookup k o = Some v -> p v = true -> existsb p (values o) = true.
Proof.
  intros Hl Hp. apply existsb_exists. exists v. split; [|exact Hp].
  apply (lookup_values k). exact Hl.
Qed.

Lemma updateAndSettle_srcPathsData cfg f k st :
  srcPathsData (updateAndSettle cfg f k st)
  = srcPathsData (updateLambdaCodeState cfg st).
Proof.
  unfold updateAndSettle.
  destruct (lookup k (entryPointsData (updateLambdaCodeState cfg st))) as [e|];
    [|reflexivity].
  destruct (truthy (EP.needsReBuild e)); reflexivity.
Qed.

(** C4, as stated, fails: the waiters are rejected only if the entry point's
    priority is OFF after the pass that follows.  On the one-thread Go host,
    [a] is being built and [a] and [d] have been asked for; when the build of
    [a] fails, the pass dispatches [d], [a] stays queued with priority HIGH,
    and its waiter stays pending. *)
Lemma failed_build_leaves_waiter_pending :
  reachable goApp goRequested
  /\ enabled (BuildSettled "svc" "a/main.go" false okRead) goRequested = true
  /\ step goApp (BuildSettled "svc" "a/main.go" false okRead) goRequested
     = onReBuildFailed goApp "svc" "a/main.go" goRequested
  /\ callbacksOf goKeyA goRequested = [Pending]
  /\ callbacksOf goKeyA (onReBuildFailed goApp "svc" "a/main.go" goRequested)
     = [Pending].
Proof.
  split; [apply goRequested_reachable|]. repeat split; vm_compute; reflexivity.
Qed.

(** C4, amended.  When a rebuild of an entry point fails, [onReBuildFailed]
    sets [hasError], clears the build handle and runs a pass, which leaves
    [srcPathsData], and with it every [needsReCheck], as it was.  If the
    priority was OFF, or the pass has at once dispatched a new build of the
    entry point (as it always does for a Node entry point whose priority is
    not OFF), every pending request is rejected with "Failed to transpile
    srcPath ... handler ...".  Otherwise, which can only happen to an entry
    point that is not Node-like and keeps waiting for a build, the record
    is left with its priority and its waiters as they were. *)
Theorem rebuild_failure cfg s h st e :
  keys_wf st ->
  lookup (buildEntryPointKey s h) (entryPointsData st) = Some e ->
  let st' := onReBuildFailed cfg s h st in
  let rejected := settleAll (reject (failureReason s h)) in
  srcPathsData st' = srcPathsData st
  /\ exists e',
       lookup (buildEntryPointKey s h) (entryPointsData st') = Some e'
       /\ EP.hasError e' = true
       /\ ((EP.needsReBuild e = OFF /\ e' = rejected (EP.failed e))
           \/ (truthy (EP.needsReBuild e) = true
               /\ exists p, e' = rejected (EP.started p (EP.failed e)))
           \/ (truthy (EP.needsReBuild e) = true
               /\ EP.runtime e <> NodeLike
               /\ e' = EP.failed e)).
Proof.
  intros Hwf He st' rejected. subst st' rejected. unfold onReBuildFailed.
  set (key := buildEntryPointKey s h) in *.
  set (st1 := with_entryPointsData (alter EP.failed key (entryPointsData st)) st).
  assert (Hwf1 : keys_wf st1)
    by (unfold keys_wf; simpl; apply eps_wf_alter; [reflexivity | exact Hwf]).
  assert (He1 : lookup key (entryPointsData st1) = Some (EP.failed e))
    by (simpl; rewrite lookup_alter_same, He; reflexivity).
  split.
  - rewrite updateAndSettle_srcPathsData.
    rewrite pass_with_error_srcPathsData; [reflexivity|].
    apply (lookup_existsb EP.hasError key _ _ He1). reflexivity.
  - destruct (updateAndSettle_spec cfg (reject (failureReason s h)) key st1
                (EP.failed e) Hwf1 He1) as (e' & He' & Hcase).
    exists e'. split; [exact He'|].
    destruct Hcase as [[Hoff ->]|[(Ht & _ & p & ->)|(Ht & Hnd & ->)]].
    + split; [reflexivity|]. left. auto.
    + split; [reflexivity|]. right. left. eauto.
    + split; [reflexivity|]. right. right. split; [exact Ht|].
      split; [|reflexivity]. intros Hn. unfold isNodeDirty in Hnd.
      simpl in Hnd, Ht. rewrite Hn, Ht in Hnd. discriminate.
Qed.

Lemma goRequested_entryA :
  lookup (buildEntryPointKey "svc" "a/main.go") (entryPointsData goRequested)
  = Some goRequestedEntryA.
Proof. vm_compute. reflexivity. Qed.

Lemma rebuild_failure_witness :
  keys_wf goRequested
  /\ lookup (buildEntryPointKey "svc" "a/main.go") (entryPointsData goRequested)
     = Some goRequestedEntryA
  /\ srcPathsData (onReBuildFailed goApp "svc" "a/main.go" goRequested)
     = srcPathsData goRequested
  /\ exists e',
       lookup (buildEntryPointKey "svc" "a/main.go")
         (entryPointsData (onReBuildFailed goApp "svc" "a/main.go" goRequested))
       = Some e'
       /\ EP.hasError e' = true.
Proof.
  pose proof (proj1 (reachable_Inv goApp goRequested goRequested_reachable))
    as Hwf.
  split; [exact Hwf|]. split; [exact goRequested_entryA|].
  pose proof (rebuild_failure goApp "svc" "a/main.go" goRequested
                goRequestedEntryA Hwf goRequested_entryA) as H.
  cbv zeta in H. destruct H as (Hs & e' & He' & Herr & _).
  split; [exact Hs|]. exists e'. split; [exact He' | exact Herr].
Defined.

(** ** C5: a rebuild succeeds *)

(** What [onReBuildSucceeded] does.  It stores the new [inputFiles], clears
    [hasError] and the build handle, and sets the priority to LOW if it was
    OFF and the build read files it had not read before.  Then it runs a
    pass, and only then tests the priority: the pending requests are woken if
    the priority was OFF after the update, and also if it was not OFF but the
    pass has at once dispatched the next build of the entry point; otherwise
    the record is left as updated.  When the call has to await [unwatch], it
    is noted as suspended and the same holds for the record it finds when it
    resumes. *)
Lemma rebuild_success cfg s h files st e :
  keys_wf st ->
  lookup (buildEntryPointKey s h) (entryPointsData st) = Some e ->
  let key := buildEntryPointKey s h in
  let e1 := EP.succeeded files (priorityAfterUpdate files e) e in
  let woken := settleAll resolve in
  let outcome (e0 e' : EP.t) :=
    (EP.needsReBuild e0 = OFF /\ e' = woken e0)
    \/ (truthy (EP.needsReBuild e0) = true
        /\ exists p, e' = woken (EP.started p e0))
    \/ (truthy (EP.needsReBuild e0) = true /\ isNodeDirty e0 = false /\ e' = e0) in
  (EP.inputFiles e1 = Some files /\ EP.hasError e1 = false
   /\ EP.buildPromise e1 = None
   /\ EP.needsReBuild e1
      = (if negb (truthy (EP.needsReBuild e))
            && nonEmpty (add (array_diff (inputFilesOf e) files))
         then LOW else EP.needsReBuild e))
  /\ match onReBuildSucceeded cfg s h files st with
     | Finished st' =>
         exists e', lookup key (entryPointsData st') = Some e' /\ outcome e1 e'
     | AwaitingUnwatch st1 =>
         lookup key (entryPointsData st1) = Some e1
         /\ unwatching st1 = unwatching st ++ [(s, h)]
     | Raised _ st1 => lookup key (entryPointsData st1) = Some e1
     end
  /\ (forall st2 e2,
        keys_wf st2 -> lookup key (entryPointsData st2) = Some e2 ->
        exists e',
          lookup key (entryPointsData (onReBuildSucceeded_resume cfg s h st2))
          = Some e'
          /\ outcome e2 e').
Proof.
  intros Hwf He key e1 woken outcome. subst key e1 woken outcome.
  split; [repeat split|]. split.
  - destruct (onReBuildSucceeded_update_shape s h files st e He)
      as (st1 & Hout & Heps & _).
    assert (He1 : lookup (buildEntryPointKey s h) (entryPointsData st1)
                  = Some (EP.succeeded files (priorityAfterUpdate files e) e))
      by (rewrite Heps, lookup_alter_same, He; reflexivity).
    assert (Hwf1 : keys_wf st1)
      by (unfold keys_wf; rewrite Heps; apply eps_wf_alter;
          [reflexivity | exact Hwf]).
    unfold onReBuildSucceeded.
    destruct Hout as [[-> _]|[(-> & Hu & _)|(err & -> & _)]].
    + destruct (updateAndSettle_spec cfg resolve (buildEntryPointKey s h) st1
                  _ Hwf1 He1) as (e' & He' & Hcase).
      exists e'. split; [exact He'|].
      destruct Hcase as [H|[(Ht & _ & Hp)|H]]; auto.
    + split; [exact He1 | exact Hu].
    + exact He1.
  - intros st2 e2 Hwf2 He2. unfold onReBuildSucceeded_resume.
    destruct (updateAndSettle_spec cfg resolve (buildEntryPointKey s h)
                (with_unwatching (removeFirstPair (s, h) (unwatching st2)) st2)
                e2 Hwf2 He2) as (e' & He' & Hcase).
    exists e'. split; [exact He'|].
    destruct Hcase as [H|[(Ht & _ & Hp)|H]]; auto.
Qed.

(** C5.  The claim says that the pending requests are woken only if the
    rebuild priority is OFF after the update, and stay queued otherwise.  The
    code has the test ([if (!needsReBuild)]), but reads the priority after
    the pass that follows the update, and that pass resets the priority of
    every entry point it dispatches.  For a Node entry point the test
    therefore never holds a waiter back: whenever [onReBuildSucceeded]
    reaches its end, every pending request is resolved, and when the
    priority after the update was not OFF the record shows the next build
    already in flight.  In [nodeRequested] the priority is HIGH after the
    update, and the waiter is woken all the same, while the build that the
    priority asked for has only just been started. *)
Theorem waiters_woken_with_priority_high :
  (forall cfg s h files st e st',
     keys_wf st ->
     lookup (buildEntryPointKey s h) (entryPointsData st) = Some e ->
     isNodeRuntime (EP.runtime e) = true ->
     onReBuildSucceeded cfg s h files st = Finished st' ->
     callbacksOf (buildEntryPointKey s h) st'
     = map resolve (callbacksOf (buildEntryPointKey s h) st)
     /\ (priorityAfterUpdate files e <> OFF ->
         exists p e',
           lookup (buildEntryPointKey s h) (entryPointsData st') = Some e'
           /\ EP.buildPromise e' = Some p
           /\ EP.needsReBuild e' = OFF))
  /\ exists st1 st2,
       onReBuildSucceeded_update "s" "src/h.handler" ["/app/s/src/h.ts"]
         nodeRequested
       = Finished st1
       /\ option_map EP.needsReBuild (lookup nodeKey (entryPointsData st1))
          = Some HIGH
       /\ onReBuildSucceeded nodeApp "s" "src/h.handler" ["/app/s/src/h.ts"]
            nodeRequested
          = Finished st2
       /\ callbacksOf nodeKey nodeRequested = [Pending]
       /\ callbacksOf nodeKey st2 = [Fulfilled]
       /\ option_map EP.buildPromise (lookup nodeKey (entryPointsData st2))
          = Some (Some 3).
Proof.
  split.
  - intros cfg s h files st e st' Hwf He Hnode Hfin.
    destruct (onReBuildSucceeded_update_shape s h files st e He)
      as (st1 & Hout & Heps & _).
    assert (He1 : lookup (buildEntryPointKey s h) (entryPointsData st1)
                  = Some (EP.succeeded files (priorityAfterUpdate files e) e))
      by (rewrite Heps, lookup_alter_same, He; reflexivity).
    assert (Hwf1 : keys_wf st1)
      by (unfold keys_wf; rewrite Heps; apply eps_wf_alter;
          [reflexivity | exact Hwf]).
    unfold onReBuildSucceeded in Hfin.
    destruct Hout as [[Hu _]|[(Hu & _)|(err & Hu & _)]]; rewrite Hu in Hfin;
      [|discriminate|discriminate].
    inversion Hfin as [Hst']. clear Hfin.
    destruct (updateAndSettle_spec cfg resolve (buildEntryPointKey s h) st1
                _ Hwf1 He1) as (e' & He' & Hcase).
    assert (Hcb : callbacksOf (buildEntryPointKey s h) st
                  = EP.pendingRequestCallbacks e)
      by (unfold callbacksOf; rewrite He; reflexivity).
    unfold callbacksOf at 1. rewrite He', Hcb.
    destruct Hcase as [[Hoff ->]|[(Ht & _ & p & ->)|(Ht & Hnd & ->)]].
    + split; [reflexivity|]. intros Hp. simpl in Hoff. contradiction.
    + split; [reflexivity|]. intros _. exists p. eexists.
      split; [reflexivity|]. split; reflexivity.
    + exfalso. unfold isNodeDirty in Hnd. simpl in Hnd, Ht.
      rewrite Hnode, Ht in Hnd. discriminate.
  - eexists. eexists. split; [vm_compute; reflexivity|].
    split; [vm_compute; reflexivity|].
    split; [vm_compute; reflexivity|].
    split; [vm_compute; reflexivity|].
    split; vm_compute; reflexivity.
Qed.

(** ** The statements at concrete states *)

Lemma go_builds_bounded_witness :
  reachable goApp goRequested
  /\ keys_wf goRequested
  /\ goBuildsInFlight goRequested <= BUILDER_CONCURRENCY goApp
  /\ goBuildsInFlight (updateLambdaCodeState goApp goRequested)
     <= BUILDER_CONCURRENCY goApp
  /\ isSome (EP.buildPromise goRequestedEntryA) = true
  /\ lookup (buildEntryPointKey "svc" "a/main.go")
       (entryPointsData (updateLambdaCodeState goApp goRequested))
     = Some goRequestedEntryA.
Proof.
  pose proof (go_builds_bounded goApp) as H. destruct H as (H1 & H2 & _ & _).
  destruct (H1 goRequested goRequested_reachable) as [Hwf Hle].
  destruct (H2 goRequested Hwf Hle) as [Hle' Hkeep].
  split; [apply goRequested_reachable|]. split; [exact Hwf|].
  split; [exact Hle|]. split; [exact Hle'|]. split; [reflexivity|].
  exact (Hkeep (buildEntryPointKey "svc" "a/main.go") goRequestedEntryA
           goRequested_entryA eq_refl).
Defined.

(** * Further properties *)

(** ** Records related key by key *)

Lemma eps_rel_refl (R : EP.t -> EP.t -> Prop) eps :
  (forall e, R e e) -> eps_rel R eps eps.
Proof. intros Hr. split; [reflexivity|]. intros k e He. exists e. auto. Qed.

Lemma eps_rel_trans (R : EP.t -> EP.t -> Prop) a b c :
  (forall x y z, R x y -> R y z -> R x z) ->
  eps_rel R a b -> eps_rel R b c -> eps_rel R a c.
Proof.
  intros Ht [K1 L1] [K2 L2]. split; [congruence|].
  intros k e He. destruct (L1 k e He) as (e1 & He1 & R1).
  destruct (L2 k e1 He1) as (e2 & He2 & R2). exists e2. split; [exact He2|].
  eapply Ht; eassumption.
Qed.

Lemma eps_rel_alter (R : EP.t -> EP.t -> Prop) f k eps :
  (forall e, R e e) ->
  (forall e, lookup k eps = Some e -> R e (f e)) ->
  eps_rel R eps (alter f k eps).
Proof.
  intros Hr Hf. split; [apply keys_alter|].
  intros k' e He. destruct (string_dec k k') as [<-|Hne].
  - exists (f e). rewrite lookup_alter_same, He. split; [reflexivity|].
    apply Hf. exact He.
  - exists e. rewrite lookup_alter_other by exact Hne. auto.
Qed.

Lemma eps_rel_back (R : EP.t -> EP.t -> Prop) eps eps' k e' :
  eps_rel R eps eps' -> lookup k eps' = Some e' ->
  exists e, lookup k eps = Some e /\ R e e'.
Proof.
  intros [Hk Hl] He'. destruct (lookup k eps) as [e|] eqn:He.
  - destruct (Hl k e He) as (e2 & He2 & Hd). exists e. split; [reflexivity|].
    rewrite He' in He2. inversion He2. subst. exact Hd.
  - exfalso. apply lookup_None_keys in He. rewrite <- Hk in He.
    apply He. apply lookup_In in He'. apply (in_map fst) in He'. exact He'.
Qed.

Lemma eps_rel_weaken (R R' : EP.t -> EP.t -> Prop) eps eps' :
  (forall e e', R e e' -> R' e e') -> eps_rel R eps eps' -> eps_rel R' eps eps'.
Proof.
  intros Hw [Hk Hl]. split; [exact Hk|]. intros k e He.
  destruct (Hl k e He) as (e' & He' & Hr). exists e'. auto.
Qed.

Lemma eps_rel_wf (R : EP.t -> EP.t -> Prop) eps eps' :
  (forall e e', R e e' -> epKey e' = epKey e) ->
  eps_rel R eps eps' -> eps_wf eps -> eps_wf eps'.
Proof.
  intros Hkey Hrel [Hnd Hall]. pose proof Hrel as [Hk _].
  assert (Hnd' : NoDup (keys eps')) by (rewrite Hk; exact Hnd).
  split; [exact Hnd'|].
  apply Forall_forall. intros [k e'] Hin. simpl.
  pose proof (In_lookup_nodup k e' eps' Hnd' Hin) as He'.
  destruct (eps_rel_back R eps eps' k e' Hrel He') as (e & He & Hr).
  rewrite (Hkey e e' Hr).
  apply lookup_In in He. rewrite Forall_forall in Hall.
  apply (Hall (k, e) He).
Qed.

Lemma ep_change_key e e' : ep_change e e' -> epKey e' = epKey e.
Proof.
  induction 1; try reflexivity. congruence.
Qed.

Lemma ep_change_sameBuild e e' : ep_change e e' -> sameBuild e e'.
Proof.
  induction 1 as [e|e1 e2 e3 _ IH1 _ IH2|e|e _|p e _ _ _|files p e|e|f e];
    try (repeat split; reflexivity).
  destruct IH1 as (A1 & A2 & A3 & A4 & A5 & A6).
  destruct IH2 as (B1 & B2 & B3 & B4 & B5 & B6).
  repeat split; congruence.
Qed.

(** ** One event, part by part *)

Lemma updateAndSettle_cases cfg f k st :
  updateAndSettle cfg f k st = updateLambdaCodeState cfg st
  \/ updateAndSettle cfg f k st
     = alterEP (settleAll f) k (updateLambdaCodeState cfg st).
Proof.
  unfold updateAndSettle, alterEP. cbv zeta.
  destruct (lookup k _) as [e|]; [|left; reflexivity].
  destruct (negb _); [right|left]; reflexivity.
Qed.

Lemma loggedMore_metafile cfg read st :
  loggedMore st (fst (getInputFilesFromEsbuildMetafile cfg read st)).
Proof.
  unfold getInputFilesFromEsbuildMetafile.
  destruct read as [why|[inputs|]]; simpl;
    [right; eexists; reflexivity | left; reflexivity | left; reflexivity].
Qed.

Lemma onReBuildFailed_result cfg s h st st0 :
  buildInFlight s h st -> loggedMore st st0 ->
  stepResult cfg st (onReBuildFailed cfg s h st0).
Proof.
  intros Hb Hl. unfold onReBuildFailed.
  destruct (updateAndSettle_cases cfg (reject (failureReason s h))
              (buildEntryPointKey s h)
              (with_entryPointsData
                 (alter EP.failed (buildEntryPointKey s h) (entryPointsData st0))
                 st0)) as [E|E]; rewrite E.
  - apply sr_pass. apply (bp_failed st s h st0 Hb Hl).
  - apply sr_settled. apply (bp_failed st s h st0 Hb Hl).
Qed.

Lemma succeededOrCaught_result cfg s h files st st0 :
  buildInFlight s h st -> filesOfBuild s h files st -> loggedMore st st0 ->
  stepResult cfg st (succeededOrCaught cfg s h files st0).
Proof.
  intros Hb Hg Hl. unfold succeededOrCaught, onReBuildSucceeded.
  destruct (onReBuildSucceeded_update s h files st0) as [st1|st1|err st1] eqn:E.
  - destruct (updateAndSettle_cases cfg resolve (buildEntryPointKey s h) st1)
      as [E1|E1]; rewrite E1.
    + apply sr_pass. apply (bp_succeeded st s h files st0 st1 Hb Hg Hl E).
    + apply sr_settled. apply (bp_succeeded st s h files st0 st1 Hb Hg Hl E).
  - apply (sr_suspended cfg st s h files st0 st1 Hb Hg Hl E).
  - unfold onReBuildFailed.
    destruct (updateAndSettle_cases cfg (reject (failureReason s h))
                (buildEntryPointKey s h)
                (with_entryPointsData
                   (alter EP.failed (buildEntryPointKey s h) (entryPointsData st1))
                   st1)) as [E1|E1]; rewrite E1.
    + apply sr_pass. apply (bp_raised st s h files st0 st1 err Hb Hg Hl E).
    + apply sr_settled. apply (bp_raised st s h files st0 st1 err Hb Hg Hl E).
Qed.

(** An enabled event leads to one of the states of [stepResult]. *)
Lemma step_stepResult cfg ev st :
  enabled ev st = true -> stepResult cfg st (step cfg ev st).
Proof.
  destruct ev as [file|s h|s h ok read|s h|s|s]; simpl; intros He.
  - unfold onFileChange.
    destruct (if endsWith file ".go" then _ else _) as [ks|] eqn:Ek;
      [|apply sr_same].
    apply sr_pass. apply (bp_fileChange st file ks); [|exact Ek].
    destruct (watcher st); [discriminate|discriminate].
  - unfold getTranspiledHandler.
    destruct (lookup _ _) as [e|] eqn:Hl; [|apply sr_same].
    destruct (isSome (EP.buildPromise e) || truthy (EP.needsReBuild e)) eqn:Hc;
      [|apply sr_same].
    simpl. apply (sr_waiting cfg st _ e Hl Hc).
  - destruct (lookup _ _) as [e|] eqn:Hl; [|discriminate].
    apply andb_true_iff in He. destruct He as [He H4].
    apply andb_true_iff in He. destruct He as [He H3].
    apply andb_true_iff in He. destruct He as [H1 H2].
    apply String.eqb_eq in H2, H3. apply negb_true_iff in H4.
    assert (Hb : buildInFlight s h st)
      by (exists e; repeat split; assumption).
    destruct (isGoRuntime (EP.runtime e)) eqn:Hgo.
    + unfold reCompile_settled. destruct ok.
      * apply succeededOrCaught_result;
          [exact Hb | intros e' _ _; reflexivity | left; reflexivity].
      * apply onReBuildFailed_result; [exact Hb | left; reflexivity].
    + unfold reTranspile_settled. destruct ok.
      * pose proof (loggedMore_metafile cfg read st) as Hm.
        destruct (getInputFilesFromEsbuildMetafile cfg read st)
          as [st1 [files|err]]; simpl in Hm.
        -- apply succeededOrCaught_result; [exact Hb| |exact Hm].
           intros e' He' Hn. rewrite Hl in He'. inversion He'. subst e'.
           destruct (EP.runtime e); simpl in *; discriminate.
        -- apply onReBuildFailed_result; assumption.
      * apply onReBuildFailed_result; [exact Hb | left; reflexivity].
  - unfold onReBuildSucceeded_resume.
    destruct (updateAndSettle_cases cfg resolve (buildEntryPointKey s h)
                (with_unwatching (removeFirstPair (s, h) (unwatching st)) st))
      as [E|E]; rewrite E.
    + apply sr_pass. apply bp_resume. exact He.
    + apply sr_settled. apply bp_resume. exact He.
  - unfold onLintDone. apply sr_pass. apply bp_lintDone.
  - unfold onTypeCheckDone. apply sr_pass. apply bp_typeCheckDone.
Qed.

(** ** How the records change *)

Lemma ep_change_refl_trans :
  (forall e, ep_change e e)
  /\ (forall x y z, ep_change x y -> ep_change y z -> ep_change x z).
Proof. split; [apply ch_refl | apply ch_trans]. Qed.

Lemma eps_change_trans a b c :
  eps_rel ep_change a b -> eps_rel ep_change b c -> eps_rel ep_change a c.
Proof. apply eps_rel_trans. apply ch_trans. Qed.

Lemma eps_change_wf eps eps' :
  eps_rel ep_change eps eps' -> eps_wf eps -> eps_wf eps'.
Proof. apply eps_rel_wf. apply ep_change_key. Qed.

Lemma fold_markLow_change ks : forall st,
  eps_rel ep_change (entryPointsData st)
    (entryPointsData (fold_left markLow ks st)).
Proof.
  induction ks as [|k ks IH]; intros st; simpl.
  - apply eps_rel_refl. apply ch_refl.
  - eapply eps_change_trans; [|apply IH]. simpl.
    apply eps_rel_alter; [apply ch_refl|]. intros e _. apply ch_low.
Qed.

Lemma dispatchBuilds_change cfg st :
  keys_wf st ->
  eps_rel ep_change (entryPointsData st)
    (entryPointsData (dispatchBuilds cfg st)).
Proof.
  intros Hwf. destruct (dispatchBuilds_spec cfg st Hwf) as (_ & Hk & Hl).
  split; [exact Hk|]. intros k e He.
  destruct (Hl k e He) as (e' & He' & [[Heq _]|(Hin & p & _ & Heq)]);
    exists e'; (split; [exact He'|]); subst e'; [apply ch_refl|].
  destruct (dispatchList_sound cfg st e Hwf Hin) as (_ & Hb & Hn & Hr).
  apply ch_started; [|exact Hb|exact Hn].
  destruct (EP.runtime e); simpl in *; auto;
    destruct Hr as [Hr|Hr]; discriminate.
Qed.

Lemma pass_change cfg st st' :
  pass cfg st st' -> keys_wf st ->
  eps_rel ep_change (entryPointsData st) (entryPointsData st').
Proof.
  induction 1 as [st|st1 st2 st3 H12 IH1 _ IH2|st|st|st s d Hd Hn]; intros Hwf.
  - apply eps_rel_refl. apply ch_refl.
  - eapply eps_change_trans; [apply IH1; exact Hwf|].
    apply IH2. apply (pass_eps cfg st1 st2 H12 Hwf).
  - rewrite busy_entryPointsData. apply eps_rel_refl. apply ch_refl.
  - apply dispatchBuilds_change. exact Hwf.
  - destruct (checkedState_frame cfg s st) as (E & _). rewrite E.
    apply eps_rel_refl. apply ch_refl.
Qed.

Lemma onReBuildSucceeded_update_absent s h files st :
  lookup (buildEntryPointKey s h) (entryPointsData st) = None ->
  progressState (onReBuildSucceeded_update s h files st) = st.
Proof. intros He. unfold onReBuildSucceeded_update. rewrite He. reflexivity. Qed.

Lemma progressState_shape s h files st e :
  lookup (buildEntryPointKey s h) (entryPointsData st) = Some e ->
  let st1 := progressState (onReBuildSucceeded_update s h files st) in
  entryPointsData st1
  = alter (EP.succeeded files (priorityAfterUpdate files e))
      (buildEntryPointKey s h) (entryPointsData st)
  /\ logged st1 = logged st
  /\ isProcessingLambdaChanges st1 = isProcessingLambdaChanges st
  /\ nextHandle st1 = nextHandle st.
Proof.
  intros He.
  destruct (onReBuildSucceeded_update_shape s h files st e He)
    as (st1 & Hout & Heps & Hlog & Hflag & Hn & _).
  destruct Hout as [[-> _]|[(-> & _)|(err & -> & _)]]; simpl; auto.
Qed.

Lemma progressState_change s h files st :
  eps_rel ep_change (entryPointsData st)
    (entryPointsData (progressState (onReBuildSucceeded_update s h files st))).
Proof.
  destruct (lookup (buildEntryPointKey s h) (entryPointsData st)) as [e|] eqn:He.
  - destruct (progressState_shape s h files st e He) as (-> & _).
    apply eps_rel_alter; [apply ch_refl|]. intros e' _. apply ch_succeeded.
  - rewrite onReBuildSucceeded_update_absent by exact He.
    apply eps_rel_refl. apply ch_refl.
Qed.

Lemma loggedMore_frame st st0 :
  loggedMore st st0 ->
  entryPointsData st0 = entryPointsData st
  /\ srcPathsData st0 = srcPathsData st
  /\ watchedNodeFilesIndex st0 = watchedNodeFilesIndex st
  /\ watcher st0 = watcher st
  /\ unwatching st0 = unwatching st
  /\ isProcessingLambdaChanges st0 = isProcessingLambdaChanges st
  /\ nextHandle st0 = nextHandle st
  /\ filter isBusyLine (logged st0) = filter isBusyLine (logged st).
Proof.
  intros [->|(msg & ->)]; simpl; repeat split; auto.
  rewrite filter_app. simpl. apply app_nil_r.
Qed.

Lemma beforePass_change st pre :
  beforePass st pre ->
  eps_rel ep_change (entryPointsData st) (entryPointsData pre).
Proof.
  intros H. destruct H as [file ks _ _|s h st0 _ Hl|s h files st0 st1 _ _ Hl E
                           |s h files st0 st1 err _ _ Hl E|s h _|s|s].
  - apply fold_markLow_change.
  - destruct (loggedMore_frame st st0 Hl) as (<- & _). simpl.
    apply eps_rel_alter; [apply ch_refl|]. intros e _. apply ch_failed.
  - destruct (loggedMore_frame st st0 Hl) as (<- & _).
    pose proof (progressState_change s h files st0) as Hc.
    rewrite E in Hc. exact Hc.
  - destruct (loggedMore_frame st st0 Hl) as (<- & _).
    pose proof (progressState_change s h files st0) as Hc.
    rewrite E in Hc. simpl in Hc.
    eapply eps_change_trans; [exact Hc|]. simpl.
    apply eps_rel_alter; [apply ch_refl|]. intros e _. apply ch_failed.
  - simpl. apply eps_rel_refl. apply ch_refl.
  - simpl. apply eps_rel_refl. apply ch_refl.
  - simpl. apply eps_rel_refl. apply ch_refl.
Qed.

Lemma beforePass_wf st pre : beforePass st pre -> keys_wf st -> keys_wf pre.
Proof.
  intros H Hwf. apply (eps_change_wf (entryPointsData st)); [|exact Hwf].
  apply beforePass_change. exact H.
Qed.

Lemma update_change cfg st :
  keys_wf st ->
  eps_rel ep_change (entryPointsData st)
    (entryPointsData (updateLambdaCodeState cfg st)).
Proof. apply (pass_change cfg). apply updateLambdaCodeState_pass. Qed.

Lemma stepResult_change cfg st st' :
  keys_wf st -> stepResult cfg st st' ->
  eps_rel ep_change (entryPointsData st) (entryPointsData st').
Proof.
  intros Hwf H. destruct H as [|k e He Hc|s h files st0 st1 _ _ Hl E|pre Hp|pre f k Hp].
  - apply eps_rel_refl. apply ch_refl.
  - simpl. apply eps_rel_alter; [apply ch_refl|].
    intros e' He'. rewrite He in He'. inversion He'. subst. apply ch_waiting.
    exact Hc.
  - destruct (loggedMore_frame st st0 Hl) as (<- & _).
    pose proof (progressState_change s h files st0) as Hc.
    rewrite E in Hc. exact Hc.
  - eapply eps_change_trans; [apply beforePass_change; exact Hp|].
    apply update_change. apply (beforePass_wf st pre Hp Hwf).
  - eapply eps_change_trans; [apply beforePass_change; exact Hp|].
    eapply eps_change_trans;
      [apply update_change; apply (beforePass_wf st pre Hp Hwf)|].
    simpl. apply eps_rel_alter; [apply ch_refl|]. intros e _. apply ch_settled.
Qed.

Lemma step_change cfg ev st :
  keys_wf st -> enabled ev st = true ->
  eps_rel ep_change (entryPointsData st) (entryPointsData (step cfg ev st)).
Proof.
  intros Hwf He. apply (stepResult_change cfg); [exact Hwf|].
  apply step_stepResult. exact He.
Qed.

(** ** Scheduling *)

Lemma isGoWaiting_spec e :
  isGoWaiting e = true <->
  isGoRuntime (EP.runtime e) = true /\ EP.buildPromise e = None
  /\ truthy (EP.needsReBuild e) = true.
Proof.
  unfold isGoWaiting, isGoQueued, priority_eqb, truthy.
  destruct (EP.runtime e), (EP.buildPromise e), (EP.needsReBuild e); simpl;
    intuition (try discriminate; try congruence).
Qed.

Lemma isNodeDirty_spec e :
  isNodeDirty e = true <->
  isNodeRuntime (EP.runtime e) = true /\ EP.buildPromise e = None
  /\ truthy (EP.needsReBuild e) = true.
Proof.
  unfold isNodeDirty.
  destruct (EP.runtime e), (EP.buildPromise e), (truthy (EP.needsReBuild e));
    simpl; intuition (try discriminate; try congruence).
Qed.

Lemma truthy_false p : truthy p = false <-> p = OFF.
Proof. destruct p; simpl; split; intros H; try discriminate; reflexivity. Qed.

Lemma not_in_firstn_length {A : Type} (n : nat) (l : list A) (x : A) :
  In x l -> ~ In x (firstn n l) -> n < List.length l.
Proof.
  intros Hin Hnot. destruct (Nat.lt_ge_cases n (List.length l)) as [H|H];
    [exact H|].
  exfalso. apply Hnot. rewrite firstn_all2 by exact H. exact Hin.
Qed.

Lemma length_slice0_exact {A : Type} (r : Z) (l : list A) (x : A) :
  (0 <= r)%Z -> In x l -> ~ In x (slice0 r l) ->
  List.length (slice0 r l) = Z.to_nat r.
Proof.
  intros Hr Hin Hnot. unfold slice0 in *.
  destruct (r <? 0)%Z eqn:E; [lia|].
  pose proof (not_in_firstn_length _ _ _ Hin Hnot) as Hlt.
  rewrite length_firstn. lia.
Qed.

Lemma filter_all {A : Type} (p : A -> bool) (l : list A) :
  (forall x, In x l -> p x = true) -> filter p l = l.
Proof.
  induction l as [|x l IH]; intros H; simpl; [reflexivity|].
  rewrite (H x (or_introl eq_refl)). f_equal. apply IH.
  intros y Hy. apply H. right. exact Hy.
Qed.

(** The Go queue of [gather] holds exactly the waiting Go entry points. *)
Lemma goQueue_In st e :
  In e (goEPsNeedsRebuild (gather (entryPointsData st))) <->
  In e (values (entryPointsData st)) /\ isGoWaiting e = true.
Proof.
  rewrite gather_spec. simpl. rewrite in_app_iff, <- in_rev, !filter_In.
  unfold isGoWaiting. rewrite orb_true_iff. tauto.
Qed.

Lemma dispatchBuilds_WC cfg st :
  keys_wf st -> goBuildsInFlight st <= BUILDER_CONCURRENCY cfg ->
  workConserving cfg (dispatchBuilds cfg st).
Proof.
  intros Hwf Hle k e' He' Hw.
  destruct (dispatchBuilds_spec cfg st Hwf) as (_ & Hk & Hl).
  assert (Hrel : eps_rel ep_change (entryPointsData st)
                   (entryPointsData (dispatchBuilds cfg st)))
    by (apply dispatchBuilds_change; exact Hwf).
  destruct (eps_rel_back _ _ _ k e' Hrel He') as (e & He & _).
  destruct (Hl k e He) as (e2 & He2 & Hcase).
  rewrite He' in He2. inversion He2. subst e2. clear He2.
  apply isGoWaiting_spec in Hw. destruct Hw as (Hgo & Hbp & Hnr).
  destruct Hcase as [[-> Hnot]|(_ & p & _ & ->)]; [|simpl in Hbp; discriminate].
  assert (Hq : In e (goEPsNeedsRebuild (gather (entryPointsData st)))).
  { apply goQueue_In. split; [apply (lookup_values k); exact He|].
    apply isGoWaiting_spec. auto. }
  rewrite dispatchBuilds_fold, fold_startReBuild_goCount.
  2:{ intros x Hx. destruct (dispatchList_sound cfg st x Hwf Hx) as (H1 & H2 & _).
      split; assumption. }
  2:{ apply dispatchList_nodup. exact Hwf. }
  unfold dispatchList in *. rewrite filter_app, length_app.
  rewrite (filter_none isGoEP (nodeEPsNeedsRebuild _)).
  2:{ intros x Hx. rewrite gather_spec in Hx. simpl in Hx.
      apply filter_In in Hx. destruct Hx as [_ Hx].
      unfold isNodeDirty in Hx. unfold isGoEP.
      destruct (EP.runtime x); simpl in *; auto; discriminate. }
  rewrite filter_all.
  2:{ intros x Hx. apply In_slice0 in Hx. apply goQueue_In in Hx.
      destruct Hx as [_ Hx]. apply isGoWaiting_spec in Hx. unfold isGoEP. tauto. }
  assert (Hlen : List.length (goEPsBuilding (gather (entryPointsData st)))
                 = goBuildsInFlight st)
    by (rewrite gather_spec; reflexivity).
  rewrite (length_slice0_exact _ _ e); [| |exact Hq|].
  - unfold concurrencyRemaining. rewrite Hlen. simpl. lia.
  - unfold concurrencyRemaining. rewrite Hlen. lia.
  - intros Hin. apply Hnot. apply in_or_app. right. exact Hin.
Qed.

Lemma pass_WC cfg st st' :
  pass cfg st st' -> keys_wf st ->
  goBuildsInFlight st <= BUILDER_CONCURRENCY cfg ->
  workConserving cfg st -> workConserving cfg st'.
Proof.
  induction 1 as [st|st1 st2 st3 H12 IH1 H23 IH2|st|st|st s d Hd Hn];
    intros Hwf Hle Hwc.
  - exact Hwc.
  - apply IH2.
    + apply (pass_eps cfg st1 st2 H12 Hwf).
    + apply (pass_goCount cfg st1 st2 H12 Hwf Hle).
    + apply IH1; assumption.
  - unfold workConserving, goBuildsInFlight in *.
    rewrite busy_entryPointsData. exact Hwc.
  - apply dispatchBuilds_WC; assumption.
  - destruct (checkedState_frame cfg s st) as (E & _).
    unfold workConserving, goBuildsInFlight in *. rewrite E. exact Hwc.
Qed.

Lemma update_WC cfg st :
  keys_wf st -> goBuildsInFlight st <= BUILDER_CONCURRENCY cfg ->
  workConserving cfg (updateLambdaCodeState cfg st).
Proof.
  intros Hwf Hle.
  assert (Hwf0 : keys_wf (updateLambdaCodeBusyStatus st))
    by (unfold keys_wf; rewrite busy_entryPointsData; exact Hwf).
  assert (Hle0 : goBuildsInFlight (updateLambdaCodeBusyStatus st)
                 <= BUILDER_CONCURRENCY cfg)
    by (unfold goBuildsInFlight; rewrite busy_entryPointsData; exact Hle).
  pose proof (fuel_pass_from_dispatch cfg (List.length (srcPathsData st)) st) as Hp.
  apply (pass_WC cfg _ _ Hp).
  - apply (dispatchBuilds_spec cfg _ Hwf0).
  - apply dispatchBuilds_goCount; assumption.
  - apply dispatchBuilds_WC; assumption.
Qed.

(** After a pass no Node entry point is left waiting. *)
Lemma update_no_node_dirty cfg st k e' :
  keys_wf st ->
  lookup k (entryPointsData (updateLambdaCodeState cfg st)) = Some e' ->
  isNodeDirty e' = false.
Proof.
  intros Hwf He'.
  destruct (pass_eps cfg _ _ (updateLambdaCodeState_pass cfg st) Hwf) as [_ Hd].
  destruct (eps_dispatch_back _ _ k e' Hd He') as (e & He & [->|(_ & _ & p & ->)]).
  - apply (pass_dispatches_node cfg st k e Hwf He He').
  - unfold isNodeDirty. simpl. apply andb_false_r.
Qed.

Lemma busy_idleIsClean st :
  idleNotBuilding st -> idleIsClean (updateLambdaCodeBusyStatus st).
Proof.
  intros HK. unfold idleIsClean, allClean, updateLambdaCodeBusyStatus.
  destruct (isProcessingLambdaChanges st) eqn:Hb; simpl.
  - destruct (existsb (fun e => truthy (EP.needsReBuild e)
                                || isSome (EP.buildPromise e)) _) eqn:E1;
      [rewrite Hb; discriminate|].
    assert (Hall : forall k e, lookup k (entryPointsData st) = Some e ->
                     EP.buildPromise e = None /\ EP.needsReBuild e = OFF).
    { intros k e He. apply lookup_values in He.
      destruct (truthy (EP.needsReBuild e) || isSome (EP.buildPromise e)) eqn:E2.
      - assert (existsb (fun e => truthy (EP.needsReBuild e)
                                  || isSome (EP.buildPromise e))
                  (values (entryPointsData st)) = true)
          by (apply existsb_exists; exists e; auto).
        congruence.
      - apply orb_false_iff in E2. destruct E2 as [E2 E3].
        apply truthy_false in E2. destruct (EP.buildPromise e); [discriminate|].
        auto. }
    destruct (existsb EP.hasError _); simpl; [intros _; exact Hall|].
    destruct (existsb _ (values (srcPathsData st))); simpl;
      [rewrite Hb; discriminate | intros _; exact Hall].
  - destruct (existsb (fun e => truthy (EP.needsReBuild e)) _) eqn:E1; simpl;
      [discriminate|].
    intros _ k e He. split; [apply (HK Hb k e He)|].
    apply truthy_false. destruct (truthy (EP.needsReBuild e)) eqn:E2; [|reflexivity].
    apply lookup_values in He.
    assert (existsb (fun e => truthy (EP.needsReBuild e))
              (values (entryPointsData st)) = true)
      by (apply existsb_exists; exists e; auto).
    congruence.
Qed.

Lemma clean_dispatch e e' :
  ep_dispatch e e' -> EP.needsReBuild e = OFF -> e' = e.
Proof.
  intros [->|(_ & Hn & _)] Hoff; [reflexivity|].
  rewrite Hoff in Hn. discriminate.
Qed.

Lemma pass_allClean cfg st st' :
  pass cfg st st' -> keys_wf st -> allClean st -> allClean st'.
Proof.
  intros Hp Hwf Hc k e' He'.
  destruct (pass_eps cfg st st' Hp Hwf) as [_ Hd].
  destruct (eps_dispatch_back _ _ k e' Hd He') as (e & He & Hdisp).
  destruct (Hc k e He) as [Hb Hn].
  rewrite (clean_dispatch e e' Hdisp Hn). auto.
Qed.

Lemma pass_flag_clean cfg st st' :
  pass cfg st st' -> keys_wf st -> idleIsClean st -> idleIsClean st'.
Proof.
  induction 1 as [st|st1 st2 st3 H12 IH1 H23 IH2|st|st|st s d Hd Hn];
    intros Hwf HJ.
  - exact HJ.
  - apply IH2; [apply (pass_eps cfg st1 st2 H12 Hwf)|]. apply IH1; assumption.
  - apply busy_idleIsClean. intros Hb k e He. apply (HJ Hb k e He).
  - intros Hb.
    destruct (dispatchBuilds_frame cfg st) as (_ & _ & _ & _ & _ & Hf & _).
    rewrite Hf in Hb.
    apply (pass_allClean cfg st _ (pass_dispatch cfg st) Hwf (HJ Hb)).
  - destruct (checkedState_frame cfg s st) as (E & _ & _ & _ & _ & Hf & _).
    unfold idleIsClean, allClean in *. rewrite E, Hf. exact HJ.
Qed.

Lemma update_idleIsClean cfg st :
  keys_wf st -> idleNotBuilding st ->
  idleIsClean (updateLambdaCodeState cfg st).
Proof.
  intros Hwf HK.
  assert (Hwf0 : keys_wf (updateLambdaCodeBusyStatus st))
    by (unfold keys_wf; rewrite busy_entryPointsData; exact Hwf).
  pose proof (fuel_pass_from_dispatch cfg (List.length (srcPathsData st)) st) as Hp.
  apply (pass_flag_clean cfg _ _ Hp).
  - apply (dispatchBuilds_spec cfg _ Hwf0).
  - apply (pass_flag_clean cfg _ _ (pass_dispatch cfg _) Hwf0).
    apply busy_idleIsClean. exact HK.
Qed.

Lemma update_Sched cfg st :
  keys_wf st -> goBuildsInFlight st <= BUILDER_CONCURRENCY cfg ->
  idleNotBuilding st ->
  Sched cfg (updateLambdaCodeState cfg st).
Proof.
  intros Hwf Hle HK. split; [|split].
  - apply update_WC; assumption.
  - intros k e He Hd.
    rewrite (update_no_node_dirty cfg st k e Hwf He) in Hd. discriminate.
  - apply update_idleIsClean; assumption.
Qed.

(** ** The scheduling properties through the handlers *)

(** A record update that does not change what the scheduler looks at. *)
Lemma Sched_alter cfg f k st :
  (forall e, lookup k (entryPointsData st) = Some e ->
     isGoBuilding (f e) = isGoBuilding e
     /\ (isGoWaiting (f e) = true -> isGoWaiting e = true)
     /\ (isNodeDirty (f e) = true -> isNodeDirty e = true)
     /\ (EP.buildPromise e = None -> EP.needsReBuild e = OFF ->
         EP.buildPromise (f e) = None /\ EP.needsReBuild (f e) = OFF)) ->
  Sched cfg st -> Sched cfg (alterEP f k st).
Proof.
  intros Hf (Hwc & Hnode & Hidle).
  assert (Hcount : goBuildsInFlight (alterEP f k st) = goBuildsInFlight st).
  { unfold goBuildsInFlight, alterEP. simpl.
    destruct (lookup k (entryPointsData st)) as [e|] eqn:He.
    - pose proof (count_alter isGoBuilding f k (entryPointsData st) e He) as Hc.
      destruct (Hf e eq_refl) as (Hg & _). rewrite Hg in Hc. lia.
    - rewrite alter_absent by exact He. reflexivity. }
  assert (Hback : forall k2 e2,
             lookup k2 (entryPointsData (alterEP f k st)) = Some e2 ->
             lookup k2 (entryPointsData st) = Some e2
             \/ exists e, k2 = k /\ lookup k (entryPointsData st) = Some e
                          /\ e2 = f e).
  { intros k2 e2 H2. simpl in H2. destruct (string_dec k k2) as [<-|Hne].
    - rewrite lookup_alter_same in H2.
      destruct (lookup k (entryPointsData st)) as [e|]; [|discriminate].
      right. exists e. inversion H2. auto.
    - rewrite lookup_alter_other in H2 by exact Hne. left. exact H2. }
  split; [|split].
  - intros k2 e2 H2 Hw. rewrite Hcount.
    destruct (Hback k2 e2 H2) as [H|(e & -> & He & ->)].
    + apply (Hwc k2 e2 H Hw).
    + destruct (Hf e He) as (_ & Hw' & _). apply (Hwc k e He (Hw' Hw)).
  - intros k2 e2 H2 Hd. unfold isUnwatching. simpl.
    destruct (Hback k2 e2 H2) as [H|(e & -> & He & ->)].
    + apply (Hnode k2 e2 H Hd).
    + destruct (Hf e He) as (_ & _ & Hd' & _). apply (Hnode k e He (Hd' Hd)).
  - intros Hb k2 e2 H2. simpl in Hb.
    destruct (Hback k2 e2 H2) as [H|(e & -> & He & ->)].
    + apply (Hidle Hb k2 e2 H).
    + destruct (Hidle Hb k e He) as [Hbp Hn].
      destruct (Hf e He) as (_ & _ & _ & Hc). apply Hc; assumption.
Qed.

Lemma fold_markLow_rel (R : EP.t -> EP.t -> Prop) ks :
  (forall e, R e e) -> (forall x y z, R x y -> R y z -> R x z) ->
  (forall e, R e (EP.with_needsReBuild LOW e)) ->
  forall st,
    eps_rel R (entryPointsData st) (entryPointsData (fold_left markLow ks st)).
Proof.
  intros Hr Ht Hl.
  induction ks as [|k ks IH]; intros st; simpl.
  - apply eps_rel_refl. exact Hr.
  - eapply eps_rel_trans; [exact Ht| |apply IH]. simpl.
    apply eps_rel_alter; [exact Hr|]. intros e _. apply Hl.
Qed.

Lemma fold_markLow_frame ks : forall st,
  let st' := fold_left markLow ks st in
  srcPathsData st' = srcPathsData st
  /\ watchedNodeFilesIndex st' = watchedNodeFilesIndex st
  /\ watcher st' = watcher st
  /\ unwatching st' = unwatching st
  /\ logged st' = logged st
  /\ isProcessingLambdaChanges st' = isProcessingLambdaChanges st
  /\ nextHandle st' = nextHandle st.
Proof.
  induction ks as [|k ks IH]; intros st; simpl; [repeat split|].
  destruct (IH (markLow st k)) as (A1 & A2 & A3 & A4 & A5 & A6 & A7).
  simpl in *. repeat split; assumption.
Qed.

Lemma buildInFlight_not_clean s h st :
  buildInFlight s h st -> allClean st -> False.
Proof.
  intros (e & He & Hb & _) Hc. destruct (Hc _ e He) as [Hn _].
  rewrite Hn in Hb. discriminate.
Qed.

Lemma Inv_loggedMore cfg skip st st0 :
  loggedMore st st0 -> Inv cfg skip st -> Inv cfg skip st0.
Proof.
  intros Hl H.
  destruct (loggedMore_frame st st0 Hl) as (A1 & _ & _ & _ & A5 & A6 & _ & A8).
  apply (Inv_frame cfg skip st); auto. intros k _. rewrite A5. auto.
Qed.

Lemma Inv_progressState cfg s h files st :
  Inv cfg None st ->
  Inv cfg (Some (buildEntryPointKey s h))
    (progressState (onReBuildSucceeded_update s h files st)).
Proof.
  intros H.
  destruct (lookup (buildEntryPointKey s h) (entryPointsData st)) as [e|] eqn:He.
  - destruct (onReBuildSucceeded_update_shape s h files st e He)
      as (st1 & Hout & Heps & Hlog & Hflag & _).
    assert (Hmid : Inv cfg (Some (buildEntryPointKey s h))
                     (with_entryPointsData
                        (alter (EP.succeeded files (priorityAfterUpdate files e))
                           (buildEntryPointKey s h) (entryPointsData st)) st)).
    { apply Inv_alter; [apply Inv_weaken; exact H | reflexivity | | left; reflexivity].
      intros e'. unfold isGoBuilding. simpl. rewrite andb_false_r. discriminate. }
    assert (H1 : Inv cfg (Some (buildEntryPointKey s h)) st1).
    { apply (Inv_frame cfg _ _ st1) in Hmid; auto.
      - rewrite Hlog. reflexivity.
      - intros k Hk Hu. simpl in Hu.
        destruct Hout as [[_ ->]|[(_ & -> & _)|(err & _ & ->)]]; auto.
        rewrite unwatchingKey_app, Hu. reflexivity. }
    destruct Hout as [[-> _]|[(-> & _)|(err & -> & _)]]; exact H1.
  - rewrite onReBuildSucceeded_update_absent by exact He.
    apply Inv_weaken. exact H.
Qed.

Lemma Inv_failed cfg s h st :
  Inv cfg (Some (buildEntryPointKey s h)) st ->
  Inv cfg (Some (buildEntryPointKey s h))
    (alterEP EP.failed (buildEntryPointKey s h) st).
Proof.
  intros H. apply Inv_alter; [exact H | reflexivity | | left; reflexivity].
  intros e. unfold isGoBuilding. simpl. rewrite andb_false_r. discriminate.
Qed.

(** The state handed to the pass is well formed and within the Go limit. *)
Lemma beforePass_Inv cfg st pre :
  Inv cfg None st -> beforePass st pre -> exists skip, Inv cfg skip pre.
Proof.
  intros H Hp. destruct Hp as [file ks _ _|s h st0 _ Hl|s h files st0 st1 _ _ Hl E
                               |s h files st0 st1 err _ _ Hl E|s h _|s|s].
  - exists None. apply fold_markLow_Inv. exact H.
  - eexists. apply Inv_failed. apply Inv_weaken.
    apply (Inv_loggedMore cfg None st st0 Hl H).
  - eexists.
    pose proof (Inv_progressState cfg s h files st0
                  (Inv_loggedMore cfg None st st0 Hl H)) as H1.
    rewrite E in H1. exact H1.
  - eexists. apply Inv_failed.
    pose proof (Inv_progressState cfg s h files st0
                  (Inv_loggedMore cfg None st st0 Hl H)) as H1.
    rewrite E in H1. exact H1.
  - exists (Some (buildEntryPointKey s h)). apply (Inv_frame cfg _ st); auto.
    + intros k Hk Hu. simpl.
      rewrite unwatchingKey_removeFirstPair; [exact Hu|]. congruence.
    + apply Inv_weaken. exact H.
  - exists None. apply (Inv_frame cfg None st); auto.
  - exists None. apply (Inv_frame cfg None st); auto.
Qed.

Lemma lookup_alter_cases {V : Type} (f : V -> V) k k2 (o : JsObject V) v2 :
  lookup k2 (alter f k o) = Some v2 ->
  (k2 <> k /\ lookup k2 o = Some v2)
  \/ exists v, k2 = k /\ lookup k o = Some v /\ v2 = f v.
Proof.
  intros H2. destruct (string_dec k k2) as [<-|Hne].
  - rewrite lookup_alter_same in H2.
    destruct (lookup k o) as [v|]; [|discriminate].
    right. exists v. inversion H2. auto.
  - rewrite lookup_alter_other in H2 by exact Hne. left. split; congruence.
Qed.

Lemma buildInFlight_loggedMore s h st st0 :
  buildInFlight s h st -> loggedMore st st0 -> buildInFlight s h st0.
Proof.
  intros Hb Hl. destruct (loggedMore_frame st st0 Hl) as (E & _).
  unfold buildInFlight. rewrite E. exact Hb.
Qed.

Lemma beforePass_flag st pre :
  beforePass st pre ->
  isProcessingLambdaChanges pre = isProcessingLambdaChanges st.
Proof.
  intros Hp. destruct Hp as [file ks _ _|s h st0 _ Hl|s h files st0 st1 Hb _ Hl E
                             |s h files st0 st1 err Hb _ Hl E|s h _|s|s];
    try reflexivity.
  - apply fold_markLow_frame.
  - simpl. apply (loggedMore_frame st st0 Hl).
  - destruct (buildInFlight_loggedMore s h st st0 Hb Hl) as (e & He & _).
    destruct (progressState_shape s h files st0 e He) as (_ & _ & Hf & _).
    rewrite E in Hf. simpl in Hf. rewrite Hf. apply (loggedMore_frame st st0 Hl).
  - destruct (buildInFlight_loggedMore s h st st0 Hb Hl) as (e & He & _).
    destruct (progressState_shape s h files st0 e He) as (_ & _ & Hf & _).
    rewrite E in Hf. simpl in *. rewrite Hf. apply (loggedMore_frame st st0 Hl).
Qed.

Lemma beforePass_idleNotBuilding st pre :
  beforePass st pre -> idleIsClean st -> idleNotBuilding pre.
Proof.
  intros Hp HJ Hb. rewrite (beforePass_flag st pre Hp) in Hb.
  specialize (HJ Hb).
  destruct Hp as [file ks _ _|s h st0 Hf Hl|s h files st0 st1 Hf _ Hl E
                  |s h files st0 st1 err Hf _ Hl E|s h _|s|s];
    try (exfalso; apply (buildInFlight_not_clean s h st Hf HJ)).
  - intros k e' He'.
    pose proof (fold_markLow_rel
                  (fun e e' => EP.buildPromise e' = EP.buildPromise e) ks
                  (fun e => eq_refl)
                  (fun x y z H1 H2 => eq_trans H2 H1)
                  (fun e => eq_refl) st) as Hrel.
    destruct (eps_rel_back _ _ _ k e' Hrel He') as (e & He & ->).
    apply (HJ k e He).
  - intros k e He. apply (HJ k e He).
  - intros k e He. apply (HJ k e He).
  - intros k e He. apply (HJ k e He).
Qed.

Lemma Sched_suspended cfg s h files st st0 st1 :
  buildInFlight s h st -> loggedMore st st0 ->
  onReBuildSucceeded_update s h files st0 = AwaitingUnwatch st1 ->
  Sched cfg st -> Sched cfg st1.
Proof.
  intros Hb Hl E (Hwc & Hnode & Hidle).
  destruct (loggedMore_frame st st0 Hl) as (E0 & _ & _ & _ & U0 & F0 & _).
  destruct (buildInFlight_loggedMore s h st st0 Hb Hl) as (e & He & Hbp & _).
  destruct (onReBuildSucceeded_update_shape s h files st0 e He)
    as (st1' & Hout & Heps & _ & Hflag & _).
  rewrite E in Hout.
  destruct Hout as [[Hx _]|[(Hx & Hu & Hnode_e)|(err & Hx & _)]];
    try discriminate.
  inversion Hx. subst st1'. clear Hx.
  assert (Hcount : goBuildsInFlight st1 = goBuildsInFlight st).
  { unfold goBuildsInFlight. rewrite Heps, <- E0.
    pose proof (count_alter isGoBuilding
                  (EP.succeeded files (priorityAfterUpdate files e))
                  (buildEntryPointKey s h) (entryPointsData st0) e He) as Hc.
    assert (G1 : isGoBuilding e = false)
      by (unfold isGoBuilding; destruct (EP.runtime e); simpl in *;
          auto; discriminate).
    assert (G2 : isGoBuilding
                   (EP.succeeded files (priorityAfterUpdate files e) e) = false)
      by (unfold isGoBuilding; simpl; apply andb_false_r).
    rewrite G1, G2 in Hc. lia. }
  split; [|split].
  - intros k2 e2 H2 Hw. rewrite Hcount. rewrite Heps in H2.
    destruct (lookup_alter_cases _ _ _ _ _ H2) as [[_ H]|(v & -> & Hv & ->)].
    + rewrite E0 in H. apply (Hwc k2 e2 H Hw).
    + rewrite He in Hv. inversion Hv. subst v.
      apply isGoWaiting_spec in Hw. destruct Hw as (Hgo & _). simpl in Hgo.
      destruct (EP.runtime e); simpl in *; discriminate.
  - intros k2 e2 H2 Hd. unfold isUnwatching. rewrite Hu, unwatchingKey_app.
    rewrite Heps in H2.
    destruct (lookup_alter_cases _ _ _ _ _ H2) as [[_ H]|(v & -> & Hv & ->)].
    + rewrite E0 in H. pose proof (Hnode k2 e2 H Hd) as Hn.
      unfold isUnwatching in Hn. rewrite U0, Hn. reflexivity.
    + unfold unwatchingKey at 2. simpl. rewrite String.eqb_refl. simpl.
      apply orb_true_r.
  - intros Hbusy. exfalso. rewrite Hflag, F0 in Hbusy.
    apply (buildInFlight_not_clean s h st Hb (Hidle Hbusy)).
Qed.

Lemma stepResult_Sched cfg st st' :
  Inv cfg None st -> Sched cfg st -> stepResult cfg st st' -> Sched cfg st'.
Proof.
  intros HI HS H.
  destruct H as [|k e He Hc|s h files st0 st1 Hb _ Hl E|pre Hp|pre f k Hp].
  - exact HS.
  - apply Sched_alter; [|exact HS]. intros e' He'.
    rewrite He in He'. inversion He'. subst e'. clear He'.
    split; [reflexivity|]. split; [|split].
    + intros Hw. apply isGoWaiting_spec in Hw. simpl in Hw.
      destruct Hw as (Hg & Hbp & _). apply isGoWaiting_spec.
      rewrite Hbp in Hc. simpl in Hc. auto.
    + intros Hd. apply isNodeDirty_spec in Hd. simpl in Hd.
      destruct Hd as (Hg & Hbp & _). apply isNodeDirty_spec.
      rewrite Hbp in Hc. simpl in Hc. auto.
    + intros Hbp Hn. rewrite Hbp, Hn in Hc. discriminate.
  - apply (Sched_suspended cfg s h files st st0 st1 Hb Hl E HS).
  - destruct (beforePass_Inv cfg st pre HI Hp) as (skip & Hwf & Hle & _).
    apply update_Sched; [exact Hwf | exact Hle|].
    apply (beforePass_idleNotBuilding st pre Hp). apply HS.
  - destruct (beforePass_Inv cfg st pre HI Hp) as (skip & Hwf & Hle & _).
    apply Sched_alter.
    + intros e _. repeat split; auto.
    + apply update_Sched; [exact Hwf | exact Hle|].
      apply (beforePass_idleNotBuilding st pre Hp). apply HS.
Qed.

(** *** The state after [start] *)

Lemma values_alter_In {V : Type} (f : V -> V) k (o : JsObject V) x :
  In x (values (alter f k o)) ->
  In x (values o) \/ exists v, In v (values o) /\ x = f v.
Proof.
  unfold values. induction o as [|[k' v] o IH]; simpl; [tauto|].
  destruct (String.eqb k k'); simpl.
  - intros [<-|H]; [right; exists v; auto | left; auto].
  - intros [<-|H]; [left; auto|].
    destruct (IH H) as [H1|(v1 & H1 & ->)]; [left; auto|].
    right. exists v1. auto.
Qed.

(** What the first build of one handler does to the records. *)
Lemma firstBuild_eps cfg hd b st :
  let key := buildEntryPointKey (lh_srcPath hd) (lh_handler hd) in
  (snd (firstBuild cfg hd b st) = true
   /\ exists ts bo files out,
        entryPointsData (fst (firstBuild cfg hd b st))
        = alter (EP.built ts bo files out) key (entryPointsData st))
  \/ (snd (firstBuild cfg hd b st) = false
      /\ entryPointsData (fst (firstBuild cfg hd b st)) = entryPointsData st).
Proof.
  unfold firstBuild, compile, buildPython, transpile.
  destruct (lh_runtime hd); simpl.
  - destruct (fb_ok b); [|right; split; reflexivity].
    destruct (getInputFiles_frame cfg (fb_metafile b) st) as (A1 & _).
    destruct (getInputFilesFromEsbuildMetafile cfg (fb_metafile b) st)
      as [st1 [files|err]]; simpl in *.
    + left. split; [reflexivity|]. rewrite A1. do 4 eexists. reflexivity.
    + right. split; [reflexivity | exact A1].
  - destruct (fb_ok b); [|right; split; reflexivity].
    left. split; [reflexivity|]. simpl. do 4 eexists. reflexivity.
  - left. split; [reflexivity|]. simpl. do 4 eexists. reflexivity.
Qed.

Lemma firstBuilds_all cfg (P : EP.t -> Prop) builds hs :
  (forall ts bo files out e, P e -> P (EP.built ts bo files out e)) ->
  forall i st,
    (forall e, In e (values (entryPointsData st)) -> P e) ->
    forall e, In e (values (entryPointsData
                              (fst (firstBuilds cfg builds i hs st)))) -> P e.
Proof.
  intros HP. induction hs as [|hd hs IH]; intros i st Hall; simpl; [exact Hall|].
  pose proof (firstBuild_eps cfg hd (builds i) st) as Hfb.
  destruct (firstBuild cfg hd (builds i) st) as [st1 ok]. simpl in Hfb.
  specialize (IH (S i) st1).
  destruct (firstBuilds cfg builds (S i) hs st1) as [st2 results]. simpl in *.
  apply IH. intros e He.
  destruct Hfb as [(_ & ts & bo & files & out & E)|(_ & E)]; rewrite E in He.
  - apply values_alter_In in He. destruct He as [He|(v & Hv & ->)]; auto.
  - auto.
Qed.

Lemma initializeState_all cfg (P : EP.t -> Prop) st :
  (forall s h r, P (EP.template s h r)) ->
  (forall e, In e (values (entryPointsData st)) -> P e) ->
  forall e, In e (values (entryPointsData (initializeState cfg st))) -> P e.
Proof.
  intros HP. unfold initializeState.
  generalize (lambdaHandlers cfg). intros hs. revert st.
  induction hs as [|h hs IH]; intros st Hall; simpl; [exact Hall|].
  apply IH. simpl. intros e He. apply values_assign_In in He.
  destruct He as [->|He]; auto.
Qed.

Lemma startChecks_allClean cfg ks : forall st,
  Inv cfg None st -> allClean st ->
  allClean (fold_left (startChecks cfg) ks st).
Proof.
  induction ks as [|k ks IH]; intros st HI Hc; simpl; [exact Hc|].
  assert (HI1 : Inv cfg None (checkedState cfg k st))
    by (apply checkedState_Inv; exact HI).
  apply IH; rewrite startChecks_eq.
  - eapply Inv_pass; [apply updateLambdaCodeState_pass | exact HI1].
  - apply (pass_allClean cfg _ _ (updateLambdaCodeState_pass cfg _));
      [apply HI1|].
    destruct (checkedState_frame cfg k st) as (E & _).
    unfold allClean. rewrite E. exact Hc.
Qed.

(** [start] leaves every entry point without a build in flight and with
    priority OFF. *)
Lemma start_allClean cfg isTest builds st :
  start cfg isTest builds constructed = (st, Returned tt) -> allClean st.
Proof.
  unfold start. intros Hs.
  pose proof (firstBuilds_Inv cfg builds (lambdaHandlers cfg) 0 _
                (start_initial_Inv cfg)) as H3.
  pose proof (firstBuilds_all cfg
                (fun e => EP.buildPromise e = None /\ EP.needsReBuild e = OFF)
                builds (lambdaHandlers cfg)
                (fun ts bo files out e H => H) 0
                (log (Info "Transpiling Lambda code...")
                   (initializeState cfg
                      (fold_left (fun acc l => log (Info l) acc)
                         [""; "=========================="; " Starting Live Lambda Dev";
                          "=========================="; ""] constructed)))) as Hc3.
  destruct (firstBuilds cfg builds 0 (lambdaHandlers cfg) _) as [st3 results].
  simpl in H3, Hc3.
  assert (Hclean : allClean st3).
  { intros k e He. apply Hc3; [|apply (lookup_values k); exact He].
    apply initializeState_all; [intros; split; reflexivity|].
    simpl. intros x []. }
  destruct (existsb negb results); [discriminate|].
  destruct isTest; [inversion Hs; subst; exact Hclean|].
  destruct (List.length (keys (srcPathsData st3)) =? 0); [discriminate|].
  inversion Hs. subst. unfold allClean. simpl.
  apply startChecks_allClean; assumption.
Qed.

Lemma allClean_Sched cfg st : allClean st -> Sched cfg st.
Proof.
  intros Hc. split; [|split].
  - intros k e He Hw. apply isGoWaiting_spec in Hw.
    destruct (Hc k e He) as [_ Hn]. rewrite Hn in Hw.
    destruct Hw as (_ & _ & Hw). discriminate.
  - intros k e He Hd. apply isNodeDirty_spec in Hd.
    destruct (Hc k e He) as [_ Hn]. rewrite Hn in Hd.
    destruct Hd as (_ & _ & Hd). discriminate.
  - intros _. exact Hc.
Qed.

Lemma reachable_Sched cfg st : reachable cfg st -> Sched cfg st.
Proof.
  induction 1 as [isTest builds st Hs|ev st Hr IH He].
  - apply allClean_Sched. apply (start_allClean cfg isTest builds st Hs).
  - apply (stepResult_Sched cfg st); [apply reachable_Inv; exact Hr | exact IH|].
    apply step_stepResult. exact He.
Qed.

(** ** The index of watched files *)

Lemma indexPush_keeps key idx file f :
  lookup f idx <> None -> lookup f (indexPush key idx file) <> None.
Proof.
  intros H. unfold indexPush. destruct (lookup file idx) as [l|] eqn:E.
  - destruct (string_dec file f) as [<-|Hne].
    + rewrite lookup_alter_same, E. discriminate.
    + rewrite lookup_alter_other by exact Hne. exact H.
  - destruct (string_dec file f) as [<-|Hne].
    + rewrite lookup_assign_same. discriminate.
    + rewrite lookup_assign_other by exact Hne. exact H.
Qed.

Lemma indexPush_adds key idx file : lookup file (indexPush key idx file) <> None.
Proof.
  unfold indexPush. destruct (lookup file idx) as [l|] eqn:E.
  - rewrite lookup_alter_same, E. discriminate.
  - rewrite lookup_assign_same. discriminate.
Qed.

Lemma indexPush_elems key idx file f ks k :
  lookup f (indexPush key idx file) = Some ks -> In k ks ->
  k = key \/ exists ks0, lookup f idx = Some ks0 /\ In k ks0.
Proof.
  unfold indexPush. intros H Hin. destruct (lookup file idx) as [l|] eqn:E.
  - destruct (lookup_alter_cases _ _ _ _ _ H) as [[_ H1]|(v & -> & Hv & ->)].
    + right. exists ks. auto.
    + apply in_app_or in Hin. destruct Hin as [Hin|[<-|[]]]; [|left; reflexivity].
      right. exists v. auto.
  - destruct (string_dec file f) as [<-|Hne].
    + rewrite lookup_assign_same in H. inversion H. subst ks.
      destruct Hin as [<-|[]]. left. reflexivity.
    + rewrite lookup_assign_other in H by exact Hne. right. exists ks. auto.
Qed.

Lemma fold_indexPush_keeps key files f : forall idx,
  lookup f idx <> None -> lookup f (fold_left (indexPush key) files idx) <> None.
Proof.
  induction files as [|x files IH]; intros idx H; simpl; [exact H|].
  apply IH. apply indexPush_keeps. exact H.
Qed.

Lemma fold_indexPush_adds key files f : forall idx,
  In f files -> lookup f (fold_left (indexPush key) files idx) <> None.
Proof.
  induction files as [|x files IH]; intros idx Hin; simpl; [destruct Hin|].
  destruct Hin as [->|Hin].
  - apply fold_indexPush_keeps. apply indexPush_adds.
  - apply IH. exact Hin.
Qed.

Lemma fold_indexPush_elems key files f ks k : forall idx,
  lookup f (fold_left (indexPush key) files idx) = Some ks -> In k ks ->
  k = key \/ exists ks0, lookup f idx = Some ks0 /\ In k ks0.
Proof.
  induction files as [|x files IH]; intros idx H Hin; simpl in H.
  - right. exists ks. auto.
  - destruct (IH _ H Hin) as [->|(ks0 & H0 & Hin0)]; [left; reflexivity|].
    apply (indexPush_elems key idx x f ks0 k H0 Hin0).
Qed.

Lemma spliceFirst_In x l y : In y (spliceFirst x l) -> In y l.
Proof.
  induction l as [|z l IH]; simpl; [tauto|].
  destruct (String.eqb x z); simpl; [auto|]. intros [->|H]; auto.
Qed.

Lemma indexSplice_keeps key acc file f :
  lookup f (fst acc) <> None -> lookup f (fst (indexSplice key acc file)) <> None.
Proof.
  destruct acc as [idx ok]. simpl. intros H. destruct ok; [|exact H].
  destruct (lookup file idx) as [l|] eqn:E; simpl; [|exact H].
  destruct (string_dec file f) as [<-|Hne].
  - rewrite lookup_alter_same, E. discriminate.
  - rewrite lookup_alter_other by exact Hne. exact H.
Qed.

Lemma indexSplice_elems key acc file f ks k :
  lookup f (fst (indexSplice key acc file)) = Some ks -> In k ks ->
  exists ks0, lookup f (fst acc) = Some ks0 /\ In k ks0.
Proof.
  destruct acc as [idx ok]. simpl. intros H Hin.
  destruct ok; [|exists ks; auto].
  destruct (lookup file idx) as [l|] eqn:E; simpl in H; [|exists ks; auto].
  destruct (lookup_alter_cases _ _ _ _ _ H) as [[_ H1]|(v & -> & Hv & ->)].
  - exists ks. auto.
  - exists v. split; [exact Hv|]. apply (spliceFirst_In key). exact Hin.
Qed.

Lemma fold_indexSplice_keeps key files f : forall acc,
  lookup f (fst acc) <> None ->
  lookup f (fst (fold_left (indexSplice key) files acc)) <> None.
Proof.
  induction files as [|x files IH]; intros acc H; simpl; [exact H|].
  apply IH. apply indexSplice_keeps. exact H.
Qed.

Lemma fold_indexSplice_elems key files f ks k : forall acc,
  lookup f (fst (fold_left (indexSplice key) files acc)) = Some ks -> In k ks ->
  exists ks0, lookup f (fst acc) = Some ks0 /\ In k ks0.
Proof.
  induction files as [|x files IH]; intros acc H Hin; simpl in H.
  - exists ks. auto.
  - destruct (IH _ H Hin) as (ks0 & H0 & Hin0).
    apply (indexSplice_elems key acc x f ks0 k H0 Hin0).
Qed.

(** [indexOf] is never called on [undefined] when every file to remove is a
    key of the index. *)
Lemma fold_indexSplice_ok key files : forall idx,
  (forall f, In f files -> lookup f idx <> None) ->
  snd (fold_left (indexSplice key) files (idx, true)) = true.
Proof.
  induction files as [|x files IH]; intros idx H; simpl; [reflexivity|].
  destruct (lookup x idx) as [l|] eqn:E.
  - apply IH. intros f Hf.
    destruct (string_dec x f) as [<-|Hne].
    + rewrite lookup_alter_same, E. discriminate.
    + rewrite lookup_alter_other by exact Hne. apply H. right. exact Hf.
  - exfalso. apply (H x (or_introl eq_refl)). exact E.
Qed.

Lemma inb_In x l : inb x l = true <-> In x l.
Proof.
  unfold inb. rewrite existsb_exists. split.
  - intros (y & Hy & E). apply String.eqb_eq in E. subst. exact Hy.
  - intros H. exists x. split; [exact H | apply String.eqb_refl].
Qed.

Lemma array_diff_add old new f :
  In f (add (array_diff old new)) <-> In f new /\ ~ In f old.
Proof.
  unfold array_diff. simpl. rewrite filter_In, negb_true_iff.
  split; intros [H1 H2]; (split; [exact H1|]).
  - intros Hin. apply inb_In in Hin. congruence.
  - destruct (inb f old) eqn:E; [|reflexivity].
    exfalso. apply H2. apply inb_In. exact E.
Qed.

Lemma array_diff_remove old new f :
  In f (remove (array_diff old new)) <-> In f old /\ ~ In f new.
Proof.
  unfold array_diff. simpl. rewrite filter_In, negb_true_iff.
  split; intros [H1 H2]; (split; [exact H1|]).
  - intros Hin. apply inb_In in Hin. congruence.
  - destruct (inb f new) eqn:E; [|reflexivity].
    exfalso. apply H2. apply inb_In. exact E.
Qed.

Lemma indexLists_some k file idx :
  indexLists k file idx -> lookup file idx <> None.
Proof. intros (ks & H & _). congruence. Qed.

Lemma indexPush_lists key idx file k f :
  indexLists k f idx -> indexLists k f (indexPush key idx file).
Proof.
  intros (ks & H & Hin). unfold indexPush, indexLists.
  destruct (lookup file idx) as [l|] eqn:E.
  - destruct (string_dec file f) as [<-|Hne].
    + rewrite lookup_alter_same, E. simpl. rewrite E in H. inversion H. subst.
      eexists. split; [reflexivity|]. apply in_or_app. left. exact Hin.
    + rewrite lookup_alter_other by exact Hne. eauto.
  - destruct (string_dec file f) as [<-|Hne].
    + congruence.
    + rewrite lookup_assign_other by exact Hne. eauto.
Qed.

Lemma indexPush_lists_new key idx file :
  indexLists key file (indexPush key idx file).
Proof.
  unfold indexPush, indexLists. destruct (lookup file idx) as [l|] eqn:E.
  - rewrite lookup_alter_same, E. simpl. eexists. split; [reflexivity|].
    apply in_or_app. right. left. reflexivity.
  - rewrite lookup_assign_same. eexists. split; [reflexivity|].
    left. reflexivity.
Qed.

Lemma fold_indexPush_lists key files k f : forall idx,
  indexLists k f idx -> indexLists k f (fold_left (indexPush key) files idx).
Proof.
  induction files as [|x files IH]; intros idx H; simpl; [exact H|].
  apply IH. apply indexPush_lists. exact H.
Qed.

Lemma fold_indexPush_lists_new key files f : forall idx,
  In f files -> indexLists key f (fold_left (indexPush key) files idx).
Proof.
  induction files as [|x files IH]; intros idx Hin; simpl; [destruct Hin|].
  destruct Hin as [->|Hin].
  - apply fold_indexPush_lists. apply indexPush_lists_new.
  - apply IH. exact Hin.
Qed.

Lemma spliceFirst_other x y l : In y l -> y <> x -> In y (spliceFirst x l).
Proof.
  induction l as [|z l IH]; simpl; [tauto|]. intros Hin Hne.
  destruct (String.eqb x z) eqn:E.
  - apply String.eqb_eq in E. subst z. destruct Hin as [->|H]; [congruence|exact H].
  - destruct Hin as [->|H]; [left; reflexivity | right; apply IH; assumption].
Qed.

Lemma indexSplice_lists key acc x k f :
  indexLists k f (fst acc) -> k <> key \/ f <> x ->
  indexLists k f (fst (indexSplice key acc x)).
Proof.
  destruct acc as [idx ok]. simpl. intros (ks & H & Hin) Hcase.
  destruct ok; [|exists ks; auto].
  destruct (lookup x idx) as [l|] eqn:E; simpl; [|exists ks; auto].
  destruct (string_dec x f) as [<-|Hne].
  - destruct Hcase as [Hk|Hf]; [|congruence].
    unfold indexLists. rewrite lookup_alter_same, H. simpl.
    eexists. split; [reflexivity|]. apply spliceFirst_other; assumption.
  - unfold indexLists. rewrite lookup_alter_other by exact Hne. eauto.
Qed.

Lemma fold_indexSplice_lists key files k f : forall acc,
  indexLists k f (fst acc) -> k <> key \/ ~ In f files ->
  indexLists k f (fst (fold_left (indexSplice key) files acc)).
Proof.
  induction files as [|x files IH]; intros acc H Hcase; simpl; [exact H|].
  apply IH.
  - apply indexSplice_lists; [exact H|].
    destruct Hcase as [Hk|Hf]; [left; exact Hk|].
    right. intros ->. apply Hf. left. reflexivity.
  - destruct Hcase as [Hk|Hf]; [left; exact Hk|].
    right. intros Hin. apply Hf. right. exact Hin.
Qed.

(** The index after [onReBuildSucceeded_update], for a Node entry point
    and for any other. *)
Lemma progressState_index s h files st e :
  lookup (buildEntryPointKey s h) (entryPointsData st) = Some e ->
  let key := buildEntryPointKey s h in
  let diff := array_diff (inputFilesOf e) files in
  watchedNodeFilesIndex (progressState (onReBuildSucceeded_update s h files st))
  = if isNodeRuntime (EP.runtime e)
    then fst (fold_left (indexSplice key) (remove diff)
                (fold_left (indexPush key) (add diff)
                   (watchedNodeFilesIndex st), true))
    else watchedNodeFilesIndex st.
Proof.
  intros He. unfold onReBuildSucceeded_update. rewrite He. cbv zeta.
  destruct (isNodeRuntime (EP.runtime e)) eqn:Hn; [|reflexivity].
  simpl.
  match goal with
  | |- context [fold_left (indexSplice ?k) ?l ?a] =>
      destruct (fold_left (indexSplice k) l a) as [index2 ok]
  end.
  destruct ok; simpl; [|reflexivity].
  destruct (watcher st) as [w|]; simpl;
    repeat match goal with
           | |- context [if ?b then _ else _] => destruct b
           end; reflexivity.
Qed.

(** ** The index and the watched set through the handlers *)

Lemma lookup_alter_None {V : Type} (f : V -> V) k k2 (o : JsObject V) :
  lookup k2 (alter f k o) = None <-> lookup k2 o = None.
Proof. rewrite !lookup_None_keys, keys_alter. tauto. Qed.

Lemma eps_rel_lookup_some (R : EP.t -> EP.t -> Prop) eps eps' k :
  eps_rel R eps eps' -> lookup k eps <> None -> lookup k eps' <> None.
Proof.
  intros [_ Hl] H. destruct (lookup k eps) as [e|] eqn:He; [|congruence].
  destruct (Hl k e He) as (e' & He' & _). congruence.
Qed.

Lemma sameFiles_of e e' : sameFiles e e' -> inputFilesOf e' = inputFilesOf e.
Proof. unfold sameFiles, inputFilesOf. intros ->. reflexivity. Qed.

(** Handlers that leave the input files and the index alone keep both
    properties. *)
Lemma Idx_rel st st' :
  eps_rel sameFiles (entryPointsData st) (entryPointsData st') ->
  watchedNodeFilesIndex st' = watchedNodeFilesIndex st ->
  indexRegistered st /\ filesIndexed st ->
  indexRegistered st' /\ filesIndexed st'.
Proof.
  intros Hrel Hidx [Hreg Hfiles]. split.
  - intros file ks k Hl Hin. rewrite Hidx in Hl.
    apply (eps_rel_lookup_some _ _ _ k Hrel). apply (Hreg file ks k Hl Hin).
  - intros k e' file He' Hin. rewrite Hidx.
    destruct (eps_rel_back _ _ _ k e' Hrel He') as (e & He & Hs).
    rewrite (sameFiles_of e e' Hs) in Hin. apply (Hfiles k e file He Hin).
Qed.

Lemma sameFiles_refl_trans :
  (forall e, sameFiles e e)
  /\ (forall x y z, sameFiles x y -> sameFiles y z -> sameFiles x z).
Proof.
  split; [reflexivity|]. unfold sameFiles. intros x y z H1 H2. congruence.
Qed.

Lemma Idx_alter f k st :
  (forall e, sameFiles e (f e)) ->
  indexRegistered st /\ filesIndexed st ->
  indexRegistered (alterEP f k st) /\ filesIndexed (alterEP f k st).
Proof.
  intros Hf. apply Idx_rel; [|reflexivity]. simpl.
  apply eps_rel_alter; [reflexivity|]. intros e _. apply Hf.
Qed.

Lemma pass_sameFiles cfg st st' :
  pass cfg st st' -> keys_wf st ->
  eps_rel sameFiles (entryPointsData st) (entryPointsData st').
Proof.
  intros Hp Hwf. destruct (pass_eps cfg st st' Hp Hwf) as [_ Hd].
  apply (eps_rel_weaken ep_dispatch); [|exact Hd].
  intros e e' [->|(_ & _ & p & ->)]; reflexivity.
Qed.

Lemma Idx_update cfg st :
  keys_wf st ->
  indexRegistered st /\ filesIndexed st ->
  indexRegistered (updateLambdaCodeState cfg st)
  /\ filesIndexed (updateLambdaCodeState cfg st).
Proof.
  intros Hwf. apply Idx_rel.
  - apply (pass_sameFiles cfg). apply updateLambdaCodeState_pass. exact Hwf.
  - apply (pass_frame cfg st _ (updateLambdaCodeState_pass cfg st)).
Qed.

(** [onReBuildSucceeded] keeps both properties: it indexes every file the
    build has newly read, and deletes no key of the index. *)
Lemma Idx_progressState s h files st :
  filesOfBuild s h files st ->
  indexRegistered st /\ filesIndexed st ->
  indexRegistered (progressState (onReBuildSucceeded_update s h files st))
  /\ filesIndexed (progressState (onReBuildSucceeded_update s h files st)).
Proof.
  intros Hg [Hreg Hfiles].
  destruct (lookup (buildEntryPointKey s h) (entryPointsData st)) as [e|] eqn:He.
  2:{ rewrite onReBuildSucceeded_update_absent by exact He. auto. }
  destruct (progressState_shape s h files st e He) as (Heps & _).
  pose proof (progressState_index s h files st e He) as Hidx. cbv zeta in Hidx.
  set (st1 := progressState (onReBuildSucceeded_update s h files st)) in *.
  destruct (isNodeRuntime (EP.runtime e)) eqn:Hn.
  - split.
    + intros file ks k Hl Hin. rewrite Heps, Hidx in *.
      destruct (fold_indexSplice_elems _ _ _ _ _ _ Hl Hin) as (ks1 & H1 & Hin1).
      simpl in H1.
      destruct (fold_indexPush_elems _ _ _ _ _ _ H1 Hin1) as [->|(ks0 & H0 & Hin0)].
      * rewrite lookup_alter_same, He. discriminate.
      * intros Hnone. apply lookup_alter_None in Hnone.
        apply (Hreg file ks0 k H0 Hin0 Hnone).
    + intros k e' file He' Hin. rewrite Heps in He'. rewrite Hidx.
      destruct (lookup_alter_cases _ _ _ _ _ He') as [[Hne H]|(v & -> & Hv & ->)].
      * apply fold_indexSplice_lists; [|left; exact Hne]. simpl.
        apply fold_indexPush_lists. apply (Hfiles k e' file H Hin).
      * rewrite He in Hv. inversion Hv. subst v. simpl in Hin.
        apply fold_indexSplice_lists.
        2:{ right. intros Hrem. apply array_diff_remove in Hrem. tauto. }
        simpl. destruct (inb file (inputFilesOf e)) eqn:Eold.
        -- apply fold_indexPush_lists. apply inb_In in Eold.
           apply (Hfiles _ e file He Eold).
        -- apply fold_indexPush_lists_new. apply array_diff_add.
           split; [exact Hin|].
           intros Hold. apply inb_In in Hold. congruence.
  - specialize (Hg e He Hn). subst files. split.
    + intros file ks k Hl Hin. rewrite Heps, Hidx in *.
      intros Hnone. apply lookup_alter_None in Hnone.
      apply (Hreg file ks k Hl Hin Hnone).
    + intros k e' file He' Hin. rewrite Heps in He'. rewrite Hidx.
      destruct (lookup_alter_cases _ _ _ _ _ He') as [[_ H]|(v & -> & Hv & ->)].
      * apply (Hfiles k e' file H Hin).
      * destruct Hin.
Qed.

Lemma filesOfBuild_loggedMore s h files st st0 :
  filesOfBuild s h files st -> loggedMore st st0 -> filesOfBuild s h files st0.
Proof.
  intros Hg Hl. destruct (loggedMore_frame st st0 Hl) as (E & _).
  unfold filesOfBuild. rewrite E. exact Hg.
Qed.

Lemma Idx_loggedMore st st0 :
  loggedMore st st0 ->
  indexRegistered st /\ filesIndexed st ->
  indexRegistered st0 /\ filesIndexed st0.
Proof.
  intros Hl. destruct (loggedMore_frame st st0 Hl) as (E & _ & I & _).
  apply Idx_rel; [|exact I]. rewrite E. apply eps_rel_refl. reflexivity.
Qed.

Lemma Idx_beforePass st pre :
  beforePass st pre ->
  indexRegistered st /\ filesIndexed st ->
  indexRegistered pre /\ filesIndexed pre.
Proof.
  intros Hp H. destruct Hp as [file ks _ _|s h st0 _ Hl|s h files st0 st1 _ Hg Hl E
                               |s h files st0 st1 err _ Hg Hl E|s h _|s|s].
  - revert H. apply Idx_rel; [|apply fold_markLow_frame].
    apply fold_markLow_rel; apply sameFiles_refl_trans.
  - apply Idx_alter; [reflexivity|]. apply (Idx_loggedMore st st0 Hl H).
  - pose proof (Idx_progressState s h files st0
                  (filesOfBuild_loggedMore s h files st st0 Hg Hl)
                  (Idx_loggedMore st st0 Hl H)) as H1.
    rewrite E in H1. exact H1.
  - apply Idx_alter; [reflexivity|].
    pose proof (Idx_progressState s h files st0
                  (filesOfBuild_loggedMore s h files st st0 Hg Hl)
                  (Idx_loggedMore st st0 Hl H)) as H1.
    rewrite E in H1. exact H1.
  - exact H.
  - exact H.
  - exact H.
Qed.

Lemma Idx_stepResult cfg st st' :
  keys_wf st -> stepResult cfg st st' ->
  indexRegistered st /\ filesIndexed st ->
  indexRegistered st' /\ filesIndexed st'.
Proof.
  intros Hwf Hs H.
  destruct Hs as [|k e He Hc|s h files st0 st1 _ Hg Hl E|pre Hp|pre f k Hp].
  - exact H.
  - apply Idx_alter; [reflexivity | exact H].
  - pose proof (Idx_progressState s h files st0
                  (filesOfBuild_loggedMore s h files st st0 Hg Hl)
                  (Idx_loggedMore st st0 Hl H)) as H1.
    rewrite E in H1. exact H1.
  - apply Idx_update; [apply (beforePass_wf st pre Hp Hwf)|].
    apply (Idx_beforePass st pre Hp H).
  - apply Idx_alter; [reflexivity|].
    apply Idx_update; [apply (beforePass_wf st pre Hp Hwf)|].
    apply (Idx_beforePass st pre Hp H).
Qed.

(** *** After [start] *)

Lemma Idx_onBuildSucceeded s h ts bo out files st :
  lookup (buildEntryPointKey s h) (entryPointsData st) <> None ->
  indexRegistered st /\ filesIndexed st ->
  indexRegistered (onBuildSucceeded s h ts bo out files st)
  /\ filesIndexed (onBuildSucceeded s h ts bo out files st).
Proof.
  intros Hk [Hreg Hfiles]. unfold onBuildSucceeded. split.
  - intros file ks k Hl Hin. simpl in *.
    destruct (fold_indexPush_elems _ _ _ _ _ _ Hl Hin) as [->|(ks0 & H0 & Hin0)].
    + intros Hnone. apply lookup_alter_None in Hnone. contradiction.
    + intros Hnone. apply lookup_alter_None in Hnone.
      apply (Hreg file ks0 k H0 Hin0 Hnone).
  - intros k e' file He' Hin. simpl in *.
    destruct (lookup_alter_cases _ _ _ _ _ He') as [[_ H]|(v & -> & Hv & ->)].
    + apply fold_indexPush_lists. apply (Hfiles k e' file H Hin).
    + simpl in Hin. apply fold_indexPush_lists_new. exact Hin.
Qed.

Lemma Idx_firstBuild cfg hd b st :
  lookup (buildEntryPointKey (lh_srcPath hd) (lh_handler hd))
    (entryPointsData st) <> None ->
  indexRegistered st /\ filesIndexed st ->
  indexRegistered (fst (firstBuild cfg hd b st))
  /\ filesIndexed (fst (firstBuild cfg hd b st)).
Proof.
  intros Hk H. unfold firstBuild, compile, buildPython, transpile.
  destruct (lh_runtime hd); simpl.
  - destruct (fb_ok b); [|exact H].
    pose proof (loggedMore_metafile cfg (fb_metafile b) st) as Hm.
    pose proof (Idx_loggedMore st _ Hm H) as H1.
    destruct (loggedMore_frame st _ Hm) as (E & _).
    destruct (getInputFilesFromEsbuildMetafile cfg (fb_metafile b) st)
      as [st1 [files|err]]; simpl in *; [|exact H1].
    apply Idx_onBuildSucceeded; [rewrite E; exact Hk | exact H1].
  - destruct (fb_ok b); [|exact H]. simpl.
    apply Idx_onBuildSucceeded; assumption.
  - apply Idx_onBuildSucceeded; assumption.
Qed.

Lemma firstBuild_keys cfg hd b st :
  keys (entryPointsData (fst (firstBuild cfg hd b st)))
  = keys (entryPointsData st).
Proof.
  destruct (firstBuild_eps cfg hd b st)
    as [(_ & ts & bo & files & out & E)|(_ & E)]; rewrite E;
    [apply keys_alter | reflexivity].
Qed.

Lemma Idx_firstBuilds cfg builds hs : forall i st,
  (forall hd, In hd hs ->
     In (buildEntryPointKey (lh_srcPath hd) (lh_handler hd))
       (keys (entryPointsData st))) ->
  indexRegistered st /\ filesIndexed st ->
  indexRegistered (fst (firstBuilds cfg builds i hs st))
  /\ filesIndexed (fst (firstBuilds cfg builds i hs st)).
Proof.
  induction hs as [|hd hs IH]; intros i st Hk H; simpl; [exact H|].
  assert (Hk0 : lookup (buildEntryPointKey (lh_srcPath hd) (lh_handler hd))
                  (entryPointsData st) <> None).
  { intros Hnone. apply lookup_None_keys in Hnone. apply Hnone.
    apply Hk. left. reflexivity. }
  pose proof (Idx_firstBuild cfg hd (builds i) st Hk0 H) as H1.
  pose proof (firstBuild_keys cfg hd (builds i) st) as Hkeys.
  destruct (firstBuild cfg hd (builds i) st) as [st1 ok]. simpl in *.
  specialize (IH (S i) st1).
  destruct (firstBuilds cfg builds (S i) hs st1) as [st2 results]. simpl in *.
  apply IH; [|exact H1]. intros hd' Hin. rewrite Hkeys. apply Hk. right. exact Hin.
Qed.

Lemma Idx_startChecks cfg ks : forall st,
  Inv cfg None st ->
  indexRegistered st /\ filesIndexed st ->
  indexRegistered (fold_left (startChecks cfg) ks st)
  /\ filesIndexed (fold_left (startChecks cfg) ks st).
Proof.
  induction ks as [|k ks IH]; intros st HI H; simpl; [exact H|].
  assert (HI1 : Inv cfg None (checkedState cfg k st))
    by (apply checkedState_Inv; exact HI).
  apply IH; rewrite startChecks_eq.
  - eapply Inv_pass; [apply updateLambdaCodeState_pass | exact HI1].
  - apply Idx_update; [apply HI1|].
    destruct (checkedState_frame cfg k st) as (E & I & _).
    revert H. apply Idx_rel; [|exact I]. rewrite E.
    apply eps_rel_refl. reflexivity.
Qed.

Lemma initializeState_index cfg st :
  watchedNodeFilesIndex (initializeState cfg st) = watchedNodeFilesIndex st.
Proof.
  unfold initializeState. generalize (lambdaHandlers cfg). intros hs.
  revert st. induction hs as [|h hs IH]; intros st; simpl; [reflexivity|].
  rewrite IH. reflexivity.
Qed.

Lemma Idx_start cfg isTest builds st :
  start cfg isTest builds constructed = (st, Returned tt) ->
  indexRegistered st /\ filesIndexed st.
Proof.
  unfold start. intros Hs.
  pose proof (start_initial_Inv cfg) as H2.
  pose proof (firstBuilds_Inv cfg builds (lambdaHandlers cfg) 0 _ H2) as H3.
  pose proof (Idx_firstBuilds cfg builds (lambdaHandlers cfg) 0
                (log (Info "Transpiling Lambda code...")
                   (initializeState cfg
                      (fold_left (fun acc l => log (Info l) acc)
                         [""; "=========================="; " Starting Live Lambda Dev";
                          "=========================="; ""] constructed)))) as Hi3.
  destruct (firstBuilds cfg builds 0 (lambdaHandlers cfg) _) as [st3 results].
  simpl in H3, Hi3.
  assert (Hidx : indexRegistered st3 /\ filesIndexed st3).
  { apply Hi3.
    - intros hd Hin. destruct H2 as (_ & _ & _ & _ & Hk). apply Hk.
      unfold configuredKeys.
      apply (in_map (fun h => buildEntryPointKey (lh_srcPath h) (lh_handler h))).
      exact Hin.
    - split.
      + intros file ks k Hl. unfold log in Hl.
        cbn [watchedNodeFilesIndex] in Hl.
        rewrite initializeState_index in Hl. simpl in Hl. discriminate.
      + intros k e file He Hin. exfalso.
        apply lookup_values in He.
        assert (Hnone : inputFilesOf e = []).
        { refine (initializeState_all cfg (fun e => inputFilesOf e = [])
                    _ _ _ e He); [intros; reflexivity|].
          simpl. intros x []. }
        rewrite Hnone in Hin. destruct Hin. }
  destruct (existsb negb results); [discriminate|].
  destruct isTest; [inversion Hs; subst; exact Hidx|].
  destruct (List.length (keys (srcPathsData st3)) =? 0); [discriminate|].
  inversion Hs. subst.
  pose proof (Idx_startChecks cfg (keys (srcPathsData st3)) st3 H3 Hidx) as H4.
  revert H4. apply Idx_rel; [|reflexivity]. simpl.
  apply eps_rel_refl. reflexivity.
Qed.

Lemma reachable_Idx cfg st :
  reachable cfg st -> indexRegistered st /\ filesIndexed st.
Proof.
  induction 1 as [isTest builds st Hs|ev st Hr IH He].
  - apply (Idx_start cfg isTest builds st Hs).
  - apply (Idx_stepResult cfg st); [apply (reachable_Inv cfg st Hr)| |exact IH].
    apply step_stepResult. exact He.
Qed.

(** ** Without a watcher nothing is rebuilt *)

Lemma progressState_watcher s h files st :
  watcher st <> None ->
  watcher (progressState (onReBuildSucceeded_update s h files st)) <> None.
Proof.
  intros Hw. unfold onReBuildSucceeded_update.
  destruct (lookup _ _) as [e|]; [|exact Hw]. cbv zeta.
  destruct (isNodeRuntime (EP.runtime e)); [|exact Hw].
  match goal with
  | |- context [fold_left (indexSplice ?k) ?l ?a] =>
      destruct (fold_left (indexSplice k) l a) as [index2 ok]
  end.
  destruct ok; simpl; [|exact Hw].
  destruct (watcher st) as [w|]; [|congruence]. simpl.
  repeat match goal with
         | |- context [if ?b then _ else _] => destruct b
         end; simpl; discriminate.
Qed.

(** With a watcher, and with every file to remove in the index, the call
    reaches its end or its [await]. *)
Lemma update_not_raised s h files st e :
  lookup (buildEntryPointKey s h) (entryPointsData st) = Some e ->
  (isNodeRuntime (EP.runtime e) = true ->
   watcher st <> None
   /\ forall f, In f (inputFilesOf e) ->
        lookup f (watchedNodeFilesIndex st) <> None) ->
  exists st1,
    onReBuildSucceeded_update s h files st = Finished st1
    \/ onReBuildSucceeded_update s h files st = AwaitingUnwatch st1.
Proof.
  intros He Hnode. unfold onReBuildSucceeded_update. rewrite He. cbv zeta.
  destruct (isNodeRuntime (EP.runtime e)) eqn:Hn;
    [|eexists; left; reflexivity].
  destruct (Hnode eq_refl) as [Hw Hidx].
  match goal with
  | |- context [fold_left (indexSplice ?k) ?l (?i, true)] =>
      pose proof (fold_indexSplice_ok k l i) as Hok;
      destruct (fold_left (indexSplice k) l (i, true)) as [index2 ok]
  end.
  simpl in Hok. rewrite Hok.
  2:{ intros f Hf. apply fold_indexPush_keeps. simpl. apply Hidx.
      apply (array_diff_remove (inputFilesOf e) files f). exact Hf. }
  simpl. destruct (watcher st) as [w|]; [|congruence]. simpl.
  repeat match goal with
         | |- context [if ?b then _ else _] => destruct b
         end; eexists; first [left; reflexivity | right; reflexivity].
Qed.

Lemma allClean_alter f k st :
  (forall e, EP.buildPromise (f e) = EP.buildPromise e
             /\ EP.needsReBuild (f e) = EP.needsReBuild e) ->
  allClean st -> allClean (alterEP f k st).
Proof.
  intros Hf Hc k2 e2 H2. simpl in H2.
  destruct (lookup_alter_cases _ _ _ _ _ H2) as [[_ H]|(v & -> & Hv & ->)].
  - apply (Hc k2 e2 H).
  - destruct (Hf v) as [-> ->]. apply (Hc k v Hv).
Qed.

Lemma Watch_beforePass st pre :
  beforePass st pre -> unwatchedIdle st -> unwatchedIdle pre.
Proof.
  intros Hp Hu Hw.
  destruct Hp as [file ks Hs _|s h st0 Hb Hl|s h files st0 st1 Hb _ Hl E
                  |s h files st0 st1 err Hb _ Hl E|s h Hpair|s|s].
  - exfalso. apply Hs.
    destruct (fold_markLow_frame ks st) as (_ & _ & W & _).
    rewrite <- W. exact Hw.
  - exfalso. simpl in Hw.
    destruct (loggedMore_frame st st0 Hl) as (_ & _ & _ & W & _).
    rewrite W in Hw. destruct (Hu Hw) as [_ Hc].
    apply (buildInFlight_not_clean s h st Hb Hc).
  - exfalso. destruct (loggedMore_frame st st0 Hl) as (_ & _ & _ & W & _).
    destruct (watcher st) as [w|] eqn:Ew.
    + pose proof (progressState_watcher s h files st0) as Hn.
      rewrite E in Hn. simpl in Hn. apply Hn; [congruence | exact Hw].
    + destruct (Hu Ew) as [_ Hc].
      apply (buildInFlight_not_clean s h st Hb Hc).
  - exfalso. destruct (loggedMore_frame st st0 Hl) as (_ & _ & _ & W & _).
    simpl in Hw.
    destruct (watcher st) as [w|] eqn:Ew.
    + pose proof (progressState_watcher s h files st0) as Hn.
      rewrite E in Hn. simpl in Hn. apply Hn; [congruence | exact Hw].
    + destruct (Hu Ew) as [_ Hc].
      apply (buildInFlight_not_clean s h st Hb Hc).
  - exfalso. simpl in Hw. destruct (Hu Hw) as [Hnil _].
    rewrite Hnil in Hpair. discriminate.
  - simpl in Hw. destruct (Hu Hw) as [Hnil Hc]. split; [exact Hnil | exact Hc].
  - simpl in Hw. destruct (Hu Hw) as [Hnil Hc]. split; [exact Hnil | exact Hc].
Qed.

Lemma Watch_update cfg st :
  keys_wf st -> unwatchedIdle st ->
  unwatchedIdle (updateLambdaCodeState cfg st).
Proof.
  intros Hwf Hu Hw.
  pose proof (updateLambdaCodeState_pass cfg st) as Hp.
  destruct (pass_frame cfg st _ Hp) as (_ & W & U & _).
  rewrite W in Hw. destruct (Hu Hw) as [Hnil Hc]. split.
  - rewrite U. exact Hnil.
  - apply (pass_allClean cfg st _ Hp Hwf Hc).
Qed.

Lemma Watch_stepResult cfg st st' :
  keys_wf st -> stepResult cfg st st' ->
  unwatchedIdle st -> unwatchedIdle st'.
Proof.
  intros Hwf Hs Hu.
  destruct Hs as [|k e He Hc|s h files st0 st1 Hb _ Hl E|pre Hp|pre f k Hp].
  - exact Hu.
  - intros Hw. exfalso. simpl in Hw. destruct (Hu Hw) as [_ Hcl].
    destruct (Hcl k e He) as [H1 H2]. rewrite H1, H2 in Hc. discriminate.
  - intros Hw. exfalso.
    destruct (loggedMore_frame st st0 Hl) as (_ & _ & _ & W & _).
    destruct (watcher st) as [w|] eqn:Ew.
    + pose proof (progressState_watcher s h files st0) as Hn.
      rewrite E in Hn. simpl in Hn. apply Hn; [congruence | exact Hw].
    + destruct (Hu Ew) as [_ Hcl].
      apply (buildInFlight_not_clean s h st Hb Hcl).
  - apply Watch_update; [apply (beforePass_wf st pre Hp Hwf)|].
    apply (Watch_beforePass st pre Hp Hu).
  - pose proof (Watch_update cfg pre (beforePass_wf st pre Hp Hwf)
                  (Watch_beforePass st pre Hp Hu)) as H1.
    intros Hw. simpl in Hw. destruct (H1 Hw) as [Hnil Hcl].
    split; [exact Hnil|].
    apply allClean_alter; [intros e; split; reflexivity | exact Hcl].
Qed.

Lemma initializeState_unwatching cfg st :
  unwatching (initializeState cfg st) = unwatching st.
Proof.
  unfold initializeState. generalize (lambdaHandlers cfg). intros hs.
  revert st. induction hs as [|h hs IH]; intros st; simpl; [reflexivity|].
  rewrite IH. reflexivity.
Qed.

Lemma firstBuild_unwatching cfg hd b st :
  unwatching (fst (firstBuild cfg hd b st)) = unwatching st.
Proof.
  unfold firstBuild, compile, buildPython, transpile.
  destruct (lh_runtime hd); simpl.
  - destruct (fb_ok b); [|reflexivity].
    destruct (getInputFiles_frame cfg (fb_metafile b) st) as (_ & _ & A & _).
    destruct (getInputFilesFromEsbuildMetafile cfg (fb_metafile b) st)
      as [st1 [files|err]]; simpl in *; exact A.
  - destruct (fb_ok b); reflexivity.
  - reflexivity.
Qed.

Lemma firstBuilds_unwatching cfg builds hs : forall i st,
  unwatching (fst (firstBuilds cfg builds i hs st)) = unwatching st.
Proof.
  induction hs as [|hd hs IH]; intros i st; simpl; [reflexivity|].
  pose proof (firstBuild_unwatching cfg hd (builds i) st) as H1.
  destruct (firstBuild cfg hd (builds i) st) as [st1 ok]. simpl in H1.
  specialize (IH (S i) st1).
  destruct (firstBuilds cfg builds (S i) hs st1) as [st2 results]. simpl in *.
  congruence.
Qed.

Lemma Watch_start cfg isTest builds st :
  start cfg isTest builds constructed = (st, Returned tt) -> unwatchedIdle st.
Proof.
  intros Hs Hw. split; [|apply (start_allClean cfg isTest builds st Hs)].
  revert Hs Hw. unfold start.
  pose proof (firstBuilds_unwatching cfg builds (lambdaHandlers cfg) 0
                (log (Info "Transpiling Lambda code...")
                   (initializeState cfg
                      (fold_left (fun acc l => log (Info l) acc)
                         [""; "=========================="; " Starting Live Lambda Dev";
                          "=========================="; ""] constructed)))) as U3.
  destruct (firstBuilds cfg builds 0 (lambdaHandlers cfg) _) as [st3 results].
  unfold log in U3. cbn [fst unwatching] in U3.
  rewrite initializeState_unwatching in U3.
  destruct (existsb negb results); [discriminate|].
  destruct isTest.
  - intros Hs _. inversion Hs. subst. exact U3.
  - destruct (List.length (keys (srcPathsData st3)) =? 0); [discriminate|].
    intros Hs Hw. inversion Hs. subst. simpl in Hw. discriminate.
Qed.

Lemma reachable_Watch cfg st : reachable cfg st -> unwatchedIdle st.
Proof.
  induction 1 as [isTest builds st Hs|ev st Hr IH He].
  - apply (Watch_start cfg isTest builds st Hs).
  - apply (Watch_stepResult cfg st); [apply (reachable_Inv cfg st Hr)| |exact IH].
    apply step_stepResult. exact He.
Qed.

(** ** What holds of every record the watcher reaches *)

Lemma startChecks_change cfg ks : forall st,
  Inv cfg None st ->
  eps_rel ep_change (entryPointsData st)
    (entryPointsData (fold_left (startChecks cfg) ks st)).
Proof.
  induction ks as [|k ks IH]; intros st HI; simpl.
  - apply eps_rel_refl. apply ch_refl.
  - assert (HI1 : Inv cfg None (checkedState cfg k st))
      by (apply checkedState_Inv; exact HI).
    eapply eps_change_trans; [|apply IH].
    + rewrite startChecks_eq.
      destruct (checkedState_frame cfg k st) as (E & _). rewrite <- E.
      apply update_change. apply HI1.
    + rewrite startChecks_eq.
      eapply Inv_pass; [apply updateLambdaCodeState_pass | exact HI1].
Qed.

(** A property of records that every update of the handlers keeps, and that
    holds of the records [start] leaves, holds in every state the watcher
    reaches. *)
Lemma reachable_entries cfg (P : EP.t -> Prop) :
  (forall e e', ep_change e e' -> P e -> P e') ->
  (forall isTest builds st,
     start cfg isTest builds constructed = (st, Returned tt) ->
     forall k e, lookup k (entryPointsData st) = Some e -> P e) ->
  forall st, reachable cfg st ->
  forall k e, lookup k (entryPointsData st) = Some e -> P e.
Proof.
  intros Hstep Hstart st Hr.
  induction Hr as [isTest builds st Hs|ev st Hr IH He]; intros k e' Hl.
  - apply (Hstart isTest builds st Hs k e' Hl).
  - pose proof (step_change cfg ev st (proj1 (reachable_Inv cfg st Hr)) He)
      as Hrel.
    destruct (eps_rel_back _ _ _ k e' Hrel Hl) as (e & H1 & Hc).
    apply (Hstep e e' Hc). apply (IH k e H1).
Qed.

Lemma ep_change_python e e' :
  ep_change e e' ->
  (isPythonRuntime (EP.runtime e) = true -> EP.buildPromise e = None) ->
  isPythonRuntime (EP.runtime e') = true -> EP.buildPromise e' = None.
Proof.
  induction 1 as [e|e1 e2 e3 _ IH1 _ IH2|e|e _|p e Hp _ _|files p e|e|f e];
    simpl; auto.
  intros _ H. rewrite Hp in H. discriminate.
Qed.

(** *** The outputs of the first builds *)

Lemma firstBuilds_keys cfg builds hs : forall i st,
  keys (entryPointsData (fst (firstBuilds cfg builds i hs st)))
  = keys (entryPointsData st).
Proof.
  induction hs as [|hd hs IH]; intros i st; simpl; [reflexivity|].
  pose proof (firstBuild_keys cfg hd (builds i) st) as H1.
  destruct (firstBuild cfg hd (builds i) st) as [st1 ok]. simpl in H1.
  specialize (IH (S i) st1).
  destruct (firstBuilds cfg builds (S i) hs st1) as [st2 results]. simpl in *.
  congruence.
Qed.

Lemma firstBuilds_outputs cfg builds hs : forall i st,
  existsb negb (snd (firstBuilds cfg builds i hs st)) = false ->
  forall k e, lookup k (entryPointsData st) = Some e ->
    EP.outEntryPoint e <> None
    \/ In k (map (fun h => buildEntryPointKey (lh_srcPath h) (lh_handler h)) hs) ->
    exists e', lookup k (entryPointsData (fst (firstBuilds cfg builds i hs st)))
               = Some e'
               /\ EP.outEntryPoint e' <> None.
Proof.
  induction hs as [|hd hs IH]; intros i st Hok k e He Hcase; simpl in *.
  - exists e. split; [exact He|]. destruct Hcase as [H|[]]. exact H.
  - pose proof (firstBuild_eps cfg hd (builds i) st) as Hfb.
    destruct (firstBuild cfg hd (builds i) st) as [st1 ok]. simpl in Hfb.
    specialize (IH (S i) st1).
    destruct (firstBuilds cfg builds (S i) hs st1) as [st2 results].
    simpl in *. apply orb_false_iff in Hok. destruct Hok as [Hok1 Hok2].
    apply negb_false_iff in Hok1. subst ok.
    destruct Hfb as [(_ & ts & bo & files & out & E)|(Hf & _)];
      [|discriminate].
    destruct (string_dec
                (buildEntryPointKey (lh_srcPath hd) (lh_handler hd)) k)
      as [Heq|Hne].
    + apply (IH Hok2 k (EP.built ts bo files out e)).
      * rewrite E, <- Heq, lookup_alter_same.
        rewrite <- Heq in He. rewrite He. reflexivity.
      * left. simpl. discriminate.
    + apply (IH Hok2 k e).
      * rewrite E, lookup_alter_other by exact Hne. exact He.
      * destruct Hcase as [H|[H|H]]; [left; exact H | contradiction | right; exact H].
Qed.

Lemma start_outputs cfg isTest builds st :
  start cfg isTest builds constructed = (st, Returned tt) ->
  forall k e, lookup k (entryPointsData st) = Some e ->
    EP.outEntryPoint e <> None.
Proof.
  unfold start. intros Hs.
  pose proof (start_initial_Inv cfg) as H2.
  pose proof (firstBuilds_Inv cfg builds (lambdaHandlers cfg) 0 _ H2) as H3.
  pose proof (firstBuilds_keys cfg builds (lambdaHandlers cfg) 0
                (log (Info "Transpiling Lambda code...")
                   (initializeState cfg
                      (fold_left (fun acc l => log (Info l) acc)
                         [""; "=========================="; " Starting Live Lambda Dev";
                          "=========================="; ""] constructed)))) as K3.
  pose proof (firstBuilds_outputs cfg builds (lambdaHandlers cfg) 0
                (log (Info "Transpiling Lambda code...")
                   (initializeState cfg
                      (fold_left (fun acc l => log (Info l) acc)
                         [""; "=========================="; " Starting Live Lambda Dev";
                          "=========================="; ""] constructed)))) as O3.
  destruct H2 as (_ & _ & _ & _ & Hk).
  destruct (firstBuilds cfg builds 0 (lambdaHandlers cfg) _) as [st3 results].
  cbn [fst snd] in H3, K3, O3.
  destruct (existsb negb results) eqn:Hres; [discriminate|].
  assert (Hout3 : forall k e, lookup k (entryPointsData st3) = Some e ->
                    EP.outEntryPoint e <> None).
  { intros k e He.
    assert (Hin : In k (keys (entryPointsData st3)))
      by (apply lookup_In in He; apply (in_map fst) in He; exact He).
    rewrite K3 in Hin.
    match type of Hin with
    | In k (keys ?eps2) => destruct (lookup k eps2) as [e2|] eqn:He2
    end.
    - destruct (O3 eq_refl k e2 He2) as (e' & He' & Hout).
      + right. apply Hk in Hin. exact Hin.
      + rewrite He in He'. inversion He'. subst. exact Hout.
    - apply lookup_None_keys in He2. contradiction. }
  destruct isTest; [inversion Hs; subst; exact Hout3|].
  destruct (List.length (keys (srcPathsData st3)) =? 0); [discriminate|].
  inversion Hs. subst. simpl. intros k e' He'.
  pose proof (startChecks_change cfg (keys (srcPathsData st3)) st3 H3) as Hrel.
  destruct (eps_rel_back _ _ _ k e' Hrel He') as (e & He & Hc).
  destruct (ep_change_sameBuild e e' Hc) as (_ & _ & _ & Ho & _).
  rewrite Ho. apply (Hout3 k e He).
Qed.

(** *** The runtimes are those of the configured handlers *)

Lemma initializeState_from cfg st e :
  In e (values (entryPointsData (initializeState cfg st))) ->
  In e (values (entryPointsData st))
  \/ exists hd, In hd (lambdaHandlers cfg)
                /\ e = EP.template (lh_srcPath hd) (lh_handler hd) (lh_runtime hd).
Proof.
  unfold initializeState. generalize (lambdaHandlers cfg). intros hs.
  revert st. induction hs as [|h hs IH]; intros st He; simpl in *; [left; exact He|].
  destruct (IH _ He) as [H|(hd & Hin & ->)].
  - simpl in H. apply values_assign_In in H. destruct H as [->|H].
    + right. exists h. split; [left; reflexivity | reflexivity].
    + left. exact H.
  - right. exists hd. split; [right; exact Hin | reflexivity].
Qed.

Lemma start_handlers cfg isTest builds st :
  start cfg isTest builds constructed = (st, Returned tt) ->
  forall k e, lookup k (entryPointsData st) = Some e ->
    exists hd, In hd (lambdaHandlers cfg)
               /\ lh_runtime hd = EP.runtime e
               /\ lh_srcPath hd = EP.srcPath e
               /\ lh_handler hd = EP.handler e.
Proof.
  unfold start. intros Hs.
  pose proof (firstBuilds_Inv cfg builds (lambdaHandlers cfg) 0 _
                (start_initial_Inv cfg)) as H3.
  pose proof (firstBuilds_all cfg
                (fun e => exists hd, In hd (lambdaHandlers cfg)
                                     /\ lh_runtime hd = EP.runtime e
                                     /\ lh_srcPath hd = EP.srcPath e
                                     /\ lh_handler hd = EP.handler e)
                builds (lambdaHandlers cfg)
                (fun ts bo files out e H => H) 0
                (log (Info "Transpiling Lambda code...")
                   (initializeState cfg
                      (fold_left (fun acc l => log (Info l) acc)
                         [""; "=========================="; " Starting Live Lambda Dev";
                          "=========================="; ""] constructed)))) as R3.
  destruct (firstBuilds cfg builds 0 (lambdaHandlers cfg) _) as [st3 results].
  cbn [fst] in H3, R3.
  assert (Hr3 : forall k e, lookup k (entryPointsData st3) = Some e ->
                  exists hd, In hd (lambdaHandlers cfg)
                             /\ lh_runtime hd = EP.runtime e
                             /\ lh_srcPath hd = EP.srcPath e
                             /\ lh_handler hd = EP.handler e).
  { intros k e He. apply R3; [|apply (lookup_values k); exact He].
    intros x Hx. unfold log in Hx. cbn [entryPointsData] in Hx.
    apply initializeState_from in Hx. destruct Hx as [Hx|(hd & Hin & ->)].
    - simpl in Hx. destruct Hx.
    - exists hd. repeat split; [exact Hin]. }
  destruct (existsb negb results); [discriminate|].
  destruct isTest; [inversion Hs; subst; exact Hr3|].
  destruct (List.length (keys (srcPathsData st3)) =? 0); [discriminate|].
  inversion Hs. subst. simpl. intros k e' He'.
  pose proof (startChecks_change cfg (keys (srcPathsData st3)) st3 H3) as Hrel.
  destruct (eps_rel_back _ _ _ k e' Hrel He') as (e & He & Hc).
  destruct (ep_change_sameBuild e e' Hc) as (Hsp & Hh & Hrt & _).
  rewrite Hrt, Hsp, Hh. apply (Hr3 k e He).
Qed.

(** *** The index only grows *)

Lemma progressState_index_keeps s h files st f :
  lookup f (watchedNodeFilesIndex st) <> None ->
  lookup f (watchedNodeFilesIndex
              (progressState (onReBuildSucceeded_update s h files st))) <> None.
Proof.
  intros H.
  destruct (lookup (buildEntryPointKey s h) (entryPointsData st)) as [e|] eqn:He.
  - rewrite (progressState_index s h files st e He).
    destruct (isNodeRuntime (EP.runtime e)); [|exact H].
    apply fold_indexSplice_keeps. simpl. apply fold_indexPush_keeps. exact H.
  - rewrite onReBuildSucceeded_update_absent by exact He. exact H.
Qed.

Lemma beforePass_index_keeps st pre f :
  beforePass st pre ->
  lookup f (watchedNodeFilesIndex st) <> None ->
  lookup f (watchedNodeFilesIndex pre) <> None.
Proof.
  intros Hp H. destruct Hp as [file ks _ _|s h st0 _ Hl|s h files st0 st1 _ _ Hl E
                               |s h files st0 st1 err _ _ Hl E|s h _|s|s];
    try exact H.
  - destruct (fold_markLow_frame ks st) as (_ & I & _). rewrite I. exact H.
  - simpl. destruct (loggedMore_frame st st0 Hl) as (_ & _ & I & _).
    rewrite I. exact H.
  - destruct (loggedMore_frame st st0 Hl) as (_ & _ & I & _).
    rewrite <- I in H.
    pose proof (progressState_index_keeps s h files st0 f H) as H1.
    rewrite E in H1. exact H1.
  - destruct (loggedMore_frame st st0 Hl) as (_ & _ & I & _).
    rewrite <- I in H.
    pose proof (progressState_index_keeps s h files st0 f H) as H1.
    rewrite E in H1. exact H1.
Qed.

Lemma stepResult_index_keeps cfg st st' f :
  stepResult cfg st st' ->
  lookup f (watchedNodeFilesIndex st) <> None ->
  lookup f (watchedNodeFilesIndex st') <> None.
Proof.
  intros Hs H.
  destruct Hs as [|k e He Hc|s h files st0 st1 _ _ Hl E|pre Hp|pre g k Hp].
  - exact H.
  - exact H.
  - destruct (loggedMore_frame st st0 Hl) as (_ & _ & I & _).
    rewrite <- I in H.
    pose proof (progressState_index_keeps s h files st0 f H) as H1.
    rewrite E in H1. exact H1.
  - destruct (pass_frame cfg pre _ (updateLambdaCodeState_pass cfg pre))
      as (I & _).
    rewrite I. apply (beforePass_index_keeps st pre f Hp H).
  - simpl.
    destruct (pass_frame cfg pre _ (updateLambdaCodeState_pass cfg pre))
      as (I & _).
    rewrite I. apply (beforePass_index_keeps st pre f Hp H).
Qed.

(** ** A changed file and the entry points that read it *)

Lemma fold_markLow_marks ks k e : forall st,
  In k ks -> lookup k (entryPointsData st) = Some e ->
  lookup k (entryPointsData (fold_left markLow ks st))
  = Some (EP.with_needsReBuild LOW e).
Proof.
  assert (Hkeep : forall ks st,
            lookup k (entryPointsData st) = Some (EP.with_needsReBuild LOW e) ->
            lookup k (entryPointsData (fold_left markLow ks st))
            = Some (EP.with_needsReBuild LOW e)).
  { induction ks0 as [|x ks0 IH]; intros st H; simpl; [exact H|].
    apply IH. simpl. destruct (string_dec x k) as [->|Hne].
    - rewrite lookup_alter_same, H. reflexivity.
    - rewrite lookup_alter_other by exact Hne. exact H. }
  induction ks as [|x ks IH]; intros st Hin He; simpl; [destruct Hin|].
  destruct (string_dec x k) as [->|Hne].
  - apply Hkeep. simpl. rewrite lookup_alter_same, He. reflexivity.
  - destruct Hin as [Heq|Hin]; [congruence|].
    apply IH; [exact Hin|]. simpl.
    rewrite lookup_alter_other by exact Hne. exact He.
Qed.

(** After a pass, an entry point marked LOW is being built, or, for Go,
    still waits. *)
Lemma update_after_mark cfg st k e1 :
  keys_wf st ->
  lookup k (entryPointsData st) = Some e1 ->
  truthy (EP.needsReBuild e1) = true ->
  exists e', lookup k (entryPointsData (updateLambdaCodeState cfg st)) = Some e'
             /\ (e' = e1 \/ exists p, e' = EP.started p e1)
             /\ (isNodeRuntime (EP.runtime e1) = true ->
                 isSome (EP.buildPromise e') = true).
Proof.
  intros Hwf He Ht.
  destruct (pass_eps cfg _ _ (updateLambdaCodeState_pass cfg st) Hwf) as [_ [_ Hd]].
  destruct (Hd k e1 He) as (e' & He' & Hdisp). exists e'.
  split; [exact He'|]. split.
  - destruct Hdisp as [->|(_ & _ & p & ->)]; [left; reflexivity|].
    right. exists p. reflexivity.
  - intros Hn. destruct Hdisp as [->|(_ & _ & p & ->)]; [|reflexivity].
    pose proof (pass_dispatches_node cfg st k e1 Hwf He He') as Hnd.
    unfold isNodeDirty in Hnd. rewrite Hn, Ht in Hnd. simpl in Hnd.
    rewrite andb_true_r in Hnd. apply negb_false_iff in Hnd. exact Hnd.
Qed.

Lemma keys_filter_In {V : Type} (p : string * V -> bool) (o : JsObject V) k v :
  In (k, v) o -> p (k, v) = true -> In k (keys (filter p o)).
Proof.
  intros Hin Hp. unfold keys. apply (in_map fst (filter p o) (k, v)).
  apply filter_In. split; assumption.
Qed.

(** ** A pass run twice *)

Lemma existsb_weaken {A : Type} (p q : A -> bool) (l : list A) :
  (forall x, p x = true -> q x = true) ->
  existsb p l = true -> existsb q l = true.
Proof.
  intros Hpq H. apply existsb_exists in H. destruct H as (x & Hx & Hp).
  apply existsb_exists. exists x. auto.
Qed.

Lemma existsb_false_weaken {A : Type} (p q : A -> bool) (l : list A) :
  (forall x, p x = true -> q x = true) ->
  existsb q l = false -> existsb p l = false.
Proof.
  intros Hpq H. destruct (existsb p l) eqn:E; [|reflexivity].
  rewrite (existsb_weaken p q l Hpq E) in H. discriminate.
Qed.

Lemma busy_fixed st :
  busySettled st = true -> updateLambdaCodeBusyStatus st = st.
Proof.
  unfold busySettled, updateLambdaCodeBusyStatus.
  destruct (isProcessingLambdaChanges st); simpl.
  - destruct (existsb (fun e => truthy (EP.needsReBuild e)
                                || isSome (EP.buildPromise e)) _);
      [reflexivity|]. simpl.
    destruct (existsb EP.hasError _); simpl; [discriminate|].
    destruct (existsb _ (values (srcPathsData st))); [reflexivity|discriminate].
  - destruct (existsb _ _); simpl; [discriminate|reflexivity].
Qed.

Lemma busy_settles st : busySettled (updateLambdaCodeBusyStatus st) = true.
Proof.
  unfold busySettled, updateLambdaCodeBusyStatus.
  destruct (isProcessingLambdaChanges st) eqn:Hb; simpl.
  - destruct (existsb (fun e => truthy (EP.needsReBuild e)
                                || isSome (EP.buildPromise e))
                (values (entryPointsData st))) eqn:E1.
    + rewrite Hb, E1. reflexivity.
    + assert (E0 : existsb (fun e => truthy (EP.needsReBuild e))
                     (values (entryPointsData st)) = false).
      { apply (existsb_false_weaken _ _ _ (fun e H => orb_true_intro _ _ (or_introl H)) E1). }
      destruct (existsb EP.hasError (values (entryPointsData st))) eqn:E2; simpl.
      * rewrite E0. reflexivity.
      * destruct (existsb _ (values (srcPathsData st))) eqn:E3; simpl.
        -- rewrite Hb, E1, E2, E3. reflexivity.
        -- rewrite E0. reflexivity.
  - destruct (existsb (fun e => truthy (EP.needsReBuild e))
                (values (entryPointsData st))) eqn:E0; simpl.
    + rewrite (existsb_weaken _ (fun e => truthy (EP.needsReBuild e)
                                          || isSome (EP.buildPromise e)) _
                 (fun e H => orb_true_intro _ _ (or_introl H)) E0).
      reflexivity.
    + rewrite Hb, E0. reflexivity.
Qed.

Lemma existsb_lookup (p : EP.t -> bool) st :
  keys_wf st ->
  (existsb p (values (entryPointsData st)) = true <->
   exists k e, lookup k (entryPointsData st) = Some e /\ p e = true).
Proof.
  intros Hwf. rewrite existsb_exists. split.
  - intros (e & He & Hp). exists (epKey e), e. split; [|exact Hp].
    apply wf_values_lookup; assumption.
  - intros (k & e & He & Hp). exists e. split; [|exact Hp].
    apply (lookup_values k). exact He.
Qed.

(** Dispatching builds keeps the busy status settled. *)
Lemma dispatch_busySettled cfg st :
  keys_wf st -> busySettled st = true ->
  busySettled (dispatchBuilds cfg st) = true.
Proof.
  intros Hwf Hs.
  destruct (dispatchBuilds_spec cfg st Hwf) as (Hwf' & _ & _).
  pose proof (dispatchBuilds_eps cfg st Hwf) as Hd.
  destruct (dispatchBuilds_frame cfg st) as (S1 & _ & _ & _ & _ & F1 & _).
  assert (Hfwd : forall p : EP.t -> bool,
             (forall q e, p e = true -> p (EP.started q e) = true) ->
             existsb p (values (entryPointsData st)) = true ->
             existsb p (values (entryPointsData (dispatchBuilds cfg st))) = true).
  { intros p Hp H. apply (existsb_lookup p st Hwf) in H.
    destruct H as (k & e & He & Hpe).
    apply (existsb_lookup p _ Hwf').
    destruct Hd as [_ Hl]. destruct (Hl k e He) as (e' & He' & Hc).
    exists k, e'. split; [exact He'|].
    destruct Hc as [->|(_ & _ & q & ->)]; auto. }
  assert (Hbwd : forall p : EP.t -> bool,
             (forall q e, p (EP.started q e) = true ->
                          truthy (EP.needsReBuild e) = true -> p e = true) ->
             existsb p (values (entryPointsData st)) = false ->
             existsb p (values (entryPointsData (dispatchBuilds cfg st))) = false).
  { intros p Hp H.
    destruct (existsb p (values (entryPointsData (dispatchBuilds cfg st))))
      eqn:E; [|reflexivity].
    apply (existsb_lookup p _ Hwf') in E. destruct E as (k & e' & He' & Hpe).
    destruct (eps_dispatch_back _ _ k e' Hd He') as (e & He & Hc).
    assert (existsb p (values (entryPointsData st)) = true); [|congruence].
    apply (existsb_lookup p st Hwf). exists k, e. split; [exact He|].
    destruct Hc as [->|(_ & Hn & q & ->)]; [exact Hpe|].
    apply (Hp q e Hpe Hn). }
  unfold busySettled in *. rewrite F1, S1.
  destruct (isProcessingLambdaChanges st).
  - apply orb_true_iff in Hs. destruct Hs as [Hs|Hs].
    + rewrite (Hfwd (fun e => truthy (EP.needsReBuild e)
                              || isSome (EP.buildPromise e))
                 (fun q e _ => orb_true_r _) Hs).
      reflexivity.
    + apply andb_true_iff in Hs. destruct Hs as [He Hc].
      apply negb_true_iff in He.
      rewrite (Hbwd EP.hasError (fun q e H _ => H) He), Hc.
      apply orb_true_r.
  - apply negb_true_iff in Hs. apply negb_true_iff.
    apply (Hbwd (fun e => truthy (EP.needsReBuild e))
             (fun q e _ Hn => Hn) Hs).
Qed.

Lemma needsReCheck_count st s d :
  lookup s (srcPathsData st) = Some d -> SP.needsReCheck d = true ->
  1 <= needsReCheckCount st.
Proof.
  intros Hd Hn. unfold needsReCheckCount.
  assert (Hin : In d (filter SP.needsReCheck (values (srcPathsData st)))).
  { apply filter_In. split; [|exact Hn]. apply lookup_In in Hd.
    apply (in_map snd) in Hd. exact Hd. }
  destruct (filter SP.needsReCheck (values (srcPathsData st))); [destruct Hin|].
  simpl. lia.
Qed.

Lemma update_wf cfg st : keys_wf st -> keys_wf (updateLambdaCodeState cfg st).
Proof.
  intros Hwf. apply (pass_eps cfg st _ (updateLambdaCodeState_pass cfg st) Hwf).
Qed.

Lemma update_count cfg st :
  needsReCheckCount (updateLambdaCodeState cfg st) <= needsReCheckCount st.
Proof. apply (pass_frame cfg st _ (updateLambdaCodeState_pass cfg st)). Qed.

Lemma checkedState_wf cfg s st : keys_wf st -> keys_wf (checkedState cfg s st).
Proof.
  intros Hwf. destruct (checkedState_frame cfg s st) as (E & _).
  unfold keys_wf. rewrite E. exact Hwf.
Qed.

(** The busy status is settled at the end of every pass. *)
Lemma update_busySettled cfg : forall n st,
  needsReCheckCount st <= n -> keys_wf st ->
  busySettled (updateLambdaCodeState cfg st) = true.
Proof.
  induction n as [|n IH]; intros st Hn Hwf;
    rewrite updateLambdaCodeState_unfold; cbv zeta;
    (assert (Hwf0 : keys_wf (updateLambdaCodeBusyStatus st))
       by (unfold keys_wf; rewrite busy_entryPointsData; exact Hwf));
    pose proof (dispatch_busySettled cfg _ Hwf0 (busy_settles st)) as H1;
    (assert (Hwf1 : keys_wf (dispatchBuilds cfg (updateLambdaCodeBusyStatus st)))
       by apply (dispatchBuilds_spec cfg _ Hwf0));
    (assert (Hc1 : needsReCheckCount
                     (dispatchBuilds cfg (updateLambdaCodeBusyStatus st))
                   <= needsReCheckCount st)
       by (unfold needsReCheckCount;
           destruct (dispatchBuilds_frame cfg (updateLambdaCodeBusyStatus st))
             as (S1 & _);
           rewrite S1, busy_srcPathsData; lia));
    set (st1 := dispatchBuilds cfg (updateLambdaCodeBusyStatus st)) in *;
    clearbody st1;
    (destruct (existsb _ _); [exact H1|]);
    (destruct (existsb _ _); [exact H1|]);
    generalize (keys (srcPathsData st1)); intros ks;
    revert H1 Hwf1 Hc1; generalize st1; clear st1;
    induction ks as [|s ks IHks]; intros acc H1 Hwf1 Hc1; simpl;
    try exact H1;
    rewrite recheckStep_eq;
    (destruct (lookup s (srcPathsData acc)) as [d|] eqn:Hd;
     [|apply IHks; assumption]);
    (destruct (SP.needsReCheck d) eqn:Hr; [|apply IHks; assumption]);
    pose proof (checkedState_count cfg s acc d Hd Hr) as Hcount.
  - exfalso. lia.
  - apply IHks.
    + apply IH; [lia | apply checkedState_wf; exact Hwf1].
    + apply update_wf. apply checkedState_wf. exact Hwf1.
    + pose proof (update_count cfg (checkedState cfg s acc)). lia.
Qed.

(** *** Nothing left to dispatch *)

Lemma slice0_nil {A : Type} (r : Z) : slice0 r (@nil A) = [].
Proof. unfold slice0. destruct (r <? 0)%Z; apply firstn_nil. Qed.

Lemma dispatch_fixed cfg st :
  keys_wf st -> workConserving cfg st ->
  (forall k e, lookup k (entryPointsData st) = Some e -> isNodeDirty e = false) ->
  dispatchBuilds cfg st = st.
Proof.
  intros Hwf Hwc Hnode. rewrite dispatchBuilds_fold.
  assert (Hnil : dispatchList cfg st = []); [|rewrite Hnil; reflexivity].
  unfold dispatchList.
  assert (Hn : nodeEPsNeedsRebuild (gather (entryPointsData st)) = []).
  { rewrite gather_spec. simpl. apply filter_none. intros e He.
    apply (Hnode (epKey e)). apply wf_values_lookup; assumption. }
  rewrite Hn. simpl.
  destruct (goEPsNeedsRebuild (gather (entryPointsData st))) as [|e q] eqn:Hq;
    [apply slice0_nil|].
  assert (Hin : In e (goEPsNeedsRebuild (gather (entryPointsData st))))
    by (rewrite Hq; left; reflexivity).
  apply goQueue_In in Hin. destruct Hin as [Hv Hw].
  pose proof (Hwc (epKey e) e (wf_values_lookup st e Hwf Hv) Hw) as Hfull.
  unfold concurrencyRemaining. rewrite gather_spec. simpl.
  fold (goBuildsInFlight st). rewrite Hfull.
  unfold slice0. rewrite Z.sub_diag. reflexivity.
Qed.

(** *** Nothing left to check *)

Lemma pass_checked_keeps cfg st st' s d :
  pass cfg st st' ->
  lookup s (srcPathsData st) = Some d -> SP.needsReCheck d = false ->
  exists d', lookup s (srcPathsData st') = Some d' /\ SP.needsReCheck d' = false.
Proof.
  intros Hp. revert d.
  induction Hp as [st|st1 st2 st3 _ IH1 _ IH2|st|st|st s0 d0 Hd0 Hn0];
    intros d Hd Hn.
  - exists d. auto.
  - destruct (IH1 d Hd Hn) as (d1 & H1 & N1). apply (IH2 d1 H1 N1).
  - rewrite busy_srcPathsData. exists d. auto.
  - destruct (dispatchBuilds_frame cfg st) as (S1 & _). rewrite S1.
    exists d. auto.
  - destruct (checkedState_frame cfg s0 st)
      as (_ & _ & _ & _ & _ & _ & _ & l & t & A8).
    rewrite A8. destruct (string_dec s0 s) as [->|Hne].
    + rewrite lookup_alter_same, Hd. simpl. eexists. split; [reflexivity|].
      reflexivity.
    + rewrite lookup_alter_other by exact Hne. exists d. auto.
Qed.

Lemma recheck_fold_checked cfg (again : State -> State) :
  (forall s, pass cfg s (again s)) ->
  forall ks st s d',
    In s ks ->
    lookup s (srcPathsData (fold_left (recheckStep cfg again) ks st)) = Some d' ->
    SP.needsReCheck d' = false.
Proof.
  intros Hagain. induction ks as [|s0 ks IH]; intros st s d' Hin Hd';
    [destruct Hin|].
  simpl in Hd'. destruct (in_dec string_dec s ks) as [Hin'|Hnot].
  - apply (IH _ s d' Hin' Hd').
  - destruct Hin as [->|Hin]; [|contradiction].
    pose proof (recheck_fold_pass cfg again Hagain ks
                  (recheckStep cfg again st s)) as Hp.
    assert (H0 : forall d0,
               lookup s (srcPathsData (recheckStep cfg again st s)) = Some d0 ->
               SP.needsReCheck d0 = false).
    { intros d0. rewrite recheckStep_eq.
      destruct (lookup s (srcPathsData st)) as [d|] eqn:Hd; [|congruence].
      destruct (SP.needsReCheck d) eqn:Hn; [|congruence].
      intros H0.
      destruct (checkedState_frame cfg s st)
        as (_ & _ & _ & _ & _ & _ & _ & l & t & A8).
      assert (Hc : lookup s (srcPathsData (checkedState cfg s st))
                   = Some (SP.checking l t d))
        by (rewrite A8, lookup_alter_same, Hd; reflexivity).
      destruct (pass_checked_keeps cfg _ _ s _ (Hagain (checkedState cfg s st))
                  Hc eq_refl) as (d1 & H1 & N1).
      congruence. }
    destruct (lookup s (srcPathsData (recheckStep cfg again st s)))
      as [d0|] eqn:Hd0.
    + destruct (pass_checked_keeps cfg _ _ s d0 Hp Hd0 (H0 d0 eq_refl))
        as (d1 & H1 & N1).
      congruence.
    + exfalso. apply lookup_None_keys in Hd0.
      destruct (pass_frame cfg _ _ Hp) as (_ & _ & _ & K & _).
      rewrite <- K in Hd0. apply Hd0.
      apply lookup_In in Hd'. apply (in_map fst) in Hd'. exact Hd'.
Qed.

(** At the end of a pass a build is in flight, or an entry point has an
    error, or no source path is left to check. *)
Lemma update_checked cfg st :
  existsb (fun e => isSome (EP.buildPromise e))
    (values (entryPointsData (updateLambdaCodeState cfg st))) = true
  \/ existsb EP.hasError
       (values (entryPointsData (updateLambdaCodeState cfg st))) = true
  \/ allChecked (updateLambdaCodeState cfg st).
Proof.
  rewrite updateLambdaCodeState_unfold. cbv zeta.
  set (st1 := dispatchBuilds cfg (updateLambdaCodeBusyStatus st)).
  destruct (existsb (fun e => isSome (EP.buildPromise e))
              (values (entryPointsData st1))) eqn:E1; [left; exact E1|].
  destruct (existsb EP.hasError (values (entryPointsData st1))) eqn:E2;
    [right; left; exact E2|].
  right. right. intros s d' Hd'.
  apply (recheck_fold_checked cfg (updateLambdaCodeState cfg)
           (updateLambdaCodeState_pass cfg) (keys (srcPathsData st1)) st1 s d');
    [|exact Hd'].
  pose proof (recheck_fold_pass cfg (updateLambdaCodeState cfg)
                (updateLambdaCodeState_pass cfg) (keys (srcPathsData st1)) st1)
    as Hp.
  destruct (pass_frame cfg _ _ Hp) as (_ & _ & _ & K & _).
  rewrite <- K. apply lookup_In in Hd'. apply (in_map fst) in Hd'. exact Hd'.
Qed.

Lemma recheck_fold_id cfg (again : State -> State) ks st :
  allChecked st -> fold_left (recheckStep cfg again) ks st = st.
Proof.
  intros Hall. induction ks as [|s ks IH]; simpl; [reflexivity|].
  rewrite recheckStep_eq.
  destruct (lookup s (srcPathsData st)) as [d|] eqn:Hd; [|exact IH].
  rewrite (Hall s d Hd). exact IH.
Qed.

(** A state a pass has just left is a fixed point of the pass. *)
Lemma update_idempotent cfg st :
  keys_wf st -> goBuildsInFlight st <= BUILDER_CONCURRENCY cfg ->
  updateLambdaCodeState cfg (updateLambdaCodeState cfg st)
  = updateLambdaCodeState cfg st.
Proof.
  intros Hwf Hle.
  set (st' := updateLambdaCodeState cfg st).
  assert (Hwf' : keys_wf st') by (apply update_wf; exact Hwf).
  assert (Hb : updateLambdaCodeBusyStatus st' = st').
  { apply busy_fixed. apply (update_busySettled cfg (needsReCheckCount st) st);
      [lia | exact Hwf]. }
  assert (Hd : dispatchBuilds cfg st' = st').
  { apply dispatch_fixed; [exact Hwf' | apply update_WC; assumption|].
    intros k e He. apply (update_no_node_dirty cfg st k e Hwf He). }
  rewrite updateLambdaCodeState_unfold. cbv zeta. rewrite Hb, Hd.
  destruct (existsb (fun e => isSome (EP.buildPromise e))
              (values (entryPointsData st'))) eqn:E1; [reflexivity|].
  destruct (existsb EP.hasError (values (entryPointsData st'))) eqn:E2;
    [reflexivity|].
  apply recheck_fold_id.
  destruct (update_checked cfg st) as [H|[H|H]]; fold st' in H;
    [congruence | congruence | exact H].
Qed.

(** ** Busy means work *)

Lemma busySettled_work st :
  busySettled st = true -> busyHasWork st.
Proof.
  unfold busySettled, busyHasWork, hasWork. intros H Hb. rewrite Hb in H.
  left. exact H.
Qed.

Lemma hasWork_alter f k st :
  (forall e, EP.needsReBuild (f e) = EP.needsReBuild e
             /\ EP.buildPromise (f e) = EP.buildPromise e
             /\ EP.hasError (f e) = EP.hasError e) ->
  hasWork (alterEP f k st) = hasWork st.
Proof.
  intros Hf. unfold hasWork. simpl.
  rewrite (existsb_alter (fun e => truthy (EP.needsReBuild e)
                                   || isSome (EP.buildPromise e)) f k).
  2:{ intros e. destruct (Hf e) as (-> & -> & _). reflexivity. }
  rewrite (existsb_alter EP.hasError f k).
  2:{ intros e. destruct (Hf e) as (_ & _ & ->). reflexivity. }
  reflexivity.
Qed.

Lemma busyHasWork_stepResult cfg st st' :
  Inv cfg None st -> stepResult cfg st st' ->
  busyHasWork st -> busyHasWork st'.
Proof.
  intros HI Hs Hw.
  destruct Hs as [|k e He Hc|s h files st0 st1 Hb _ Hl E|pre Hp|pre f k Hp].
  - exact Hw.
  - intros _. left. unfold hasWork.
    assert (Hex : existsb (fun e => truthy (EP.needsReBuild e)
                                    || isSome (EP.buildPromise e))
                    (values (entryPointsData (alterEP pushWaiter k st))) = true).
    { apply existsb_exists. exists (pushWaiter e). split; [|reflexivity].
      apply (lookup_values k). simpl. rewrite lookup_alter_same, He. reflexivity. }
    rewrite Hex. reflexivity.
  - intros _. right.
    destruct (buildInFlight_loggedMore s h st st0 Hb Hl) as (e & He & _).
    destruct (onReBuildSucceeded_update_shape s h files st0 e He)
      as (st1' & Hout & _).
    rewrite E in Hout.
    destruct Hout as [[Hx _]|[(Hx & Hu & _)|(err & Hx & _)]]; try discriminate.
    inversion Hx. subst st1'. rewrite Hu.
    destruct (unwatching st0); discriminate.
  - apply busySettled_work.
    destruct (beforePass_Inv cfg st pre HI Hp) as (skip & Hwf & _).
    apply (update_busySettled cfg (needsReCheckCount pre) pre); [lia|exact Hwf].
  - destruct (beforePass_Inv cfg st pre HI Hp) as (skip & Hwf & _).
    pose proof (busySettled_work _
                  (update_busySettled cfg (needsReCheckCount pre) pre
                     (Nat.le_refl _) Hwf)) as H1.
    intros Hb. simpl in Hb. destruct (H1 Hb) as [H|H].
    + left. rewrite hasWork_alter; [exact H|].
      intros e. repeat split; reflexivity.
    + right. exact H.
Qed.

Lemma firstBuild_flag cfg hd b st :
  isProcessingLambdaChanges (fst (firstBuild cfg hd b st))
  = isProcessingLambdaChanges st.
Proof.
  unfold firstBuild, compile, buildPython, transpile.
  destruct (lh_runtime hd); simpl.
  - destruct (fb_ok b); [|reflexivity].
    destruct (getInputFiles_frame cfg (fb_metafile b) st)
      as (_ & _ & _ & _ & _ & _ & A).
    destruct (getInputFilesFromEsbuildMetafile cfg (fb_metafile b) st)
      as [st1 [files|err]]; simpl in *; exact A.
  - destruct (fb_ok b); reflexivity.
  - reflexivity.
Qed.

Lemma firstBuilds_flag cfg builds hs : forall i st,
  isProcessingLambdaChanges (fst (firstBuilds cfg builds i hs st))
  = isProcessingLambdaChanges st.
Proof.
  induction hs as [|hd hs IH]; intros i st; simpl; [reflexivity|].
  pose proof (firstBuild_flag cfg hd (builds i) st) as H1.
  destruct (firstBuild cfg hd (builds i) st) as [st1 ok]. simpl in H1.
  specialize (IH (S i) st1).
  destruct (firstBuilds cfg builds (S i) hs st1) as [st2 results]. simpl in *.
  congruence.
Qed.

Lemma initializeState_flag cfg st :
  isProcessingLambdaChanges (initializeState cfg st)
  = isProcessingLambdaChanges st.
Proof.
  unfold initializeState. generalize (lambdaHandlers cfg). intros hs.
  revert st. induction hs as [|h hs IH]; intros st; simpl; [reflexivity|].
  rewrite IH. reflexivity.
Qed.

Lemma startChecks_busySettled cfg ks : forall st,
  Inv cfg None st -> ks <> [] ->
  busySettled (fold_left (startChecks cfg) ks st) = true.
Proof.
  induction ks as [|k ks IH]; intros st HI Hne; [congruence|].
  simpl.
  assert (HI1 : Inv cfg None (checkedState cfg k st))
    by (apply checkedState_Inv; exact HI).
  destruct ks as [|k2 ks].
  - simpl. rewrite startChecks_eq.
    apply (update_busySettled cfg _ _ (Nat.le_refl _)). apply HI1.
  - apply IH; [|discriminate]. rewrite startChecks_eq.
    eapply Inv_pass; [apply updateLambdaCodeState_pass | exact HI1].
Qed.

Lemma busyHasWork_start cfg isTest builds st :
  start cfg isTest builds constructed = (st, Returned tt) -> busyHasWork st.
Proof.
  unfold start. intros Hs.
  pose proof (firstBuilds_Inv cfg builds (lambdaHandlers cfg) 0 _
                (start_initial_Inv cfg)) as H3.
  pose proof (firstBuilds_flag cfg builds (lambdaHandlers cfg) 0
                (log (Info "Transpiling Lambda code...")
                   (initializeState cfg
                      (fold_left (fun acc l => log (Info l) acc)
                         [""; "=========================="; " Starting Live Lambda Dev";
                          "=========================="; ""] constructed)))) as F3.
  destruct (firstBuilds cfg builds 0 (lambdaHandlers cfg) _) as [st3 results].
  unfold log in F3. cbn [fst isProcessingLambdaChanges] in F3, H3.
  rewrite initializeState_flag in F3.
  destruct (existsb negb results); [discriminate|].
  destruct isTest.
  - inversion Hs. subst. intros Hb. rewrite F3 in Hb. discriminate.
  - destruct (List.length (keys (srcPathsData st3)) =? 0) eqn:Hlen;
      [discriminate|].
    inversion Hs. subst.
    pose proof (startChecks_busySettled cfg (keys (srcPathsData st3)) st3 H3)
      as H4.
    assert (Hne : keys (srcPathsData st3) <> []).
    { intros Hnil. rewrite Hnil in Hlen. discriminate. }
    apply busySettled_work in H4; [|exact Hne].
    intros Hb. apply H4. exact Hb.
Qed.

Lemma reachable_busyHasWork cfg st : reachable cfg st -> busyHasWork st.
Proof.
  induction 1 as [isTest builds st Hs|ev st Hr IH He].
  - apply (busyHasWork_start cfg isTest builds st Hs).
  - apply (busyHasWork_stepResult cfg st);
      [apply (reachable_Inv cfg st Hr)| |exact IH].
    apply step_stepResult. exact He.
Qed.

(** ** Rechecks wait for a reason *)

Lemma update_recheckPending cfg st :
  recheckPending (updateLambdaCodeState cfg st).
Proof.
  destruct (update_checked cfg st) as [H|[H|H]];
    [right; left; exact H | right; right; left; exact H | left; exact H].
Qed.

Lemma recheckPending_alter f k st :
  (forall e, EP.buildPromise (f e) = EP.buildPromise e
             /\ EP.hasError (f e) = EP.hasError e) ->
  recheckPending st -> recheckPending (alterEP f k st).
Proof.
  intros Hf [H|[H|[H|H]]].
  - left. exact H.
  - right. left. simpl.
    rewrite (existsb_alter (fun e => isSome (EP.buildPromise e)) f k);
      [exact H|].
    intros e. destruct (Hf e) as (-> & _). reflexivity.
  - right. right. left. simpl.
    rewrite (existsb_alter EP.hasError f k); [exact H|].
    intros e. destruct (Hf e) as (_ & ->). reflexivity.
  - right. right. right. exact H.
Qed.

Lemma recheckPending_stepResult cfg st st' :
  stepResult cfg st st' -> recheckPending st -> recheckPending st'.
Proof.
  intros Hs Hw.
  destruct Hs as [|k e He Hc|s h files st0 st1 Hb _ Hl E|pre Hp|pre f k Hp].
  - exact Hw.
  - apply recheckPending_alter; [|exact Hw]. intros e'. split; reflexivity.
  - right. right. right.
    destruct (buildInFlight_loggedMore s h st st0 Hb Hl) as (e & He & _).
    destruct (onReBuildSucceeded_update_shape s h files st0 e He)
      as (st1' & Hout & _).
    rewrite E in Hout.
    destruct Hout as [[Hx _]|[(Hx & Hu & _)|(err & Hx & _)]]; try discriminate.
    inversion Hx. subst st1'. rewrite Hu.
    destruct (unwatching st0); discriminate.
  - apply update_recheckPending.
  - apply recheckPending_alter; [|apply update_recheckPending].
    intros e. split; reflexivity.
Qed.

Lemma lookup_assign_cases {V : Type} k k2 (v v2 : V) (o : JsObject V) :
  lookup k2 (assign k v o) = Some v2 -> v2 = v \/ lookup k2 o = Some v2.
Proof.
  intros H. destruct (string_dec k k2) as [<-|Hne].
  - rewrite lookup_assign_same in H. inversion H. left. reflexivity.
  - rewrite lookup_assign_other in H by exact Hne. right. exact H.
Qed.

Lemma onBuildSucceeded_allChecked s h ts bo out files st :
  allChecked st -> allChecked (onBuildSucceeded s h ts bo out files st).
Proof.
  intros Hall s' d Hd. unfold onBuildSucceeded in Hd. simpl in Hd.
  apply lookup_assign_cases in Hd. destruct Hd as [->|Hd]; [reflexivity|].
  apply (Hall s' d Hd).
Qed.

Lemma firstBuild_allChecked cfg hd b st :
  allChecked st -> allChecked (fst (firstBuild cfg hd b st)).
Proof.
  intros H. unfold firstBuild, compile, buildPython, transpile.
  destruct (lh_runtime hd); simpl.
  - destruct (fb_ok b); [|exact H].
    destruct (getInputFiles_frame cfg (fb_metafile b) st) as (_ & A & _).
    assert (H1 : allChecked (fst (getInputFilesFromEsbuildMetafile cfg
                                    (fb_metafile b) st)))
      by (unfold allChecked; rewrite A; exact H).
    destruct (getInputFilesFromEsbuildMetafile cfg (fb_metafile b) st)
      as [st1 [files|err]]; simpl in *; [|exact H1].
    apply onBuildSucceeded_allChecked. exact H1.
  - destruct (fb_ok b); [|exact H]. simpl.
    apply onBuildSucceeded_allChecked. exact H.
  - apply onBuildSucceeded_allChecked. exact H.
Qed.

Lemma firstBuilds_allChecked cfg builds hs : forall i st,
  allChecked st -> allChecked (fst (firstBuilds cfg builds i hs st)).
Proof.
  induction hs as [|hd hs IH]; intros i st H; simpl; [exact H|].
  pose proof (firstBuild_allChecked cfg hd (builds i) st H) as H1.
  destruct (firstBuild cfg hd (builds i) st) as [st1 ok]. simpl in H1.
  specialize (IH (S i) st1 H1).
  destruct (firstBuilds cfg builds (S i) hs st1) as [st2 results].
  exact IH.
Qed.

Lemma initializeState_srcPathsData cfg st :
  srcPathsData (initializeState cfg st) = srcPathsData st.
Proof.
  unfold initializeState. generalize (lambdaHandlers cfg). intros hs.
  revert st. induction hs as [|h hs IH]; intros st; simpl; [reflexivity|].
  rewrite IH. reflexivity.
Qed.

Lemma startChecks_last cfg ks : forall st,
  ks <> [] ->
  exists pre, fold_left (startChecks cfg) ks st = updateLambdaCodeState cfg pre.
Proof.
  induction ks as [|k ks IH]; intros st Hne; [congruence|].
  simpl. destruct ks as [|k2 ks].
  - simpl. rewrite startChecks_eq. eexists. reflexivity.
  - apply IH. discriminate.
Qed.

Lemma recheckPending_start cfg isTest builds st :
  start cfg isTest builds constructed = (st, Returned tt) -> recheckPending st.
Proof.
  unfold start. intros Hs.
  pose proof (firstBuilds_allChecked cfg builds (lambdaHandlers cfg) 0
                (log (Info "Transpiling Lambda code...")
                   (initializeState cfg
                      (fold_left (fun acc l => log (Info l) acc)
                         [""; "=========================="; " Starting Live Lambda Dev";
                          "=========================="; ""] constructed)))) as A3.
  destruct (firstBuilds cfg builds 0 (lambdaHandlers cfg) _) as [st3 results].
  cbn [fst] in A3.
  destruct (existsb negb results); [discriminate|].
  destruct isTest.
  - inversion Hs. subst. left. apply A3.
    intros s d Hd. unfold log in Hd. cbn [srcPathsData] in Hd.
    rewrite initializeState_srcPathsData in Hd. simpl in Hd. discriminate.
  - destruct (List.length (keys (srcPathsData st3)) =? 0) eqn:Hlen;
      [discriminate|].
    inversion Hs. subst.
    assert (Hne : keys (srcPathsData st3) <> []).
    { intros Hnil. rewrite Hnil in Hlen. discriminate. }
    destruct (startChecks_last cfg (keys (srcPathsData st3)) st3 Hne)
      as (pre & Hpre).
    pose proof (update_recheckPending cfg pre) as H. rewrite <- Hpre in H.
    exact H.
Qed.

Lemma reachable_recheckPending cfg st : reachable cfg st -> recheckPending st.
Proof.
  induction 1 as [isTest builds st Hs|ev st Hr IH He].
  - apply (recheckPending_start cfg isTest builds st Hs).
  - apply (recheckPending_stepResult cfg st); [|exact IH].
    apply step_stepResult. exact He.
Qed.

(** ** The order of the Go queue *)

Lemma firstn_app_covers {A : Type} (n : nat) (a b : list A) (x : A) :
  In x (firstn n (a ++ b)) -> ~ In x a -> incl a (firstn n (a ++ b)).
Proof.
  intros Hin Hnot. rewrite firstn_app in *.
  apply in_app_or in Hin. destruct Hin as [Hin|Hin].
  - exfalso. apply Hnot. apply (In_firstn n). exact Hin.
  - assert (Hlen : List.length a <= n).
    { destruct (Nat.le_gt_cases (List.length a) n) as [H|H]; [exact H|].
      replace (n - List.length a) with 0 in Hin by lia. destruct Hin. }
    rewrite (firstn_all2 a) by exact Hlen.
    intros y Hy. apply in_or_app. left. exact Hy.
Qed.

Lemma slice0_app_covers {A : Type} (r : Z) (a b : list A) (x : A) :
  In x (slice0 r (a ++ b)) -> ~ In x a -> incl a (slice0 r (a ++ b)).
Proof.
  unfold slice0. destruct (r <? 0)%Z; apply firstn_app_covers.
Qed.

(** ** The source path records *)

Lemma checkedState_srcPathsData cfg s st :
  srcPathsData (checkedState cfg s st)
  = alter (SP.checking (fst (runLint cfg s st))
             (fst (runTypeCheck cfg s (snd (runLint cfg s st)))))
      s (srcPathsData st).
Proof.
  unfold checkedState, checkStarted. simpl.
  destruct (runLint_frame cfg s st) as (_ & A2 & _).
  destruct (runTypeCheck_frame cfg s (snd (runLint cfg s st))) as (_ & B2 & _).
  simpl in *. rewrite B2, A2. reflexivity.
Qed.

Lemma sp_all_alter (P : SP.t -> Prop) f s st :
  (forall d, lookup s (srcPathsData st) = Some d -> P d -> P (f d)) ->
  sp_all P st -> sp_all P (with_srcPathsData (alter f s (srcPathsData st)) st).
Proof.
  intros Hf Hall s' d' Hd'. simpl in Hd'.
  destruct (lookup_alter_cases _ _ _ _ _ Hd') as [[_ H]|(d & -> & Hd & ->)].
  - apply (Hall s' d' H).
  - apply Hf; [exact Hd | apply (Hall s d Hd)].
Qed.

Lemma sp_all_same (P : SP.t -> Prop) st st' :
  srcPathsData st' = srcPathsData st -> sp_all P st -> sp_all P st'.
Proof. unfold sp_all. intros ->. auto. Qed.

Section SourcePathRecords.
Variable cfg : Config.
Variable P : SP.t -> Prop.
Hypothesis P_rebuilt : forall l d, P d -> P (SP.rebuilt l d).
Hypothesis P_checking : forall s st d,
  lookup s (srcPathsData st) = Some d -> P d ->
  P (SP.checking (fst (runLint cfg s st))
       (fst (runTypeCheck cfg s (snd (runLint cfg s st)))) d).
Hypothesis P_lintDone : forall d, P d -> P (SP.lintDone d).
Hypothesis P_typeCheckDone : forall d, P d -> P (SP.typeCheckDone d).
Hypothesis P_fresh : forall s ts files, P (SP.fresh s ts files).

Lemma pass_sp_all st st' : pass cfg st st' -> sp_all P st -> sp_all P st'.
Proof.
  induction 1 as [st|st1 st2 st3 _ IH1 _ IH2|st|st|st s d Hd Hn]; intros Hall.
  - exact Hall.
  - auto.
  - apply (sp_all_same P st); [apply busy_srcPathsData | exact Hall].
  - apply (sp_all_same P st); [apply dispatchBuilds_frame | exact Hall].
  - intros s' d' Hd'. rewrite checkedState_srcPathsData in Hd'.
    destruct (lookup_alter_cases _ _ _ _ _ Hd') as [[_ H]|(d0 & -> & Hd0 & ->)].
    + apply (Hall s' d' H).
    + apply P_checking; [exact Hd0 | apply (Hall s d0 Hd0)].
Qed.

Lemma progressState_sp_all s h files st :
  sp_all P st ->
  sp_all P (progressState (onReBuildSucceeded_update s h files st)).
Proof.
  intros Hall.
  destruct (lookup (buildEntryPointKey s h) (entryPointsData st)) as [e|] eqn:He.
  2:{ rewrite onReBuildSucceeded_update_absent by exact He. exact Hall. }
  destruct (onReBuildSucceeded_update_shape s h files st e He)
    as (st1 & Hout & _ & _ & _ & _ & Hgo & Hnode).
  assert (Heq : progressState (onReBuildSucceeded_update s h files st) = st1).
  { destruct Hout as [[-> _]|[(-> & _)|(err & -> & _)]]; reflexivity. }
  rewrite Heq. destruct (isNodeRuntime (EP.runtime e)) eqn:Hn.
  - destruct (Hnode eq_refl) as (l & Hl). intros s' d' Hd'. rewrite Hl in Hd'.
    destruct (lookup_alter_cases _ _ _ _ _ Hd') as [[_ H]|(d0 & -> & Hd0 & ->)].
    + apply (Hall s' d' H).
    + apply P_rebuilt. apply (Hall s d0 Hd0).
  - apply (sp_all_same P st); [apply Hgo; reflexivity | exact Hall].
Qed.

Lemma beforePass_sp_all st pre : beforePass st pre -> sp_all P st -> sp_all P pre.
Proof.
  intros Hp Hall.
  destruct Hp as [file ks _ _|s h st0 _ Hl|s h files st0 st1 _ _ Hl E
                  |s h files st0 st1 err _ _ Hl E|s h _|s|s].
  - apply (sp_all_same P st); [apply fold_markLow_frame | exact Hall].
  - apply (sp_all_same P st); [simpl; apply (loggedMore_frame st st0 Hl)|exact Hall].
  - pose proof (progressState_sp_all s h files st0
                  (sp_all_same P st st0 (proj1 (proj2 (loggedMore_frame st st0 Hl)))
                     Hall)) as H1.
    rewrite E in H1. exact H1.
  - pose proof (progressState_sp_all s h files st0
                  (sp_all_same P st st0 (proj1 (proj2 (loggedMore_frame st st0 Hl)))
                     Hall)) as H1.
    rewrite E in H1. exact H1.
  - exact Hall.
  - apply sp_all_alter; [|exact Hall]. intros d _. apply P_lintDone.
  - apply sp_all_alter; [|exact Hall]. intros d _. apply P_typeCheckDone.
Qed.

Lemma stepResult_sp_all st st' :
  stepResult cfg st st' -> sp_all P st -> sp_all P st'.
Proof.
  intros Hs Hall.
  destruct Hs as [|k e He Hc|s h files st0 st1 _ _ Hl E|pre Hp|pre f k Hp].
  - exact Hall.
  - exact Hall.
  - pose proof (progressState_sp_all s h files st0
                  (sp_all_same P st st0 (proj1 (proj2 (loggedMore_frame st st0 Hl)))
                     Hall)) as H1.
    rewrite E in H1. exact H1.
  - apply (pass_sp_all pre _ (updateLambdaCodeState_pass cfg pre)).
    apply (beforePass_sp_all st pre Hp Hall).
  - apply (sp_all_same P (updateLambdaCodeState cfg pre)); [reflexivity|].
    apply (pass_sp_all pre _ (updateLambdaCodeState_pass cfg pre)).
    apply (beforePass_sp_all st pre Hp Hall).
Qed.

Lemma firstBuild_sp_all hd b st :
  sp_all P st -> sp_all P (fst (firstBuild cfg hd b st)).
Proof.
  intros H.
  assert (Hob : forall s h ts bo out files st0,
            sp_all P st0 -> sp_all P (onBuildSucceeded s h ts bo out files st0)).
  { intros s h ts bo out files st0 H0 s' d Hd. unfold onBuildSucceeded in Hd.
    simpl in Hd. apply lookup_assign_cases in Hd.
    destruct Hd as [->|Hd]; [apply P_fresh | apply (H0 s' d Hd)]. }
  unfold firstBuild, compile, buildPython, transpile.
  destruct (lh_runtime hd); simpl.
  - destruct (fb_ok b); [|exact H].
    destruct (getInputFiles_frame cfg (fb_metafile b) st) as (_ & A & _).
    pose proof (sp_all_same P st _ A H) as H1.
    destruct (getInputFilesFromEsbuildMetafile cfg (fb_metafile b) st)
      as [st1 [files|err]]; simpl in *; [|exact H1].
    apply Hob. exact H1.
  - destruct (fb_ok b); [|exact H]. simpl. apply Hob. exact H.
  - apply Hob. exact H.
Qed.

Lemma firstBuilds_sp_all builds hs : forall i st,
  sp_all P st -> sp_all P (fst (firstBuilds cfg builds i hs st)).
Proof.
  induction hs as [|hd hs IH]; intros i st H; simpl; [exact H|].
  pose proof (firstBuild_sp_all hd (builds i) st H) as H1.
  destruct (firstBuild cfg hd (builds i) st) as [st1 ok]. simpl in H1.
  specialize (IH (S i) st1 H1).
  destruct (firstBuilds cfg builds (S i) hs st1) as [st2 results].
  exact IH.
Qed.

Lemma startChecks_sp_all ks : forall st,
  sp_all P st -> sp_all P (fold_left (startChecks cfg) ks st).
Proof.
  induction ks as [|k ks IH]; intros st H; simpl; [exact H|].
  apply IH. rewrite startChecks_eq.
  apply (pass_sp_all (checkedState cfg k st) _
           (updateLambdaCodeState_pass cfg _)).
  intros s' d' Hd'. rewrite checkedState_srcPathsData in Hd'.
  destruct (lookup_alter_cases _ _ _ _ _ Hd') as [[_ H1]|(d0 & -> & Hd0 & ->)].
  - apply (H s' d' H1).
  - apply P_checking; [exact Hd0 | apply (H k d0 Hd0)].
Qed.

Lemma start_sp_all isTest builds st :
  start cfg isTest builds constructed = (st, Returned tt) -> sp_all P st.
Proof.
  unfold start. intros Hs.
  pose proof (firstBuilds_sp_all builds (lambdaHandlers cfg) 0
                (log (Info "Transpiling Lambda code...")
                   (initializeState cfg
                      (fold_left (fun acc l => log (Info l) acc)
                         [""; "=========================="; " Starting Live Lambda Dev";
                          "=========================="; ""] constructed)))) as A3.
  destruct (firstBuilds cfg builds 0 (lambdaHandlers cfg) _) as [st3 results].
  cbn [fst] in A3.
  assert (H3 : sp_all P st3).
  { apply A3. intros s d Hd. unfold log in Hd. cbn [srcPathsData] in Hd.
    rewrite initializeState_srcPathsData in Hd. simpl in Hd. discriminate. }
  destruct (existsb negb results); [discriminate|].
  destruct isTest; [inversion Hs; subst; exact H3|].
  destruct (List.length (keys (srcPathsData st3)) =? 0); [discriminate|].
  inversion Hs. subst.
  apply (sp_all_same P (fold_left (startChecks cfg) (keys (srcPathsData st3)) st3));
    [reflexivity|].
  apply startChecks_sp_all. exact H3.
Qed.

Lemma reachable_sp_all st : reachable cfg st -> sp_all P st.
Proof.
  induction 1 as [isTest builds st Hs|ev st Hr IH He].
  - apply (start_sp_all isTest builds st Hs).
  - apply (stepResult_sp_all st); [|exact IH].
    apply step_stepResult. exact He.
Qed.
End SourcePathRecords.

(** ** Every source path has its record *)

Lemma progressState_spkeys s h files st :
  keys (srcPathsData (progressState (onReBuildSucceeded_update s h files st)))
  = keys (srcPathsData st).
Proof.
  destruct (lookup (buildEntryPointKey s h) (entryPointsData st)) as [e|] eqn:He.
  2:{ rewrite onReBuildSucceeded_update_absent by exact He. reflexivity. }
  destruct (onReBuildSucceeded_update_shape s h files st e He)
    as (st1 & Hout & _ & _ & _ & _ & Hgo & Hnode).
  assert (Heq : progressState (onReBuildSucceeded_update s h files st) = st1).
  { destruct Hout as [[-> _]|[(-> & _)|(err & -> & _)]]; reflexivity. }
  rewrite Heq. destruct (isNodeRuntime (EP.runtime e)) eqn:Hn.
  - destruct (Hnode eq_refl) as (l & ->). apply keys_alter.
  - rewrite (Hgo eq_refl). reflexivity.
Qed.

Lemma beforePass_spkeys st pre :
  beforePass st pre -> keys (srcPathsData pre) = keys (srcPathsData st).
Proof.
  intros Hp.
  destruct Hp as [file ks _ _|s h st0 _ Hl|s h files st0 st1 _ _ Hl E
                  |s h files st0 st1 err _ _ Hl E|s h _|s|s].
  - destruct (fold_markLow_frame ks st) as (-> & _). reflexivity.
  - simpl. destruct (loggedMore_frame st st0 Hl) as (_ & -> & _). reflexivity.
  - pose proof (progressState_spkeys s h files st0) as H. rewrite E in H.
    simpl in H. rewrite H.
    destruct (loggedMore_frame st st0 Hl) as (_ & -> & _). reflexivity.
  - pose proof (progressState_spkeys s h files st0) as H. rewrite E in H.
    simpl in *. rewrite H.
    destruct (loggedMore_frame st st0 Hl) as (_ & -> & _). reflexivity.
  - reflexivity.
  - simpl. apply keys_alter.
  - simpl. apply keys_alter.
Qed.

Lemma stepResult_spkeys cfg st st' :
  stepResult cfg st st' -> keys (srcPathsData st') = keys (srcPathsData st).
Proof.
  intros Hs.
  destruct Hs as [|k e He Hc|s h files st0 st1 _ _ Hl E|pre Hp|pre f k Hp].
  - reflexivity.
  - reflexivity.
  - pose proof (progressState_spkeys s h files st0) as H. rewrite E in H.
    simpl in H. rewrite H.
    destruct (loggedMore_frame st st0 Hl) as (_ & -> & _). reflexivity.
  - destruct (pass_frame cfg pre _ (updateLambdaCodeState_pass cfg pre))
      as (_ & _ & _ & K & _).
    rewrite K. apply (beforePass_spkeys st pre Hp).
  - simpl.
    destruct (pass_frame cfg pre _ (updateLambdaCodeState_pass cfg pre))
      as (_ & _ & _ & K & _).
    rewrite K. apply (beforePass_spkeys st pre Hp).
Qed.

Lemma firstBuild_spkeys cfg hd b st :
  (snd (firstBuild cfg hd b st) = true ->
   In (lh_srcPath hd) (keys (srcPathsData (fst (firstBuild cfg hd b st)))))
  /\ (forall s, In s (keys (srcPathsData st)) ->
        In s (keys (srcPathsData (fst (firstBuild cfg hd b st))))).
Proof.
  unfold firstBuild, compile, buildPython, transpile, onBuildSucceeded.
  destruct (lh_runtime hd); simpl.
  - destruct (fb_ok b); [|split; [discriminate|auto]].
    destruct (getInputFiles_frame cfg (fb_metafile b) st) as (_ & A & _).
    destruct (getInputFilesFromEsbuildMetafile cfg (fb_metafile b) st)
      as [st1 [files|err]]; simpl in *.
    + split.
      * intros _. apply In_keys_assign. left. reflexivity.
      * intros s Hs. apply In_keys_assign. right. rewrite A. exact Hs.
    + split; [discriminate|]. rewrite A. auto.
  - destruct (fb_ok b); [|split; [discriminate|auto]]. simpl. split.
    + intros _. apply In_keys_assign. left. reflexivity.
    + intros s Hs. apply In_keys_assign. right. exact Hs.
  - split.
    + intros _. apply In_keys_assign. left. reflexivity.
    + intros s Hs. apply In_keys_assign. right. exact Hs.
Qed.

Lemma firstBuilds_spkeys cfg builds hs : forall i st,
  existsb negb (snd (firstBuilds cfg builds i hs st)) = false ->
  forall s,
    In s (keys (srcPathsData st)) \/ In s (map lh_srcPath hs) ->
    In s (keys (srcPathsData (fst (firstBuilds cfg builds i hs st)))).
Proof.
  induction hs as [|hd hs IH]; intros i st Hok s Hs; simpl in *.
  - destruct Hs as [H|[]]. exact H.
  - pose proof (firstBuild_spkeys cfg hd (builds i) st) as [H1 H2].
    destruct (firstBuild cfg hd (builds i) st) as [st1 ok]. simpl in H1, H2.
    specialize (IH (S i) st1).
    destruct (firstBuilds cfg builds (S i) hs st1) as [st2 results].
    simpl in *. apply orb_false_iff in Hok. destruct Hok as [Hok1 Hok2].
    apply negb_false_iff in Hok1. apply (IH Hok2).
    destruct Hs as [H|[<-|H]]; [left; apply H2; exact H | left; apply H1; exact Hok1
                               | right; exact H].
Qed.

Lemma startChecks_spkeys cfg ks : forall st,
  keys (srcPathsData (fold_left (startChecks cfg) ks st))
  = keys (srcPathsData st).
Proof.
  induction ks as [|k ks IH]; intros st; simpl; [reflexivity|].
  rewrite IH, startChecks_eq.
  destruct (pass_frame cfg _ _ (updateLambdaCodeState_pass cfg
                                  (checkedState cfg k st)))
    as (_ & _ & _ & K & _).
  rewrite K, checkedState_srcPathsData. apply keys_alter.
Qed.

Lemma start_srcPathsRegistered cfg isTest builds st :
  start cfg isTest builds constructed = (st, Returned tt) ->
  srcPathsRegistered st.
Proof.
  intros Hs k e He.
  destruct (start_handlers cfg isTest builds st Hs k e He)
    as (hd & Hin & _ & Hsp & _).
  rewrite <- Hsp. clear He Hsp. revert Hs. unfold start, getAllSrcPaths.
  pose proof (firstBuilds_spkeys cfg builds (lambdaHandlers cfg) 0
                (log (Info "Transpiling Lambda code...")
                   (initializeState cfg
                      (fold_left (fun acc l => log (Info l) acc)
                         [""; "=========================="; " Starting Live Lambda Dev";
                          "=========================="; ""] constructed)))) as K3.
  destruct (firstBuilds cfg builds 0 (lambdaHandlers cfg) _) as [st3 results].
  cbn [fst snd] in K3.
  destruct (existsb negb results) eqn:Hres; [discriminate|].
  assert (H3 : In (lh_srcPath hd) (keys (srcPathsData st3))).
  { apply (K3 eq_refl). right. apply in_map. exact Hin. }
  destruct isTest; [intros Hs; inversion Hs; subst; exact H3|].
  destruct (List.length (keys (srcPathsData st3)) =? 0); [discriminate|].
  intros Hs. inversion Hs. subst. simpl. rewrite startChecks_spkeys. exact H3.
Qed.

Lemma reachable_srcPathsRegistered cfg st :
  reachable cfg st -> srcPathsRegistered st.
Proof.
  induction 1 as [isTest builds st Hs|ev st Hr IH He].
  - apply (start_srcPathsRegistered cfg isTest builds st Hs).
  - intros k e' He'. unfold getAllSrcPaths.
    pose proof (step_stepResult cfg ev st He) as Hres.
    rewrite (stepResult_spkeys cfg st _ Hres).
    pose proof (step_change cfg ev st (proj1 (reachable_Inv cfg st Hr)) He)
      as Hrel.
    destruct (eps_rel_back _ _ _ k e' Hrel He') as (e & H1 & Hc).
    destruct (ep_change_sameBuild e e' Hc) as (Hsp & _).
    rewrite Hsp. apply (IH k e H1).
Qed.

(** *** Checkers and configuration *)

Lemma runLint_disabled cfg s st :
  isLintEnabled cfg = false -> fst (runLint cfg s st) = None.
Proof. intros H. unfold runLint. rewrite H. reflexivity. Qed.

Lemma runTypeCheck_disabled cfg s st :
  isTypeCheckEnabled cfg = false -> fst (runTypeCheck cfg s st) = None.
Proof. intros H. unfold runTypeCheck. rewrite H. reflexivity. Qed.

Lemma runTypeCheck_no_tsconfig cfg s st d :
  lookup s (srcPathsData st) = Some d -> SP.tsconfig d = None ->
  fst (runTypeCheck cfg s st) = None.
Proof.
  intros Hd Ht. unfold runTypeCheck.
  destruct (negb (isTypeCheckEnabled cfg)); [reflexivity|].
  rewrite Hd. destruct (List.length _ =? 0); [reflexivity|].
  rewrite Ht. reflexivity.
Qed.

(** ** Strings: [split], [pop], [join] and [replace] *)

Section Strings.
Local Open Scope string_scope.

Lemma append_nil_r (s : string) : s ++ "" = s.
Proof. induction s as [|a s IH]; simpl; [reflexivity | rewrite IH; reflexivity]. Qed.

Lemma append_assoc (a b c : string) : (a ++ b) ++ c = a ++ (b ++ c).
Proof. induction a as [|x a IH]; simpl; [reflexivity | rewrite IH; reflexivity]. Qed.

Lemma length_append (a b : string) :
  String.length (a ++ b) = String.length a + String.length b.
Proof. induction a as [|x a IH]; simpl; [reflexivity | rewrite IH; reflexivity]. Qed.

Lemma contains_append c (a b : string) :
  contains c (a ++ b) = contains c a || contains c b.
Proof.
  induction a as [|x a IH]; simpl; [reflexivity|].
  rewrite IH, orb_assoc. reflexivity.
Qed.

Lemma splitDot_nonempty s : forall cur, splitDot s cur <> [].
Proof.
  induction s as [|a s IH]; intros cur; simpl; [discriminate|].
  destruct (Ascii.eqb a "."); [discriminate | apply IH].
Qed.

(** [handler.split(".").join(".")] gives the handler back. *)
Lemma splitDot_concat s : forall cur,
  String.concat "." (splitDot s cur) = cur ++ s.
Proof.
  induction s as [|a s IH]; intros cur; simpl.
  - rewrite append_nil_r. reflexivity.
  - destruct (Ascii.eqb a ".") eqn:E.
    + apply Ascii.eqb_eq in E. subst a.
      specialize (IH ""). simpl in IH.
      destruct (splitDot s "") as [|x l] eqn:Es;
        [exfalso; exact (splitDot_nonempty s "" Es)|].
      cbn [String.concat]. cbn [String.concat] in IH. rewrite IH. reflexivity.
    + rewrite IH, append_assoc. reflexivity.
Qed.

Lemma splitDot_no_dot s : forall cur,
  contains "." s = false -> splitDot s cur = [cur ++ s].
Proof.
  induction s as [|a s IH]; intros cur H; simpl in *.
  - rewrite append_nil_r. reflexivity.
  - apply orb_false_iff in H. destruct H as [Ha Hs]. rewrite Ha.
    rewrite IH by exact Hs. rewrite append_assoc. reflexivity.
Qed.

Lemma splitDot_dot s : forall cur,
  contains "." s = true -> 2 <= List.length (splitDot s cur).
Proof.
  induction s as [|a s IH]; intros cur H; simpl in *; [discriminate|].
  destruct (Ascii.eqb a ".").
  - simpl. pose proof (splitDot_nonempty s "") as Hn.
    destruct (splitDot s ""); [congruence | simpl; lia].
  - apply IH. exact H.
Qed.

Lemma splitDot_parts s : forall cur x,
  contains "." cur = false -> In x (splitDot s cur) -> contains "." x = false.
Proof.
  induction s as [|a s IH]; intros cur x Hc Hin; simpl in *.
  - destruct Hin as [<-|[]]. exact Hc.
  - destruct (Ascii.eqb a ".") eqn:E.
    + destruct Hin as [<-|Hin]; [exact Hc|]. apply (IH "" x); [reflexivity | exact Hin].
    + apply (IH (cur ++ String a "") x); [|exact Hin].
      rewrite contains_append, Hc. simpl. rewrite E. reflexivity.
Qed.

(** [parts[0]] is the handler up to its first dot. *)
Lemma splitDot_hd s : forall cur,
  exists name rest,
    List.hd "" (splitDot s cur) = cur ++ name
    /\ s = name ++ rest
    /\ contains "." name = false
    /\ (rest = "" \/ exists r, rest = String "." r).
Proof.
  induction s as [|a s IH]; intros cur; simpl.
  - exists "", "". rewrite append_nil_r. repeat split. left. reflexivity.
  - destruct (Ascii.eqb a ".") eqn:E.
    + apply Ascii.eqb_eq in E. subst a. exists "", (String "." s).
      rewrite append_nil_r. repeat split. right. exists s. reflexivity.
    + destruct (IH (cur ++ String a "")) as (name & rest & Hh & Hs & Hn & Hr).
      exists (String a name), rest. rewrite Hh, append_assoc. simpl.
      rewrite E, Hn. repeat split; [rewrite Hs; reflexivity | exact Hr].
Qed.

Lemma concat_snoc sep (l : list string) x :
  String.concat sep (l ++ [x])%list
  = match l with
    | [] => x
    | _ => String.concat sep l ++ sep ++ x
    end.
Proof.
  induction l as [|y l IH]; [reflexivity|].
  destruct l as [|z l]; [reflexivity|].
  change ((y :: z :: l) ++ [x])%list with (y :: (z :: l) ++ [x])%list.
  change (String.concat sep (y :: (z :: l) ++ [x])%list)
    with (y ++ sep ++ String.concat sep ((z :: l) ++ [x])%list).
  rewrite IH.
  change (String.concat sep (y :: z :: l))
    with (y ++ sep ++ String.concat sep (z :: l)).
  rewrite !append_assoc. reflexivity.
Qed.

Lemma last_In (A : Type) (l : list A) d : l <> [] -> In (last l d) l.
Proof.
  induction l as [|x l IH]; intros H; [congruence|].
  destruct l as [|y l]; [left; reflexivity|].
  right. apply IH. discriminate.
Qed.

(** [pop] and [join]: what [buildPython] makes of the handler. *)
Lemma split_pop_join h :
  let parts := splitDot h "" in
  let name := last parts "" in
  let entry := String.concat "." (removelast parts) in
  contains "." name = false
  /\ (contains "." h = true -> h = entry ++ "." ++ name)
  /\ (contains "." h = false -> entry = "" /\ name = h).
Proof.
  intros parts name entry. split; [|split].
  - apply (splitDot_parts h "" name); [reflexivity|].
    apply last_In. apply splitDot_nonempty.
  - intros Hd. pose proof (splitDot_concat h "") as Hc. simpl in Hc.
    pose proof (splitDot_nonempty h "") as Hn.
    pose proof (splitDot_dot h "" Hd) as Hlen. fold parts in Hc, Hn, Hlen.
    rewrite (app_removelast_last "" Hn), concat_snoc in Hc.
    fold name in Hc.
    destruct (removelast parts) as [|y l] eqn:Er.
    + exfalso. rewrite (app_removelast_last "" Hn), Er in Hlen. simpl in Hlen. lia.
    + subst entry. symmetry. exact Hc.
  - intros Hd. subst entry name parts. rewrite (splitDot_no_dot h "" Hd).
    simpl. split; reflexivity.
Qed.

Lemma replaceSlashDot_append a b :
  replaceSlashDot (a ++ b) = replaceSlashDot a ++ replaceSlashDot b.
Proof. induction a as [|x a IH]; simpl; [reflexivity | rewrite IH; reflexivity]. Qed.

Lemma replaceSlashDot_length s :
  String.length (replaceSlashDot s) = String.length s.
Proof. induction s as [|x s IH]; simpl; [reflexivity | rewrite IH; reflexivity]. Qed.

Lemma replaceSlashDot_clean s :
  contains "/" (replaceSlashDot s) = false
  /\ contains "." (replaceSlashDot s) = false.
Proof.
  induction s as [|x s [IH1 IH2]]; simpl; [split; reflexivity|].
  rewrite IH1, IH2.
  destruct (Ascii.eqb x "/") eqn:E1; simpl; [split; reflexivity|].
  destruct (Ascii.eqb x ".") eqn:E2; simpl; [split; reflexivity|].
  rewrite E1, E2. split; reflexivity.
Qed.

End Strings.

(** ** Object spread *)

Lemma spread_keys src : forall dst x,
  In x (keys (spread src dst)) <-> In x (keys dst) \/ In x (keys src).
Proof.
  unfold spread. induction src as [|[k v] src IH]; intros dst x; simpl.
  - tauto.
  - rewrite IH, In_keys_assign. intuition auto.
Qed.

Lemma spread_NoDup src : forall dst,
  NoDup (keys dst) -> NoDup (keys (spread src dst)).
Proof.
  unfold spread. induction src as [|[k v] src IH]; intros dst H; simpl;
    [exact H|].
  apply IH. apply NoDup_keys_assign. exact H.
Qed.

(** ** The entry points follow the configuration *)

Lemma initializeState_keys_fold (hs : list LambdaHandler) : forall st,
  NoDup (map (fun h => buildEntryPointKey (lh_srcPath h) (lh_handler h)) hs) ->
  (forall h, In h hs ->
     ~ In (buildEntryPointKey (lh_srcPath h) (lh_handler h))
          (keys (entryPointsData st))) ->
  keys (entryPointsData
          (fold_left
             (fun acc h =>
                with_entryPointsData
                  (assign (buildEntryPointKey (lh_srcPath h) (lh_handler h))
                     (EP.template (lh_srcPath h) (lh_handler h) (lh_runtime h))
                     (entryPointsData acc)) acc) hs st))
  = keys (entryPointsData st)
    ++ map (fun h => buildEntryPointKey (lh_srcPath h) (lh_handler h)) hs.
Proof.
  induction hs as [|h hs IH]; intros st Hnd Hfresh; simpl.
  - rewrite app_nil_r. reflexivity.
  - inversion Hnd as [|x l Hx Hl]; subst.
    rewrite IH; [| exact Hl |].
    + simpl. rewrite keys_assign_absent by (apply Hfresh; left; reflexivity).
      rewrite <- app_assoc. reflexivity.
    + intros h2 Hin2. simpl. rewrite In_keys_assign. intros [Heq|Hin].
      * apply Hx. rewrite <- Heq.
        apply (in_map (fun h => buildEntryPointKey (lh_srcPath h) (lh_handler h))).
        exact Hin2.
      * apply (Hfresh h2); [right; exact Hin2 | exact Hin].
Qed.

Lemma initializeState_keys cfg st :
  NoDup (configuredKeys cfg) -> entryPointsData st = [] ->
  keys (entryPointsData (initializeState cfg st)) = configuredKeys cfg.
Proof.
  intros Hnd He. unfold initializeState, configuredKeys.
  rewrite initializeState_keys_fold; [rewrite He; reflexivity | exact Hnd |].
  intros h _. rewrite He. simpl. tauto.
Qed.

Lemma start_keys cfg isTest builds st :
  start cfg isTest builds constructed = (st, Returned tt) ->
  NoDup (configuredKeys cfg) ->
  keys (entryPointsData st) = configuredKeys cfg.
Proof.
  unfold start. intros Hs Hnd.
  pose proof (firstBuilds_Inv cfg builds (lambdaHandlers cfg) 0 _
                (start_initial_Inv cfg)) as H3.
  pose proof (firstBuilds_keys cfg builds (lambdaHandlers cfg) 0
                (log (Info "Transpiling Lambda code...")
                   (initializeState cfg
                      (fold_left (fun acc l => log (Info l) acc)
                         [""; "=========================="; " Starting Live Lambda Dev";
                          "=========================="; ""] constructed)))) as K3.
  destruct (firstBuilds cfg builds 0 (lambdaHandlers cfg) _) as [st3 results].
  cbn [fst] in H3, K3.
  unfold log in K3. cbn [entryPointsData] in K3.
  rewrite initializeState_keys in K3 by (exact Hnd || reflexivity).
  destruct (existsb negb results); [discriminate|].
  destruct isTest; [inversion Hs; subst; exact K3|].
  destruct (List.length (keys (srcPathsData st3)) =? 0); [discriminate|].
  inversion Hs. subst. simpl.
  pose proof (startChecks_change cfg (keys (srcPathsData st3)) st3 H3) as Hrel.
  rewrite (proj1 Hrel). exact K3.
Qed.

Lemma reachable_keys cfg st :
  reachable cfg st -> NoDup (configuredKeys cfg) ->
  keys (entryPointsData st) = configuredKeys cfg.
Proof.
  intros Hr Hnd. induction Hr as [isTest builds st Hs|ev st Hr IH He].
  - apply (start_keys cfg isTest builds st Hs Hnd).
  - rewrite (proj1 (step_change cfg ev st (proj1 (reachable_Inv cfg st Hr)) He)).
    exact IH.
Qed.

Lemma reachable_handlers cfg st :
  reachable cfg st ->
  forall k e, lookup k (entryPointsData st) = Some e ->
    exists hd, In hd (lambdaHandlers cfg)
               /\ lh_runtime hd = EP.runtime e
               /\ lh_srcPath hd = EP.srcPath e
               /\ lh_handler hd = EP.handler e.
Proof.
  apply (reachable_entries cfg
           (fun e => exists hd, In hd (lambdaHandlers cfg)
                                /\ lh_runtime hd = EP.runtime e
                                /\ lh_srcPath hd = EP.srcPath e
                                /\ lh_handler hd = EP.handler e)).
  - intros e e' Hc (hd & Hin & H1 & H2 & H3).
    destruct (ep_change_sameBuild e e' Hc) as (Hsp & Hh & Hrt & _).
    exists hd. rewrite Hsp, Hh, Hrt. auto.
  - apply start_handlers.
Qed.

Lemma NoDup_map_In_inj (A B : Type) (f : A -> B) (l : list A) x y :
  NoDup (map f l) -> In x l -> In y l -> f x = f y -> x = y.
Proof.
  induction l as [|a l IH]; simpl; intros Hnd Hx Hy Hf; [destruct Hx|].
  inversion Hnd as [|b m Hb Hm]; subst.
  destruct Hx as [->|Hx], Hy as [->|Hy]; auto.
  - exfalso. apply Hb. rewrite Hf. apply in_map. exact Hy.
  - exfalso. apply Hb. rewrite <- Hf. apply in_map. exact Hx.
Qed.

(** ** The watched set after a rebuild *)

Lemma nonEmpty_nil (l : list string) : nonEmpty l = false -> l = [].
Proof. destruct l; [reflexivity | discriminate]. Qed.

(** With a watcher, and with every file to remove in the index, the call
    leaves the watcher on the old list, plus the files to add, minus the
    files to remove. *)
Lemma update_watcher s h files st e w :
  lookup (buildEntryPointKey s h) (entryPointsData st) = Some e ->
  isNodeRuntime (EP.runtime e) = true ->
  watcher st = Some w ->
  (forall f, In f (inputFilesOf e) ->
     lookup f (watchedNodeFilesIndex st) <> None) ->
  let diff := array_diff (inputFilesOf e) files in
  watcher (progressState (onReBuildSucceeded_update s h files st))
  = Some (filter (fun f => negb (inb f (remove diff))) (w ++ add diff)).
Proof.
  intros He Hn Hw Hidx diff. unfold onReBuildSucceeded_update.
  rewrite He. cbv zeta. rewrite Hn. fold diff.
  assert (Hd : diff = array_diff (inputFilesOf e) files) by reflexivity.
  clearbody diff.
  match goal with
  | |- context [fold_left (indexSplice ?k) ?l (?i, true)] =>
      pose proof (fold_indexSplice_ok k l i) as Hok;
      destruct (fold_left (indexSplice k) l (i, true)) as [index2 ok]
  end.
  simpl in Hok. rewrite Hok.
  2:{ intros f Hf. apply fold_indexPush_keeps. simpl. apply Hidx.
      apply (array_diff_remove (inputFilesOf e) files f). rewrite <- Hd.
      exact Hf. }
  simpl. rewrite Hw. simpl.
  destruct (nonEmpty (add diff)) eqn:Ea, (nonEmpty (remove diff)) eqn:Er; simpl.
  - reflexivity.
  - rewrite (nonEmpty_nil _ Er). rewrite filter_all; [reflexivity|].
    intros x _. reflexivity.
  - rewrite (nonEmpty_nil _ Ea), app_nil_r. reflexivity.
  - rewrite (nonEmpty_nil _ Ea), (nonEmpty_nil _ Er), app_nil_r.
    rewrite filter_all; [reflexivity|]. intros x _. reflexivity.
Qed.

(** ** Python entry points are never marked for a rebuild *)

Lemma pyKeeps_refl e : pyKeeps e e.
Proof. split; [reflexivity|]. intros _. split; reflexivity. Qed.

Lemma pyKeeps_trans x y z : pyKeeps x y -> pyKeeps y z -> pyKeeps x z.
Proof.
  intros [R1 K1] [R2 K2]. split; [congruence|]. intros Hpy.
  destruct (K1 Hpy) as [A1 B1]. rewrite <- R1 in Hpy.
  destruct (K2 Hpy) as [A2 B2]. split; congruence.
Qed.

Lemma notPython_pyKeeps e e' :
  EP.runtime e' = EP.runtime e -> isPythonRuntime (EP.runtime e) = false ->
  pyKeeps e e'.
Proof. intros Hr Hn. split; [exact Hr|]. intros Hpy. congruence. Qed.

Lemma node_notPython r : isNodeRuntime r = true -> isPythonRuntime r = false.
Proof. destruct r; simpl; congruence. Qed.

Lemma go_notPython r : isGoRuntime r = true -> isPythonRuntime r = false.
Proof. destruct r; simpl; congruence. Qed.

Lemma Py_rel st st' :
  eps_rel pyKeeps (entryPointsData st) (entryPointsData st') ->
  (forall file ks k,
     lookup file (watchedNodeFilesIndex st') = Some ks -> In k ks ->
     (exists ks0, lookup file (watchedNodeFilesIndex st) = Some ks0 /\ In k ks0)
     \/ exists e, lookup k (entryPointsData st) = Some e
                  /\ isNodeRuntime (EP.runtime e) = true) ->
  indexNode st /\ pythonQuiet st -> indexNode st' /\ pythonQuiet st'.
Proof.
  intros Hrel Hidx [Hn Hq]. split.
  - intros file ks k e' Hl Hin He'.
    destruct (eps_rel_back _ _ _ k e' Hrel He') as (e & He & [Hrt _]).
    rewrite Hrt.
    destruct (Hidx file ks k Hl Hin) as [(ks0 & H0 & Hin0)|(e0 & He0 & Hnode)].
    + apply (Hn file ks0 k e H0 Hin0 He).
    + rewrite He in He0. inversion He0. subst. exact Hnode.
  - intros k e' He' Hpy.
    destruct (eps_rel_back _ _ _ k e' Hrel He') as (e & He & [Hrt Hk]).
    rewrite Hrt in Hpy. destruct (Hk Hpy) as [-> ->]. apply (Hq k e He Hpy).
Qed.

Lemma Py_same_index st st' :
  eps_rel pyKeeps (entryPointsData st) (entryPointsData st') ->
  watchedNodeFilesIndex st' = watchedNodeFilesIndex st ->
  indexNode st /\ pythonQuiet st -> indexNode st' /\ pythonQuiet st'.
Proof.
  intros Hrel Hi. apply Py_rel; [exact Hrel|].
  intros file ks k Hl Hin. left. exists ks. rewrite <- Hi. auto.
Qed.

Lemma Py_frame st st' :
  entryPointsData st' = entryPointsData st ->
  watchedNodeFilesIndex st' = watchedNodeFilesIndex st ->
  indexNode st /\ pythonQuiet st -> indexNode st' /\ pythonQuiet st'.
Proof.
  intros He Hi. apply Py_same_index; [|exact Hi]. rewrite He.
  apply eps_rel_refl. apply pyKeeps_refl.
Qed.

Lemma Py_alter f k st :
  (forall e, lookup k (entryPointsData st) = Some e -> pyKeeps e (f e)) ->
  indexNode st /\ pythonQuiet st ->
  indexNode (alterEP f k st) /\ pythonQuiet (alterEP f k st).
Proof.
  intros Hf. apply Py_same_index; [|reflexivity]. simpl.
  apply eps_rel_alter; [apply pyKeeps_refl | exact Hf].
Qed.

Lemma Py_update cfg st :
  keys_wf st ->
  indexNode st /\ pythonQuiet st ->
  indexNode (updateLambdaCodeState cfg st)
  /\ pythonQuiet (updateLambdaCodeState cfg st).
Proof.
  intros Hwf H. pose proof (updateLambdaCodeState_pass cfg st) as Hp.
  destruct (pass_eps cfg _ _ Hp Hwf) as [_ [Hk Hl]].
  destruct (pass_frame cfg _ _ Hp) as (Hi & _).
  apply (Py_same_index st); [|exact Hi|exact H].
  split; [exact Hk|]. intros k e He.
  destruct (Hl k e He) as (e' & He' & [->|(Hb & Ht & p & ->)]).
  - exists e. split; [exact He' | apply pyKeeps_refl].
  - exists (EP.started p e). split; [exact He'|]. split; [reflexivity|].
    intros Hpy. destruct (proj2 H k e He Hpy) as [_ Hoff].
    rewrite Hoff in Ht. discriminate.
Qed.

Lemma Py_markLow ks : forall st,
  (forall k e, In k ks -> lookup k (entryPointsData st) = Some e ->
     isPythonRuntime (EP.runtime e) = false) ->
  eps_rel pyKeeps (entryPointsData st)
    (entryPointsData (fold_left markLow ks st)).
Proof.
  induction ks as [|k ks IH]; intros st H; simpl.
  - apply eps_rel_refl. apply pyKeeps_refl.
  - apply (eps_rel_trans pyKeeps _ (entryPointsData (markLow st k)));
      [exact pyKeeps_trans | |].
    + simpl. apply eps_rel_alter; [apply pyKeeps_refl|].
      intros e He. apply notPython_pyKeeps; [reflexivity|].
      apply (H k e); [left; reflexivity | exact He].
    + apply IH. intros k2 e2 Hin H2. simpl in H2.
      destruct (lookup_alter_cases _ _ _ _ _ H2) as [[_ H3]|(v & -> & Hv & ->)].
      * apply (H k2 e2); [right; exact Hin | exact H3].
      * simpl. apply (H k v); [left; reflexivity | exact Hv].
Qed.

Lemma changedKeys_notPython file st ks :
  keys_wf st -> indexNode st -> changedKeys file st = Some ks ->
  forall k e, In k ks -> lookup k (entryPointsData st) = Some e ->
    isPythonRuntime (EP.runtime e) = false.
Proof.
  intros [Hnd _] Hn Hc k e Hin He. unfold changedKeys in Hc.
  destruct (endsWith file ".go").
  - inversion Hc. subst ks. unfold keys in Hin. apply in_map_iff in Hin.
    destruct Hin as ([k0 e0] & Hk0 & Hf). simpl in Hk0. subst k0.
    apply filter_In in Hf. destruct Hf as [Hin0 Hgo]. simpl in Hgo.
    pose proof (In_lookup_nodup k e0 (entryPointsData st) Hnd Hin0) as H0.
    rewrite He in H0. inversion H0. subst. apply go_notPython. exact Hgo.
  - apply node_notPython. apply (Hn file ks k e Hc Hin He).
Qed.

Lemma Py_loggedMore st st0 :
  loggedMore st st0 ->
  indexNode st /\ pythonQuiet st -> indexNode st0 /\ pythonQuiet st0.
Proof.
  intros Hl. destruct (loggedMore_frame st st0 Hl) as (E & _ & I & _).
  apply Py_frame; assumption.
Qed.

Lemma Py_progressState s h files st e :
  lookup (buildEntryPointKey s h) (entryPointsData st) = Some e ->
  isPythonRuntime (EP.runtime e) = false ->
  indexNode st /\ pythonQuiet st ->
  indexNode (progressState (onReBuildSucceeded_update s h files st))
  /\ pythonQuiet (progressState (onReBuildSucceeded_update s h files st)).
Proof.
  intros He Hnp.
  destruct (progressState_shape s h files st e He) as (Heps & _).
  pose proof (progressState_index s h files st e He) as Hidx.
  cbv zeta in Heps, Hidx.
  apply Py_rel.
  - rewrite Heps. apply eps_rel_alter; [apply pyKeeps_refl|].
    intros e0 He0. rewrite He in He0. inversion He0. subst e0.
    apply notPython_pyKeeps; [reflexivity | exact Hnp].
  - intros file ks k Hl Hin. rewrite Hidx in Hl.
    destruct (isNodeRuntime (EP.runtime e)) eqn:Hnode.
    + destruct (fold_indexSplice_elems _ _ _ _ _ _ Hl Hin) as (ks0 & H0 & Hin0).
      simpl in H0.
      destruct (fold_indexPush_elems _ _ _ _ _ _ H0 Hin0)
        as [->|(ks1 & H1 & Hin1)].
      * right. exists e. auto.
      * left. exists ks1. auto.
    + left. exists ks. auto.
Qed.

Lemma buildInFlight_notPython s h st st0 e0 :
  buildInFlight s h st -> entryPointsData st0 = entryPointsData st ->
  lookup (buildEntryPointKey s h) (entryPointsData st0) = Some e0 ->
  isPythonRuntime (EP.runtime e0) = false.
Proof.
  intros (e & He & _ & _ & _ & Hnp) E H0. rewrite E, He in H0.
  inversion H0. subst. exact Hnp.
Qed.

Lemma buildInFlight_lookup s h st st0 :
  buildInFlight s h st -> entryPointsData st0 = entryPointsData st ->
  exists e0, lookup (buildEntryPointKey s h) (entryPointsData st0) = Some e0
             /\ isPythonRuntime (EP.runtime e0) = false.
Proof.
  intros (e & He & _ & _ & _ & Hnp) E. exists e. rewrite E. auto.
Qed.

Lemma Py_failed_after s h files st e :
  lookup (buildEntryPointKey s h) (entryPointsData st) = Some e ->
  isPythonRuntime (EP.runtime e) = false ->
  indexNode st /\ pythonQuiet st ->
  let st1 := progressState (onReBuildSucceeded_update s h files st) in
  indexNode (alterEP EP.failed (buildEntryPointKey s h) st1)
  /\ pythonQuiet (alterEP EP.failed (buildEntryPointKey s h) st1).
Proof.
  intros He Hnp H st1. apply Py_alter.
  - intros e1 He1. apply notPython_pyKeeps; [reflexivity|].
    subst st1. destruct (progressState_shape s h files st e He) as (Heps & _).
    cbv zeta in Heps. rewrite Heps, lookup_alter_same, He in He1.
    simpl in He1. inversion He1. subst e1. exact Hnp.
  - apply (Py_progressState s h files st e He Hnp H).
Qed.

Lemma Py_beforePass st pre :
  keys_wf st -> beforePass st pre ->
  indexNode st /\ pythonQuiet st -> indexNode pre /\ pythonQuiet pre.
Proof.
  intros Hwf Hp H.
  destruct Hp as [file ks _ Hc|s h st0 Hb Hl|s h files st0 st1 Hb _ Hl E
                  |s h files st0 st1 err Hb _ Hl E|s h _|s|s].
  - destruct (fold_markLow_frame ks st) as (_ & I & _).
    apply (Py_same_index st); [|exact I|exact H].
    apply Py_markLow. apply (changedKeys_notPython file st ks Hwf (proj1 H) Hc).
  - destruct (loggedMore_frame st st0 Hl) as (E0 & _).
    apply Py_alter; [|apply (Py_loggedMore st st0 Hl H)].
    intros e0 He0. apply notPython_pyKeeps; [reflexivity|].
    apply (buildInFlight_notPython s h st st0 e0 Hb E0 He0).
  - destruct (loggedMore_frame st st0 Hl) as (E0 & _).
    destruct (buildInFlight_lookup s h st st0 Hb E0) as (e0 & He0 & Hnp).
    pose proof (Py_progressState s h files st0 e0 He0 Hnp
                  (Py_loggedMore st st0 Hl H)) as H1.
    rewrite E in H1. exact H1.
  - destruct (loggedMore_frame st st0 Hl) as (E0 & _).
    destruct (buildInFlight_lookup s h st st0 Hb E0) as (e0 & He0 & Hnp).
    pose proof (Py_failed_after s h files st0 e0 He0 Hnp
                  (Py_loggedMore st st0 Hl H)) as H1.
    cbv zeta in H1. rewrite E in H1. exact H1.
  - revert H. apply Py_frame; reflexivity.
  - revert H. apply Py_frame; reflexivity.
  - revert H. apply Py_frame; reflexivity.
Qed.

Lemma Py_stepResult cfg st st' :
  keys_wf st -> stepResult cfg st st' ->
  indexNode st /\ pythonQuiet st -> indexNode st' /\ pythonQuiet st'.
Proof.
  intros Hwf Hs H.
  destruct Hs as [|k e He Hc|s h files st0 st1 Hb _ Hl E|pre Hp|pre f k Hp].
  - exact H.
  - apply Py_alter; [|exact H]. intros e0 He0. rewrite He in He0.
    inversion He0. subst e0. split; [reflexivity|]. intros Hpy.
    destruct (proj2 H k e He Hpy) as [Hnone Hoff].
    rewrite Hnone, Hoff in Hc. discriminate.
  - destruct (loggedMore_frame st st0 Hl) as (E0 & _).
    destruct (buildInFlight_lookup s h st st0 Hb E0) as (e0 & He0 & Hnp).
    pose proof (Py_progressState s h files st0 e0 He0 Hnp
                  (Py_loggedMore st st0 Hl H)) as H1.
    rewrite E in H1. exact H1.
  - apply Py_update; [apply (beforePass_wf st pre Hp Hwf)|].
    apply (Py_beforePass st pre Hwf Hp H).
  - apply Py_alter.
    + intros e0 _. split; [reflexivity|]. intros _. split; reflexivity.
    + apply Py_update; [apply (beforePass_wf st pre Hp Hwf)|].
      apply (Py_beforePass st pre Hwf Hp H).
Qed.

(** *** After [start] *)

Lemma initializeState_fold_other (hs : list LambdaHandler) k : forall st,
  ~ In k (map (fun h => buildEntryPointKey (lh_srcPath h) (lh_handler h)) hs) ->
  lookup k
    (entryPointsData
       (fold_left
          (fun acc h =>
             with_entryPointsData
               (assign (buildEntryPointKey (lh_srcPath h) (lh_handler h))
                  (EP.template (lh_srcPath h) (lh_handler h) (lh_runtime h))
                  (entryPointsData acc)) acc) hs st))
  = lookup k (entryPointsData st).
Proof.
  induction hs as [|h hs IH]; intros st Hni; simpl; [reflexivity|].
  rewrite IH by (intros Hin; apply Hni; right; exact Hin).
  simpl. apply lookup_assign_other. intros Heq. apply Hni. left. exact Heq.
Qed.

Lemma initializeState_lookup cfg st hd :
  NoDup (configuredKeys cfg) -> In hd (lambdaHandlers cfg) ->
  lookup (buildEntryPointKey (lh_srcPath hd) (lh_handler hd))
    (entryPointsData (initializeState cfg st))
  = Some (EP.template (lh_srcPath hd) (lh_handler hd) (lh_runtime hd)).
Proof.
  unfold configuredKeys, initializeState. generalize (lambdaHandlers cfg).
  intros hs. revert st. induction hs as [|h hs IH]; intros st Hnd Hin;
    [destruct Hin|].
  simpl in Hnd. inversion Hnd as [|x l Hx Hl]; subst. simpl.
  destruct Hin as [->|Hin].
  - rewrite initializeState_fold_other by exact Hx. simpl.
    apply lookup_assign_same.
  - apply IH; assumption.
Qed.

Lemma Py_onBuildSucceeded s h ts bo out files st :
  (files <> [] ->
   exists e, lookup (buildEntryPointKey s h) (entryPointsData st) = Some e
             /\ isNodeRuntime (EP.runtime e) = true) ->
  indexNode st /\ pythonQuiet st ->
  indexNode (onBuildSucceeded s h ts bo out files st)
  /\ pythonQuiet (onBuildSucceeded s h ts bo out files st).
Proof.
  intros Hnode. unfold onBuildSucceeded. apply Py_rel; simpl.
  - apply eps_rel_alter; [apply pyKeeps_refl|].
    intros e _. split; [reflexivity|]. intros _. split; reflexivity.
  - intros file ks k Hl Hin.
    destruct (fold_indexPush_elems _ _ _ _ _ _ Hl Hin) as [->|(ks0 & H0 & Hin0)].
    + destruct files as [|x files]; [left; exists ks; auto|].
      right. apply Hnode. discriminate.
    + left. exists ks0. auto.
Qed.

Lemma Py_firstBuild cfg hd b st :
  (exists e,
     lookup (buildEntryPointKey (lh_srcPath hd) (lh_handler hd))
       (entryPointsData st) = Some e
     /\ EP.runtime e = lh_runtime hd) ->
  indexNode st /\ pythonQuiet st ->
  indexNode (fst (firstBuild cfg hd b st))
  /\ pythonQuiet (fst (firstBuild cfg hd b st)).
Proof.
  intros (e & He & Hrt) H. unfold firstBuild, compile, buildPython, transpile.
  destruct (lh_runtime hd) eqn:Hk; simpl.
  - destruct (fb_ok b); [|exact H].
    pose proof (loggedMore_metafile cfg (fb_metafile b) st) as Hm.
    pose proof (Py_loggedMore st _ Hm H) as H1.
    destruct (loggedMore_frame st _ Hm) as (E & _).
    destruct (getInputFilesFromEsbuildMetafile cfg (fb_metafile b) st)
      as [st1 [files|err]]; simpl in *; [|exact H1].
    apply Py_onBuildSucceeded; [|exact H1].
    intros _. exists e. rewrite E, Hrt. auto.
  - destruct (fb_ok b); [|exact H]. simpl.
    apply Py_onBuildSucceeded; [|exact H]. intros Hne. congruence.
  - apply Py_onBuildSucceeded; [|exact H]. intros Hne. congruence.
Qed.

Lemma Py_firstBuilds cfg builds hs : forall i st,
  (forall hd, In hd hs ->
     exists e,
       lookup (buildEntryPointKey (lh_srcPath hd) (lh_handler hd))
         (entryPointsData st) = Some e
       /\ EP.runtime e = lh_runtime hd) ->
  indexNode st /\ pythonQuiet st ->
  indexNode (fst (firstBuilds cfg builds i hs st))
  /\ pythonQuiet (fst (firstBuilds cfg builds i hs st)).
Proof.
  induction hs as [|hd hs IH]; intros i st Hk H; simpl; [exact H|].
  pose proof (Py_firstBuild cfg hd (builds i) st
                (Hk hd (or_introl eq_refl)) H) as H1.
  pose proof (firstBuild_eps cfg hd (builds i) st) as Hfb.
  destruct (firstBuild cfg hd (builds i) st) as [st1 ok]. simpl in H1, Hfb.
  specialize (IH (S i) st1).
  destruct (firstBuilds cfg builds (S i) hs st1) as [st2 results]. simpl in *.
  apply IH; [|exact H1].
  intros hd2 Hin2. destruct (Hk hd2 (or_intror Hin2)) as (e2 & He2 & Hrt2).
  destruct Hfb as [(_ & ts & bo & files & out & E)|(_ & E)]; rewrite E.
  - destruct (string_dec (buildEntryPointKey (lh_srcPath hd) (lh_handler hd))
                (buildEntryPointKey (lh_srcPath hd2) (lh_handler hd2)))
      as [Heq|Hne].
    + exists (EP.built ts bo files out e2).
      rewrite Heq, lookup_alter_same, He2. split; [reflexivity | exact Hrt2].
    + exists e2. rewrite lookup_alter_other by exact Hne. auto.
  - exists e2. auto.
Qed.

Lemma Py_startChecks cfg ks : forall st,
  Inv cfg None st ->
  indexNode st /\ pythonQuiet st ->
  indexNode (fold_left (startChecks cfg) ks st)
  /\ pythonQuiet (fold_left (startChecks cfg) ks st).
Proof.
  induction ks as [|k ks IH]; intros st HI H; simpl; [exact H|].
  assert (HI1 : Inv cfg None (checkedState cfg k st))
    by (apply checkedState_Inv; exact HI).
  apply IH; rewrite startChecks_eq.
  - eapply Inv_pass; [apply updateLambdaCodeState_pass | exact HI1].
  - apply Py_update; [apply HI1|].
    destruct (checkedState_frame cfg k st) as (E & I & _).
    revert H. apply Py_frame; assumption.
Qed.

Lemma Py_start cfg isTest builds st :
  NoDup (configuredKeys cfg) ->
  start cfg isTest builds constructed = (st, Returned tt) ->
  indexNode st /\ pythonQuiet st.
Proof.
  unfold start. intros Hnd Hs.
  pose proof (start_initial_Inv cfg) as H2.
  pose proof (firstBuilds_Inv cfg builds (lambdaHandlers cfg) 0 _ H2) as H3.
  pose proof (Py_firstBuilds cfg builds (lambdaHandlers cfg) 0
                (log (Info "Transpiling Lambda code...")
                   (initializeState cfg
                      (fold_left (fun acc l => log (Info l) acc)
                         [""; "=========================="; " Starting Live Lambda Dev";
                          "=========================="; ""] constructed)))) as Hi3.
  destruct (firstBuilds cfg builds 0 (lambdaHandlers cfg) _) as [st3 results].
  simpl in H3, Hi3.
  assert (Hpy : indexNode st3 /\ pythonQuiet st3).
  { apply Hi3.
    - intros hd Hin. eexists. split.
      + unfold log. cbn [entryPointsData].
        apply (initializeState_lookup cfg _ hd Hnd Hin).
      + reflexivity.
    - split.
      + intros file ks k e Hl. unfold log in Hl.
        cbn [watchedNodeFilesIndex] in Hl.
        rewrite initializeState_index in Hl. simpl in Hl. discriminate.
      + intros k e He _. apply lookup_values in He.
        refine (initializeState_all cfg
                  (fun e => EP.buildPromise e = None /\ EP.needsReBuild e = OFF)
                  _ _ _ e He); [intros; split; reflexivity|].
        simpl. intros x []. }
  destruct (existsb negb results); [discriminate|].
  destruct isTest; [inversion Hs; subst; exact Hpy|].
  destruct (List.length (keys (srcPathsData st3)) =? 0); [discriminate|].
  inversion Hs. subst.
  pose proof (Py_startChecks cfg (keys (srcPathsData st3)) st3 H3 Hpy) as H4.
  revert H4. apply Py_frame; reflexivity.
Qed.

Lemma reachable_Py cfg st :
  NoDup (configuredKeys cfg) -> reachable cfg st ->
  indexNode st /\ pythonQuiet st.
Proof.
  intros Hnd. induction 1 as [isTest builds st Hs|ev st Hr IH He].
  - apply (Py_start cfg isTest builds st Hnd Hs).
  - apply (Py_stepResult cfg st); [apply (reachable_Inv cfg st Hr)| |exact IH].
    apply step_stepResult. exact He.
Qed.

(** ** What a build's end does to the pending requests *)

Lemma callbacksOf_lookup k st e :
  lookup k (entryPointsData st) = Some e ->
  callbacksOf k st = EP.pendingRequestCallbacks e.
Proof. intros He. unfold callbacksOf. rewrite He. reflexivity. Qed.

(** After "Update state", the requests are settled, unless the entry point
    still needs a rebuild that the pass did not start. *)
Lemma updateAndSettle_outcome cfg f k st e :
  keys_wf st -> lookup k (entryPointsData st) = Some e ->
  callbacksOf k (updateAndSettle cfg f k st) = map f (callbacksOf k st)
  \/ (truthy (EP.needsReBuild e) = true /\ isNodeDirty e = false
      /\ callbacksOf k (updateAndSettle cfg f k st) = callbacksOf k st).
Proof.
  intros Hwf He.
  destruct (updateAndSettle_spec cfg f k st e Hwf He) as (e' & He' & Hcase).
  rewrite (callbacksOf_lookup k _ e' He'), (callbacksOf_lookup k st e He).
  destruct Hcase as [[_ ->]|[(_ & _ & p & ->)|(Ht & Hnd & ->)]].
  - left. reflexivity.
  - left. reflexivity.
  - right. auto.
Qed.

Lemma notDirty_waits e :
  EP.buildPromise e = None -> truthy (EP.needsReBuild e) = true ->
  isNodeDirty e = false ->
  isNodeRuntime (EP.runtime e) = false /\ EP.needsReBuild e <> OFF.
Proof.
  unfold isNodeDirty. intros Hb Ht Hd. rewrite Hb, Ht in Hd. simpl in Hd.
  split.
  - destruct (isNodeRuntime (EP.runtime e)); [discriminate | reflexivity].
  - intros Hoff. rewrite Hoff in Ht. discriminate.
Qed.

Lemma onReBuildFailed_outcome cfg s h st e :
  keys_wf st ->
  lookup (buildEntryPointKey s h) (entryPointsData st) = Some e ->
  callbacksOf (buildEntryPointKey s h) (onReBuildFailed cfg s h st)
  = map (reject (failureReason s h)) (callbacksOf (buildEntryPointKey s h) st)
  \/ (isNodeRuntime (EP.runtime e) = false
      /\ EP.needsReBuild e <> OFF
      /\ callbacksOf (buildEntryPointKey s h) (onReBuildFailed cfg s h st)
         = callbacksOf (buildEntryPointKey s h) st).
Proof.
  intros Hwf He. unfold onReBuildFailed.
  set (key := buildEntryPointKey s h) in *.
  set (st1 := with_entryPointsData (alter EP.failed key (entryPointsData st)) st).
  assert (Hwf1 : keys_wf st1)
    by (unfold keys_wf; simpl; apply eps_wf_alter; [reflexivity | exact Hwf]).
  assert (He1 : lookup key (entryPointsData st1) = Some (EP.failed e))
    by (simpl; rewrite lookup_alter_same, He; reflexivity).
  assert (Hcb : callbacksOf key st1 = callbacksOf key st)
    by (apply callbacksOf_alter; reflexivity).
  destruct (updateAndSettle_outcome cfg (reject (failureReason s h)) key st1
              (EP.failed e) Hwf1 He1) as [H|(Ht & Hnd & H)]; rewrite H, Hcb.
  - left. reflexivity.
  - right. destruct (notDirty_waits (EP.failed e) eq_refl Ht Hnd) as [A B].
    auto.
Qed.

Lemma priorityAfterUpdate_nil e : priorityAfterUpdate [] e = EP.needsReBuild e.
Proof.
  unfold priorityAfterUpdate, array_diff. simpl. rewrite andb_false_r.
  reflexivity.
Qed.

(** The success handling of a build in flight, in a state the watcher
    reaches: the requests are woken, or the call waits at its [unwatch], or
    the entry point (which then is not Node-like) waits for a build slot. *)
Lemma succeededOrCaught_outcome cfg s h files st e :
  reachable cfg st ->
  lookup (buildEntryPointKey s h) (entryPointsData st) = Some e ->
  isSome (EP.buildPromise e) = true ->
  (isNodeRuntime (EP.runtime e) = false -> files = []) ->
  let key := buildEntryPointKey s h in
  let st2 := succeededOrCaught cfg s h files st in
  callbacksOf key st2 = map resolve (callbacksOf key st)
  \/ (unwatching st2 = unwatching st ++ [(s, h)]
      /\ callbacksOf key st2 = callbacksOf key st)
  \/ (isNodeRuntime (EP.runtime e) = false
      /\ EP.needsReBuild e <> OFF
      /\ callbacksOf key st2 = callbacksOf key st).
Proof.
  intros Hr He Hb Hfiles key st2. subst key st2.
  pose proof (proj1 (reachable_Inv cfg st Hr)) as Hwf.
  assert (Hnr : exists st1,
            onReBuildSucceeded_update s h files st = Finished st1
            \/ onReBuildSucceeded_update s h files st = AwaitingUnwatch st1).
  { apply (update_not_raised s h files st e He). intros _. split.
    - intros Hw. destruct (reachable_Watch cfg st Hr Hw) as [_ Hc].
      destruct (Hc _ e He) as [Hn _]. rewrite Hn in Hb. discriminate.
    - intros f Hf. destruct (reachable_Idx cfg st Hr) as [_ Hfi].
      apply (indexLists_some (buildEntryPointKey s h)).
      apply (Hfi _ e f He Hf). }
  destruct Hnr as (st1 & Hout).
  destruct (onReBuildSucceeded_update_shape s h files st e He)
    as (st1' & Hout' & Heps & _).
  assert (st1' = st1).
  { destruct Hout as [H|H];
      destruct Hout' as [[H2 _]|[(H2 & _)|(err2 & H2 & _)]];
      rewrite H in H2; inversion H2; reflexivity. }
  subst st1'.
  pose proof (onReBuildSucceeded_update_callbacks s h files
                (buildEntryPointKey s h) st st1) as Hcb.
  unfold succeededOrCaught, onReBuildSucceeded.
  destruct Hout as [Hu|Hu]; rewrite Hu.
  - specialize (Hcb (or_introl Hu)).
    assert (He1 : lookup (buildEntryPointKey s h) (entryPointsData st1)
                  = Some (EP.succeeded files (priorityAfterUpdate files e) e))
      by (rewrite Heps, lookup_alter_same, He; reflexivity).
    assert (Hwf1 : keys_wf st1)
      by (unfold keys_wf; rewrite Heps; apply eps_wf_alter;
          [reflexivity | exact Hwf]).
    destruct (updateAndSettle_outcome cfg resolve (buildEntryPointKey s h) st1
                _ Hwf1 He1) as [H|(Ht & Hnd & H)]; rewrite H, Hcb.
    + left. reflexivity.
    + right. right.
      destruct (notDirty_waits
                  (EP.succeeded files (priorityAfterUpdate files e) e)
                  eq_refl Ht Hnd) as [A B]. simpl in A, B.
      split; [exact A|]. split; [|reflexivity].
      rewrite (Hfiles A), priorityAfterUpdate_nil in B. exact B.
  - specialize (Hcb (or_intror (or_introl Hu))).
    right. left. split; [|exact Hcb].
    destruct Hout' as [[H2 _]|[(H2 & Hun & _)|(err2 & H2 & _)]];
      rewrite Hu in H2; try discriminate. exact Hun.
Qed.

(** ** The busy status *)

Lemma busy_computed st :
  updateLambdaCodeBusyStatus st
  = if Bool.eqb (busyTest st) (isProcessingLambdaChanges st) then st
    else log (edgeMessage st) (with_isProcessingLambdaChanges (busyTest st) st).
Proof.
  unfold updateLambdaCodeBusyStatus, edgeMessage, busyTest.
  destruct (isProcessingLambdaChanges st) eqn:Hb; simpl.
  - destruct (existsb (fun e => truthy (EP.needsReBuild e)
                                || isSome (EP.buildPromise e)) _);
      simpl; [reflexivity|].
    destruct (existsb EP.hasError _); simpl; [reflexivity|].
    destruct (existsb _ (values (srcPathsData st))); reflexivity.
  - destruct (existsb _ _); reflexivity.
Qed.

Lemma busySettled_busyTest st :
  busySettled st = true -> busyTest st = isProcessingLambdaChanges st.
Proof.
  unfold busySettled, busyTest.
  destruct (isProcessingLambdaChanges st); simpl; [auto|].
  intros H. apply negb_true_iff in H. exact H.
Qed.

(** ** The pass of a resumed call *)

Lemma resume_checked cfg s h st :
  let st' := onReBuildSucceeded_resume cfg s h st in
  existsb (fun e => isSome (EP.buildPromise e)) (values (entryPointsData st'))
  = true
  \/ existsb EP.hasError (values (entryPointsData st')) = true
  \/ allChecked st'.
Proof.
  cbv zeta. unfold onReBuildSucceeded_resume.
  set (st0 := with_unwatching (removeFirstPair (s, h) (unwatching st)) st).
  destruct (updateAndSettle_cases cfg resolve (buildEntryPointKey s h) st0)
    as [E|E]; rewrite E.
  - apply update_checked.
  - simpl.
    rewrite (existsb_alter (fun e => isSome (EP.buildPromise e))
               (settleAll resolve)) by reflexivity.
    rewrite (existsb_alter EP.hasError (settleAll resolve)) by reflexivity.
    destruct (update_checked cfg st0) as [H|[H|H]]; auto.
Qed.

(** * Properties beyond the claims *)

Lemma goRequested_entryB :
  lookup goKeyB (entryPointsData goRequested) = Some goRequestedEntryB.
Proof. vm_compute. reflexivity. Qed.

Lemma nodeSuspended_reachable : reachable nodeApp nodeSuspended.
Proof.
  apply reachable_run; [|vm_compute; reflexivity].
  apply started_reachable. vm_compute. reflexivity.
Qed.

Lemma nodeSuspended_entry :
  lookup nodeKey (entryPointsData nodeSuspended) = Some nodeSuspendedEntry.
Proof. vm_compute. reflexivity. Qed.

Lemma nodeStarted_idle : isProcessingLambdaChanges nodeStarted = false.
Proof. vm_compute. reflexivity. Qed.

(** ** Scheduling *)

(** X1.  The Go queue is work conserving.  In every state the watcher
    reaches, a Go entry point waits for a build (no build in flight, rebuild
    priority LOW or HIGH) only while the number of Go builds in flight equals
    [BUILDER_CONCURRENCY]: every pass hands out all free build slots. *)
Theorem go_queue_work_conserving cfg st k e :
  reachable cfg st ->
  lookup k (entryPointsData st) = Some e ->
  isGoRuntime (EP.runtime e) = true ->
  EP.buildPromise e = None ->
  truthy (EP.needsReBuild e) = true ->
  goBuildsInFlight st = BUILDER_CONCURRENCY cfg.
Proof.
  intros Hr He Hg Hb Hn.
  destruct (reachable_Sched cfg st Hr) as (Hwc & _).
  apply (Hwc k e He). apply isGoWaiting_spec. auto.
Qed.

Lemma go_queue_work_conserving_witness :
  reachable goApp goRequested
  /\ lookup goKeyB (entryPointsData goRequested) = Some goRequestedEntryB
  /\ isGoRuntime (EP.runtime goRequestedEntryB) = true
  /\ EP.buildPromise goRequestedEntryB = None
  /\ truthy (EP.needsReBuild goRequestedEntryB) = true
  /\ goBuildsInFlight goRequested = BUILDER_CONCURRENCY goApp.
Proof.
  split; [apply goRequested_reachable|]. split; [exact goRequested_entryB|].
  split; [reflexivity|]. split; [reflexivity|]. split; [reflexivity|].
  exact (go_queue_work_conserving goApp goRequested goKeyB goRequestedEntryB
           goRequested_reachable goRequested_entryB eq_refl eq_refl eq_refl).
Defined.

(** X2.  Node entry points never wait in a queue.  In every state the watcher
    reaches, a Node entry point that needs a rebuild has a build in flight,
    with one exception: between the [await this.watcher.unwatch(...)] of
    [onReBuildSucceeded] and its resumption, the entry point of that call may
    need a rebuild that the next pass will start. *)
Theorem node_entry_points_never_queued cfg st k e :
  reachable cfg st ->
  lookup k (entryPointsData st) = Some e ->
  isNodeRuntime (EP.runtime e) = true ->
  truthy (EP.needsReBuild e) = true ->
  isSome (EP.buildPromise e) = true \/ isUnwatching k st = true.
Proof.
  intros Hr He Hn Ht.
  destruct (reachable_Sched cfg st Hr) as (_ & Hnode & _).
  destruct (EP.buildPromise e) as [p|] eqn:Hb; [left; reflexivity|].
  right. apply (Hnode k e He). apply isNodeDirty_spec. auto.
Qed.

Lemma node_entry_points_never_queued_witness :
  reachable nodeApp nodeSuspended
  /\ lookup nodeKey (entryPointsData nodeSuspended) = Some nodeSuspendedEntry
  /\ isNodeRuntime (EP.runtime nodeSuspendedEntry) = true
  /\ truthy (EP.needsReBuild nodeSuspendedEntry) = true
  /\ (isSome (EP.buildPromise nodeSuspendedEntry) = true
      \/ isUnwatching nodeKey nodeSuspended = true).
Proof.
  split; [apply nodeSuspended_reachable|]. split; [exact nodeSuspended_entry|].
  split; [reflexivity|]. split; [reflexivity|].
  exact (node_entry_points_never_queued nodeApp nodeSuspended nodeKey
           nodeSuspendedEntry nodeSuspended_reachable nodeSuspended_entry
           eq_refl eq_refl).
Defined.

(** X3.  An idle watcher is clean.  In every state the watcher reaches with
    [isProcessingLambdaChanges] false (before the first "Rebuilding code..."
    or after "Done building code" / "Rebuilding code failed"), no entry point
    has a build in flight or a rebuild priority other than OFF; so
    [getTranspiledHandler] answers every configured handler at once and
    leaves the state as it is. *)
Theorem idle_watcher_is_clean cfg st :
  reachable cfg st ->
  isProcessingLambdaChanges st = false ->
  (forall k e, lookup k (entryPointsData st) = Some e ->
     EP.buildPromise e = None /\ EP.needsReBuild e = OFF)
  /\ (forall s h, In (buildEntryPointKey s h) (configuredKeys cfg) ->
        exists r, getTranspiledHandler s h st = (st, Answered r)).
Proof.
  intros Hr Hb.
  destruct (reachable_Sched cfg st Hr) as (_ & _ & Hidle).
  specialize (Hidle Hb). split; [exact Hidle|].
  intros s h Hin.
  destruct (reachable_Inv cfg st Hr) as (_ & _ & _ & _ & Hk).
  apply Hk in Hin.
  destruct (lookup (buildEntryPointKey s h) (entryPointsData st)) as [e|] eqn:He.
  - destruct (Hidle _ e He) as [H1 H2].
    unfold getTranspiledHandler. rewrite He, H1, H2. simpl.
    eexists. reflexivity.
  - apply lookup_None_keys in He. contradiction.
Qed.

Lemma idle_watcher_is_clean_witness :
  reachable nodeApp nodeStarted
  /\ isProcessingLambdaChanges nodeStarted = false
  /\ In (buildEntryPointKey "s" "src/h.handler") (configuredKeys nodeApp)
  /\ exists r,
       getTranspiledHandler "s" "src/h.handler" nodeStarted
       = (nodeStarted, Answered r).
Proof.
  split; [apply nodeStarted_reachable|]. split; [exact nodeStarted_idle|].
  split; [left; reflexivity|].
  pose proof (idle_watcher_is_clean nodeApp nodeStarted nodeStarted_reachable
                nodeStarted_idle) as H.
  destruct H as (_ & H2).
  exact (H2 "s" "src/h.handler" (or_introl eq_refl)).
Defined.

(** ** The index of watched files *)

Lemma nodeStarted_entry :
  lookup nodeKey (entryPointsData nodeStarted) = Some nodeStartedEntry.
Proof. vm_compute. reflexivity. Qed.

Lemma nodeStarted_index :
  lookup "/app/s/src/h.ts" (watchedNodeFilesIndex nodeStarted) = Some [nodeKey].
Proof. vm_compute. reflexivity. Qed.

(** X4.  The index mirrors the input files.  In every state the watcher
    reaches, every key that [watchedNodeFilesIndex] lists under a file is the
    key of an entry point (so [onFileChange] finds a record for every key it
    marks), and under every input file of an entry point the index lists the
    key of that entry point. *)
Theorem index_consistent cfg st :
  reachable cfg st ->
  (forall file ks k,
     lookup file (watchedNodeFilesIndex st) = Some ks -> In k ks ->
     exists e, lookup k (entryPointsData st) = Some e)
  /\ (forall k e file,
        lookup k (entryPointsData st) = Some e -> In file (inputFilesOf e) ->
        exists ks, lookup file (watchedNodeFilesIndex st) = Some ks /\ In k ks).
Proof.
  intros Hr. destruct (reachable_Idx cfg st Hr) as [Hreg Hfiles]. split.
  - intros file ks k Hl Hin. pose proof (Hreg file ks k Hl Hin) as Hn.
    destruct (lookup k (entryPointsData st)) as [e|]; [|congruence].
    exists e. reflexivity.
  - intros k e file He Hin. apply (Hfiles k e file He Hin).
Qed.

Lemma index_consistent_witness :
  reachable nodeApp nodeStarted
  /\ (exists e, lookup nodeKey (entryPointsData nodeStarted) = Some e)
  /\ (exists ks,
        lookup "/app/s/src/h.ts" (watchedNodeFilesIndex nodeStarted) = Some ks
        /\ In nodeKey ks).
Proof.
  pose proof (index_consistent nodeApp nodeStarted nodeStarted_reachable) as H.
  destruct H as [H1 H2].
  split; [apply nodeStarted_reachable|]. split.
  - exact (H1 "/app/s/src/h.ts" [nodeKey] nodeKey nodeStarted_index
             (or_introl eq_refl)).
  - exact (H2 nodeKey nodeStartedEntry "/app/s/src/h.ts" nodeStarted_entry
             (or_introl eq_refl)).
Defined.

(** X5.  A change of an input file rebuilds its readers.  In every state the
    watcher reaches, when a file that is not a Go file changes, every Node
    entry point that lists the file among its input files has a build in
    flight when [onFileChange] returns: the build that was already running
    (the record then keeps priority LOW, for one more build), or a build
    that this call has started. *)
Theorem file_change_rebuilds_readers cfg st k e file :
  reachable cfg st ->
  lookup k (entryPointsData st) = Some e ->
  isNodeRuntime (EP.runtime e) = true ->
  In file (inputFilesOf e) ->
  endsWith file ".go" = false ->
  exists e',
    lookup k (entryPointsData (onFileChange cfg file st)) = Some e'
    /\ isSome (EP.buildPromise e') = true
    /\ (e' = EP.with_needsReBuild LOW e
        \/ exists p, e' = EP.started p (EP.with_needsReBuild LOW e)).
Proof.
  intros Hr He Hn Hin Hgo.
  destruct (reachable_Idx cfg st Hr) as [_ Hfiles].
  destruct (Hfiles k e file He Hin) as (ks & Hl & Hk).
  unfold onFileChange. rewrite Hgo, Hl.
  pose proof (fold_markLow_marks ks k e st Hk He) as H1.
  assert (Hwf1 : keys_wf (fold_left markLow ks st)).
  { apply fold_markLow_Inv with (cfg := cfg). apply (reachable_Inv cfg st Hr). }
  destruct (update_after_mark cfg _ k _ Hwf1 H1 eq_refl) as (e' & He' & Hc & Hb).
  exists e'. split; [exact He'|]. split; [apply Hb; exact Hn | exact Hc].
Qed.

Lemma file_change_rebuilds_readers_witness :
  reachable nodeApp nodeStarted
  /\ lookup nodeKey (entryPointsData nodeStarted) = Some nodeStartedEntry
  /\ isNodeRuntime (EP.runtime nodeStartedEntry) = true
  /\ In "/app/s/src/h.ts" (inputFilesOf nodeStartedEntry)
  /\ endsWith "/app/s/src/h.ts" ".go" = false
  /\ exists e',
       lookup nodeKey
         (entryPointsData (onFileChange nodeApp "/app/s/src/h.ts" nodeStarted))
       = Some e'
       /\ isSome (EP.buildPromise e') = true
       /\ (e' = EP.with_needsReBuild LOW nodeStartedEntry
           \/ exists p, e' = EP.started p (EP.with_needsReBuild LOW nodeStartedEntry)).
Proof.
  split; [apply nodeStarted_reachable|]. split; [exact nodeStarted_entry|].
  split; [reflexivity|]. split; [left; reflexivity|]. split; [reflexivity|].
  exact (file_change_rebuilds_readers nodeApp nodeStarted nodeKey
           nodeStartedEntry "/app/s/src/h.ts" nodeStarted_reachable
           nodeStarted_entry eq_refl (or_introl eq_refl) eq_refl).
Defined.

(** X6.  [onReBuildSucceeded] does not throw.  In every state the watcher
    reaches, for an entry point with a build in flight and whatever input
    files the build reports, the call of [onReBuildSucceeded] reaches its end
    or its [await this.watcher.unwatch(...)]: [this.watcher] is not null,
    and [watchedNodeFilesIndex[file]] is an array for every file to remove.
    So the [catch] of [reTranspile] and [reCompile] is only entered by a
    failure of the build itself or of the reading of the metafile. *)
Theorem rebuild_success_never_throws cfg st s h e files :
  reachable cfg st ->
  lookup (buildEntryPointKey s h) (entryPointsData st) = Some e ->
  isSome (EP.buildPromise e) = true ->
  exists st1,
    onReBuildSucceeded_update s h files st = Finished st1
    \/ onReBuildSucceeded_update s h files st = AwaitingUnwatch st1.
Proof.
  intros Hr He Hb. apply (update_not_raised s h files st e He).
  intros _. split.
  - intros Hw. destruct (reachable_Watch cfg st Hr Hw) as [_ Hc].
    destruct (Hc _ e He) as [Hn _]. rewrite Hn in Hb. discriminate.
  - intros f Hf. destruct (reachable_Idx cfg st Hr) as [_ Hfiles].
    apply (indexLists_some (buildEntryPointKey s h)).
    apply (Hfiles _ e f He Hf).
Qed.

Lemma rebuild_success_never_throws_witness :
  reachable nodeApp nodeRequested
  /\ lookup (buildEntryPointKey "s" "src/h.handler") (entryPointsData nodeRequested)
     = Some nodeRequestedEntry
  /\ isSome (EP.buildPromise nodeRequestedEntry) = true
  /\ exists st1,
       onReBuildSucceeded_update "s" "src/h.handler" ["/app/s/src/new.ts"]
         nodeRequested = Finished st1
       \/ onReBuildSucceeded_update "s" "src/h.handler" ["/app/s/src/new.ts"]
            nodeRequested = AwaitingUnwatch st1.
Proof.
  split; [apply nodeRequested_reachable|]. split; [exact nodeRequested_entry|].
  split; [reflexivity|].
  exact (rebuild_success_never_throws nodeApp nodeRequested "s" "src/h.handler"
           nodeRequestedEntry ["/app/s/src/new.ts"] nodeRequested_reachable
           nodeRequested_entry eq_refl).
Defined.

Lemma nodeWideChanged_reachable : reachable nodeApp nodeWideChanged.
Proof.
  apply reachable_run; [|vm_compute; reflexivity].
  apply started_reachable. vm_compute. reflexivity.
Qed.

Lemma nodeWideChanged_enabled :
  enabled (BuildSettled "s" "src/h.handler" true
             (ReadOk (Some ["/app/s/src/h.ts"]))) nodeWideChanged = true.
Proof. vm_compute. reflexivity. Qed.

Lemma nodeWideChanged_index :
  lookup "/app/s/src/a.ts" (watchedNodeFilesIndex nodeWideChanged) <> None.
Proof. vm_compute. discriminate. Qed.

(** X7.  No key of the index is ever deleted.  Whatever event occurs, a file
    that is a key of [watchedNodeFilesIndex] before the event is one after
    it: [onReBuildSucceeded] removes the entry point's key from the array of
    a file it no longer reads, and its test for deleting the file's property
    ([watchedNodeFilesIndex[file] === 0]) never holds. *)
Theorem index_keys_never_deleted cfg ev st file :
  enabled ev st = true ->
  lookup file (watchedNodeFilesIndex st) <> None ->
  lookup file (watchedNodeFilesIndex (step cfg ev st)) <> None.
Proof.
  intros He H. apply (stepResult_index_keeps cfg st); [|exact H].
  apply step_stepResult. exact He.
Qed.

Lemma index_keys_never_deleted_witness :
  enabled (BuildSettled "s" "src/h.handler" true
             (ReadOk (Some ["/app/s/src/h.ts"]))) nodeWideChanged = true
  /\ lookup "/app/s/src/a.ts" (watchedNodeFilesIndex nodeWideChanged) <> None
  /\ lookup "/app/s/src/a.ts"
       (watchedNodeFilesIndex
          (step nodeApp
             (BuildSettled "s" "src/h.handler" true
                (ReadOk (Some ["/app/s/src/h.ts"]))) nodeWideChanged)) <> None.
Proof.
  split; [exact nodeWideChanged_enabled|].
  split; [exact nodeWideChanged_index|].
  exact (index_keys_never_deleted nodeApp
           (BuildSettled "s" "src/h.handler" true
              (ReadOk (Some ["/app/s/src/h.ts"])))
           nodeWideChanged "/app/s/src/a.ts"
           nodeWideChanged_enabled nodeWideChanged_index).
Defined.

(** ** What [start] leaves *)

Lemma nodeStarted_start :
  start nodeApp false (buildsOk ["/app/s/src/h.ts"]) constructed
  = (nodeStarted, Returned tt).
Proof. vm_compute. reflexivity. Qed.

(** X8.  When [start] returns outside test mode, chokidar watches the input
    files of the infrastructure code, every input file of every Node entry
    point (each is a key of [watchedNodeFilesIndex]), and the pattern
    ["**/*.go"] when a Go handler is configured. *)
Theorem start_watches_inputs cfg builds st :
  start cfg false builds constructed = (st, Returned tt) ->
  exists watched,
    watcher st = Some watched
    /\ incl (cdkInputFiles cfg) watched
    /\ (forall k e file,
          lookup k (entryPointsData st) = Some e ->
          isNodeRuntime (EP.runtime e) = true ->
          In file (inputFilesOf e) -> In file watched)
    /\ (hasGoRuntime cfg = true -> In "**/*.go" watched).
Proof.
  intros Hs.
  pose proof (Idx_start cfg false builds st Hs) as [_ Hfiles].
  pose proof (start_handlers cfg false builds st Hs) as Hrt.
  revert Hs Hfiles Hrt. unfold start.
  destruct (firstBuilds cfg builds 0 (lambdaHandlers cfg) _) as [st3 results].
  destruct (existsb negb results); [discriminate|].
  destruct (List.length (keys (srcPathsData st3)) =? 0); [discriminate|].
  intros Hs Hfiles Hrt. inversion Hs. subst st. clear Hs.
  eexists. split; [reflexivity|]. unfold getWatchedFiles. split; [|split].
  - intros f Hf. apply in_or_app. left. exact Hf.
  - intros k e file He Hn Hin.
    apply in_or_app. right. apply in_or_app. left.
    assert (Hnode : hasNodeRuntime cfg = true).
    { destruct (Hrt k e He) as (hd & Hhd & Hr & _). unfold hasNodeRuntime.
      apply existsb_exists. exists hd. split; [exact Hhd|].
      rewrite Hr. exact Hn. }
    rewrite Hnode.
    destruct (Hfiles k e file He Hin) as (ks & Hl & _). simpl in Hl.
    apply lookup_In in Hl. apply (in_map fst) in Hl. exact Hl.
  - intros Hgo. rewrite Hgo.
    apply in_or_app. right. apply in_or_app. right. left. reflexivity.
Qed.

Lemma start_watches_inputs_witness :
  start nodeApp false (buildsOk ["/app/s/src/h.ts"]) constructed
  = (nodeStarted, Returned tt)
  /\ exists watched,
       watcher nodeStarted = Some watched
       /\ incl (cdkInputFiles nodeApp) watched
       /\ In "/app/s/src/h.ts" watched.
Proof.
  split; [exact nodeStarted_start|].
  pose proof (start_watches_inputs nodeApp (buildsOk ["/app/s/src/h.ts"])
                nodeStarted nodeStarted_start) as H.
  destruct H as (watched & Hw & Hcdk & Hnode & _).
  exists watched. split; [exact Hw|]. split; [exact Hcdk|].
  exact (Hnode nodeKey nodeStartedEntry "/app/s/src/h.ts" nodeStarted_entry
           eq_refl (or_introl eq_refl)).
Defined.

(** ** The records *)

Lemma nodeStarted_wf : keys_wf nodeStarted.
Proof. exact (proj1 (reachable_Inv nodeApp nodeStarted nodeStarted_reachable)). Qed.

Lemma nodeStarted_fileChange_enabled :
  enabled (FileChanged "/app/s/src/h.ts") nodeStarted = true.
Proof. vm_compute. reflexivity. Qed.

(** X9.  The registration is fixed.  No event adds or removes an entry point
    or changes the order of the entry points, and no event changes the
    [srcPath], [handler], [runtime], [outEntryPoint], [tsconfig] or
    [esbuilder] of a record: after the first build the handlers write
    [needsReBuild], [buildPromise], [hasError], [inputFiles] and the list of
    pending requests only. *)
Theorem entry_points_fixed cfg ev st :
  keys_wf st -> enabled ev st = true ->
  keys (entryPointsData (step cfg ev st)) = keys (entryPointsData st)
  /\ forall k e, lookup k (entryPointsData st) = Some e ->
       exists e', lookup k (entryPointsData (step cfg ev st)) = Some e'
                  /\ sameBuild e e'.
Proof.
  intros Hwf He. destruct (step_change cfg ev st Hwf He) as [Hk Hl].
  split; [exact Hk|]. intros k e Hke.
  destruct (Hl k e Hke) as (e' & He' & Hc). exists e'. split; [exact He'|].
  apply ep_change_sameBuild. exact Hc.
Qed.

Lemma entry_points_fixed_witness :
  keys_wf nodeStarted
  /\ enabled (FileChanged "/app/s/src/h.ts") nodeStarted = true
  /\ keys (entryPointsData (step nodeApp (FileChanged "/app/s/src/h.ts") nodeStarted))
     = keys (entryPointsData nodeStarted)
  /\ exists e',
       lookup nodeKey
         (entryPointsData (step nodeApp (FileChanged "/app/s/src/h.ts") nodeStarted))
       = Some e'
       /\ sameBuild nodeStartedEntry e'.
Proof.
  split; [exact nodeStarted_wf|]. split; [exact nodeStarted_fileChange_enabled|].
  pose proof (entry_points_fixed nodeApp (FileChanged "/app/s/src/h.ts")
                nodeStarted nodeStarted_wf nodeStarted_fileChange_enabled) as H.
  destruct H as [H1 H2]. split; [exact H1|].
  exact (H2 nodeKey nodeStartedEntry nodeStarted_entry).
Defined.

Lemma pyStarted_reachable : reachable pyApp pyStarted.
Proof. apply started_reachable. vm_compute. reflexivity. Qed.

Lemma pyStarted_entry :
  lookup pyKey (entryPointsData pyStarted) = Some pyStartedEntry.
Proof. vm_compute. reflexivity. Qed.

(** X10.  Python entry points are never built by the watcher.  In every state
    the watcher reaches, a Python entry point has no build in flight: the
    pass dispatches Node and Go entry points only. *)
Theorem python_never_built cfg st k e :
  reachable cfg st ->
  lookup k (entryPointsData st) = Some e ->
  isPythonRuntime (EP.runtime e) = true ->
  EP.buildPromise e = None.
Proof.
  intros Hr He.
  apply (reachable_entries cfg
           (fun e => isPythonRuntime (EP.runtime e) = true ->
                     EP.buildPromise e = None)) with (st := st) (k := k);
    [| |exact Hr|exact He].
  - intros e1 e2 Hc. apply ep_change_python. exact Hc.
  - intros isTest builds st0 Hs k0 e0 H0 _.
    apply (start_allClean cfg isTest builds st0 Hs k0 e0 H0).
Qed.

Lemma python_never_built_witness :
  reachable pyApp pyStarted
  /\ lookup pyKey (entryPointsData pyStarted) = Some pyStartedEntry
  /\ isPythonRuntime (EP.runtime pyStartedEntry) = true
  /\ EP.buildPromise pyStartedEntry = None.
Proof.
  split; [apply pyStarted_reachable|]. split; [exact pyStarted_entry|].
  split; [reflexivity|].
  exact (python_never_built pyApp pyStarted pyKey pyStartedEntry
           pyStarted_reachable pyStarted_entry eq_refl).
Defined.

(** X11.  Every answer carries a build output.  In every state the watcher
    reaches, each entry point has the [outEntryPoint] that its first build
    stored; so the [handler] field of what [getTranspiledHandler] returns,
    at once or after waiting, is never null. *)
Theorem answers_carry_build_output cfg st s h :
  reachable cfg st ->
  (forall k e, lookup k (entryPointsData st) = Some e ->
     EP.outEntryPoint e <> None)
  /\ (forall r, snd (getTranspiledHandler s h st) = Answered r
                \/ snd (getTranspiledHandler s h st) = Waiting r ->
                th_handler r <> None).
Proof.
  intros Hr.
  assert (Hout : forall k e, lookup k (entryPointsData st) = Some e ->
                   EP.outEntryPoint e <> None).
  { apply (reachable_entries cfg (fun e => EP.outEntryPoint e <> None));
      [| |exact Hr].
    - intros e1 e2 Hc H1.
      destruct (ep_change_sameBuild e1 e2 Hc) as (_ & _ & _ & Ho & _).
      rewrite Ho. exact H1.
    - intros isTest builds st0 Hs. apply (start_outputs cfg isTest builds st0 Hs). }
  split; [exact Hout|]. intros r. unfold getTranspiledHandler.
  destruct (lookup (buildEntryPointKey s h) (entryPointsData st)) as [e|] eqn:He.
  - pose proof (Hout _ e He) as Ho.
    destruct (isSome (EP.buildPromise e) || truthy (EP.needsReBuild e)); simpl;
      intros [H|H]; inversion H; subst; exact Ho.
  - simpl. intros [H|H]; discriminate.
Qed.

Lemma answers_carry_build_output_witness :
  reachable nodeApp nodeRequested
  /\ snd (getTranspiledHandler "s" "src/h.handler" nodeRequested)
     = Waiting {| th_runtime := NodeLike; th_handler := Some (outOf "out") |}
  /\ th_handler {| th_runtime := NodeLike; th_handler := Some (outOf "out") |}
     <> None.
Proof.
  split; [apply nodeRequested_reachable|].
  assert (Hw : snd (getTranspiledHandler "s" "src/h.handler" nodeRequested)
               = Waiting {| th_runtime := NodeLike;
                            th_handler := Some (outOf "out") |})
    by (vm_compute; reflexivity).
  split; [exact Hw|].
  pose proof (answers_carry_build_output nodeApp nodeRequested "s"
                "src/h.handler" nodeRequested_reachable) as H.
  destruct H as (_ & H2).
  exact (H2 _ (or_intror Hw)).
Defined.

(** ** The pass *)

Lemma goRequested_wf : keys_wf goRequested.
Proof. exact (proj1 (reachable_Inv goApp goRequested goRequested_reachable)). Qed.

Lemma goRequested_bounded :
  goBuildsInFlight goRequested <= BUILDER_CONCURRENCY goApp.
Proof.
  exact (proj1 (proj2 (reachable_Inv goApp goRequested goRequested_reachable))).
Qed.

(** X12.  The pass is idempotent.  For a state with well-formed keys and no
    more Go builds in flight than [BUILDER_CONCURRENCY], a second call of
    [updateLambdaCodeState] right after a first one changes nothing: it logs
    no busy message, starts no build and no checker.  So it is harmless that
    handlers call the pass whether or not anything changed. *)
Theorem pass_is_idempotent cfg st :
  keys_wf st -> goBuildsInFlight st <= BUILDER_CONCURRENCY cfg ->
  updateLambdaCodeState cfg (updateLambdaCodeState cfg st)
  = updateLambdaCodeState cfg st.
Proof. apply update_idempotent. Qed.

Lemma pass_is_idempotent_witness :
  keys_wf goRequested
  /\ goBuildsInFlight goRequested <= BUILDER_CONCURRENCY goApp
  /\ updateLambdaCodeState goApp (updateLambdaCodeState goApp goRequested)
     = updateLambdaCodeState goApp goRequested.
Proof.
  split; [exact goRequested_wf|]. split; [exact goRequested_bounded|].
  exact (pass_is_idempotent goApp goRequested goRequested_wf goRequested_bounded).
Defined.

Lemma nodeRequested_busy : isProcessingLambdaChanges nodeRequested = true.
Proof. vm_compute. reflexivity. Qed.

(** X13.  Busy means work.  In every state the watcher reaches with
    [isProcessingLambdaChanges] true, some entry point is being built or is
    to be built, or no entry point has an error and some source path is
    being checked or is to be checked, or a call of [onReBuildSucceeded]
    waits at its [unwatch]: the busy status never outlives the work. *)
Theorem busy_means_work cfg st :
  reachable cfg st ->
  isProcessingLambdaChanges st = true ->
  hasWork st = true \/ unwatching st <> [].
Proof. intros Hr. apply (reachable_busyHasWork cfg st Hr). Qed.

Lemma busy_means_work_witness :
  reachable nodeApp nodeRequested
  /\ isProcessingLambdaChanges nodeRequested = true
  /\ (hasWork nodeRequested = true \/ unwatching nodeRequested <> []).
Proof.
  split; [apply nodeRequested_reachable|]. split; [exact nodeRequested_busy|].
  exact (busy_means_work nodeApp nodeRequested nodeRequested_reachable
           nodeRequested_busy).
Defined.

Lemma nodeSuspended_srcPath :
  lookup "s" (srcPathsData nodeSuspended) = Some nodeSuspendedSrcPath.
Proof. vm_compute. reflexivity. Qed.

(** X14.  A recheck waits only for builds.  In every state the watcher
    reaches, a source path whose [needsReCheck] is set has not been handed
    to the linter and the type checker for one of three reasons: a build of
    some entry point is in flight, some entry point has [hasError], or some
    call of [onReBuildSucceeded], for whichever entry point, waits at its
    [unwatch] and has still to run its pass.  As soon as one such call
    resumes, the third reason is gone: a source path that is still flagged
    then has a build in flight or an entry point in error. *)
Theorem recheck_waits_for_builds cfg st s d :
  reachable cfg st ->
  lookup s (srcPathsData st) = Some d ->
  SP.needsReCheck d = true ->
  (existsb (fun e => isSome (EP.buildPromise e)) (values (entryPointsData st))
   = true
   \/ existsb EP.hasError (values (entryPointsData st)) = true
   \/ unwatching st <> [])
  /\ (forall s' h' s2 d2,
        let st' := step cfg (Unwatched s' h') st in
        lookup s2 (srcPathsData st') = Some d2 ->
        SP.needsReCheck d2 = true ->
        existsb (fun e => isSome (EP.buildPromise e))
          (values (entryPointsData st')) = true
        \/ existsb EP.hasError (values (entryPointsData st')) = true).
Proof.
  intros Hr Hd Hn. split.
  - destruct (reachable_recheckPending cfg st Hr) as [H|H]; [|exact H].
    rewrite (H s d Hd) in Hn. discriminate.
  - intros s' h' s2 d2 st' Hd2 Hn2. subst st'. unfold step in *.
    destruct (resume_checked cfg s' h' st) as [H|[H|H]];
      [left; exact H | right; exact H |].
    rewrite (H s2 d2 Hd2) in Hn2. discriminate.
Qed.

Lemma recheck_waits_for_builds_witness :
  reachable nodeApp nodeSuspended
  /\ lookup "s" (srcPathsData nodeSuspended) = Some nodeSuspendedSrcPath
  /\ SP.needsReCheck nodeSuspendedSrcPath = true
  /\ (existsb (fun e => isSome (EP.buildPromise e))
        (values (entryPointsData nodeSuspended)) = true
      \/ existsb EP.hasError (values (entryPointsData nodeSuspended)) = true
      \/ unwatching nodeSuspended <> []).
Proof.
  split; [apply nodeSuspended_reachable|]. split; [exact nodeSuspended_srcPath|].
  split; [reflexivity|].
  exact (proj1 (recheck_waits_for_builds nodeApp nodeSuspended "s"
                  nodeSuspendedSrcPath nodeSuspended_reachable
                  nodeSuspended_srcPath eq_refl)).
Defined.

Lemma goQueued_dispatchList :
  dispatchList goWideApp goQueuedState = [goQueuedEntryD; goQueuedEntryB].
Proof. vm_compute. reflexivity. Qed.

Lemma goQueued_values_D : In goQueuedEntryD (values (entryPointsData goQueuedState)).
Proof. vm_compute. right. right. left. reflexivity. Qed.

(** X15.  Requested Go entry points are built first.  Whenever a pass
    dispatches a Go entry point that waits with priority LOW, it dispatches
    every Go entry point that waits with priority HIGH: the queue lists the
    HIGH ones before the LOW ones, and the pass takes a prefix of it. *)
Theorem go_requests_are_built_first cfg st e1 e2 :
  In e1 (values (entryPointsData st)) ->
  isGoQueued HIGH e1 = true ->
  isGoQueued LOW e2 = true ->
  In e2 (dispatchList cfg st) ->
  In e1 (dispatchList cfg st).
Proof.
  intros Hv H1 H2 Hin. unfold dispatchList in *. rewrite gather_spec in *.
  simpl in *. apply in_app_or in Hin. destruct Hin as [Hin|Hin].
  - exfalso. apply filter_In in Hin. destruct Hin as [_ Hd].
    unfold isNodeDirty in Hd. unfold isGoQueued in H2.
    destruct (EP.runtime e2); simpl in *; discriminate.
  - apply in_or_app. right.
    apply (slice0_app_covers _ _ _ e2 Hin).
    + intros Hrev. apply in_rev in Hrev. apply filter_In in Hrev.
      destruct Hrev as [_ Hh]. unfold isGoQueued, priority_eqb in *.
      destruct (EP.needsReBuild e2); simpl in *;
        rewrite ?andb_false_r in *; discriminate.
    + apply in_rev. rewrite rev_involutive. apply filter_In. auto.
Qed.

Lemma go_requests_are_built_first_witness :
  In goQueuedEntryD (values (entryPointsData goQueuedState))
  /\ isGoQueued HIGH goQueuedEntryD = true
  /\ isGoQueued LOW goQueuedEntryB = true
  /\ In goQueuedEntryB (dispatchList goWideApp goQueuedState)
  /\ In goQueuedEntryD (dispatchList goWideApp goQueuedState).
Proof.
  assert (Hb : In goQueuedEntryB (dispatchList goWideApp goQueuedState))
    by (rewrite goQueued_dispatchList; right; left; reflexivity).
  split; [exact goQueued_values_D|]. split; [reflexivity|].
  split; [reflexivity|]. split; [exact Hb|].
  exact (go_requests_are_built_first goWideApp goQueuedState goQueuedEntryD
           goQueuedEntryB goQueued_values_D eq_refl eq_refl Hb).
Defined.

Lemma goStarted_wf : keys_wf goStarted.
Proof. exact (proj1 (reachable_Inv goApp goStarted goStarted_reachable)). Qed.

Lemma goStarted_entryA :
  lookup goKeyA (entryPointsData goStarted) = Some goStartedEntryA.
Proof. vm_compute. reflexivity. Qed.

(** X16.  A Go file change rebuilds every Go entry point.  When a file whose
    name ends in ".go" changes, whatever its path, every Go entry point is
    marked LOW (also one that a request had raised to HIGH) and, when
    [onFileChange] returns, either has been dispatched by this call or keeps
    priority LOW: it waits for a build slot, or for the end of the build it
    already had in flight. *)
Theorem go_file_change_rebuilds_all_go cfg st k e file :
  keys_wf st ->
  lookup k (entryPointsData st) = Some e ->
  isGoRuntime (EP.runtime e) = true ->
  endsWith file ".go" = true ->
  exists e',
    lookup k (entryPointsData (onFileChange cfg file st)) = Some e'
    /\ (e' = EP.with_needsReBuild LOW e
        \/ exists p, e' = EP.started p (EP.with_needsReBuild LOW e)).
Proof.
  intros Hwf He Hg Hgo. unfold onFileChange. rewrite Hgo.
  set (ks := keys (filter (fun kv => isGoRuntime (EP.runtime (snd kv)))
                     (entryPointsData st))).
  assert (Hk : In k ks).
  { apply (keys_filter_In _ _ k e); [apply lookup_In; exact He | exact Hg]. }
  pose proof (fold_markLow_marks ks k e st Hk He) as H1.
  assert (Hwf1 : keys_wf (fold_left markLow ks st)).
  { apply (eps_change_wf (entryPointsData st)); [|exact Hwf].
    apply fold_markLow_change. }
  destruct (update_after_mark cfg _ k _ Hwf1 H1 eq_refl) as (e' & He' & Hc & _).
  exists e'. split; [exact He' | exact Hc].
Qed.

Lemma go_file_change_rebuilds_all_go_witness :
  keys_wf goStarted
  /\ lookup goKeyA (entryPointsData goStarted) = Some goStartedEntryA
  /\ isGoRuntime (EP.runtime goStartedEntryA) = true
  /\ endsWith "/elsewhere/x.go" ".go" = true
  /\ exists e',
       lookup goKeyA
         (entryPointsData (onFileChange goApp "/elsewhere/x.go" goStarted))
       = Some e'
       /\ (e' = EP.with_needsReBuild LOW goStartedEntryA
           \/ exists p, e' = EP.started p (EP.with_needsReBuild LOW goStartedEntryA)).
Proof.
  split; [exact goStarted_wf|]. split; [exact goStarted_entryA|].
  split; [reflexivity|]. split; [reflexivity|].
  exact (go_file_change_rebuilds_all_go goApp goStarted goKeyA goStartedEntryA
           "/elsewhere/x.go" goStarted_wf goStarted_entryA eq_refl eq_refl).
Defined.

(** ** Source paths and checkers *)

Lemma pyStarted_srcPath :
  lookup "py" (srcPathsData pyStarted) = Some pyStartedSrcPath.
Proof. vm_compute. reflexivity. Qed.

(** X17.  The checkers follow the configuration.  In every state the watcher
    reaches, a source path has no linter process when lint is disabled, no
    type checker process when type checking is disabled, and no type checker
    process when its first build found no [tsconfig.json] (each recheck that
    finds TypeScript files then logs the error instead). *)
Theorem checkers_follow_configuration cfg st s d :
  reachable cfg st ->
  lookup s (srcPathsData st) = Some d ->
  (isLintEnabled cfg = false -> SP.lintProcess d = None)
  /\ (isTypeCheckEnabled cfg = false -> SP.typeCheckProcess d = None)
  /\ (SP.tsconfig d = None -> SP.typeCheckProcess d = None).
Proof.
  intros Hr Hd. split; [|split].
  - intros Hoff.
    apply (reachable_sp_all cfg (fun d => SP.lintProcess d = None))
      with (st := st) (s := s); auto.
    intros s0 st0 d0 _ _. simpl. apply runLint_disabled. exact Hoff.
  - intros Hoff.
    apply (reachable_sp_all cfg (fun d => SP.typeCheckProcess d = None))
      with (st := st) (s := s); auto.
    intros s0 st0 d0 _ _. simpl. apply runTypeCheck_disabled. exact Hoff.
  - apply (reachable_sp_all cfg
             (fun d => SP.tsconfig d = None -> SP.typeCheckProcess d = None))
      with (st := st) (s := s); auto.
    intros s0 st0 d0 Hd0 _ Ht. simpl in *.
    apply (runTypeCheck_no_tsconfig cfg s0 _ d0); [|exact Ht].
    destruct (runLint_frame cfg s0 st0) as (_ & A & _). simpl in A.
    rewrite A. exact Hd0.
Qed.

Lemma checkers_follow_configuration_witness :
  reachable pyApp pyStarted
  /\ lookup "py" (srcPathsData pyStarted) = Some pyStartedSrcPath
  /\ (SP.tsconfig pyStartedSrcPath = None ->
      SP.typeCheckProcess pyStartedSrcPath = None).
Proof.
  split; [apply pyStarted_reachable|]. split; [exact pyStarted_srcPath|].
  pose proof (checkers_follow_configuration pyApp pyStarted "py"
                pyStartedSrcPath pyStarted_reachable pyStarted_srcPath) as H.
  destruct H as (_ & _ & H3). exact H3.
Defined.

(** X18.  Every source path has its record.  In every state the watcher
    reaches, the [srcPath] of each entry point is one of the keys that
    [getAllSrcPaths] returns: [runLint], [runTypeCheck] and the record
    updates of [onReBuildSucceeded], [onLintDone] and [onTypeCheckDone] find
    the record they read. *)
Theorem source_paths_have_records cfg st k e :
  reachable cfg st ->
  lookup k (entryPointsData st) = Some e ->
  In (EP.srcPath e) (getAllSrcPaths st).
Proof. intros Hr. apply (reachable_srcPathsRegistered cfg st Hr). Qed.

Lemma source_paths_have_records_witness :
  reachable nodeApp nodeStarted
  /\ lookup nodeKey (entryPointsData nodeStarted) = Some nodeStartedEntry
  /\ In (EP.srcPath nodeStartedEntry) (getAllSrcPaths nodeStarted).
Proof.
  split; [apply nodeStarted_reachable|]. split; [exact nodeStarted_entry|].
  exact (source_paths_have_records nodeApp nodeStarted nodeKey nodeStartedEntry
           nodeStarted_reachable nodeStarted_entry).
Defined.

(** ** The registration and the configuration *)

Lemma goApp_distinct : NoDup (configuredKeys goApp).
Proof.
  unfold configuredKeys. simpl. repeat constructor; simpl; intuition discriminate.
Qed.

(** X19.  The entry points follow the configuration.  When no two configured
    handlers have the same key, in every state the watcher reaches
    [Object.keys(entryPointsData)] is the list of the handlers' keys in the
    order of [lambdaHandlers] (the order in which the Go queue is filled), and
    the record under a handler's key has that handler's [srcPath], [handler]
    and [runtime]. *)
Theorem entry_points_follow_configuration cfg st :
  reachable cfg st -> NoDup (configuredKeys cfg) ->
  keys (entryPointsData st) = configuredKeys cfg
  /\ forall hd, In hd (lambdaHandlers cfg) ->
       exists e,
         lookup (buildEntryPointKey (lh_srcPath hd) (lh_handler hd))
           (entryPointsData st) = Some e
         /\ EP.srcPath e = lh_srcPath hd
         /\ EP.handler e = lh_handler hd
         /\ EP.runtime e = lh_runtime hd.
Proof.
  intros Hr Hnd. pose proof (reachable_keys cfg st Hr Hnd) as Hk.
  split; [exact Hk|]. intros hd Hin.
  destruct (lookup (buildEntryPointKey (lh_srcPath hd) (lh_handler hd))
              (entryPointsData st)) as [e|] eqn:He.
  - exists e. split; [reflexivity|].
    destruct (reachable_handlers cfg st Hr _ e He) as (hd' & Hin' & Hrt & Hsp & Hh).
    pose proof (wf_lookup_key st _ e (proj1 (reachable_Inv cfg st Hr)) He) as Hkey.
    assert (hd' = hd) as ->.
    { apply (NoDup_map_In_inj _ _
               (fun h => buildEntryPointKey (lh_srcPath h) (lh_handler h))
               (lambdaHandlers cfg)); [exact Hnd | exact Hin' | exact Hin |].
      cbv beta. rewrite Hkey, Hsp, Hh. reflexivity. }
    auto.
  - exfalso. apply lookup_None_keys in He. apply He. rewrite Hk.
    unfold configuredKeys.
    apply (in_map (fun h => buildEntryPointKey (lh_srcPath h) (lh_handler h))).
    exact Hin.
Qed.

Lemma entry_points_follow_configuration_witness :
  reachable goApp goRequested
  /\ NoDup (configuredKeys goApp)
  /\ keys (entryPointsData goRequested) = [goKeyA; goKeyB; goKeyD].
Proof.
  split; [apply goRequested_reachable|]. split; [exact goApp_distinct|].
  exact (proj1 (entry_points_follow_configuration goApp goRequested
                  goRequested_reachable goApp_distinct)).
Defined.

(** ** The functions below the class *)

(** X20.  [buildPython] cuts the handler at its last dot.  The function name
    it stores has no dot; the handler is the stored entry, a dot and the
    function name; a handler without a dot gives an empty entry and is itself
    the function name.  The call always succeeds and lists no input file, so
    the index of watched files is as before. *)
Theorem python_handler_cut_at_last_dot s h st :
  exists en fn,
    buildPython s h st
    = (onBuildSucceeded s h None None
         {| entry := en; outHandler := Some fn; outSrcPath := Some s;
            origHandlerFullPosixPath := (s ++ "/" ++ h)%string |} [] st, true)
    /\ contains "." fn = false
    /\ (contains "." h = true -> h = (en ++ "." ++ fn)%string)
    /\ (contains "." h = false -> en = EmptyString /\ fn = h)
    /\ watchedNodeFilesIndex (fst (buildPython s h st))
       = watchedNodeFilesIndex st.
Proof.
  exists (String.concat "." (removelast (splitDot h ""))),
         (last (splitDot h "") "").
  destruct (split_pop_join h) as (H1 & H2 & H3).
  split; [reflexivity|]. split; [exact H1|]. split; [exact H2|].
  split; [exact H3|]. reflexivity.
Qed.

(** X21.  [getEsbuildExternal] lists every package once.  The result has no
    duplicates; when [package.json] is read it holds exactly the names under
    [dependencies], [devDependencies] and [peerDependencies], and when the
    reading fails it is empty. *)
Theorem externals_list_each_package_once read :
  NoDup (getEsbuildExternal read)
  /\ match read with
     | None => getEsbuildExternal read = []
     | Some p =>
         forall x, In x (getEsbuildExternal read) <->
           In x (keys (orEmpty (dependencies p)))
           \/ In x (keys (orEmpty (devDependencies p)))
           \/ In x (keys (orEmpty (peerDependencies p)))
     end.
Proof.
  destruct read as [p|]; simpl.
  - split.
    + repeat apply spread_NoDup. constructor.
    + intros x. rewrite !spread_keys. simpl. tauto.
  - split; [constructor | reflexivity].
Qed.

(** X22.  The metafile of an entry point lies directly in the build directory
    of its source path.  The key in the file name has the length of
    [srcPath/handler] and holds no slash and no dot, so [path.join] meets no
    separator in it; two handlers of one source path that differ only in
    slashes, dots and dashes get the same metafile. *)
Theorem metafile_name_is_flat path_join appBuildDir appPath s h :
  exists key,
    getEsbuildMetafilePath path_join appBuildDir appPath s h
    = path_join [path_join [appPath; s; appBuildDir];
                 (".esbuild." ++ key ++ ".json")%string]
    /\ String.length key = String.length s + 1 + String.length h
    /\ contains "/" key = false
    /\ contains "." key = false
    /\ forall h2, replaceSlashDot h2 = replaceSlashDot h ->
         getEsbuildMetafilePath path_join appBuildDir appPath s h2
         = getEsbuildMetafilePath path_join appBuildDir appPath s h.
Proof.
  exists (replaceSlashDot (s ++ "/" ++ h)%string).
  split; [reflexivity|]. split.
  { rewrite replaceSlashDot_length, length_append. simpl. lia. }
  destruct (replaceSlashDot_clean (s ++ "/" ++ h)%string) as [H1 H2].
  split; [exact H1|]. split; [exact H2|].
  intros h2 Heq. unfold getEsbuildMetafilePath.
  rewrite !replaceSlashDot_append, Heq. reflexivity.
Qed.

(** X23.  [getHandlerFilePath] cuts the handler at its first dot.  The file
    it names is the handler up to the first dot, with [.ts] when that file
    exists and [.js] otherwise, whether or not the [.js] file exists. *)
Theorem handler_file_cut_at_first_dot path_join checkFileExists appPath s h :
  exists name rest ext,
    getHandlerFilePath path_join checkFileExists appPath s h
    = path_join [appPath; s; (name ++ ext)%string]
    /\ h = (name ++ rest)%string
    /\ contains "." name = false
    /\ (rest = EmptyString \/ exists r, rest = String "." r)
    /\ (ext = ".ts"
        /\ checkFileExists (path_join [appPath; s; (name ++ ".ts")%string]) = true
        \/ ext = ".js"
           /\ checkFileExists (path_join [appPath; s; (name ++ ".ts")%string])
              = false).
Proof.
  destruct (splitDot_hd h "") as (name & rest & Hh & Hs & Hn & Hr).
  simpl in Hh. unfold getHandlerFilePath. rewrite Hh.
  destruct (checkFileExists (path_join [appPath; s; (name ++ ".ts")%string])) eqn:E.
  - exists name, rest, ".ts". auto 10.
  - exists name, rest, ".js". auto 10.
Qed.

(** ** The watched set *)

(** X24.  After a rebuild the watched set follows the diff of the rebuilt
    entry point alone.  In every state the watcher reaches, when the build in
    flight of a Node entry point succeeds with the input files [files],
    [onReBuildSucceeded] leaves chokidar watching the files it watched
    before and the files the entry point reads for the first time, except
    the files the entry point no longer reads; the records of the other
    entry points are as before.  So a file that the rebuilt entry point
    dropped is unwatched even when another entry point still lists it among
    its [inputFiles]. *)
Theorem watched_set_follows_own_diff cfg st s h e files :
  reachable cfg st ->
  lookup (buildEntryPointKey s h) (entryPointsData st) = Some e ->
  isNodeRuntime (EP.runtime e) = true ->
  isSome (EP.buildPromise e) = true ->
  let st1 := progressState (onReBuildSucceeded_update s h files st) in
  exists w w1,
    watcher st = Some w
    /\ watcher st1 = Some w1
    /\ (forall f, In f w1 <->
          (In f w \/ (In f files /\ ~ In f (inputFilesOf e)))
          /\ (In f (inputFilesOf e) -> In f files))
    /\ (forall k2, k2 <> buildEntryPointKey s h ->
          lookup k2 (entryPointsData st1) = lookup k2 (entryPointsData st)).
Proof.
  intros Hr He Hn Hb st1.
  destruct (watcher st) as [w|] eqn:Hw.
  2:{ destruct (reachable_Watch cfg st Hr Hw) as [_ Hc].
      destruct (Hc _ e He) as [Hnone _]. rewrite Hnone in Hb. discriminate. }
  assert (Hidx : forall f, In f (inputFilesOf e) ->
                   lookup f (watchedNodeFilesIndex st) <> None).
  { intros f Hf. destruct (reachable_Idx cfg st Hr) as [_ Hfiles].
    apply (indexLists_some (buildEntryPointKey s h)).
    apply (Hfiles _ e f He Hf). }
  pose proof (update_watcher s h files st e w He Hn Hw Hidx) as Hw1.
  cbv zeta in Hw1. fold st1 in Hw1.
  exists w, (filter
               (fun f => negb (inb f (remove (array_diff (inputFilesOf e) files))))
               (w ++ add (array_diff (inputFilesOf e) files))).
  split; [reflexivity|]. split; [exact Hw1|]. split.
  - intros f. rewrite filter_In, in_app_iff, array_diff_add, negb_true_iff.
    split.
    + intros [Hin Hnot]. split; [exact Hin|]. intros Hold.
      destruct (in_dec string_dec f files) as [Hf|Hf]; [exact Hf|].
      exfalso.
      assert (Hrem : inb f (remove (array_diff (inputFilesOf e) files)) = true).
      { apply inb_In. apply array_diff_remove. split; assumption. }
      congruence.
    + intros [Hin Himp]. split; [exact Hin|].
      destruct (inb f (remove (array_diff (inputFilesOf e) files))) eqn:E;
        [|reflexivity].
      apply inb_In in E. apply array_diff_remove in E. destruct E as [Hold Hf].
      exfalso. apply Hf. apply Himp. exact Hold.
  - intros k2 Hne. subst st1.
    destruct (progressState_shape s h files st e He) as (Heps & _).
    cbv zeta in Heps. rewrite Heps. apply lookup_alter_other.
    intros Heq. apply Hne. symmetry. exact Heq.
Qed.

Lemma watched_set_follows_own_diff_witness :
  reachable nodeApp nodeRequested
  /\ lookup (buildEntryPointKey "s" "src/h.handler") (entryPointsData nodeRequested)
     = Some nodeRequestedEntry
  /\ isNodeRuntime (EP.runtime nodeRequestedEntry) = true
  /\ isSome (EP.buildPromise nodeRequestedEntry) = true
  /\ exists w w1,
       watcher nodeRequested = Some w
       /\ watcher
            (progressState
               (onReBuildSucceeded_update "s" "src/h.handler"
                  ["/app/s/src/new.ts"] nodeRequested)) = Some w1
       /\ (forall f, In f w1 <->
             (In f w \/ (In f ["/app/s/src/new.ts"]
                         /\ ~ In f (inputFilesOf nodeRequestedEntry)))
             /\ (In f (inputFilesOf nodeRequestedEntry) ->
                 In f ["/app/s/src/new.ts"]))
       /\ (forall k2, k2 <> buildEntryPointKey "s" "src/h.handler" ->
             lookup k2
               (entryPointsData
                  (progressState
                     (onReBuildSucceeded_update "s" "src/h.handler"
                        ["/app/s/src/new.ts"] nodeRequested)))
             = lookup k2 (entryPointsData nodeRequested)).
Proof.
  split; [apply nodeRequested_reachable|]. split; [exact nodeRequested_entry|].
  split; [reflexivity|]. split; [reflexivity|].
  exact (watched_set_follows_own_diff nodeApp nodeRequested "s" "src/h.handler"
           nodeRequestedEntry ["/app/s/src/new.ts"] nodeRequested_reachable
           nodeRequested_entry eq_refl eq_refl).
Defined.

(** ** Python entry points *)

Lemma pyApp_distinct : NoDup (configuredKeys pyApp).
Proof.
  unfold configuredKeys. simpl. repeat constructor; simpl; intuition discriminate.
Qed.

(** X25.  Requests for a Python handler never wait.  When no two configured
    handlers have the same key, in every state the watcher reaches a Python
    entry point has rebuild priority OFF and no build in flight, so
    [getTranspiledHandler] answers it at once and leaves the state as it is:
    [onFileChange] marks the Go entry points and the keys of the index only,
    and the index lists keys of Node entry points only. *)
Theorem python_requests_never_wait cfg st s h e :
  reachable cfg st -> NoDup (configuredKeys cfg) ->
  lookup (buildEntryPointKey s h) (entryPointsData st) = Some e ->
  isPythonRuntime (EP.runtime e) = true ->
  EP.needsReBuild e = OFF
  /\ EP.buildPromise e = None
  /\ getTranspiledHandler s h st
     = (st, Answered {| th_runtime := EP.runtime e;
                        th_handler := EP.outEntryPoint e |}).
Proof.
  intros Hr Hnd He Hpy.
  destruct (reachable_Py cfg st Hnd Hr) as [_ Hq].
  destruct (Hq _ e He Hpy) as [Hnone Hoff].
  split; [exact Hoff|]. split; [exact Hnone|].
  unfold getTranspiledHandler. rewrite He, Hnone, Hoff. reflexivity.
Qed.

Lemma python_requests_never_wait_witness :
  reachable pyApp pyStarted
  /\ NoDup (configuredKeys pyApp)
  /\ lookup pyKey (entryPointsData pyStarted) = Some pyStartedEntry
  /\ isPythonRuntime (EP.runtime pyStartedEntry) = true
  /\ getTranspiledHandler "py" "src/lambda.main" pyStarted
     = (pyStarted,
        Answered {| th_runtime := EP.runtime pyStartedEntry;
                    th_handler := EP.outEntryPoint pyStartedEntry |}).
Proof.
  split; [apply pyStarted_reachable|]. split; [exact pyApp_distinct|].
  split; [exact pyStarted_entry|]. split; [reflexivity|].
  exact (proj2 (proj2 (python_requests_never_wait pyApp pyStarted "py"
                         "src/lambda.main" pyStartedEntry pyStarted_reachable
                         pyApp_distinct pyStarted_entry eq_refl))).
Defined.

(** * The claims about the requests and about the busy messages *)

(** ** C1: asking for a built handler *)

Lemma nodeRequested_callbacks :
  callbacksOf (buildEntryPointKey "s" "src/h.handler") nodeRequested = [Pending].
Proof. vm_compute. reflexivity. Qed.

Lemma nodeRequested_build_enabled :
  enabled (BuildSettled "s" "src/h.handler" true okRead) nodeRequested = true.
Proof. vm_compute. reflexivity. Qed.

Lemma nodeRequested_not_suspended :
  unwatching (step nodeApp (BuildSettled "s" "src/h.handler" true okRead)
                nodeRequested) = [].
Proof. vm_compute. reflexivity. Qed.

Lemma nodeRequested_unwatching : unwatching nodeRequested = [].
Proof. vm_compute. reflexivity. Qed.

(** C1.  For a registered entry point, [getTranspiledHandler] returns at once
    with the current [outEntryPoint] when no build is in flight and the
    rebuild priority is OFF.  Otherwise it sets the priority to HIGH, pushes
    one pending waiter at the end of [pendingRequestCallbacks], touches nothing
    else, and suspends on that waiter.

    A waiter that is pending stays pending through every event, except that
    the success of a build of its entry point may resolve it and the failure
    of such a build may reject it, with the reason "Failed to transpile
    srcPath ... handler ...".  And the builds do settle it.  When a build of
    the entry point fails, every waiter is rejected.  When a build in flight
    succeeds, in a state the watcher reaches, every waiter is resolved, or
    the call waits at its [unwatch] and resolves every waiter when it
    resumes; when the build succeeds but its metafile cannot be read, every
    waiter is rejected.  The one exception to each: an entry point that still
    needs a rebuild which the pass has not started (one that is not
    Node-like and waits for a build slot or, at a resumption, one whose next
    build is already in flight) keeps its waiters as they are, for that
    build. *)
Theorem request_coordination cfg s h st e :
  lookup (buildEntryPointKey s h) (entryPointsData st) = Some e ->
  let key := buildEntryPointKey s h in
  let r := {| th_runtime := EP.runtime e; th_handler := EP.outEntryPoint e |} in
  (EP.buildPromise e = None -> EP.needsReBuild e = OFF ->
   getTranspiledHandler s h st = (st, Answered r))
  /\ (EP.buildPromise e <> None \/ EP.needsReBuild e <> OFF ->
      exists st',
        getTranspiledHandler s h st = (st', Waiting r)
        /\ lookup key (entryPointsData st')
           = Some (EP.with_pendingRequestCallbacks
                     (EP.pendingRequestCallbacks e ++ [Pending])
                     (EP.with_needsReBuild HIGH e))
        /\ (forall k, k <> key ->
              lookup k (entryPointsData st') = lookup k (entryPointsData st))
        /\ st' = with_entryPointsData (entryPointsData st') st)
  /\ (forall st1 ev i,
        nth_error (callbacksOf key st1) i = Some Pending ->
        match nth_error (callbacksOf key (step cfg ev st1)) i with
        | Some Pending => True
        | Some Fulfilled =>
            exists s' h',
              buildEntryPointKey s' h' = key
              /\ (ev = Unwatched s' h'
                  \/ exists read, ev = BuildSettled s' h' true read)
        | Some (Rejected reason) =>
            exists s' h' ok read,
              buildEntryPointKey s' h' = key
              /\ ev = BuildSettled s' h' ok read
              /\ reason = failureReason s' h'
        | None => False
        end)
  /\ (forall st1 e1 read,
        keys_wf st1 ->
        lookup key (entryPointsData st1) = Some e1 ->
        let st2 := step cfg (BuildSettled s h false read) st1 in
        callbacksOf key st2
        = map (reject (failureReason s h)) (callbacksOf key st1)
        \/ (isNodeRuntime (EP.runtime e1) = false
            /\ EP.needsReBuild e1 <> OFF
            /\ callbacksOf key st2 = callbacksOf key st1))
  /\ (forall st1 e1 read,
        reachable cfg st1 ->
        lookup key (entryPointsData st1) = Some e1 ->
        enabled (BuildSettled s h true read) st1 = true ->
        let st2 := step cfg (BuildSettled s h true read) st1 in
        ((isGoRuntime (EP.runtime e1) = true
          \/ exists inputs, read = ReadOk (Some inputs)) ->
         callbacksOf key st2 = map resolve (callbacksOf key st1)
         \/ (unwatching st2 = unwatching st1 ++ [(s, h)]
             /\ callbacksOf key st2 = callbacksOf key st1)
         \/ (isNodeRuntime (EP.runtime e1) = false
             /\ EP.needsReBuild e1 <> OFF
             /\ callbacksOf key st2 = callbacksOf key st1))
        /\ (isGoRuntime (EP.runtime e1) = false ->
            (forall inputs, read <> ReadOk (Some inputs)) ->
            callbacksOf key st2
            = map (reject (failureReason s h)) (callbacksOf key st1)))
  /\ (forall st1 e1,
        keys_wf st1 ->
        lookup key (entryPointsData st1) = Some e1 ->
        let st2 := step cfg (Unwatched s h) st1 in
        callbacksOf key st2 = map resolve (callbacksOf key st1)
        \/ (EP.needsReBuild e1 <> OFF
            /\ (isNodeRuntime (EP.runtime e1) = false
                \/ EP.buildPromise e1 <> None)
            /\ callbacksOf key st2 = callbacksOf key st1)).
Proof.
  intros He key r. subst key r.
  split; [|split; [|split; [|split; [|split]]]].
  - intros Hb Hn. unfold getTranspiledHandler. rewrite He, Hb, Hn.
    reflexivity.
  - intros Hd. unfold getTranspiledHandler. rewrite He.
    assert (Ht : isSome (EP.buildPromise e) || truthy (EP.needsReBuild e) = true).
    { destruct Hd as [Hd|Hd].
      - destruct (EP.buildPromise e); [reflexivity | congruence].
      - destruct (EP.needsReBuild e); try congruence; apply orb_true_r. }
    rewrite Ht. eexists. split; [reflexivity|]. simpl. split; [|split].
    + rewrite lookup_alter_same, He. reflexivity.
    + intros k Hk. apply lookup_alter_other. congruence.
    + reflexivity.
  - intros st1 ev i Hi.
    destruct (callbacks_step cfg ev (buildEntryPointKey s h) st1)
      as [H|[(s0 & h0 & _ & _ & H)|[(s0 & h0 & Hk & Hev & H)
                                   |(s0 & h0 & ok & read & Hk & Hev & H)]]];
      rewrite H.
    + rewrite Hi. exact I.
    + rewrite nth_error_app1 by (apply nth_error_Some; congruence).
      rewrite Hi. exact I.
    + rewrite nth_error_map, Hi. simpl. exists s0, h0. auto.
    + rewrite nth_error_map, Hi. simpl. exists s0, h0, ok, read. auto.
  - intros st1 e1 read Hwf He1 st2. subst st2. unfold step. rewrite He1.
    destruct (isGoRuntime (EP.runtime e1)).
    + change (reCompile_settled cfg s h false st1)
        with (onReBuildFailed cfg s h st1).
      apply (onReBuildFailed_outcome cfg s h st1 e1 Hwf He1).
    + change (reTranspile_settled cfg s h false read st1)
        with (onReBuildFailed cfg s h st1).
      apply (onReBuildFailed_outcome cfg s h st1 e1 Hwf He1).
  - intros st1 e1 read Hr He1 Hen st2. subst st2. unfold step.
    unfold enabled in Hen. rewrite He1 in *.
    apply andb_true_iff in Hen. destruct Hen as [Hen Hpy].
    apply andb_true_iff in Hen. destruct Hen as [Hen _].
    apply andb_true_iff in Hen. destruct Hen as [Hb _].
    apply negb_true_iff in Hpy.
    pose proof (proj1 (reachable_Inv cfg st1 Hr)) as Hwf.
    destruct (isGoRuntime (EP.runtime e1)) eqn:Hgo.
    + split; [|discriminate]. intros _.
      change (reCompile_settled cfg s h true st1)
        with (succeededOrCaught cfg s h [] st1).
      apply (succeededOrCaught_outcome cfg s h [] st1 e1 Hr He1 Hb).
      reflexivity.
    + assert (Hnode : isNodeRuntime (EP.runtime e1) = true)
        by (destruct (EP.runtime e1); simpl in *; congruence).
      split.
      * intros [Habs|(inputs & ->)]; [discriminate|].
        change (reTranspile_settled cfg s h true (ReadOk (Some inputs)) st1)
          with (succeededOrCaught cfg s h (map (path_resolve cfg) inputs) st1).
        apply (succeededOrCaught_outcome cfg s h _ st1 e1 Hr He1 Hb).
        intros Hn. rewrite Hnode in Hn. discriminate.
      * intros _ Hread.
        destruct read as [why|[inputs|]].
        -- change (reTranspile_settled cfg s h true (ReadFailed why) st1)
             with (onReBuildFailed cfg s h
                     (log (Error "There was a problem reading the build metafile")
                        st1)).
           destruct (onReBuildFailed_outcome cfg s h
                       (log (Error "There was a problem reading the build metafile") st1)
                       e1 Hwf He1) as [H|(Hn & _)].
           ++ exact H.
           ++ rewrite Hnode in Hn. discriminate.
        -- exfalso. apply (Hread inputs). reflexivity.
        -- change (reTranspile_settled cfg s h true (ReadOk None) st1)
             with (onReBuildFailed cfg s h st1).
           destruct (onReBuildFailed_outcome cfg s h st1 e1 Hwf He1)
             as [H|(Hn & _)]; [exact H|].
           rewrite Hnode in Hn. discriminate.
  - intros st1 e1 Hwf He1 st2. subst st2. unfold step.
    unfold onReBuildSucceeded_resume.
    destruct (updateAndSettle_outcome cfg resolve (buildEntryPointKey s h)
                (with_unwatching (removeFirstPair (s, h) (unwatching st1)) st1)
                e1 Hwf He1) as [H|(Ht & Hnd & H)].
    + left. exact H.
    + right. split; [|split; [|exact H]].
      * intros Hoff. rewrite Hoff in Ht. discriminate.
      * unfold isNodeDirty in Hnd. rewrite Ht, andb_true_r in Hnd.
        destruct (isNodeRuntime (EP.runtime e1)); [right|left; reflexivity].
        simpl in Hnd. destruct (EP.buildPromise e1); [discriminate|].
        discriminate.
Qed.

Lemma request_coordination_witness :
  lookup (buildEntryPointKey "s" "src/h.handler") (entryPointsData nodeRequested)
  = Some nodeRequestedEntry
  /\ (EP.buildPromise nodeRequestedEntry <> None
      \/ EP.needsReBuild nodeRequestedEntry <> OFF)
  /\ (exists st',
        getTranspiledHandler "s" "src/h.handler" nodeRequested
        = (st', Waiting {| th_runtime := NodeLike;
                           th_handler := Some (outOf "out") |})
        /\ callbacksOf (buildEntryPointKey "s" "src/h.handler") st'
           = [Pending; Pending])
  /\ callbacksOf (buildEntryPointKey "s" "src/h.handler") nodeRequested
     = [Pending]
  /\ callbacksOf (buildEntryPointKey "s" "src/h.handler")
       (step nodeApp (BuildSettled "s" "src/h.handler" true okRead)
          nodeRequested)
     = [Fulfilled]
  /\ callbacksOf (buildEntryPointKey "s" "src/h.handler")
       (step nodeApp (BuildSettled "s" "src/h.handler" false okRead)
          nodeRequested)
     = [Rejected (failureReason "s" "src/h.handler")].
Proof.
  assert (Hd : EP.buildPromise nodeRequestedEntry <> None
               \/ EP.needsReBuild nodeRequestedEntry <> OFF)
    by (left; simpl; discriminate).
  split; [exact nodeRequested_entry|]. split; [exact Hd|].
  pose proof (request_coordination nodeApp "s" "src/h.handler" nodeRequested
                nodeRequestedEntry nodeRequested_entry) as H.
  cbv zeta in H. destruct H as (_ & H2 & _ & H4 & H5 & _).
  split; [|split; [exact nodeRequested_callbacks|split]].
  - destruct (H2 Hd) as (st' & Hg & Hl & _ & _).
    exists st'. split; [exact Hg|]. unfold callbacksOf.
    rewrite Hl. reflexivity.
  - destruct (H5 nodeRequested nodeRequestedEntry okRead
                nodeRequested_reachable nodeRequested_entry
                nodeRequested_build_enabled) as [Hs _].
    destruct (Hs (or_intror (ex_intro _ ["/app/s/src/h.ts"] eq_refl)))
      as [Hw|[(Hu & _)|(Hn & _)]].
    + rewrite nodeRequested_callbacks in Hw. exact Hw.
    + rewrite nodeRequested_not_suspended, nodeRequested_unwatching in Hu.
      discriminate.
    + discriminate.
  - destruct (H4 nodeRequested nodeRequestedEntry okRead
                (proj1 (reachable_Inv nodeApp nodeRequested
                          nodeRequested_reachable))
                nodeRequested_entry) as [Hw|(Hn & _)].
    + rewrite nodeRequested_callbacks in Hw. exact Hw.
    + discriminate.
Defined.

(** ** C7: the busy messages *)

Lemma nodeTwoCycles_reachable : reachable nodeApp nodeTwoCycles.
Proof.
  unfold nodeTwoCycles.
  apply reachable_run; [apply nodeStarted_reachable | vm_compute; reflexivity].
Qed.

Lemma nodeTwoCycles_lines :
  busyLines nodeTwoCycles = [msgRebuilding; msgFailed; msgRebuilding; msgDone].
Proof. vm_compute. reflexivity. Qed.

Lemma nodeTwoCycles_idle : isProcessingLambdaChanges nodeTwoCycles = false.
Proof. vm_compute. reflexivity. Qed.

(** C7.  [updateLambdaCodeBusyStatus] computes a status from the records
    ([busyTest]; from NOT BUSY: some entry point needs a rebuild; from BUSY:
    some entry point needs a rebuild or is being built or, with no entry
    point in error, some source path is being checked or is to be checked).
    When the computed status is the stored one it does nothing; otherwise it
    stores the computed status and logs exactly one line: "Rebuilding code..."
    from NOT BUSY to BUSY, and from BUSY to NOT BUSY "Rebuilding code failed"
    when an entry point has an error and "Done building code" when none has.
    It runs first in every pass, and at the end of every pass the stored
    status is the one computed from the state the pass leaves: a pass that
    ends with nothing left to do has logged the terminal message.  In every
    state the watcher reaches, the busy messages logged so far alternate
    strictly, starting with "Rebuilding code...", and end in the stored
    status; while that status is NOT BUSY no entry point is being built or
    needs a rebuild, and while it is BUSY the test for BUSY holds or a call
    of [onReBuildSucceeded] waits at its [unwatch]. *)
Theorem busy_messages_alternate cfg :
  (forall st,
      updateLambdaCodeBusyStatus st
      = if Bool.eqb (busyTest st) (isProcessingLambdaChanges st) then st
        else log (edgeMessage st)
               (with_isProcessingLambdaChanges (busyTest st) st))
  /\ (forall st, exists ls,
        logged (updateLambdaCodeBusyStatus st) = logged st ++ ls
        /\ edgeLines (isProcessingLambdaChanges st)
             (isProcessingLambdaChanges (updateLambdaCodeBusyStatus st)) ls)
  /\ (forall st, reachable cfg st ->
        busyAfter false (busyLines st) = Some (isProcessingLambdaChanges st))
  /\ (forall st, keys_wf st ->
        busyTest (updateLambdaCodeState cfg st)
        = isProcessingLambdaChanges (updateLambdaCodeState cfg st))
  /\ (forall st, reachable cfg st ->
        (isProcessingLambdaChanges st = false ->
         forall k e, lookup k (entryPointsData st) = Some e ->
           EP.buildPromise e = None /\ EP.needsReBuild e = OFF)
        /\ (isProcessingLambdaChanges st = true ->
            busyTest st = true \/ unwatching st <> [])).
Proof.
  split; [exact busy_computed|]. split; [exact busy_edge|]. split; [|split].
  - intros st Hr. apply (reachable_Inv cfg st Hr).
  - intros st Hwf. apply busySettled_busyTest.
    apply (update_busySettled cfg (needsReCheckCount st) st (le_n _) Hwf).
  - intros st Hr. split.
    + intros Hidle. destruct (reachable_Sched cfg st Hr) as (_ & _ & Hc).
      apply (Hc Hidle).
    + intros Hbusy.
      destruct (reachable_busyHasWork cfg st Hr Hbusy) as [Hw|Hu];
        [left|right; exact Hu].
      unfold busyTest. rewrite Hbusy. exact Hw.
Qed.

Lemma busy_messages_alternate_witness :
  reachable nodeApp nodeTwoCycles
  /\ busyLines nodeTwoCycles
     = [msgRebuilding; msgFailed; msgRebuilding; msgDone]
  /\ isProcessingLambdaChanges nodeTwoCycles = false
  /\ busyAfter false (busyLines nodeTwoCycles)
     = Some (isProcessingLambdaChanges nodeTwoCycles)
  /\ (forall k e, lookup k (entryPointsData nodeTwoCycles) = Some e ->
        EP.buildPromise e = None /\ EP.needsReBuild e = OFF).
Proof.
  pose proof (busy_messages_alternate nodeApp) as H.
  destruct H as (_ & _ & H3 & _ & H5).
  split; [exact nodeTwoCycles_reachable|].
  split; [exact nodeTwoCycles_lines|]. split; [exact nodeTwoCycles_idle|].
  split; [exact (H3 nodeTwoCycles nodeTwoCycles_reachable)|].
  exact (proj1 (H5 nodeTwoCycles nodeTwoCycles_reachable) nodeTwoCycles_idle).
Defined.
